(** * TheAmiiboDoctor: a shallow embedding of the tag field integrity engine

    The development follows [TheAmiiboDoctor.py]: the two decoders, the
    field derivation, the validator [check_uid_comprehensive], the two
    repair functions [fix_nfc_file] and [fix_bin_file], the version
    upgrade [convert_nfc_to_v4] and the scan loop of
    [scan_and_fix_directory].  Python values are modelled as follows.

    - An [int] is a [Z]; a [bytes] or [bytearray] object is a [list Z]
      whose elements lie in [0, 256) (predicate [is_bytes]); the checks
      that Python makes when it builds or updates such an object are
      written out ([bytes_of], [setitem]).
    - A [str] is a [string]; a character is a code point below 256.
      Texts with other characters are outside the model.
    - The [pages] dictionary is a [gmap Z string] (page number to the
      hexadecimal text of the page).
    - A computation that may raise is a value of [res]; a computation
      that also reads or writes files, records backups or draws random
      numbers is a function on [env] (see [M] below).
    - The random source is a tape of future draws; a rejection loop that
      exhausts the tape does not return.

    Not modelled: the report printed after the scan, the rendering of
    the validator's status text, the translation of line ends done by
    text-mode files, the limit of [int] on the number of digits, and the
    functions [generate_new_uid] and [extract_version_from_nfc], which
    the program never calls. *)

From Stdlib Require Import ZArith Ascii String List Lia Bool DecimalString.
From stdpp Require Import base option list gmap strings.

Local Open Scope Z_scope.

(** ** Exceptions *)

Inductive exn : Type :=
| ValueError
| IndexError
| KeyError
| TypeError
| OSError.

Inductive res (A : Type) : Type :=
| Ret (a : A)
| Raise (e : exn).

Arguments Ret {A} a.
Arguments Raise {A} e.

Definition res_bind {A B : Type} (m : res A) (k : A → res B) : res B :=
  match m with
  | Ret a => k a
  | Raise e => Raise e
  end.

Notation "'do' x <- m ; k" := (res_bind m (fun x => k))
  (at level 10, x pattern, m at level 100, k at level 200).

(** ** Bytes *)

Definition is_byte (b : Z) : Prop := 0 ≤ b < 256.
Definition is_bytes (l : list Z) : Prop := Forall is_byte l.

Global Instance is_byte_dec (b : Z) : Decision (is_byte b).
Proof. unfold is_byte. apply _. Defined.

Global Instance is_bytes_dec (l : list Z) : Decision (is_bytes l).
Proof. unfold is_bytes. apply _. Defined.

(** [seq[i]] on a [bytes] object or a list: [IndexError] out of range. *)
Definition index {A : Type} (l : list A) (i : nat) : res A :=
  match l !! i with
  | Some x => Ret x
  | None => Raise IndexError
  end.

(** ** Characters and hexadecimal text *)

Definition code (c : ascii) : Z := Z.of_N (N_of_ascii c).

(** [Py_ISSPACE]: the ASCII white space that [bytes.fromhex] skips. *)
Definition Py_ISSPACE (c : ascii) : bool :=
  let n := code c in ((9 <=? n) && (n <=? 13)) || (n =? 32).

(** [str.isspace] on one code point below 256; this is what the regular
    expression class [\s] accepts on a [str] pattern. *)
Definition is_space (c : ascii) : bool :=
  let n := code c in
  ((9 <=? n) && (n <=? 13)) || ((28 <=? n) && (n <=? 32))
  || (n =? 133) || (n =? 160).

(** The class [\d] on code points below 256. *)
Definition is_digit (c : ascii) : bool :=
  let n := code c in (48 <=? n) && (n <=? 57).

(** Value of a hexadecimal digit ([_PyLong_DigitValue] below 16). *)
Definition hexval (c : ascii) : option Z :=
  let n := code c in
  if (48 <=? n) && (n <=? 57) then Some (n - 48)
  else if (65 <=? n) && (n <=? 70) then Some (n - 55)
  else if (97 <=? n) && (n <=? 102) then Some (n - 87)
  else None.

(** The class [[0-9A-Fa-f\s]]. *)
Definition is_hexws (c : ascii) : bool :=
  match hexval c with Some _ => true | None => is_space c end.

Definition hex_digit (n : Z) : ascii :=
  match n with
  | 0 => "0" | 1 => "1" | 2 => "2" | 3 => "3" | 4 => "4" | 5 => "5"
  | 6 => "6" | 7 => "7" | 8 => "8" | 9 => "9" | 10 => "A" | 11 => "B"
  | 12 => "C" | 13 => "D" | 14 => "E" | _ => "F"
  end%char.

(** [f'{b:02X}'] for a byte [b]. *)
Definition fmt_02X (b : Z) : string :=
  String (hex_digit (b / 16)) (String (hex_digit (b mod 16)) EmptyString).

(** [sep.join(parts)]. *)
Fixpoint join (sep : string) (parts : list string) : string :=
  match parts with
  | [] => EmptyString
  | [p] => p
  | p :: rest => p +:+ sep +:+ join sep rest
  end.

(** [' '.join(f'{b:02X}' for b in bs)] and [''.join(...)]. *)
Definition hex_spaced (bs : list Z) : string := join " " (fmt_02X <$> bs).
Definition hex_packed (bs : list Z) : string :=
  join EmptyString (fmt_02X <$> bs).

(** [bytes.fromhex] (CPython 3.7 and later): ASCII white space is skipped
    between bytes, never between the two digits of one byte; anything
    else raises [ValueError]. *)
Fixpoint fromhex (s : string) : res (list Z) :=
  match s with
  | EmptyString => Ret []
  | String c s' =>
      if Py_ISSPACE c then fromhex s'
      else
        match hexval c with
        | None => Raise ValueError
        | Some top =>
            match s' with
            | EmptyString => Raise ValueError
            | String d s'' =>
                match hexval d with
                | None => Raise ValueError
                | Some bot =>
                    do bs <- fromhex s'';
                    Ret (top * 16 + bot :: bs)
                end
            end
        end
  end.

(** [bytes(ints)]: [ValueError] unless every item is in [range(256)]. *)
Definition bytes_of (l : list Z) : res (list Z) :=
  if forallb (λ b, (0 <=? b) && (b <? 256)) l then Ret l else Raise ValueError.

(** ** Field derivation *)

(** [calculate_password_from_uid]: [None] is Python's [None]. *)
Definition calculate_password_from_uid (uid_bytes : list Z) : res (option (list Z)) :=
  if bool_decide (length uid_bytes < 7)%nat then Ret None
  else
    do sn0 <- index uid_bytes 0;
    do sn1 <- index uid_bytes 1;
    do sn2 <- index uid_bytes 2;
    do sn3 <- index uid_bytes 3;
    do sn4 <- index uid_bytes 4;
    do sn5 <- index uid_bytes 5;
    do sn6 <- index uid_bytes 6;
    do pwd <- bytes_of [ Z.lxor (Z.lxor sn1 sn3) 0xAA;
                         Z.lxor (Z.lxor sn2 sn4) 0x55;
                         Z.lxor (Z.lxor sn3 sn5) 0xAA;
                         Z.lxor (Z.lxor sn4 sn6) 0x55 ];
    Ret (Some pwd).

(** ** Field validator *)

(** The tuple [(all_valid, dlb_valid, cfg0_valid, cfg1_valid)] of
    [validate_dlb_and_cfg]; its status text is not modelled. *)
Definition validate_dlb_and_cfg (pages : option (gmap Z string))
  : res (bool * bool * bool * bool) :=
  match pages with
  | None => Ret (false, false, false, false)
  | Some pages =>
      match pages !! 130, pages !! 131, pages !! 132 with
      | Some h130, Some h131, Some h132 =>
          do page130 <- fromhex h130;
          do page131 <- fromhex h131;
          do page132 <- fromhex h132;
          if bool_decide (length page130 < 4)%nat
             || bool_decide (length page131 < 4)%nat
             || bool_decide (length page132 < 4)%nat
          then Ret (false, false, false, false)
          else
            let expected_dlb := [0x01; 0x00; 0x0F; 0xBF] in
            let expected_cfg0 := [0x00; 0x00; 0x00; 0x04] in
            let expected_cfg1 := [0x5F; 0x00; 0x00; 0x00] in
            let dlb_valid := bool_decide (take 4 page130 = expected_dlb) in
            let cfg0_valid := bool_decide (take 4 page131 = expected_cfg0) in
            let cfg1_valid := bool_decide (take 4 page132 = expected_cfg1) in
            Ret (dlb_valid && cfg0_valid && cfg1_valid,
                 dlb_valid, cfg0_valid, cfg1_valid)
      | _, _, _ => Ret (false, false, false, false)
      end
  end.

(** The [problem_details] dictionary. *)
Record problem_details : Type := Details {
  d_uid_field : bool;
  d_sn3 : bool;
  d_bcc0 : bool;
  d_bcc1 : bool;
  d_password : bool;
  d_pack : bool;
  d_dlb : bool;
  d_cfg0 : bool;
  d_cfg1 : bool
}.

Definition all_false : problem_details :=
  Details false false false false false false false false false.

(** The status text of the validator, kept as the three shapes it can
    take (the field report itself is not rendered). *)
Inductive status : Type :=
| MissingRequiredPages
| InvalidUIDLength
| FieldReport.

(** [a, b, c, d, e, f, g = seq]: [ValueError] unless [seq] has 7 items. *)
Definition unpack7 (l : list Z) : res (Z * Z * Z * Z * Z * Z * Z) :=
  match l with
  | [a; b; c; d; e; f; g] => Ret (a, b, c, d, e, f, g)
  | _ => Raise ValueError
  end.

(** [check_uid_comprehensive(pages, filepath, uid_field)]; the result is
    [(all_valid, status, uid_hex, problem_details)].  [filepath] is unused
    by the source and left out. *)
Definition check_uid_comprehensive (pages : option (gmap Z string))
    (uid_field : option string)
  : res (bool * status * string * problem_details) :=
  match pages with
  | None => Ret (false, MissingRequiredPages, EmptyString, all_false)
  | Some pg =>
      match pg !! 0, pg !! 1 with
      | Some h0, Some h1 =>
          do page0 <- fromhex h0;
          do page1 <- fromhex h1;
          let uid_bytes := take 3 page0 ++ take 4 page1 in
          if bool_decide (length uid_bytes < 7)%nat
          then Ret (false, InvalidUIDLength, EmptyString, all_false)
          else
            do (sn0, sn1, sn2, sn3, sn4, sn5, sn6) <- unpack7 uid_bytes;
            let uid_hex := hex_spaced uid_bytes in
            let uid_field_matches_pages :=
              match uid_field with
              | Some f =>
                  if bool_decide (String.length f ≠ 14%nat) then false
                  else bool_decide (f = hex_packed uid_bytes)
              | None => true
              end in
            let ct := 0x88 in
            let expected_bcc0 := Z.lxor (Z.lxor (Z.lxor ct sn0) sn1) sn2 in
            let expected_bcc1 := Z.lxor (Z.lxor (Z.lxor sn3 sn4) sn5) sn6 in
            let bcc0_valid :=
              match page0 !! 3%nat with
              | Some actual_bcc0 => bool_decide (actual_bcc0 = expected_bcc0)
              | None => false
              end in
            do bcc1_valid <-
              match pg !! 2 with
              | Some h2 =>
                  do page2 <- fromhex h2;
                  match page2 !! 0%nat with
                  | Some actual_bcc1 =>
                      Ret (bool_decide (actual_bcc1 = expected_bcc1))
                  | None => Ret false
                  end
              | None => Ret false
              end;
            do (password_valid, pack_valid) <-
              match pg !! 133, pg !! 134 with
              | Some h133, Some h134 =>
                  do expected_password <- calculate_password_from_uid uid_bytes;
                  do page133 <- fromhex h133;
                  do page134 <- fromhex h134;
                  if bool_decide (4 ≤ length page133)%nat
                     && bool_decide (4 ≤ length page134)%nat
                  then
                    let expected_pack := [0x80; 0x80; 0x00; 0x00] in
                    Ret (bool_decide (Some (take 4 page133) = expected_password),
                         bool_decide (take 4 page134 = expected_pack))
                  else Ret (false, false)
              | _, _ =>
                  do expected_password <- calculate_password_from_uid uid_bytes;
                  Ret (false, false)
              end;
            do (dlb_cfg_valid, dlb_valid, cfg0_valid, cfg1_valid) <-
              validate_dlb_and_cfg pages;
            let has_position_issue := bool_decide (sn3 = 0x88) in
            let sn3_valid := negb has_position_issue in
            let all_valid :=
              sn3_valid && bcc0_valid && bcc1_valid && password_valid
              && pack_valid && dlb_cfg_valid in
            Ret (all_valid, FieldReport, uid_hex,
                 Details uid_field_matches_pages sn3_valid bcc0_valid
                   bcc1_valid password_valid pack_valid dlb_valid
                   cfg0_valid cfg1_valid)
      | _, _ => Ret (false, MissingRequiredPages, EmptyString, all_false)
      end
  end.

(** ** The world of one run *)

(** A stored file: the text that [open(path, 'r', encoding='utf-8')]
    reads, or the bytes that [open(path, 'rb')] reads.  A file is stored
    with the kind its suffix announces; reading it as the other kind
    fails like an unreadable file. *)
Inductive fdata : Type :=
| FText (s : string)
| FBin (d : list Z).

(** [disk]: the files under the scanned directory, by path.
    [backups]: the copies made in the [backup_<timestamp>] folder.
    [tracker]: the [backup_tracker] set of the run.
    [locked]: paths that cannot be opened for writing.
    [backup_dir_ok]: whether the backup folder can be written.
    [tape]: the future results of [random.randint(0, 255)]. *)
Record env : Type := Env {
  disk : gmap string fdata;
  backups : gmap string fdata;
  tracker : gset string;
  locked : gset string;
  backup_dir_ok : bool;
  tape : list Z
}.

(** A computation on the world: [None] when it does not return (the
    random tape ran out inside a rejection loop), otherwise a result or
    an exception together with the world it leaves. *)
Definition M (A : Type) : Type := env → option (res A * env).

Definition ret {A : Type} (a : A) : M A := λ e, Some (Ret a, e).

Definition lift {A : Type} (r : res A) : M A := λ e, Some (r, e).

Definition bind {A B : Type} (m : M A) (k : A → M B) : M B := λ e,
  match m e with
  | None => None
  | Some (Ret a, e') => k a e'
  | Some (Raise x, e') => Some (Raise x, e')
  end.

(** [try: m except Exception: h]. *)
Definition catch {A : Type} (m : M A) (h : M A) : M A := λ e,
  match m e with
  | Some (Raise _, e') => h e'
  | r => r
  end.

Notation "'io' x <- m ; k" := (bind m (fun x => k))
  (at level 10, x pattern, m at level 100, k at level 200).

Definition read_text (filepath : string) : M string := λ e,
  match disk e !! filepath with
  | Some (FText s) => Some (Ret s, e)
  | _ => Some (Raise OSError, e)
  end.

Definition read_bytes (filepath : string) : M (list Z) := λ e,
  match disk e !! filepath with
  | Some (FBin d) => Some (Ret d, e)
  | _ => Some (Raise OSError, e)
  end.

(** [with open(filepath, 'w' or 'wb') as f: f.write(content)]. *)
Definition write_file (filepath : string) (content : fdata) : M unit := λ e,
  if bool_decide (filepath ∈ locked e) then Some (Raise OSError, e)
  else Some (Ret (),
             Env (<[filepath := content]> (disk e)) (backups e) (tracker e)
                 (locked e) (backup_dir_ok e) (tape e)).

(** [backup_file]: returns the backup path, or [None] when the file was
    already backed up in this run or the copy failed.  The tracker is
    updated before the copy is attempted. *)
Definition backup_file (filepath : string) : M (option string) := λ e,
  if bool_decide (filepath ∈ tracker e) then Some (Ret None, e)
  else
    let tracker' := {[filepath]} ∪ tracker e in
    match disk e !! filepath with
    | Some d =>
        if backup_dir_ok e then
          Some (Ret (Some filepath),
                Env (disk e) (<[filepath := d]> (backups e)) tracker'
                    (locked e) (backup_dir_ok e) (tape e))
        else
          Some (Ret None,
                Env (disk e) (backups e) tracker' (locked e)
                    (backup_dir_ok e) (tape e))
    | None =>
        Some (Ret None,
              Env (disk e) (backups e) tracker' (locked e)
                  (backup_dir_ok e) (tape e))
    end.

(** ** Resampling SN3 *)

(** [new = random.randint(0, 255); while new == 0x88: new = ...]: the
    first draw on the tape that differs from [0x88]. *)
Fixpoint draw_not_88 (t : list Z) : option (Z * list Z) :=
  match t with
  | [] => None
  | d :: t' => if bool_decide (d = 0x88) then draw_not_88 t' else Some (d, t')
  end.

Definition resample_sn3 : M Z := λ e,
  match draw_not_88 (tape e) with
  | None => None
  | Some (d, t) =>
      Some (Ret d, Env (disk e) (backups e) (tracker e) (locked e)
                       (backup_dir_ok e) t)
  end.

(** [fix_uid_if_sn3_is_88(uid_bytes)]. *)
Definition fix_uid_if_sn3_is_88 (uid_bytes : list Z) : M (list Z * bool) :=
  if bool_decide (4 ≤ length uid_bytes)%nat
     && bool_decide (uid_bytes !! 3%nat = Some 0x88)
  then
    io new_sn3 <- resample_sn3;
    io fixed <- lift (bytes_of (<[3%nat := new_sn3]> uid_bytes));
    ret (fixed, true)
  else ret (uid_bytes, false).

(** ** Binary decoder *)

(** [data[a:b]] for [0 ≤ a ≤ b]. *)
Definition slice {A : Type} (l : list A) (a b : nat) : list A :=
  take (b - a) (drop a l).

Definition tracked_pages : list Z := [0; 1; 2; 130; 131; 132; 133; 134].

(** The loop of [extract_pages_from_bin]; [data[4n:4n+4].hex().upper()]
    is the packed upper-case rendering of the four bytes. *)
Definition bin_pages (data : list Z) : gmap Z string :=
  foldl (λ pages page_num,
           if bool_decide (page_num * 4 + 4 ≤ Z.of_nat (length data))
           then <[page_num :=
                    hex_packed (slice data (Z.to_nat (page_num * 4))
                                  (Z.to_nat (page_num * 4 + 4)))]> pages
           else pages)
        (∅ : gmap Z string) tracked_pages.

(** [extract_pages_from_bin(filepath)]: [(pages, data)], or
    [(None, None)]. *)
Definition extract_pages_from_bin (filepath : string)
  : M (option (gmap Z string) * option (list Z)) :=
  catch
    (io data <- read_bytes filepath;
     if bool_decide (length data < 540)%nat then ret (None, None)
     else ret (Some (bin_pages data), Some data))
    (ret (None, None)).

(** ** Repair planner *)

Record flags : Type := Flags {
  fix_uid : bool;
  fix_bcc : bool;
  fix_password : bool;
  fix_pack : bool;
  fix_dlb : bool;
  fix_cfg : bool
}.

(** The [issue_types] dictionary of the two repair functions. *)
Record issue_types : Type := IssueTypes {
  i_uid_field : bool;
  i_sn3 : bool;
  i_bcc0 : bool;
  i_bcc1 : bool;
  i_password : bool;
  i_pack : bool;
  i_dlb : bool;
  i_cfg0 : bool;
  i_cfg1 : bool
}.

(** Third component of the result of a repair or a conversion: the empty
    dictionary, an [issue_types] dictionary, or
    [{"version_conversion": True}]. *)
Inductive issues : Type :=
| NoIssues
| Issues (i : issue_types)
| VersionConversion.

(** [any(issue_types.values())]. *)
Definition any_values (i : issues) : bool :=
  match i with
  | NoIssues => false
  | Issues i =>
      i_uid_field i || i_sn3 i || i_bcc0 i || i_bcc1 i || i_password i
      || i_pack i || i_dlb i || i_cfg0 i || i_cfg1 i
  | VersionConversion => true
  end.

(** [issue_types.get('version_conversion', False)]. *)
Definition get_version_conversion (i : issues) : bool :=
  match i with VersionConversion => true | _ => false end.

(** Second component of the result of a repair or a conversion, with the
    Python text it stands for. *)
Inductive message : Type :=
| CouldNotReadFile                 (* "Could not read file" *)
| MissingRequiredPages01           (* "Missing required pages 0 or 1" *)
| NoChangesNeeded                  (* "No changes needed" *)
| FixedSuccessfully (backup : option string) (changes : list string)
    (* "Fixed successfully ({backup_info}). Changes: {'; '.join(...)}" *)
| ErrorWritingFile                 (* "Error writing file: {e}" *)
| AlreadyV4                        (* "Already V4" *)
| UnsupportedVersion (v : option Z) (* "Unsupported version: {version}" *)
| ConvertedToV4 (v : Z) (backup : option string)
    (* "Converted V{version} to V4 ({backup_info})" *)
| ErrorConvertingFile.             (* "Error converting file: {e}" *)

(** [pages[n]]. *)
Definition getitem (pages : gmap Z string) (n : Z) : res string :=
  match pages !! n with
  | Some h => Ret h
  | None => Raise KeyError
  end.

Definition correct_pack : list Z := [0x80; 0x80; 0x00; 0x00].
Definition correct_dlb : list Z := [0x01; 0x00; 0x0F; 0xBF].
Definition correct_cfg0 : list Z := [0x00; 0x00; 0x00; 0x04].
Definition correct_cfg1 : list Z := [0x5F; 0x00; 0x00; 0x00].

(** The block that both repair functions repeat for pages 133, 134, 130,
    131 and 132:
    [if fix_x and n in pages: ... if len(page) >= 4: ... if current != correct:
       changes_made.append(f"Fixed {label}: {old} -> {new}")].
    The result is the change description when a change is scheduled. *)
Definition plan_page (enabled : bool) (pages : gmap Z string) (n : Z)
    (label : string) (correct : list Z) : res (option string) :=
  if enabled then
    match pages !! n with
    | Some h =>
        do page_bytes <- fromhex h;
        if bool_decide (4 ≤ length page_bytes)%nat then
          let current := take 4 page_bytes in
          if bool_decide (current ≠ correct) then
            Ret (Some ("Fixed " +:+ label +:+ ": " +:+ hex_spaced current
                       +:+ " -> " +:+ hex_spaced correct))
          else Ret None
        else Ret None
    | None => Ret None
    end
  else Ret None.

(** The BCC1 block of both repair functions. *)
Definition plan_bcc1 (enabled : bool) (pages : gmap Z string)
    (correct_bcc1 : Z) : res (option string) :=
  if enabled then
    match pages !! 2 with
    | Some h =>
        do page2_bytes <- fromhex h;
        match page2_bytes !! 0%nat with
        | Some current_bcc1 =>
            if bool_decide (current_bcc1 ≠ correct_bcc1) then
              Ret (Some ("Fixed BCC1: " +:+ fmt_02X current_bcc1 +:+ " -> "
                         +:+ fmt_02X correct_bcc1))
            else Ret None
        | None => Ret None
        end
    | None => Ret None
    end
  else Ret None.

(** [changes_made.append(x)] for each scheduled change, in order. *)
Definition changes_of (l : list (option string)) : list string :=
  omap id l.

(** What the planning part of a repair function leaves for its writing
    part. *)
Record plan : Type := Plan {
  p_uid : Z * Z * Z * Z * Z * Z * Z;
  p_bcc0 : Z;
  p_bcc1 : Z;
  p_password : list Z;
  changes_made : list string;
  p_issues : issue_types
}.

(** [list(calculate_password_from_uid(uid_bytes))]: [TypeError] on
    [None]. *)
Definition list_of_password (uid_bytes : list Z) : res (list Z) :=
  do pwd <- calculate_password_from_uid uid_bytes;
  match pwd with
  | Some l => Ret l
  | None => Raise TypeError
  end.

(** The planning part of [fix_bin_file] (from [changes_made = []] to the
    test [if not changes_made]). *)
Definition bin_plan (pages : gmap Z string) (fl : flags) : M plan :=
  io h0 <- lift (getitem pages 0);
  io page0_bytes <- lift (fromhex h0);
  io h1 <- lift (getitem pages 1);
  io page1_bytes <- lift (fromhex h1);
  let uid_bytes := take 3 page0_bytes ++ take 4 page1_bytes in
  io (uid_bytes, sn3_was_fixed) <-
    (if fix_uid fl then fix_uid_if_sn3_is_88 uid_bytes
     else ret (uid_bytes, false));
  io c_sn3 <-
    (if sn3_was_fixed then
       io b <- lift (index uid_bytes 3);
       ret (Some ("Fixed CT in SN3 from 0x88 to 0x" +:+ fmt_02X b))
     else ret None);
  io (sn0, sn1, sn2, sn3, sn4, sn5, sn6) <- lift (unpack7 uid_bytes);
  io current_bcc0 <- lift (index page0_bytes 3);
  let ct := 0x88 in
  let correct_bcc0 := Z.lxor (Z.lxor (Z.lxor ct sn0) sn1) sn2 in
  let correct_bcc1 := Z.lxor (Z.lxor (Z.lxor sn3 sn4) sn5) sn6 in
  let c_bcc0 :=
    if fix_bcc fl && bool_decide (current_bcc0 ≠ correct_bcc0)
    then Some ("Fixed BCC0: " +:+ fmt_02X current_bcc0 +:+ " -> "
               +:+ fmt_02X correct_bcc0)
    else None in
  io c_bcc1 <- lift (plan_bcc1 (fix_bcc fl) pages correct_bcc1);
  io correct_password <- lift (list_of_password uid_bytes);
  io c_password <-
    lift (plan_page (fix_password fl) pages 133 "Password" correct_password);
  io c_pack <- lift (plan_page (fix_pack fl) pages 134 "PACK" correct_pack);
  io c_dlb <- lift (plan_page (fix_dlb fl) pages 130 "DLB" correct_dlb);
  io c_cfg0 <- lift (plan_page (fix_cfg fl) pages 131 "CFG0" correct_cfg0);
  io c_cfg1 <- lift (plan_page (fix_cfg fl) pages 132 "CFG1" correct_cfg1);
  ret (Plan (sn0, sn1, sn2, sn3, sn4, sn5, sn6) correct_bcc0 correct_bcc1
         correct_password
         (changes_of [c_sn3; c_bcc0; c_bcc1; c_password; c_pack; c_dlb;
                      c_cfg0; c_cfg1])
         (IssueTypes false (bool_decide (is_Some c_sn3))
            (bool_decide (is_Some c_bcc0)) (bool_decide (is_Some c_bcc1))
            (bool_decide (is_Some c_password)) (bool_decide (is_Some c_pack))
            (bool_decide (is_Some c_dlb)) (bool_decide (is_Some c_cfg0))
            (bool_decide (is_Some c_cfg1)))).

(** ** Binary encoder *)

(** [buf[i] = v] on a [bytearray]. *)
Definition setitem (buf : list Z) (i : nat) (v : Z) : res (list Z) :=
  if bool_decide (length buf ≤ i)%nat then Raise IndexError
  else if (0 <=? v) && (v <? 256) then Ret (<[i := v]> buf)
  else Raise ValueError.

(** [buf[a:b] = bytes(v)] on a [bytearray], for [0 ≤ a ≤ b]. *)
Definition setslice (buf : list Z) (a b : nat) (v : list Z) : res (list Z) :=
  do v <- bytes_of v;
  Ret (take a buf ++ v ++ drop b buf).

Definition when {A : Type} (c : bool) (f : A → res A) (x : A) : res A :=
  if c then f x else Ret x.

(** The writes of [fix_bin_file] into [new_data = bytearray(original_data)]. *)
Definition bin_patch (pages : gmap Z string) (fl : flags) (p : plan)
    (original_data : list Z) : res (list Z) :=
  let '(sn0, sn1, sn2, sn3, sn4, sn5, sn6) := p_uid p in
  let new_data := original_data in
  do new_data <-
    when (fix_uid fl)
      (λ d, do d <- setitem d 0 sn0;
            do d <- setitem d 1 sn1;
            setitem d 2 sn2) new_data;
  do new_data <- when (fix_bcc fl) (λ d, setitem d 3 (p_bcc0 p)) new_data;
  do new_data <-
    when (fix_uid fl)
      (λ d, do d <- setitem d 4 sn3;
            do d <- setitem d 5 sn4;
            do d <- setitem d 6 sn5;
            setitem d 7 sn6) new_data;
  do new_data <-
    when (fix_bcc fl && bool_decide (is_Some (pages !! 2)))
      (λ d, setitem d 8 (p_bcc1 p)) new_data;
  do new_data <-
    when (fix_dlb fl && bool_decide (is_Some (pages !! 130)))
      (λ d, setslice d 520 524 correct_dlb) new_data;
  do new_data <-
    when (fix_cfg fl && bool_decide (is_Some (pages !! 131)))
      (λ d, setslice d 524 528 correct_cfg0) new_data;
  do new_data <-
    when (fix_cfg fl && bool_decide (is_Some (pages !! 132)))
      (λ d, setslice d 528 532 correct_cfg1) new_data;
  do new_data <-
    when (fix_password fl && bool_decide (is_Some (pages !! 133)))
      (λ d, setslice d 532 536 (p_password p)) new_data;
  when (fix_pack fl && bool_decide (is_Some (pages !! 134)))
    (λ d, setslice d 536 540 correct_pack) new_data.

(** [fix_bin_file(filepath, ..., fix_uid, ..., backup_tracker)]. *)
Definition fix_bin_file (filepath : string) (fl : flags)
  : M (bool * message * issues) :=
  io (pages, original_data) <- extract_pages_from_bin filepath;
  match pages with
  | None => ret (false, CouldNotReadFile, NoIssues)
  | Some pages =>
      if bool_decide (pages = ∅) then ret (false, CouldNotReadFile, NoIssues)
      else if negb (bool_decide (is_Some (pages !! 0)))
              || negb (bool_decide (is_Some (pages !! 1)))
      then ret (false, MissingRequiredPages01, NoIssues)
      else
        io p <- bin_plan pages fl;
        if bool_decide (changes_made p = []) then
          ret (true, NoChangesNeeded, NoIssues)
        else
          io backup_path <- backup_file filepath;
          io original_data <-
            lift (match original_data with
                  | Some d => Ret d
                  | None => Raise TypeError
                  end);
          io new_data <- lift (bin_patch pages fl p original_data);
          catch
            (io _ <- write_file filepath (FBin new_data);
             ret (true, FixedSuccessfully backup_path (changes_made p),
                  Issues (p_issues p)))
            (ret (false, ErrorWritingFile, NoIssues))
  end.

(** ** Text decoder *)

Definition newline : ascii := "010"%char.

(** [content.split('\n')]. *)
Fixpoint split_lines (s : string) : list string :=
  match s with
  | EmptyString => [EmptyString]
  | String c s' =>
      if bool_decide (c = newline) then EmptyString :: split_lines s'
      else
        match split_lines s' with
        | l :: ls => String c l :: ls
        | [] => [String c EmptyString]
        end
  end.

Fixpoint take_while (f : ascii → bool) (s : string) : string :=
  match s with
  | EmptyString => EmptyString
  | String c s' => if f c then String c (take_while f s') else EmptyString
  end.

Fixpoint drop_while (f : ascii → bool) (s : string) : string :=
  match s with
  | EmptyString => EmptyString
  | String c s' => if f c then drop_while f s' else s
  end.

(** The rest of [s] after the literal [p], when [s] starts with [p]. *)
Fixpoint strip_prefix (p s : string) : option string :=
  match p, s with
  | EmptyString, _ => Some s
  | String a p', String b s' =>
      if bool_decide (a = b) then strip_prefix p' s' else None
  | String _ _, EmptyString => None
  end.

Fixpoint last_char (s : string) : option ascii :=
  match s with
  | EmptyString => None
  | String c EmptyString => Some c
  | String _ s' => last_char s'
  end.

(** The pattern tail [\s*([0-9A-Fa-f\s]+)] matched at the start of [s];
    the result is the group.  [\s*] is greedy and gives back one
    character when nothing of the class follows the white space. *)
Definition match_hex_group (s : string) : option string :=
  let ws := take_while is_space s in
  let g := take_while is_hexws (drop_while is_space s) in
  match g with
  | String _ _ => Some g
  | EmptyString =>
      match last_char ws with
      | Some c => Some (String c EmptyString)
      | None => None
      end
  end.

(** [Version:\s*(\d+)] matched at the start of [s]. *)
Definition match_version_at (s : string) : option string :=
  rest ← strip_prefix "Version:" s;
  match take_while is_digit (drop_while is_space rest) with
  | EmptyString => None
  | ds => Some ds
  end.

(** [UID:\s*([0-9A-Fa-f\s]+)] matched at the start of [s]. *)
Definition match_uid_at (s : string) : option string :=
  rest ← strip_prefix "UID:" s;
  match_hex_group rest.

(** [Page\s+(\d+):\s*([0-9A-Fa-f\s]+)] matched at the start of [s]:
    the two groups. *)
Definition match_page_at (s : string) : option (string * string) :=
  rest ← strip_prefix "Page" s;
  match take_while is_space rest with
  | EmptyString => None
  | _ =>
      let r1 := drop_while is_space rest in
      match take_while is_digit r1 with
      | EmptyString => None
      | ds =>
          r2 ← strip_prefix ":" (drop_while is_digit r1);
          g ← match_hex_group r2;
          Some (ds, g)
      end
  end.

(** [re.search]: the match at the leftmost position that has one. *)
Fixpoint search {A : Type} (at_start : string → option A) (s : string)
  : option A :=
  match at_start s with
  | Some r => Some r
  | None =>
      match s with
      | EmptyString => None
      | String _ s' => search at_start s'
      end
  end.

(** [int(digits)] for a run of decimal digits. *)
Definition int_of_digits (ds : string) : Z :=
  foldl (λ acc c, acc * 10 + (code c - 48)) 0 (list_ascii_of_string ds).

(** [s.replace(' ', '')]. *)
Fixpoint remove_spaces (s : string) : string :=
  match s with
  | EmptyString => EmptyString
  | String c s' =>
      if bool_decide (c = " "%char) then remove_spaces s'
      else String c (remove_spaces s')
  end.

(** [s.upper()] on hexadecimal digits and white space, the only
    characters it is applied to. *)
Definition upper_char (c : ascii) : ascii :=
  let n := code c in
  if (97 <=? n) && (n <=? 122) then ascii_of_N (Z.to_N (n - 32)) else c.

Fixpoint upper (s : string) : string :=
  match s with
  | EmptyString => EmptyString
  | String c s' => String (upper_char c) (upper s')
  end.

Definition search_version (line : string) : option Z :=
  int_of_digits <$> search match_version_at line.

Definition search_uid (line : string) : option string :=
  search match_uid_at line.

Definition search_page (line : string) : option (Z * string) :=
  '(ds, g) ← search match_page_at line;
  Some (int_of_digits ds, g).

(** The loop of [extract_pages_from_nfc] over the lines:
    [(pages, uid_field, version)]. *)
Definition parse_nfc_line (st : gmap Z string * option string * option Z)
    (line : string) : gmap Z string * option string * option Z :=
  let '(pages, uid_field, version) := st in
  let uid_field :=
    match search_uid line with
    | Some g => Some (upper (remove_spaces g))
    | None => uid_field
    end in
  let version :=
    match search_version line with
    | Some v => Some v
    | None => version
    end in
  let pages :=
    match search_page line with
    | Some (page_num, g) => <[page_num := remove_spaces g]> pages
    | None => pages
    end in
  (pages, uid_field, version).

Definition parse_nfc (lines : list string)
  : gmap Z string * option string * option Z :=
  foldl parse_nfc_line (∅, None, None) lines.

(** [extract_pages_from_nfc(filepath)]:
    [(pages, content, lines, uid_field, version)], or five [None]. *)
Definition extract_pages_from_nfc (filepath : string)
  : M (option (gmap Z string) * option string * option (list string)
       * option string * option Z) :=
  catch
    (io content <- read_text filepath;
     let lines := split_lines content in
     let '(pages, uid_field, version) := parse_nfc lines in
     ret (Some pages, Some content, Some lines, uid_field, version))
    (ret (None, None, None, None, None)).

(** ** Version upgrader *)

Definition nl : string := String newline EmptyString.

(** [str(n)] and [f'{n}'] for an [int]. *)
Definition str_of_int (n : Z) : string := NilZero.string_of_int (Z.to_int n).

(** [max(pages.keys())]; [None] stands for the empty dictionary. *)
Definition max_key (pages : gmap Z string) : option Z :=
  foldr (λ k acc, Some (match acc with Some a => Z.max k a | None => k end))
        None (map_to_list pages).*1.

(** [[s[i:i+2] for i in range(0, len(s), 2)]]. *)
Fixpoint chunks2 (s : string) : list string :=
  match s with
  | EmptyString => []
  | String a EmptyString => [String a EmptyString]
  | String a (String b s') => String a (String b EmptyString) :: chunks2 s'
  end.

(** The lines of the fixed head of a V4 document. *)
Definition v4_header (uid_hex : string) (page_count : Z) : list string :=
  [ "Filetype: Flipper NFC device";
    "Version: 4";
    "# Device type can be ISO14443-3A, ISO14443-3B, ISO14443-4A, ISO14443-4B, ISO15693-3, FeliCa, NTAG/Ultralight, Mifare Classic, Mifare Plus, Mifare DESFire, SLIX, ST25TB, EMV";
    "Device type: NTAG/Ultralight";
    "# UID is common for all formats";
    "UID: " +:+ uid_hex;
    "# ISO14443-3A specific data";
    "ATQA: 00 44";
    "SAK: 00";
    "# NTAG/Ultralight specific data";
    "Data format version: 2";
    "NTAG/Ultralight type: NTAG215";
    "Signature: 00 00 00 00 00 00 00 00 00 00 00 00 00 00 00 00 00 00 00 00 00 00 00 00 00 00 00 00 00 00 00 00";
    "Mifare version: 00 04 04 02 01 00 11 03";
    "Counter 0: 0";
    "Tearing 0: 00";
    "Counter 1: 0";
    "Tearing 1: 00";
    "Counter 2: 0";
    "Tearing 2: 00";
    "Pages total: " +:+ str_of_int page_count;
    "Pages read: " +:+ str_of_int page_count ]%string.

(** One line of the page table of [convert_to_v4_format]. *)
Definition v4_page_line (pages : gmap Z string) (page_num : Z) : string :=
  match pages !! page_num with
  | Some page_data =>
      "Page " +:+ str_of_int page_num +:+ ": "
      +:+ upper (join " " (chunks2 page_data))
  | None => "Page " +:+ str_of_int page_num +:+ ": 00 00 00 00"
  end.

(** [convert_to_v4_format(pages, original_lines)]; [original_lines] is
    unused by the source and left out. *)
Definition convert_to_v4_format (pages : gmap Z string) : res string :=
  do uid_hex <-
    match pages !! 0, pages !! 1 with
    | Some h0, Some h1 =>
        do page0_bytes <- fromhex h0;
        do page1_bytes <- fromhex h1;
        let uid_bytes := take 3 page0_bytes ++ take 4 page1_bytes in
        Ret (hex_spaced uid_bytes)
    | _, _ => Ret "04 AB 73 54 B8 B6 0F"%string
    end;
  let page_count :=
    match max_key pages with
    | Some m => m + 1
    | None => 135
    end in
  let v4_content := join nl (v4_header uid_hex page_count) in
  let page_lines := v4_page_line pages <$> seqZ 0 page_count in
  let v4_content := v4_content +:+ nl +:+ join nl page_lines +:+ nl in
  let v4_content := v4_content +:+ "Failed authentication attempts: 0" +:+ nl in
  Ret v4_content.

(** The loop of [convert_nfc_to_v4] over the lines: [(version, pages)]. *)
Definition parse_v_line (st : option Z * gmap Z string) (line : string)
  : option Z * gmap Z string :=
  let '(version, pages) := st in
  let version :=
    match search_version line with
    | Some v => Some v
    | None => version
    end in
  let pages :=
    match search_page line with
    | Some (page_num, g) => <[page_num := remove_spaces g]> pages
    | None => pages
    end in
  (version, pages).

(** [convert_nfc_to_v4(filepath, ..., backup_tracker)]. *)
Definition convert_nfc_to_v4 (filepath : string)
  : M (bool * message * issues) :=
  catch
    (io content <- read_text filepath;
     let lines := split_lines content in
     let '(version, pages) := foldl parse_v_line (None, ∅) lines in
     if bool_decide (version = Some 4) then ret (true, AlreadyV4, NoIssues)
     else
       match version with
       | Some v =>
           if bool_decide (v = 2) || bool_decide (v = 3) then
             io backup_path <- backup_file filepath;
             io new_content <- lift (convert_to_v4_format pages);
             io _ <- write_file filepath (FText new_content);
             ret (true, ConvertedToV4 v backup_path, VersionConversion)
           else ret (false, UnsupportedVersion version, NoIssues)
       | None => ret (false, UnsupportedVersion version, NoIssues)
       end)
    (ret (false, ErrorConvertingFile, NoIssues)).

(** ** Text repair *)

(** The planning part of [fix_nfc_file] (from [changes_made = []] to the
    test [if not changes_made]). *)
Definition nfc_plan (pages : gmap Z string) (uid_field : option string)
    (fl : flags) : M plan :=
  io h0 <- lift (getitem pages 0);
  io page0_bytes <- lift (fromhex h0);
  io h1 <- lift (getitem pages 1);
  io page1_bytes <- lift (fromhex h1);
  let uid_bytes := take 3 page0_bytes ++ take 4 page1_bytes in
  let c_uid_field :=
    match uid_field with
    | Some f =>
        if fix_uid fl && negb (bool_decide (f = EmptyString))
           && bool_decide (String.length f = 14%nat)
        then
          let constructed_uid := hex_packed uid_bytes in
          if bool_decide (f ≠ constructed_uid) then
            Some ("Fixed UID field to match pages: " +:+ f +:+ " -> "
                  +:+ constructed_uid)
          else None
        else None
    | None => None
    end in
  io (uid_bytes, sn3_was_fixed) <-
    (if fix_uid fl then fix_uid_if_sn3_is_88 uid_bytes
     else ret (uid_bytes, false));
  io c_sn3 <-
    (if sn3_was_fixed then
       io b <- lift (index uid_bytes 3);
       ret (Some ("Fixed CT in SN3 from 0x88 to 0x" +:+ fmt_02X b))
     else ret None);
  io (sn0, sn1, sn2, sn3, sn4, sn5, sn6) <- lift (unpack7 uid_bytes);
  let ct := 0x88 in
  let correct_bcc0 := Z.lxor (Z.lxor (Z.lxor ct sn0) sn1) sn2 in
  let correct_bcc1 := Z.lxor (Z.lxor (Z.lxor sn3 sn4) sn5) sn6 in
  let current_bcc0 :=
    match page0_bytes !! 3%nat with
    | Some b => b
    | None => 0
    end in
  let c_bcc0 :=
    if fix_bcc fl && bool_decide (current_bcc0 ≠ correct_bcc0)
    then Some ("Fixed BCC0: " +:+ fmt_02X current_bcc0 +:+ " -> "
               +:+ fmt_02X correct_bcc0)
    else None in
  io c_bcc1 <- lift (plan_bcc1 (fix_bcc fl) pages correct_bcc1);
  io correct_password <- lift (list_of_password uid_bytes);
  io c_password <-
    lift (plan_page (fix_password fl) pages 133 "Password" correct_password);
  io c_pack <- lift (plan_page (fix_pack fl) pages 134 "PACK" correct_pack);
  io c_dlb <- lift (plan_page (fix_dlb fl) pages 130 "DLB" correct_dlb);
  io c_cfg0 <- lift (plan_page (fix_cfg fl) pages 131 "CFG0" correct_cfg0);
  io c_cfg1 <- lift (plan_page (fix_cfg fl) pages 132 "CFG1" correct_cfg1);
  ret (Plan (sn0, sn1, sn2, sn3, sn4, sn5, sn6) correct_bcc0 correct_bcc1
         correct_password
         (changes_of [c_uid_field; c_sn3; c_bcc0; c_bcc1; c_password; c_pack;
                      c_dlb; c_cfg0; c_cfg1])
         (IssueTypes (bool_decide (is_Some c_uid_field))
            (bool_decide (is_Some c_sn3))
            (bool_decide (is_Some c_bcc0)) (bool_decide (is_Some c_bcc1))
            (bool_decide (is_Some c_password)) (bool_decide (is_Some c_pack))
            (bool_decide (is_Some c_dlb)) (bool_decide (is_Some c_cfg0))
            (bool_decide (is_Some c_cfg1)))).

(** [f"{a:02X} {b:02X} {c:02X} {d:02X}"] of the first four items of a
    list; [IndexError] when it has fewer. *)
Definition fmt4 (l : list Z) : res string :=
  do a <- index l 0;
  do b <- index l 1;
  do c <- index l 2;
  do d <- index l 3;
  Ret (fmt_02X a +:+ " " +:+ fmt_02X b +:+ " " +:+ fmt_02X c +:+ " "
       +:+ fmt_02X d).

(** The body of the rewriting loop of [fix_nfc_file]: the line appended
    to [new_lines] for one source line. *)
Definition rewrite_line (pages : gmap Z string) (fl : flags) (p : plan)
    (line : string) : res string :=
  let '(sn0, sn1, sn2, sn3, sn4, sn5, sn6) := p_uid p in
  if bool_decide (is_Some (search_uid line)) && fix_uid fl then
    Ret ("UID: " +:+ hex_spaced [sn0; sn1; sn2; sn3; sn4; sn5; sn6])
  else
    match search_page line with
    | Some (page_num, _) =>
        if bool_decide (page_num = 0) && (fix_uid fl || fix_bcc fl) then
          do t <- fmt4 [sn0; sn1; sn2; p_bcc0 p];
          Ret ("Page 0: " +:+ t)
        else if bool_decide (page_num = 1) && fix_uid fl then
          do t <- fmt4 [sn3; sn4; sn5; sn6];
          Ret ("Page 1: " +:+ t)
        else if bool_decide (page_num = 2) && fix_bcc fl then
          do h2 <- getitem pages 2;
          do page2_bytes <- fromhex h2;
          do b1 <- index page2_bytes 1;
          do b2 <- index page2_bytes 2;
          do b3 <- index page2_bytes 3;
          do t <- fmt4 [p_bcc1 p; b1; b2; b3];
          Ret ("Page 2: " +:+ t)
        else if bool_decide (page_num = 130) && fix_dlb fl then
          do t <- fmt4 correct_dlb;
          Ret ("Page 130: " +:+ t)
        else if bool_decide (page_num = 131) && fix_cfg fl then
          do t <- fmt4 correct_cfg0;
          Ret ("Page 131: " +:+ t)
        else if bool_decide (page_num = 132) && fix_cfg fl then
          do t <- fmt4 correct_cfg1;
          Ret ("Page 132: " +:+ t)
        else if bool_decide (page_num = 133) && fix_password fl then
          do t <- fmt4 (p_password p);
          Ret ("Page 133: " +:+ t)
        else if bool_decide (page_num = 134) && fix_pack fl then
          do t <- fmt4 correct_pack;
          Ret ("Page 134: " +:+ t)
        else Ret line
    | None => Ret line
    end.

(** [for x in l: out.append(f(x))], stopping at the first exception. *)
Fixpoint map_res {A B : Type} (f : A → res B) (l : list A) : res (list B) :=
  match l with
  | [] => Ret []
  | x :: l' =>
      do y <- f x;
      do ys <- map_res f l';
      Ret (y :: ys)
  end.

(** [fix_nfc_file(filepath, ..., fix_uid, ..., backup_tracker)]. *)
Definition fix_nfc_file (filepath : string) (fl : flags)
  : M (bool * message * issues) :=
  io (pages, original_content, lines, uid_field, version) <-
    extract_pages_from_nfc filepath;
  match pages with
  | None => ret (false, CouldNotReadFile, NoIssues)
  | Some pages =>
      if bool_decide (pages = ∅) then ret (false, CouldNotReadFile, NoIssues)
      else if negb (bool_decide (is_Some (pages !! 0)))
              || negb (bool_decide (is_Some (pages !! 1)))
      then ret (false, MissingRequiredPages01, NoIssues)
      else
        io p <- nfc_plan pages uid_field fl;
        if bool_decide (changes_made p = []) then
          ret (true, NoChangesNeeded, NoIssues)
        else
          io backup_path <- backup_file filepath;
          io lines <-
            lift (match lines with
                  | Some l => Ret l
                  | None => Raise TypeError
                  end);
          io new_lines <- lift (map_res (rewrite_line pages fl p) lines);
          catch
            (io _ <- write_file filepath (FText (join nl new_lines));
             ret (true, FixedSuccessfully backup_path (changes_made p),
                  Issues (p_issues p)))
            (ret (false, ErrorWritingFile, NoIssues))
  end.

(** ** Directory scan *)

(** A file met by the scan: one yielded by [rglob('*.nfc')] or by
    [rglob('*.bin')] outside every backup folder. *)
Inductive fentry : Type :=
| NfcFile (filepath : string)
| BinFile (filepath : string).

Inductive ftype : Type := nfc | bin.

(** An item of [all_files]. *)
Record file_info : Type := FileInfo {
  path : string;
  is_valid : bool;
  f_status : status;
  uid_hex : string;
  problems : problem_details;
  was_fixed : bool;
  was_converted : bool;
  file_type : ftype;
  version : option Z
}.

(** [version in [2, 3]]. *)
Definition version_2_or_3 (version : option Z) : bool :=
  bool_decide (version = Some 2) || bool_decide (version = Some 3).

(** The body of the scan loop for a [.nfc] file. *)
Definition scan_nfc (filepath : string) (fl : flags)
    (convert_to_v4 dry_run : bool) : M file_info :=
  io (pages, _, _, uid_field, version) <- extract_pages_from_nfc filepath;
  let needs_conversion := convert_to_v4 && version_2_or_3 version in
  if dry_run then
    io (is_valid, status, uid_hex, problem_details) <-
      lift (check_uid_comprehensive pages uid_field);
    ret (FileInfo filepath is_valid status uid_hex problem_details
           false false nfc version)
  else
    io _ <- lift (check_uid_comprehensive pages uid_field);
    io (was_converted, pages, uid_field, version) <-
      (if needs_conversion then
         io (success, _, issue_types) <- convert_nfc_to_v4 filepath;
         if success && get_version_conversion issue_types then
           io (pages, _, _, uid_field, version) <-
             extract_pages_from_nfc filepath;
           ret (true, pages, uid_field, version)
         else ret (false, pages, uid_field, version)
       else ret (false, pages, uid_field, version));
    io (is_valid, status, uid_hex, problem_details) <-
      lift (check_uid_comprehensive pages uid_field);
    io (was_fixed, is_valid, status, uid_hex, problem_details) <-
      (if negb is_valid then
         io (success, _, issue_types) <- fix_nfc_file filepath fl;
         if success && any_values issue_types then
           io (pages_new, _, _, uid_field_new, _) <-
             extract_pages_from_nfc filepath;
           io (is_valid, status, uid_hex, problem_details) <-
             lift (check_uid_comprehensive pages_new uid_field_new);
           ret (true, is_valid, status, uid_hex, problem_details)
         else ret (false, is_valid, status, uid_hex, problem_details)
       else ret (false, is_valid, status, uid_hex, problem_details));
    ret (FileInfo filepath is_valid status uid_hex problem_details
           was_fixed was_converted nfc version).

(** The body of the scan loop for a [.bin] file. *)
Definition scan_bin (filepath : string) (fl : flags) (dry_run : bool)
  : M file_info :=
  io (pages, _) <- extract_pages_from_bin filepath;
  io (is_valid, status, uid_hex, problem_details) <-
    lift (check_uid_comprehensive pages None);
  if dry_run then
    ret (FileInfo filepath is_valid status uid_hex problem_details
           false false bin None)
  else if negb is_valid then
    io (success, _, issue_types) <- fix_bin_file filepath fl;
    if success && any_values issue_types then
      io (pages_new, _) <- extract_pages_from_bin filepath;
      io (is_valid_new, status_new, uid_hex_new, problem_details_new) <-
        lift (check_uid_comprehensive pages_new None);
      ret (FileInfo filepath is_valid_new status_new uid_hex_new
             problem_details_new true false bin None)
    else
      ret (FileInfo filepath is_valid status uid_hex problem_details
             false false bin None)
  else
    ret (FileInfo filepath is_valid status uid_hex problem_details
           false false bin None).

(** The scan loop of [scan_and_fix_directory]: the list [all_files] it
    builds, in the order the files are met.  An exception that leaves the
    body for one file leaves the loop. *)
Fixpoint scan_loop (files : list fentry) (fl : flags)
    (convert_to_v4 dry_run : bool) : M (list file_info) :=
  match files with
  | [] => ret []
  | f :: rest =>
      io info <-
        match f with
        | NfcFile filepath => scan_nfc filepath fl convert_to_v4 dry_run
        | BinFile filepath => scan_bin filepath fl dry_run
        end;
      io infos <- scan_loop rest fl convert_to_v4 dry_run;
      ret (info :: infos)
  end.

(** [scan_and_fix_directory], up to the report it prints from
    [all_files]. *)
Definition scan_and_fix_directory (files : list fentry) (fl : flags)
    (convert_to_v4 dry_run : bool) : M (list file_info) :=
  scan_loop files fl convert_to_v4 dry_run.

(** ** Reference values used in the statements *)

(** The password of §3 of the specification, read off a UID. *)
Definition derived_password (uid : list Z) : list Z :=
  [ Z.lxor (Z.lxor (nth 1 uid 0) (nth 3 uid 0)) 0xAA;
    Z.lxor (Z.lxor (nth 2 uid 0) (nth 4 uid 0)) 0x55;
    Z.lxor (Z.lxor (nth 3 uid 0) (nth 5 uid 0)) 0xAA;
    Z.lxor (Z.lxor (nth 4 uid 0) (nth 6 uid 0)) 0x55 ].

(** [d] with its [uid_field] entry replaced. *)
Definition with_uid_field (b : bool) (d : problem_details) : problem_details :=
  Details b (d_sn3 d) (d_bcc0 d) (d_bcc1 d) (d_password d) (d_pack d)
    (d_dlb d) (d_cfg0 d) (d_cfg1 d).

(** The computation returns a value. *)
Definition is_ret {A : Type} (r : res A) : Prop :=
  match r with Ret _ => True | Raise _ => False end.

Global Instance is_ret_dec {A : Type} (r : res A) : Decision (is_ret r).
Proof. destruct r; simpl; apply _. Defined.

(** Every stored page text is accepted by [bytes.fromhex]. *)
Definition decodable (pages : gmap Z string) : Prop :=
  map_Forall (λ _ h, is_ret (fromhex h)) pages.

Global Instance decodable_dec (pages : gmap Z string) : Decision (decodable pages).
Proof. unfold decodable. apply _. Defined.

(** Two worlds that differ at most in the random tape. *)
Definition same_files (e e' : env) : Prop :=
  disk e' = disk e ∧ backups e' = backups e ∧ tracker e' = tracker e
  ∧ locked e' = locked e ∧ backup_dir_ok e' = backup_dir_ok e.

(** [d[a:a+len(v)] = v], in range. *)
Definition overwrite (d : list Z) (a : nat) (v : list Z) : list Z :=
  take a d ++ v ++ drop (a + length v) d.

(** The bytes of page [n] of a dump. *)
Definition page_of (data : list Z) (n : nat) : list Z :=
  take 4 (drop (4 * n) data).

(** [d'] is [d] with the window that starts at [a] replaced by [v]. *)
Definition ow (d d' : list Z) (a : nat) (v : list Z) : Prop :=
  d' = overwrite d a v ∧ (a + length v ≤ length d)%nat.

(** Every tracked field of a dump holds the value derived from the UID
    of the dump, and SN3 is not the cascade tag. *)
Definition image_valid (data : list Z) : Prop :=
  ∃ sn0 sn1 sn2 sn3 sn4 sn5 sn6 x1 x2 x3,
    page_of data 0
    = [sn0; sn1; sn2; Z.lxor (Z.lxor (Z.lxor 0x88 sn0) sn1) sn2]
    ∧ page_of data 1 = [sn3; sn4; sn5; sn6]
    ∧ sn3 ≠ 0x88
    ∧ page_of data 2
      = [Z.lxor (Z.lxor (Z.lxor sn3 sn4) sn5) sn6; x1; x2; x3]
    ∧ page_of data 130 = correct_dlb
    ∧ page_of data 131 = correct_cfg0
    ∧ page_of data 132 = correct_cfg1
    ∧ page_of data 133
      = derived_password [sn0; sn1; sn2; sn3; sn4; sn5; sn6]
    ∧ page_of data 134 = correct_pack.

(** The UID of a plan as a list. *)
Definition uid_of (p : plan) : list Z :=
  let '(sn0, sn1, sn2, sn3, sn4, sn5, sn6) := p_uid p in
  [sn0; sn1; sn2; sn3; sn4; sn5; sn6].

(** The derived values of a plan follow the formulas of §3 of the
    specification for the UID of the plan. *)
Definition plan_ok (p : plan) : Prop :=
  is_bytes (uid_of p)
  ∧ p_bcc0 p = Z.lxor (Z.lxor (Z.lxor 0x88 (nth 0 (uid_of p) 0))
                         (nth 1 (uid_of p) 0)) (nth 2 (uid_of p) 0)
  ∧ p_bcc1 p = Z.lxor (Z.lxor (Z.lxor (nth 3 (uid_of p) 0)
                                 (nth 4 (uid_of p) 0))
                         (nth 5 (uid_of p) 0)) (nth 6 (uid_of p) 0)
  ∧ p_password p = derived_password (uid_of p).

(** [d'] has the length of [d] and the bytes of [d] at every offset
    outside [0, 8] and [520, 539]. *)
Definition frame (d d' : list Z) : Prop :=
  length d' = length d
  ∧ ∀ i : nat, (9 ≤ i < 520 ∨ 540 ≤ i)%nat → d' !! i = d !! i.

(** A computation that leaves every file as it is, whatever its
    outcome. *)
Definition pdisk {A : Type} (m : M A) : Prop :=
  ∀ e r e', m e = Some (r, e') → disk e' = disk e.

(** ** The frame of the text repair *)

(** The line holds no line feed. *)
Fixpoint no_nl (s : string) : bool :=
  match s with
  | EmptyString => true
  | String c s' => negb (bool_decide (c = newline)) && no_nl s'
  end.

(** The fix flag that guards the rewriting of the line of page [n]. *)
Definition page_flag (fl : flags) (n : Z) : bool :=
  if bool_decide (n = 0) then fix_uid fl || fix_bcc fl
  else if bool_decide (n = 1) then fix_uid fl
  else if bool_decide (n = 2) then fix_bcc fl
  else if bool_decide (n = 130) then fix_dlb fl
  else if bool_decide (n = 131) then fix_cfg fl
  else if bool_decide (n = 132) then fix_cfg fl
  else if bool_decide (n = 133) then fix_password fl
  else if bool_decide (n = 134) then fix_pack fl
  else false.

(** The line is a UID declaration and UID fixes are enabled, or it is the
    line of a tracked page whose fix is enabled. *)
Definition rewritable (fl : flags) (line : string) : bool :=
  (bool_decide (is_Some (search_uid line)) && fix_uid fl)
  || match search_page line with
     | Some (n, _) => page_flag fl n
     | None => false
     end.

(** The change recorded in [issue_types] that concerns page [n]. *)
Definition page_scheduled (i : issue_types) (n : Z) : bool :=
  if bool_decide (n = 0) then i_sn3 i || i_bcc0 i
  else if bool_decide (n = 1) then i_sn3 i
  else if bool_decide (n = 2) then i_bcc1 i
  else if bool_decide (n = 130) then i_dlb i
  else if bool_decide (n = 131) then i_cfg0 i
  else if bool_decide (n = 132) then i_cfg1 i
  else if bool_decide (n = 133) then i_password i
  else if bool_decide (n = 134) then i_pack i
  else false.

(** The line is one that the repair plan scheduled for change: the UID
    declaration when the UID field or SN3 changes, or the line of a page
    with a recorded change. *)
Definition scheduled (i : issue_types) (line : string) : bool :=
  (bool_decide (is_Some (search_uid line)) && (i_uid_field i || i_sn3 i))
  || match search_page line with
     | Some (n, _) => page_scheduled i n
     | None => false
     end.

(** The frame of the text repair as the specification words it: a
    rewritten file differs from the original only in lines scheduled for
    change. *)
Definition text_frame_as_specified : Prop :=
  ∀ filepath fl e content msg i e' new,
    disk e !! filepath = Some (FText content) →
    fix_nfc_file filepath fl e = Some (Ret (true, msg, Issues i), e') →
    disk e' !! filepath = Some (FText new) →
    ∀ (k : nat) line,
      split_lines content !! k = Some line → scheduled i line = false →
      split_lines new !! k = Some line.

(** A text image of the valid tag with a wrong PACK, page 130 written
    in lower case and a comment after page 131. *)
Definition lowercase_nfc : string :=
  join nl
    [ "Version: 4"; "UID: 04 AB 73 54 B8 B6 0F";
      "Page 0: 04 AB 73 54"; "Page 1: 54 B8 B6 0F"; "Page 2: 55 48 00 00";
      "Page 130: 01 00 0f bf"; "Page 131: 00 00 00 04  # CFG0";
      "Page 132: 5F 00 00 00"; "Page 133: 55 9E 48 E2";
      "Page 134: 00 00 00 00" ]%string.

(** ** The version upgrade as the specification words it *)

(** The line of the page table for a page that was not parsed. *)
Definition zero_page_line (n : Z) : string :=
  "Page " +:+ str_of_int n +:+ ": 00 00 00 00".

(** A V2 image whose parsed pages are exactly 0 and 1 is upgraded to a
    document with a [Version: 4] line, a [Pages total: 135] line and a
    zero line for every page from 2 to 134. *)
Definition upgrade_as_specified : Prop :=
  ∀ filepath e content pages,
    disk e !! filepath = Some (FText content) →
    foldl parse_v_line (None, ∅) (split_lines content) = (Some 2, pages) →
    dom pages = {[0; 1]} →
    ∃ r e' new,
      convert_nfc_to_v4 filepath e = Some (r, e')
      ∧ disk e' !! filepath = Some (FText new)
      ∧ "Version: 4"%string ∈ split_lines new
      ∧ "Pages total: 135"%string ∈ split_lines new
      ∧ ∀ n, 2 ≤ n < 135 → zero_page_line n ∈ split_lines new.

(** A V2 text image with pages 0 and 1 only. *)
Definition v2_nfc : string :=
  join nl [ "Version: 2"; "Page 0: 04 AB 73 54"; "Page 1: 54 B8 B6 0F" ]%string.

(** The image and the run used in the examples below: a 540-byte dump
    with the UID [04 AB 73 88 B8 B6 0F] and zeroes elsewhere. *)
Definition all_flags : flags := Flags true true true true true true.

Definition sample_bin : list Z :=
  [0x04; 0xAB; 0x73; 0x00; 0x88; 0xB8; 0xB6; 0x0F] ++ replicate 532 0.

(** A 540-byte dump with the UID [04 AB 73 54 B8 B6 0F] whose tracked
    fields all hold their derived values. *)
Definition valid_bin : list Z :=
  [0x04; 0xAB; 0x73; 0x54; 0x54; 0xB8; 0xB6; 0x0F; 0x55; 0x00; 0x00; 0x00]
  ++ replicate 508 0
  ++ [0x01; 0x00; 0x0F; 0xBF; 0x00; 0x00; 0x00; 0x04; 0x5F; 0x00; 0x00; 0x00;
      0x55; 0x9E; 0x48; 0xE2; 0x80; 0x80; 0x00; 0x00].

(** A text image of the same tag. *)
Definition valid_nfc : string :=
  join nl
    [ "Filetype: Flipper NFC device"; "Version: 4";
      "UID: 04 AB 73 54 B8 B6 0F";
      "Page 0: 04 AB 73 54"; "Page 1: 54 B8 B6 0F"; "Page 2: 55 48 00 00";
      "Page 130: 01 00 0F BF"; "Page 131: 00 00 00 04";
      "Page 132: 5F 00 00 00"; "Page 133: 55 9E 48 E2";
      "Page 134: 80 80 00 00" ]%string.

Definition sample_env (d : fdata) (t : list Z) : env :=
  Env {[ "a"%string := d ]} ∅ ∅ ∅ true t.

(** ** A batch with a malformed text image *)

(** A text image whose page 0 holds an odd number of hexadecimal
    digits. *)
Definition bad_nfc : string :=
  join nl [ "Version: 4"; "Page 0: 0"; "Page 1: 00 00 00 00" ]%string.

(** A text image whose pages 0 and 1 give a UID of six bytes. *)
Definition short_uid_nfc : string :=
  join nl [ "Version: 4"; "Page 0: 04 AB"; "Page 1: 54 B8 B6 0F" ]%string.

(** A directory with one text image and the valid dump. *)
Definition batch_env (first : string) : env :=
  Env (<[ "first.nfc"%string := FText first ]>
         {[ "good.bin"%string := FBin valid_bin ]}) ∅ ∅ ∅ true [].

Definition batch : list fentry := [ NfcFile "first.nfc"; BinFile "good.bin" ].

From Stdlib Require DecimalPos.

(** * The rest of the program *)

(** ** Fresh UIDs *)

(** [random.randint(0, 255)]: the next result on the tape; [None] when
    the tape holds no further result. *)
Definition randint : M Z := λ e,
  match tape e with
  | [] => None
  | d :: t =>
      Some (Ret d, Env (disk e) (backups e) (tracker e) (locked e)
                       (backup_dir_ok e) t)
  end.

(** The loop [for i in range(7)] of [generate_new_uid]. *)
Fixpoint uid_loop (range : list nat) (uid_bytes : list Z) : M (list Z) :=
  match range with
  | [] => ret uid_bytes
  | i :: rest =>
      io byte_val <-
        (if bool_decide (i = 3%nat) then resample_sn3 else randint);
      uid_loop rest (uid_bytes ++ [byte_val])
  end.

(** [generate_new_uid()]. *)
Definition generate_new_uid : M (list Z) := uid_loop (seq 0 7) [].

(** ** The version of a text image *)

(** The loop of [extract_version_from_nfc]: the first line that holds a
    version. *)
Fixpoint first_version (lines : list string) : option Z :=
  match lines with
  | [] => None
  | line :: rest =>
      match search_version line with
      | Some v => Some v
      | None => first_version rest
      end
  end.

(** [extract_version_from_nfc(filepath)]. *)
Definition extract_version_from_nfc (filepath : string) : M (option Z) :=
  catch
    (io content <- read_text filepath;
     ret (first_version (split_lines content)))
    (ret None).

(** ** The command line *)

(** The parsed arguments of [main], the directory apart. *)
Record args : Type := Args {
  a_fix : bool;
  a_convert_v4 : bool;
  a_no_uid : bool;
  a_no_bcc : bool;
  a_no_password : bool;
  a_no_pack : bool;
  a_no_dlb : bool;
  a_no_cfg : bool
}.

(** [main()], after [parser.parse_args()]; [files] are the files of the
    directory given on the command line. *)
Definition main (files : list fentry) (a : args) : M (list file_info) :=
  let fix_uid := negb (a_no_uid a) in
  let fix_bcc := negb (a_no_bcc a) in
  let fix_password := negb (a_no_password a) in
  let fix_pack := negb (a_no_pack a) in
  let fix_dlb := negb (a_no_dlb a) in
  let fix_cfg := negb (a_no_cfg a) in
  let dry_run := negb (a_fix a) in
  scan_and_fix_directory files
    (Flags fix_uid fix_bcc fix_password fix_pack fix_dlb fix_cfg)
    (a_convert_v4 a) dry_run.

(** ** Reference values used in the further statements *)

(** The path of a file met by the scan. *)
Definition entry_path (f : fentry) : string :=
  match f with
  | NfcFile filepath => filepath
  | BinFile filepath => filepath
  end.

Definition entry_type (f : fentry) : ftype :=
  match f with
  | NfcFile _ => nfc
  | BinFile _ => bin
  end.

(** Page [n] is stored, its text is accepted by [bytes.fromhex], and its
    bytes start with [v]. *)
Definition page_starts (pages : gmap Z string) (n : Z) (v : list Z) : Prop :=
  ∃ h rest, pages !! n = Some h ∧ fromhex h = Ret (v ++ rest).

(** The tracked fields of a page dictionary hold the values derived from
    its UID, and SN3 is not the cascade tag. *)
Definition pages_valid (pages : gmap Z string) : Prop :=
  ∃ sn0 sn1 sn2 sn3 sn4 sn5 sn6,
    page_starts pages 0
      [sn0; sn1; sn2; Z.lxor (Z.lxor (Z.lxor 0x88 sn0) sn1) sn2]
    ∧ page_starts pages 1 [sn3; sn4; sn5; sn6]
    ∧ sn3 ≠ 0x88
    ∧ page_starts pages 2 [Z.lxor (Z.lxor (Z.lxor sn3 sn4) sn5) sn6]
    ∧ page_starts pages 130 correct_dlb
    ∧ page_starts pages 131 correct_cfg0
    ∧ page_starts pages 132 correct_cfg1
    ∧ page_starts pages 133
        (derived_password [sn0; sn1; sn2; sn3; sn4; sn5; sn6])
    ∧ page_starts pages 134 correct_pack.

(** Page [n] is absent, or its text decodes to fewer than four bytes. *)
Definition page_short (pages : gmap Z string) (n : Z) : Prop :=
  pages !! n = None
  ∨ ∃ h bs, pages !! n = Some h ∧ fromhex h = Ret bs ∧ (length bs < 4)%nat.

(** The offsets of a dump that the binary repair may write under the
    flags [fl]: the UID bytes, the two check bytes, and the four-byte
    fields of pages 130 to 134. *)
Definition touched (fl : flags) (i : nat) : bool :=
  (fix_uid fl && (bool_decide (i < 3)%nat || bool_decide (4 ≤ i < 8)%nat))
  || (fix_bcc fl && (bool_decide (i = 3%nat) || bool_decide (i = 8%nat)))
  || (fix_dlb fl && bool_decide (520 ≤ i < 524)%nat)
  || (fix_cfg fl && bool_decide (524 ≤ i < 532)%nat)
  || (fix_password fl && bool_decide (532 ≤ i < 536)%nat)
  || (fix_pack fl && bool_decide (536 ≤ i < 540)%nat).

(** [d'] has the length of [d] and the bytes of [d] at every offset that
    satisfies [P]. *)
Definition keeps (P : nat → Prop) (d d' : list Z) : Prop :=
  length d' = length d ∧ ∀ i : nat, P i → d' !! i = d !! i.

(** What a function that rewrites [filepath] owes to the backups of the
    run, between the world [e] it starts in and the world [e'] it
    leaves: the file changes only once its path is tracked; when the
    path gets tracked in a run whose backup folder is writable, the
    backup holds the content the file had before; a path that was
    already tracked keeps the backups as they were; nothing changes for
    the other paths. *)
Definition backup_discipline (filepath : string) (e e' : env) : Prop :=
  (disk e' !! filepath ≠ disk e !! filepath → filepath ∈ tracker e')
  ∧ (∀ d, filepath ∉ tracker e → disk e !! filepath = Some d →
          backup_dir_ok e = true → filepath ∈ tracker e' →
          backups e' !! filepath = Some d)
  ∧ (filepath ∈ tracker e → backups e' = backups e)
  ∧ (∀ other, other ≠ filepath →
       disk e' !! other = disk e !! other
       ∧ backups e' !! other = backups e !! other).

(** The random tape suffices for the resampling of SN3: it holds bytes,
    one of them different from [0x88]. *)
Definition tape_ok (e : env) : Prop :=
  is_bytes (tape e) ∧ Exists (λ d, d ≠ 0x88) (tape e).

(** A computation that changes nothing but the random tape, whatever
    its outcome. *)
Definition tape_only {A : Type} (m : M A) : Prop :=
  ∀ e r e', m e = Some (r, e') → same_files e e'.

(** The shape of a run of a function that rewrites [filepath]: nothing
    but the tape changes, or [backup_file] is called for the file and
    the file is then left alone or written once. *)
Definition backed_up_run (filepath : string) (e e' : env) : Prop :=
  same_files e e'
  ∨ ∃ e1 bk e2,
      same_files e e1
      ∧ backup_file filepath e1 = Some (Ret bk, e2)
      ∧ (e' = e2 ∨ ∃ c, write_file filepath c e2 = Some (Ret (), e')).





(** A text image of the valid tag whose page 2 holds two bytes only and
    whose PACK is wrong. *)
Definition short_page2_nfc : string :=
  join nl
    [ "Version: 4"; "UID: 04 AB 73 54 B8 B6 0F";
      "Page 0: 04 AB 73 54"; "Page 1: 54 B8 B6 0F"; "Page 2: 55 48";
      "Page 130: 01 00 0F BF"; "Page 131: 00 00 00 04";
      "Page 132: 5F 00 00 00"; "Page 133: 55 9E 48 E2";
      "Page 134: 00 00 00 00" ]%string.

(** Every character of [s] satisfies [f]. *)
Fixpoint all_chars (f : ascii → bool) (s : string) : bool :=
  match s with
  | EmptyString => true
  | String c s' => f c && all_chars f s'
  end.

(** The four bytes that the repair plan [pl] writes for the tracked page
    [n] of the page dictionary [pages] when every fix is enabled. *)
Definition planned_page (pages : gmap Z string) (pl : plan) (n : Z)
  : list Z :=
  let '(sn0, sn1, sn2, sn3, sn4, sn5, sn6) := p_uid pl in
  if bool_decide (n = 0) then [sn0; sn1; sn2; p_bcc0 pl]
  else if bool_decide (n = 1) then [sn3; sn4; sn5; sn6]
  else if bool_decide (n = 2) then
    match pages !! 2 with
    | Some h2 =>
        match fromhex h2 with
        | Ret (_ :: b1 :: b2 :: b3 :: _) => [p_bcc1 pl; b1; b2; b3]
        | _ => []
        end
    | None => []
    end
  else if bool_decide (n = 130) then correct_dlb
  else if bool_decide (n = 131) then correct_cfg0
  else if bool_decide (n = 132) then correct_cfg1
  else if bool_decide (n = 133) then p_password pl
  else if bool_decide (n = 134) then correct_pack
  else [].

(** Every tracked page is stored and decodes to at least four bytes. *)
Definition pages_complete (pages : gmap Z string) : Prop :=
  ∀ n, n ∈ tracked_pages →
    ∃ h bs, pages !! n = Some h ∧ fromhex h = Ret bs ∧ (4 ≤ length bs)%nat.

(** No line is at once a UID line and a page line. *)
Definition uid_lines_apart (lines : list string) : Prop :=
  Forall (λ line, is_Some (search_uid line) → search_page line = None) lines.

(** The line [line'] stands for the line [line] after a repair with
    every fix enabled: the line of a tracked page has become a line of
    the same page that carries the planned bytes, the line of another
    page is unchanged, and a line that names no page still names none. *)
Definition line_repaired (pages : gmap Z string) (pl : plan)
    (line line' : string) : Prop :=
  match search_page line with
  | Some (n, _) =>
      if bool_decide (n ∈ tracked_pages) then
        ∃ g', search_page line' = Some (n, g')
              ∧ remove_spaces g' = hex_packed (planned_page pages pl n)
      else line' = line
  | None => search_page line' = None
  end.

(** Every tracked page stored in [pg] is stored in [pg'] with the
    planned bytes. *)
Definition pages_repaired (pages : gmap Z string) (pl : plan)
    (pg pg' : gmap Z string) : Prop :=
  ∀ n, n ∈ tracked_pages → is_Some (pg !! n) →
    pg' !! n = Some (hex_packed (planned_page pages pl n)).

(** A version 3 text image with pages 0, 1 and 4, page 0 in lower
    case. *)
Definition gap_nfc : string :=
  join nl [ "Version: 3"; "Page 0: 04 ab 73 54"; "Page 1: 54 B8 B6 0F";
            "Page 4: 01 02 03 04" ]%string.

(** The shapes of a page text read by the page pattern, once its blanks
    are removed: empty, one white-space character other than the blank,
    or hexadecimal text without blanks that starts with a digit. *)
Definition page_text (h : string) : Prop :=
  h = EmptyString
  ∨ (∃ c, h = String c EmptyString ∧ is_space c = true ∧ c ≠ " "%char)
  ∨ (∃ c b, h = String c b ∧ is_space c = false
            ∧ all_chars is_hexws h = true
            ∧ all_chars (λ x, negb (bool_decide (x = " "%char))) h = true).

(** The text that the upgraded document gives back for page [n]. *)
Definition upgraded_text (pages : gmap Z string) (n : Z) : string :=
  match pages !! n with
  | Some h => upper h
  | None => "00000000"
  end.

(** ** The UID of an image *)





(** A V2 text image whose only page is page 134, all zero. *)
Definition page134_nfc : string :=
  join nl [ "Version: 2"; "Page 134: 00 00 00 00" ]%string.


(** * Properties *)

(** ** Bytes and hexadecimal text *)

Lemma lxor_byte (a b : Z) : is_byte a → is_byte b → is_byte (Z.lxor a b).
Proof.
  unfold is_byte. intros Ha Hb.
  assert (Hn : 0 ≤ Z.lxor a b) by (apply Z.lxor_nonneg; lia).
  split; [done|].
  destruct (decide (Z.lxor a b = 0)) as [->|Hne]; [lia|].
  change 256 with (2 ^ 8). apply Z.log2_lt_pow2; [lia|].
  assert (Hla : Z.log2 a < 8).
  { destruct (decide (a = 0)) as [->|]; [done|]. apply Z.log2_lt_pow2; lia. }
  assert (Hlb : Z.log2 b < 8).
  { destruct (decide (b = 0)) as [->|]; [done|]. apply Z.log2_lt_pow2; lia. }
  pose proof (Z.log2_lxor a b). lia.
Qed.

Lemma bytes_of_ok (l : list Z) : is_bytes l → bytes_of l = Ret l.
Proof.
  intros H. unfold bytes_of.
  replace (forallb _ l) with true; [done|].
  symmetry. apply forallb_forall. intros x Hx.
  rewrite <- list_elem_of_In in Hx.
  unfold is_bytes in H. rewrite Forall_forall in H. specialize (H x Hx).
  unfold is_byte in H. apply andb_true_iff. split; [apply Z.leb_le|apply Z.ltb_lt]; lia.
Qed.

Lemma bytes_of_inv (l l' : list Z) : bytes_of l = Ret l' → l' = l ∧ is_bytes l.
Proof.
  unfold bytes_of. destruct (forallb _ l) eqn:E; [|done].
  intros [= <-]. split; [done|].
  apply Forall_forall. intros x Hx. rewrite list_elem_of_In in Hx.
  rewrite forallb_forall in E. specialize (E x Hx).
  apply andb_true_iff in E as [H1 H2]. apply Z.leb_le in H1. apply Z.ltb_lt in H2.
  unfold is_byte. lia.
Qed.

(** ** Password derivation *)

Lemma index_nth (l : list Z) (i : nat) :
  (i < length l)%nat → index l i = Ret (nth i l 0).
Proof.
  intros H. unfold index.
  destruct (l !! i) eqn:E.
  - by rewrite (nth_lookup_Some l i 0 z E).
  - apply lookup_ge_None in E. lia.
Qed.

Lemma is_bytes_nth (l : list Z) (i : nat) : is_bytes l → is_byte (nth i l 0).
Proof.
  intros H. destruct (decide (i < length l)%nat) as [Hi|Hi].
  - unfold is_bytes in H. rewrite Forall_forall in H. apply H.
    apply list_elem_of_In. apply nth_In. lia.
  - rewrite nth_overflow; [|lia]. unfold is_byte. lia.
Qed.

Lemma derived_password_bytes (uid : list Z) :
  is_bytes uid → is_bytes (derived_password uid).
Proof.
  intros H. unfold derived_password.
  repeat apply Forall_cons_2; try apply Forall_nil_2;
    repeat apply lxor_byte; try (by apply is_bytes_nth); unfold is_byte; lia.
Qed.

Lemma calculate_password_ge7 (uid : list Z) :
  is_bytes uid → (7 ≤ length uid)%nat →
  calculate_password_from_uid uid = Ret (Some (derived_password uid)).
Proof.
  intros Hb Hlen. unfold calculate_password_from_uid.
  rewrite bool_decide_eq_false_2 by lia.
  rewrite !index_nth by lia. cbn [res_bind].
  fold (derived_password uid).
  by rewrite (bytes_of_ok _ (derived_password_bytes uid Hb)).
Qed.

Lemma calculate_password_lt7 (uid : list Z) :
  (length uid < 7)%nat → calculate_password_from_uid uid = Ret None.
Proof.
  intros Hlen. unfold calculate_password_from_uid.
  by rewrite bool_decide_eq_true_2 by lia.
Qed.

(** C9. For a byte sequence of length at least 7 the password derivation
    returns exactly the four bytes [SN1^SN3^0xAA, SN2^SN4^0x55,
    SN3^SN5^0xAA, SN4^SN6^0x55]; for a shorter one it returns [None]
    and raises nothing. *)
Theorem calculate_password_from_uid_spec (uid : list Z) :
  is_bytes uid →
  ((7 ≤ length uid)%nat →
   calculate_password_from_uid uid =
     Ret (Some [ Z.lxor (Z.lxor (nth 1 uid 0) (nth 3 uid 0)) 0xAA;
                 Z.lxor (Z.lxor (nth 2 uid 0) (nth 4 uid 0)) 0x55;
                 Z.lxor (Z.lxor (nth 3 uid 0) (nth 5 uid 0)) 0xAA;
                 Z.lxor (Z.lxor (nth 4 uid 0) (nth 6 uid 0)) 0x55 ]))
  ∧ ((length uid < 7)%nat → calculate_password_from_uid uid = Ret None).
Proof.
  intros Hb. split; intros Hlen.
  - by apply calculate_password_ge7.
  - by apply calculate_password_lt7.
Qed.

Lemma calculate_password_from_uid_witness :
  calculate_password_from_uid [0x04; 0xAB; 0x73; 0x54; 0xB8; 0xB6; 0x0F]
    = Ret (Some [0x55; 0x9E; 0x48; 0xE2])
  ∧ calculate_password_from_uid [0x04; 0xAB; 0x73] = Ret None.
Proof.
  split.
  - apply (calculate_password_from_uid_spec [0x04; 0xAB; 0x73; 0x54; 0xB8; 0xB6; 0x0F]).
    + repeat constructor; unfold is_byte; lia.
    + simpl; lia.
  - apply (calculate_password_from_uid_spec [0x04; 0xAB; 0x73]).
    + repeat constructor; unfold is_byte; lia.
    + simpl; lia.
Defined.

(** ** Validator *)

Lemma hexval_range (c : ascii) (v : Z) : hexval c = Some v → 0 ≤ v < 16.
Proof.
  unfold hexval. intros H.
  repeat (case_match; simplify_eq);
    repeat match goal with
      | H : _ && _ = true |- _ => apply andb_true_iff in H as [??]
      | H : (_ <=? _) = true |- _ => apply Z.leb_le in H
      end; lia.
Qed.

Lemma fromhex_bytes_aux (s : string) :
  (∀ bs, fromhex s = Ret bs → is_bytes bs)
  ∧ (∀ c bs, fromhex (String c s) = Ret bs → is_bytes bs).
Proof.
  induction s as [|a s [IH1 IH2]].
  - split.
    + intros bs [= <-]. constructor.
    + intros c bs. simpl. repeat case_match; try done. intros [= <-]. constructor.
  - split; [apply IH2|].
    intros c bs. cbn [fromhex].
    destruct (Py_ISSPACE c); [apply IH2|].
    destruct (hexval c) as [top|] eqn:Ht; [|done].
    destruct (hexval a) as [bot|] eqn:Hb; [|done].
    destruct (fromhex s) as [l|] eqn:Hs; [|done].
    cbn [res_bind]. intros [= <-].
    apply hexval_range in Ht, Hb.
    constructor; [unfold is_byte; lia|by apply IH1].
Qed.

Lemma fromhex_bytes (s : string) (bs : list Z) :
  fromhex s = Ret bs → is_bytes bs.
Proof. apply fromhex_bytes_aux. Qed.

Lemma calculate_password_returns (uid : list Z) :
  is_bytes uid → ∃ r, calculate_password_from_uid uid = Ret r.
Proof.
  intros Hb. destruct (decide (7 ≤ length uid)%nat).
  - eexists. by apply calculate_password_ge7.
  - eexists. apply calculate_password_lt7. lia.
Qed.

(** One step through a [do] whose result is known to be a value. *)
Ltac bind_step :=
  match goal with
  | |- res_bind ?m _ = Ret _ → _ =>
      let E := fresh "E" in
      destruct m eqn:E; cbn [res_bind]; [|discriminate]
  end.

Ltac split_tuples :=
  repeat match goal with p : (_ * _)%type |- _ => destruct p end.

Lemma check_uid_field_irrelevant (pages : option (gmap Z string))
    (uid_field uid_field' : option string) v st u d :
  check_uid_comprehensive pages uid_field = Ret (v, st, u, d) →
  ∃ b, check_uid_comprehensive pages uid_field'
       = Ret (v, st, u, with_uid_field b d).
Proof.
  unfold check_uid_comprehensive.
  destruct pages as [pg|]; [|intros [= <- <- <- <-]; by exists false].
  destruct (pg !! 0) as [h0|]; [|intros [= <- <- <- <-]; by exists false].
  destruct (pg !! 1) as [h1|]; [|intros [= <- <- <- <-]; by exists false].
  bind_step. bind_step.
  case_bool_decide; [intros [= <- <- <- <-]; by exists false|].
  bind_step. split_tuples.
  bind_step. bind_step. split_tuples. bind_step. split_tuples.
  intros [= <- <- <- <-]. by eexists.
Qed.

Lemma validate_dlb_and_cfg_conj (pages : option (gmap Z string)) a d c0 c1 :
  validate_dlb_and_cfg pages = Ret (a, d, c0, c1) → a = d && c0 && c1.
Proof.
  unfold validate_dlb_and_cfg, res_bind.
  intros H. repeat (case_match; simplify_eq/=); done.
Qed.

Lemma check_all_valid_conj (pages : option (gmap Z string))
    (uid_field : option string) v st u d :
  check_uid_comprehensive pages uid_field = Ret (v, st, u, d) →
  v = d_sn3 d && d_bcc0 d && d_bcc1 d && d_password d && d_pack d
      && d_dlb d && d_cfg0 d && d_cfg1 d.
Proof.
  unfold check_uid_comprehensive.
  destruct pages as [pg|]; [|by intros [= <- <- <- <-]].
  destruct (pg !! 0) as [h0|]; [|by intros [= <- <- <- <-]].
  destruct (pg !! 1) as [h1|]; [|by intros [= <- <- <- <-]].
  bind_step. bind_step.
  case_bool_decide; [by intros [= <- <- <- <-]|].
  bind_step. split_tuples.
  bind_step. bind_step. split_tuples. bind_step. split_tuples.
  intros [= <- <- <- <-]. cbn.
  match goal with H : validate_dlb_and_cfg _ = _ |- _ =>
    apply validate_dlb_and_cfg_conj in H as -> end.
  by rewrite !andb_assoc.
Qed.

Lemma decodable_lookup (pg : gmap Z string) (n : Z) (h : string) :
  decodable pg → pg !! n = Some h → ∃ bs, fromhex h = Ret bs.
Proof.
  intros Hd Hn. specialize (Hd n h Hn). simpl in Hd.
  destruct (fromhex h); [by eexists|done].
Qed.

Lemma validate_dlb_and_cfg_returns (pg : gmap Z string) :
  decodable pg → ∃ r, validate_dlb_and_cfg (Some pg) = Ret r.
Proof.
  intros Hd. unfold validate_dlb_and_cfg.
  destruct (pg !! 130) as [h130|] eqn:E130; [|by eexists].
  destruct (pg !! 131) as [h131|] eqn:E131; [|by eexists].
  destruct (pg !! 132) as [h132|] eqn:E132; [|by eexists].
  destruct (decodable_lookup _ _ _ Hd E130) as [? ->], (decodable_lookup _ _ _ Hd E131) as [? ->],
    (decodable_lookup _ _ _ Hd E132) as [? ->].
  cbn [res_bind]. case_match; by eexists.
Qed.

Lemma check_uid_comprehensive_returns (pg : gmap Z string)
    (uid_field : option string) :
  decodable pg → ∃ r, check_uid_comprehensive (Some pg) uid_field = Ret r.
Proof.
  intros Hd. unfold check_uid_comprehensive.
  destruct (pg !! 0) as [h0|] eqn:E0; [|by eexists].
  destruct (pg !! 1) as [h1|] eqn:E1; [|by eexists].
  destruct (decodable_lookup _ _ _ Hd E0) as [page0 H0], (decodable_lookup _ _ _ Hd E1) as [page1 H1].
  rewrite H0, H1. cbn [res_bind].
  case_bool_decide as Hlen; [by eexists|].
  assert (Hb : is_bytes (take 3 page0 ++ take 4 page1)).
  { apply Forall_app; split; apply Forall_take; by eapply fromhex_bytes. }
  assert (Hl7 : length (take 3 page0 ++ take 4 page1) = 7%nat).
  { rewrite length_app, !length_take in *. lia. }
  destruct (take 3 page0 ++ take 4 page1) as [|a [|b [|c [|d [|e [|f [|g [|]]]]]]]] eqn:Eu;
    try done.
  cbn [unpack7 res_bind].
  rewrite (calculate_password_ge7 _ Hb) by (simpl; lia).
  destruct (validate_dlb_and_cfg_returns pg Hd) as [[[[??]?]?] ->].
  assert (∃ r, match pg !! 2 with
               | Some h2 =>
                   do page2 <- fromhex h2;
                   match page2 !! 0%nat with
                   | Some actual_bcc1 =>
                       Ret (bool_decide (actual_bcc1
                              = Z.lxor (Z.lxor (Z.lxor d e) f) g))
                   | None => Ret false
                   end
               | None => Ret false
               end = Ret r) as [r1 ->].
  { destruct (pg !! 2) as [h2|] eqn:E2; [|by eexists].
    destruct (decodable_lookup _ _ _ Hd E2) as [? ->]. cbn [res_bind]. case_match; by eexists. }
  cbn [res_bind].
  destruct (pg !! 133) as [h133|] eqn:E133; [|by eexists].
  destruct (pg !! 134) as [h134|] eqn:E134; [|by eexists].
  destruct (decodable_lookup _ _ _ Hd E133) as [? ->], (decodable_lookup _ _ _ Hd E134) as [? ->].
  cbn [res_bind]. case_match; by eexists.
Qed.

(** C1. Whenever the validator returns, [all_valid] is the conjunction
    of the eight booleans sn3, bcc0, bcc1, password, pack, dlb, cfg0 and
    cfg1 of its diagnosis, and another [uid_field] changes nothing of the
    result but the [uid_field] entry; and it does return whenever the
    stored page texts are hexadecimal. *)
Theorem all_valid_is_conjunction (pages : gmap Z string)
    (uid_field : option string) :
  (∀ v st u d,
     check_uid_comprehensive (Some pages) uid_field = Ret (v, st, u, d) →
     v = d_sn3 d && d_bcc0 d && d_bcc1 d && d_password d && d_pack d
         && d_dlb d && d_cfg0 d && d_cfg1 d
     ∧ ∀ uid_field', ∃ b,
         check_uid_comprehensive (Some pages) uid_field'
         = Ret (v, st, u, with_uid_field b d))
  ∧ (decodable pages →
     ∃ r, check_uid_comprehensive (Some pages) uid_field = Ret r).
Proof.
  split.
  - intros v st u d H. split.
    + by eapply check_all_valid_conj.
    + intros f'. by eapply check_uid_field_irrelevant.
  - apply check_uid_comprehensive_returns.
Qed.

Lemma all_valid_is_conjunction_witness :
  (∀ uid_field', ∃ b,
     check_uid_comprehensive (Some (bin_pages valid_bin)) uid_field'
     = Ret (true, FieldReport, "04 AB 73 54 B8 B6 0F"%string,
            with_uid_field b
              (Details false true true true true true true true true)))
  ∧ ∃ r, check_uid_comprehensive (Some (bin_pages valid_bin))
           (Some "00000000000000"%string) = Ret r.
Proof.
  destruct (all_valid_is_conjunction (bin_pages valid_bin)
              (Some "00000000000000"%string)) as [H1 H2].
  split.
  - apply (H1 true FieldReport _ _). vm_compute. reflexivity.
  - apply H2. apply (bool_decide_unpack (decodable _)). vm_compute. exact I.
Defined.

(** C8. With the UID [SN0..SN6] read from pages 0 and 1, the validator
    reports bcc0 exactly when [page0[3] = 0x88 ^ SN0 ^ SN1 ^ SN2] and
    bcc1 exactly when page 2 is present and [page2[0] = SN3 ^ SN4 ^ SN5 ^
    SN6]; without page 2, bcc1 is false. *)
Theorem bcc_checks (pages : gmap Z string) (uid_field : option string)
    (h0 h1 : string) (page0 page1 : list Z) (sn0 sn1 sn2 sn3 sn4 sn5 sn6 : Z)
    v st u d :
  pages !! 0 = Some h0 → pages !! 1 = Some h1 →
  fromhex h0 = Ret page0 → fromhex h1 = Ret page1 →
  take 3 page0 ++ take 4 page1 = [sn0; sn1; sn2; sn3; sn4; sn5; sn6] →
  check_uid_comprehensive (Some pages) uid_field = Ret (v, st, u, d) →
  (d_bcc0 d = true ↔
   page0 !! 3%nat = Some (Z.lxor (Z.lxor (Z.lxor 0x88 sn0) sn1) sn2))
  ∧ (d_bcc1 d = true ↔
     ∃ h2 page2, pages !! 2 = Some h2 ∧ fromhex h2 = Ret page2
       ∧ page2 !! 0%nat = Some (Z.lxor (Z.lxor (Z.lxor sn3 sn4) sn5) sn6))
  ∧ (pages !! 2 = None → d_bcc1 d = false).
Proof.
  intros E0 E1 F0 F1 Eu.
  unfold check_uid_comprehensive. rewrite E0, E1, F0, F1. cbn [res_bind].
  rewrite Eu. cbn [length unpack7 res_bind].
  rewrite bool_decide_eq_false_2 by lia.
  bind_step. rename E into Hb1.
  bind_step. split_tuples. bind_step. split_tuples.
  intros [= <- <- <- <-]. cbn [d_bcc0 d_bcc1].
  split; [|split].
  - destruct (page0 !! 3%nat) as [act|]; [|done].
    rewrite bool_decide_eq_true. split; [by intros ->|by intros [= ->]].
  - destruct (pages !! 2) as [h2|]; [|].
    + destruct (fromhex h2) as [page2|] eqn:F2; [|done].
      cbn [res_bind] in Hb1. destruct (page2 !! 0%nat) as [act|] eqn:P2.
      * injection Hb1 as <-. rewrite bool_decide_eq_true. split.
        -- intros ->. by exists h2, page2.
        -- intros (? & ? & [= <-] & F & Hp). rewrite F2 in F.
           injection F as <-. rewrite P2 in Hp. by injection Hp.
      * injection Hb1 as <-. split; [done|].
        intros (? & ? & [= <-] & F & Hp). rewrite F2 in F.
        injection F as <-. by rewrite P2 in Hp.
    + injection Hb1 as <-. split; [done|]. by intros (? & ? & ? & _).
  - intros P2. rewrite P2 in Hb1. by injection Hb1 as <-.
Qed.

Lemma bcc_checks_witness :
  (true = true ↔
   [0x04; 0xAB; 0x73; 0x54] !! 3%nat
   = Some (Z.lxor (Z.lxor (Z.lxor 0x88 0x04) 0xAB) 0x73))
  ∧ (true = true ↔
     ∃ h2 page2, bin_pages valid_bin !! 2 = Some h2 ∧ fromhex h2 = Ret page2
       ∧ page2 !! 0%nat = Some (Z.lxor (Z.lxor (Z.lxor 0x54 0xB8) 0xB6) 0x0F))
  ∧ (bin_pages valid_bin !! 2 = None → true = false).
Proof.
  apply (bcc_checks (bin_pages valid_bin) None "04AB7354" "54B8B60F"
           [0x04; 0xAB; 0x73; 0x54] [0x54; 0xB8; 0xB6; 0x0F]
           0x04 0xAB 0x73 0x54 0xB8 0xB6 0x0F
           true FieldReport "04 AB 73 54 B8 B6 0F"
           (Details true true true true true true true true true));
    vm_compute; reflexivity.
Defined.

(** ** Resampling SN3 *)

Lemma draw_not_88_inv (t t' : list Z) (d : Z) :
  draw_not_88 t = Some (d, t') → d ≠ 0x88 ∧ d ∈ t ∧ t' `suffix_of` t.
Proof.
  induction t as [|x t IH]; [done|]. simpl.
  case_bool_decide as Hx.
  - intros H. destruct (IH H) as (? & ? & ?).
    split_and!; [done|by right|by apply suffix_cons_r].
  - intros [= <- <-]. split_and!; [done|by left|]. by apply suffix_cons_r.
Qed.

Lemma draw_not_88_returns (t : list Z) :
  Exists (λ d, d ≠ 0x88) t → ∃ d t', draw_not_88 t = Some (d, t').
Proof.
  induction 1 as [x t Hx|x t _ IH]; simpl.
  - rewrite bool_decide_eq_false_2 by done. by eexists _, _.
  - case_bool_decide; [done|by eexists _, _].
Qed.

Lemma draw_not_88_diverges (t : list Z) :
  Forall (λ d, d = 0x88) t → draw_not_88 t = None.
Proof.
  induction 1 as [|x t Hx _ IH]; [done|]. simpl.
  by rewrite bool_decide_eq_true_2.
Qed.

Lemma fix_uid_unchanged (uid : list Z) (e : env) :
  uid !! 3%nat ≠ Some 0x88 →
  fix_uid_if_sn3_is_88 uid e = Some (Ret (uid, false), e).
Proof.
  intros H. unfold fix_uid_if_sn3_is_88.
  rewrite (bool_decide_eq_false_2 (uid !! 3%nat = Some 0x88)) by done.
  by rewrite andb_false_r.
Qed.

Lemma fix_uid_resampled (uid : list Z) (e : env) :
  is_bytes uid → uid !! 3%nat = Some 0x88 →
  is_bytes (tape e) → Exists (λ d, d ≠ 0x88) (tape e) →
  ∃ new t',
    fix_uid_if_sn3_is_88 uid e
    = Some (Ret (<[3%nat := new]> uid, true),
            Env (disk e) (backups e) (tracker e) (locked e)
                (backup_dir_ok e) t')
    ∧ is_byte new ∧ new ≠ 0x88 ∧ t' `suffix_of` tape e.
Proof.
  intros Hb H3 Ht Hex.
  destruct (draw_not_88_returns _ Hex) as (new & t' & Hd).
  destruct (draw_not_88_inv _ _ _ Hd) as (Hne & Hin & Hsuf).
  assert (Hnew : is_byte new).
  { unfold is_bytes in Ht. rewrite Forall_forall in Ht. by apply Ht. }
  exists new, t'. split_and!; try done.
  unfold fix_uid_if_sn3_is_88.
  rewrite (bool_decide_eq_true_2 (uid !! 3%nat = Some 0x88)) by done.
  rewrite bool_decide_eq_true_2 by (apply lookup_lt_Some in H3; lia).
  cbn [andb]. unfold bind, resample_sn3, lift, ret. rewrite Hd.
  rewrite bytes_of_ok; [done|].
  by apply Forall_insert.
Qed.

(** ** Computations on the world *)

Lemma bind_inv {A B : Type} (m : M A) (k : A → M B) (e e' : env) (r : B) :
  bind m k e = Some (Ret r, e') →
  ∃ a e1, m e = Some (Ret a, e1) ∧ k a e1 = Some (Ret r, e').
Proof.
  unfold bind. destruct (m e) as [[[a|x] e1]|]; try done.
  intros H. by exists a, e1.
Qed.

Lemma lift_inv {A : Type} (x : res A) (e e' : env) (a : A) :
  lift x e = Some (Ret a, e') → x = Ret a ∧ e' = e.
Proof. unfold lift. by intros [= -> ->]. Qed.

Lemma ret_inv {A : Type} (x a : A) (e e' : env) :
  ret x e = Some (Ret a, e') → a = x ∧ e' = e.
Proof. unfold ret. by intros [= -> ->]. Qed.

Lemma res_bind_inv {A B : Type} (m : res A) (k : A → res B) (r : B) :
  res_bind m k = Ret r → ∃ a, m = Ret a ∧ k a = Ret r.
Proof. destruct m as [a|]; [|done]. intros H. by exists a. Qed.

Lemma same_files_refl (e : env) : same_files e e.
Proof. by repeat split. Qed.

Lemma same_files_trans (e1 e2 e3 : env) :
  same_files e1 e2 → same_files e2 e3 → same_files e1 e3.
Proof.
  intros (?&?&?&?&?) (?&?&?&?&?). repeat split; congruence.
Qed.

Lemma fix_uid_inv (uid uid' : list Z) (b : bool) (e e' : env) :
  fix_uid_if_sn3_is_88 uid e = Some (Ret (uid', b), e') →
  same_files e e'
  ∧ length uid' = length uid
  ∧ (is_bytes uid → is_bytes uid')
  ∧ (b = false → uid' = uid ∧ e' = e ∧ uid !! 3%nat ≠ Some 0x88)
  ∧ (b = true → uid !! 3%nat = Some 0x88
       ∧ ∃ new, uid' = <[3%nat := new]> uid ∧ is_byte new ∧ new ≠ 0x88).
Proof.
  unfold fix_uid_if_sn3_is_88.
  destruct (bool_decide (4 ≤ length uid)%nat) eqn:E4;
    [destruct (bool_decide (uid !! 3%nat = Some 0x88)) eqn:E3|]; cbn [andb].
  - intros H. apply bind_inv in H as (new & e1 & Hr & H).
    apply bind_inv in H as (fixed & e2 & Hf & H).
    apply lift_inv in Hf as [Hf ->]. apply ret_inv in H as [[= -> ->] ->].
    apply bytes_of_inv in Hf as [-> Hfb].
    unfold resample_sn3 in Hr.
    destruct (draw_not_88 (tape e)) as [[d t]|] eqn:Hd; [|done].
    injection Hr as -> <-. apply draw_not_88_inv in Hd as (Hne & _ & _).
    apply bool_decide_eq_true in E3, E4.
    assert (is_byte new).
    { unfold is_bytes in Hfb. rewrite Forall_forall in Hfb. apply Hfb.
      apply list_elem_of_lookup. exists 3%nat.
      apply list_lookup_insert_eq. lia. }
    split_and!; try done.
    + by rewrite length_insert.
    + intros _. split; [done|]. by exists new.
  - intros H. apply ret_inv in H as [[= -> ->] ->].
    apply bool_decide_eq_false in E3.
    split_and!; try done; try apply same_files_refl.
  - intros H. apply ret_inv in H as [[= -> ->] ->].
    apply bool_decide_eq_false in E4.
    split_and!; try done; try apply same_files_refl.
    intros _. split_and!; try done.
    intros H3. apply lookup_lt_Some in H3. lia.
Qed.

(** ** Repair planner *)

Lemma list_of_password_inv (uid pw : list Z) :
  list_of_password uid = Ret pw →
  pw = derived_password uid ∧ is_bytes pw ∧ (7 ≤ length uid)%nat.
Proof.
  unfold list_of_password, calculate_password_from_uid.
  case_bool_decide as Hlen; [done|].
  rewrite !index_nth by lia. cbn [res_bind].
  fold (derived_password uid).
  destruct (bytes_of (derived_password uid)) as [l|] eqn:E; [|done].
  cbn [res_bind]. intros [= <-].
  apply bytes_of_inv in E as [-> ?]. split_and!; [done|done|lia].
Qed.

Lemma unpack7_inv (l : list Z) a b c d e f g :
  unpack7 l = Ret (a, b, c, d, e, f, g) → l = [a; b; c; d; e; f; g].
Proof.
  destruct l as [|? [|? [|? [|? [|? [|? [|? [|]]]]]]]]; try done.
  by intros [= -> -> -> -> -> -> ->].
Qed.

Lemma changes_of_nil_cons (c : option string) (l : list (option string)) :
  changes_of (c :: l) = [] → c = None ∧ changes_of l = [].
Proof. unfold changes_of. destruct c; [done|]. by simpl. Qed.

(** Steps through the planning code. *)
Ltac io_step H a e1 Ha :=
  apply bind_inv in H as (a & e1 & Ha & H).
Ltac io_lift H a Ha :=
  let e1 := fresh "e" in
  apply bind_inv in H as (a & e1 & Ha & H);
  apply lift_inv in Ha as [Ha ->].

Lemma bin_plan_inv (pages : gmap Z string) (fl : flags) (e e' : env) (p : plan) :
  bin_plan pages fl e = Some (Ret p, e') →
  same_files e e' ∧ plan_ok p ∧ (changes_made p = [] → e' = e).
Proof.
  unfold bin_plan. intros H.
  io_lift H h0 Hh0. io_lift H page0 Hp0. io_lift H h1 Hh1. io_lift H page1 Hp1.
  io_step H uf e1 Hfix. destruct uf as [uid' fixed].
  io_step H c_sn3 e2 Hc.
  assert (e2 = e1 ∧ (fixed = true → is_Some c_sn3)) as [-> Hsn3].
  { destruct fixed.
    - io_lift Hc b Hb. apply ret_inv in Hc as [-> ->]. by split.
    - apply ret_inv in Hc as [-> ->]. by split. }
  io_lift H u Hu. destruct u as [[[[[[sn0 sn1] sn2] sn3] sn4] sn5] sn6].
  apply unpack7_inv in Hu.
  io_lift H current_bcc0 Hcb. io_lift H c_bcc1 Hc1. io_lift H pw Hpw.
  io_lift H c_pw Hcpw. io_lift H c_pack Hcpack. io_lift H c_dlb Hcdlb.
  io_lift H c_cfg0 Hccfg0. io_lift H c_cfg1 Hccfg1.
  apply ret_inv in H as [-> ->].
  apply list_of_password_inv in Hpw as (Hpw & _ & _).
  assert (Hb : is_bytes (take 3 page0 ++ take 4 page1)).
  { apply Forall_app; split; apply Forall_take; by eapply fromhex_bytes. }
  assert (Hsf : same_files e e1 ∧ is_bytes uid' ∧ (fixed = false → e1 = e)).
  { destruct (fix_uid fl).
    - apply fix_uid_inv in Hfix as (? & ? & Hu' & Hf & _).
      split_and!; [done|by apply Hu'|]. intros Hff. by apply Hf.
    - apply ret_inv in Hfix as [[= -> ->] ->].
      split_and!; [apply same_files_refl|done|done]. }
  destruct Hsf as (Hsf & Hub & Hfe).
  split_and!; [done| |].
  - unfold plan_ok, uid_of. cbn [p_uid p_bcc0 p_bcc1 p_password].
    rewrite <- Hu. rewrite Hu at 2 3 4 5 6 7 8. by split_and!.
  - cbn [changes_made]. intros Hch.
    apply changes_of_nil_cons in Hch as [-> _].
    apply Hfe. destruct fixed; [|done].
    destruct (Hsn3 eq_refl) as [? [=]].
Qed.

(** ** Binary encoder: what it leaves alone *)

Lemma bind_inv_gen {A B : Type} (m : M A) (k : A → M B) (e e' : env)
    (r : res B) :
  bind m k e = Some (r, e') →
  (∃ a e1, m e = Some (Ret a, e1) ∧ k a e1 = Some (r, e'))
  ∨ (∃ x, m e = Some (Raise x, e') ∧ r = Raise x).
Proof.
  unfold bind. destruct (m e) as [[[a|x] e1]|]; try done.
  - intros H. left. by exists a, e1.
  - intros [= <- <-]. right. by exists x.
Qed.

Lemma frame_refl (d : list Z) : frame d d.
Proof. by split. Qed.

Lemma frame_trans (d1 d2 d3 : list Z) : frame d1 d2 → frame d2 d3 → frame d1 d3.
Proof.
  intros [L1 H1] [L2 H2]. split; [congruence|].
  intros i Hi. rewrite H2, H1; done.
Qed.

Lemma setitem_inv (d d' : list Z) (i : nat) (v : Z) :
  setitem d i v = Ret d' → d' = <[i := v]> d ∧ (i < length d)%nat ∧ is_byte v.
Proof.
  unfold setitem. case_bool_decide; [done|].
  destruct (0 <=? v) eqn:E1; [|done]. destruct (v <? 256) eqn:E2; [|done].
  cbn. intros [= <-]. apply Z.leb_le in E1. apply Z.ltb_lt in E2.
  split_and!; [done|lia|done].
Qed.

Lemma setslice_inv (d d' v : list Z) (a b : nat) :
  setslice d a b v = Ret d' → d' = take a d ++ v ++ drop b d ∧ is_bytes v.
Proof.
  unfold setslice. intros H. apply res_bind_inv in H as (v' & Hv & H).
  apply bytes_of_inv in Hv as [-> ?]. by injection H as <-.
Qed.

Lemma length_setslice (d v : list Z) (a b : nat) :
  (a ≤ b ≤ length d)%nat → length v = (b - a)%nat →
  length (take a d ++ v ++ drop b d) = length d.
Proof.
  intros Hab Hv. rewrite !length_app, length_take, length_drop. lia.
Qed.

Lemma lookup_setslice_ne (d v : list Z) (a b i : nat) :
  (a ≤ b ≤ length d)%nat → length v = (b - a)%nat → (i < a ∨ b ≤ i)%nat →
  (take a d ++ v ++ drop b d) !! i = d !! i.
Proof.
  intros Hab Hv [Hi|Hi].
  - rewrite lookup_app_l by (rewrite length_take; lia).
    apply lookup_take_lt. lia.
  - rewrite lookup_app_r by (rewrite length_take; lia).
    rewrite lookup_app_r by (rewrite length_take; lia).
    rewrite lookup_drop. f_equal. rewrite length_take. lia.
Qed.

Lemma lookup_setslice_eq (d v : list Z) (a b i : nat) :
  (a ≤ b ≤ length d)%nat → length v = (b - a)%nat → (a ≤ i < b)%nat →
  (take a d ++ v ++ drop b d) !! i = v !! (i - a)%nat.
Proof.
  intros Hab Hv Hi.
  rewrite lookup_app_r by (rewrite length_take; lia).
  rewrite length_take. rewrite lookup_app_l by lia. f_equal. lia.
Qed.

Lemma frame_setitem (d d' : list Z) (i : nat) (v : Z) :
  (i ≤ 8)%nat → setitem d i v = Ret d' → frame d d'.
Proof.
  intros Hi H. apply setitem_inv in H as (-> & _ & _). split.
  - apply length_insert.
  - intros j Hj. apply list_lookup_insert_ne. lia.
Qed.

Lemma frame_setslice (d d' v : list Z) (a : nat) :
  (520 ≤ a)%nat → (a + 4 ≤ 540)%nat → (540 ≤ length d)%nat →
  length v = 4%nat →
  setslice d a (a + 4) v = Ret d' → frame d d'.
Proof.
  intros Ha Hb Hd Hv H. apply setslice_inv in H as [-> _]. split.
  - apply length_setslice; lia.
  - intros j Hj. apply lookup_setslice_ne; lia.
Qed.

Lemma when_inv {A : Type} (c : bool) (f : A → res A) (x y : A) :
  when c f x = Ret y → (c = true ∧ f x = Ret y) ∨ (c = false ∧ y = x).
Proof. destruct c; simpl; [by left|]. intros [= <-]. by right. Qed.

Lemma bin_patch_frame (pages : gmap Z string) (fl : flags) (p : plan)
    (data nd : list Z) :
  (540 ≤ length data)%nat → length (p_password p) = 4%nat →
  bin_patch pages fl p data = Ret nd → frame data nd.
Proof.
  intros Hlen Hpw. unfold bin_patch.
  destruct (p_uid p) as [[[[[[sn0 sn1] sn2] sn3] sn4] sn5] sn6].
  intros H.
  apply res_bind_inv in H as (d1 & H1 & H).
  assert (F1 : frame data d1).
  { apply when_inv in H1 as [[_ H1]|[_ ->]]; [|apply frame_refl].
    apply res_bind_inv in H1 as (x1 & Hx1 & H1).
    apply res_bind_inv in H1 as (x2 & Hx2 & H1).
    eapply frame_trans; [eapply frame_setitem; [|exact Hx1]; lia|].
    eapply frame_trans; [eapply frame_setitem; [|exact Hx2]; lia|].
    eapply frame_setitem; [|exact H1]; lia. }
  apply res_bind_inv in H as (d2 & H2 & H).
  assert (F2 : frame d1 d2).
  { apply when_inv in H2 as [[_ H2]|[_ ->]]; [|apply frame_refl].
    eapply frame_setitem; [|exact H2]; lia. }
  apply res_bind_inv in H as (d3 & H3 & H).
  assert (F3 : frame d2 d3).
  { apply when_inv in H3 as [[_ H3]|[_ ->]]; [|apply frame_refl].
    apply res_bind_inv in H3 as (x1 & Hx1 & H3).
    apply res_bind_inv in H3 as (x2 & Hx2 & H3).
    apply res_bind_inv in H3 as (x3 & Hx3 & H3).
    eapply frame_trans; [eapply frame_setitem; [|exact Hx1]; lia|].
    eapply frame_trans; [eapply frame_setitem; [|exact Hx2]; lia|].
    eapply frame_trans; [eapply frame_setitem; [|exact Hx3]; lia|].
    eapply frame_setitem; [|exact H3]; lia. }
  apply res_bind_inv in H as (d4 & H4 & H).
  assert (F4 : frame d3 d4).
  { apply when_inv in H4 as [[_ H4]|[_ ->]]; [|apply frame_refl].
    eapply frame_setitem; [|exact H4]; lia. }
  pose proof (frame_trans _ _ _ (frame_trans _ _ _ (frame_trans _ _ _ F1 F2) F3) F4)
    as F. clear F1 F2 F3 F4 H1 H2 H3 H4.
  apply res_bind_inv in H as (d5 & H5 & H).
  assert (F5 : frame data d5).
  { apply (frame_trans _ _ _ F).
    apply when_inv in H5 as [[_ H5]|[_ ->]]; [|apply frame_refl].
    eapply (frame_setslice _ _ _ 520); [..|exact H5]; try done; try lia.
    destruct F as [-> _]. lia. }
  clear F. apply res_bind_inv in H as (d6 & H6 & H).
  assert (F6 : frame data d6).
  { apply (frame_trans _ _ _ F5).
    apply when_inv in H6 as [[_ H6]|[_ ->]]; [|apply frame_refl].
    eapply (frame_setslice _ _ _ 524); [..|exact H6]; try done; try lia.
    destruct F5 as [-> _]. lia. }
  clear F5. apply res_bind_inv in H as (d7 & H7 & H).
  assert (F7 : frame data d7).
  { apply (frame_trans _ _ _ F6).
    apply when_inv in H7 as [[_ H7]|[_ ->]]; [|apply frame_refl].
    eapply (frame_setslice _ _ _ 528); [..|exact H7]; try done; try lia.
    destruct F6 as [-> _]. lia. }
  clear F6. apply res_bind_inv in H as (d8 & H8 & H).
  assert (F8 : frame data d8).
  { apply (frame_trans _ _ _ F7).
    apply when_inv in H8 as [[_ H8]|[_ ->]]; [|apply frame_refl].
    eapply (frame_setslice _ _ _ 532); [..|exact H8]; try done; try lia.
    destruct F7 as [-> _]. lia. }
  clear F7. apply (frame_trans _ _ _ F8).
  apply when_inv in H as [[_ H]|[_ ->]]; [|apply frame_refl].
  eapply (frame_setslice _ _ _ 536); [..|exact H]; try done; try lia.
  destruct F8 as [-> _]. lia.
Qed.

Lemma pdisk_ret {A : Type} (a : A) : pdisk (ret a).
Proof. by intros e r e' [= <- <-]. Qed.

Lemma pdisk_lift {A : Type} (x : res A) : pdisk (lift x).
Proof. by intros e r e' [= <- <-]. Qed.

Lemma pdisk_bind {A B : Type} (m : M A) (k : A → M B) :
  pdisk m → (∀ a, pdisk (k a)) → pdisk (bind m k).
Proof.
  intros Hm Hk e r e' H.
  apply bind_inv_gen in H as [(a & e1 & H1 & H2)|(x & H1 & _)].
  - rewrite (Hk a _ _ _ H2). by eapply Hm.
  - by eapply Hm.
Qed.

Lemma pdisk_catch {A : Type} (m h : M A) : pdisk m → pdisk h → pdisk (catch m h).
Proof.
  intros Hm Hh e r e'. unfold catch.
  destruct (m e) as [[[a|x] e1]|] eqn:E; try done.
  - intros [= <- <-]. by eapply Hm.
  - intros H. rewrite (Hh _ _ _ H). by eapply Hm.
Qed.

Lemma pdisk_resample : pdisk resample_sn3.
Proof.
  intros e r e'. unfold resample_sn3.
  destruct (draw_not_88 (tape e)) as [[d t]|]; [|done]. by intros [= <- <-].
Qed.

Lemma pdisk_fix_uid (uid : list Z) : pdisk (fix_uid_if_sn3_is_88 uid).
Proof.
  unfold fix_uid_if_sn3_is_88. case_match; [|apply pdisk_ret].
  apply pdisk_bind; [apply pdisk_resample|]. intros new.
  apply pdisk_bind; [apply pdisk_lift|]. intros. apply pdisk_ret.
Qed.

Lemma pdisk_backup_file (filepath : string) : pdisk (backup_file filepath).
Proof.
  intros e r e'. unfold backup_file.
  repeat case_match; by intros [= <- <-].
Qed.

Lemma pdisk_read_text (filepath : string) : pdisk (read_text filepath).
Proof. intros e r e'. unfold read_text. repeat case_match; by intros [= <- <-]. Qed.

Lemma pdisk_read_bytes (filepath : string) : pdisk (read_bytes filepath).
Proof. intros e r e'. unfold read_bytes. repeat case_match; by intros [= <- <-]. Qed.

(** Closes [pdisk] goals for code built from the steps above. *)
Ltac pdisk_auto :=
  repeat first
    [ apply pdisk_ret | apply pdisk_lift | apply pdisk_resample
    | apply pdisk_fix_uid | apply pdisk_backup_file
    | apply pdisk_read_text | apply pdisk_read_bytes
    | apply pdisk_bind | apply pdisk_catch
    | progress intros
    | match goal with
      | |- pdisk (match ?x with _ => _ end) => destruct x
      end ].

Lemma pdisk_bin_plan (pages : gmap Z string) (fl : flags) :
  pdisk (bin_plan pages fl).
Proof. unfold bin_plan. pdisk_auto. Qed.

Lemma pdisk_extract_bin (filepath : string) :
  pdisk (extract_pages_from_bin filepath).
Proof. unfold extract_pages_from_bin. pdisk_auto. Qed.

Lemma extract_bin_eq (filepath : string) (e : env) :
  extract_pages_from_bin filepath e
  = Some (Ret (match disk e !! filepath with
               | Some (FBin data) =>
                   if bool_decide (length data < 540)%nat then (None, None)
                   else (Some (bin_pages data), Some data)
               | _ => (None, None)
               end), e).
Proof.
  unfold extract_pages_from_bin, catch, bind, read_bytes, ret.
  destruct (disk e !! filepath) as [[s|data]|]; try done.
  by case_bool_decide.
Qed.

Lemma write_file_inv (filepath : string) (c : fdata) (e e' : env) (r : res unit) :
  write_file filepath c e = Some (r, e') →
  (r = Raise OSError ∧ e' = e ∧ filepath ∈ locked e)
  ∨ (r = Ret () ∧ disk e' = <[filepath := c]> (disk e)
     ∧ backups e' = backups e ∧ tracker e' = tracker e
     ∧ locked e' = locked e ∧ tape e' = tape e ∧ filepath ∉ locked e).
Proof.
  unfold write_file. case_bool_decide.
  - intros [= <- <-]. by left.
  - intros [= <- <-]. right. by split_and!.
Qed.

Lemma fix_bin_file_inv (filepath : string) (fl : flags) (e e' : env)
    (r : res (bool * message * issues)) :
  fix_bin_file filepath fl e = Some (r, e') →
  disk e' = disk e
  ∨ ∃ data p nd backup,
      disk e !! filepath = Some (FBin data) ∧ (540 ≤ length data)%nat
      ∧ plan_ok p ∧ changes_made p ≠ []
      ∧ bin_patch (bin_pages data) fl p data = Ret nd
      ∧ disk e' = <[filepath := FBin nd]> (disk e)
      ∧ r = Ret (true, FixedSuccessfully backup (changes_made p),
                 Issues (p_issues p)).
Proof.
  unfold fix_bin_file. intros H.
  apply bind_inv_gen in H as [(a & e1 & H1 & H)|(x & H1 & _)];
    [|left; by eapply pdisk_extract_bin].
  rewrite extract_bin_eq in H1. injection H1 as <- <-.
  destruct (disk e !! filepath) as [[s|data]|] eqn:Ed;
    try (left; by injection H as <- <-).
  case_bool_decide as Hlen; [left; by injection H as <- <-|].
  case_bool_decide; [left; by injection H as <- <-|].
  case_match; [left; by injection H as <- <-|].
  apply bind_inv_gen in H as [(p & e1 & Hp & H)|(x & Hx & _)];
    [|left; by eapply pdisk_bin_plan].
  pose proof (pdisk_bin_plan _ _ _ _ _ Hp) as D1.
  apply bin_plan_inv in Hp as (_ & Hok & _).
  case_bool_decide as Hch; [left; injection H as <- <-; done|].
  apply bind_inv_gen in H as [(bk & e2 & Hb & H)|(x & Hx & _)];
    [|left; rewrite <- D1; by eapply pdisk_backup_file].
  pose proof (pdisk_backup_file _ _ _ _ Hb) as D2.
  apply bind_inv_gen in H as [(od & e3 & Ho & H)|(x & [=] & _)].
  injection Ho as <- <-.
  apply bind_inv_gen in H as [(nd & e3 & Hn & H)|(x & [= _ <-] & _)];
    [|left; congruence].
  apply lift_inv in Hn as [Hn ->].
  unfold catch in H.
  destruct (bind _ _ e2) as [[[a|x] e4]|] eqn:Hw; [| |done].
  - injection H as <- <-.
    apply bind_inv in Hw as ([] & e5 & Hw & Hr).
    apply ret_inv in Hr as [-> ->].
    apply write_file_inv in Hw as [(? & _)|(_ & Hd & _)]; [done|].
    right. exists data, p, nd, bk. split_and!; try done; [lia|congruence].
  - left. injection H as <- <-.
    apply bind_inv_gen in Hw as [(a & e5 & Hw & Hr)|(y & Hw & _)].
    + by injection Hr.
    + apply write_file_inv in Hw as [(_ & -> & _)|(? & _)]; [|done]. congruence.
Qed.

Lemma plan_ok_password_length (p : plan) :
  plan_ok p → length (p_password p) = 4%nat.
Proof. intros (_ & _ & _ & ->). reflexivity. Qed.

(** C7. Whatever the fix flags and the outcome of the binary repair, the
    file it leaves has the length of the original and the same byte at
    every offset outside [0, 8] and [520, 539] (pages 3 to 129 and any
    trailing bytes included); no other file changes. *)
Theorem fix_bin_file_frame (filepath : string) (fl : flags) (e e' : env)
    (r : res (bool * message * issues)) (data : list Z) :
  disk e !! filepath = Some (FBin data) →
  (540 ≤ length data)%nat →
  fix_bin_file filepath fl e = Some (r, e') →
  ∃ data',
    disk e' !! filepath = Some (FBin data')
    ∧ length data' = length data
    ∧ (∀ i : nat, (9 ≤ i < 520 ∨ 540 ≤ i)%nat → data' !! i = data !! i)
    ∧ ∀ other, other ≠ filepath → disk e' !! other = disk e !! other.
Proof.
  intros Hd Hlen H.
  apply fix_bin_file_inv in H
    as [->|(data0 & p & nd & bk & Hd0 & _ & Hok & _ & Hpatch & -> & _)].
  - exists data. by split_and!.
  - rewrite Hd in Hd0. injection Hd0 as <-.
    destruct (bin_patch_frame _ _ _ _ _ Hlen (plan_ok_password_length _ Hok) Hpatch)
      as [HL HF].
    exists nd. split_and!; [apply lookup_insert_eq|done|done|].
    intros other Hne. by apply lookup_insert_ne.
Qed.

Lemma fix_bin_file_frame_witness :
  ∃ r e' data',
    fix_bin_file "a" all_flags (sample_env (FBin sample_bin) [0x88; 0x21])
    = Some (r, e')
    ∧ disk e' !! "a"%string = Some (FBin data')
    ∧ length data' = length sample_bin
    ∧ (∀ i : nat, (9 ≤ i < 520 ∨ 540 ≤ i)%nat → data' !! i = sample_bin !! i)
    ∧ ∀ other, other ≠ "a"%string →
        disk e' !! other
        = disk (sample_env (FBin sample_bin) [0x88; 0x21]) !! other.
Proof.
  destruct (fix_bin_file "a" all_flags
              (sample_env (FBin sample_bin) [0x88; 0x21]))
    as [[r e']|] eqn:E.
  - exists r, e'.
    destruct (fix_bin_file_frame "a" all_flags
                (sample_env (FBin sample_bin) [0x88; 0x21]) e' r sample_bin)
      as (data' & H1 & H2 & H3 & H4).
    + vm_compute. reflexivity.
    + apply (bool_decide_unpack _). vm_compute. exact I.
    + exact E.
    + exists data'. by split_and!.
  - vm_compute in E. discriminate E.
Defined.

(** ** Binary decoder *)

Lemma hex_digit_val (x : Z) :
  0 ≤ x < 16 →
  hexval (hex_digit x) = Some x ∧ Py_ISSPACE (hex_digit x) = false.
Proof.
  intros H.
  assert (x = 0 ∨ x = 1 ∨ x = 2 ∨ x = 3 ∨ x = 4 ∨ x = 5 ∨ x = 6 ∨ x = 7
          ∨ x = 8 ∨ x = 9 ∨ x = 10 ∨ x = 11 ∨ x = 12 ∨ x = 13 ∨ x = 14
          ∨ x = 15) as Hx by lia.
  repeat (destruct Hx as [->|Hx]; [by split|]). subst. by split.
Qed.

Lemma hex_packed_cons (b : Z) (bs : list Z) :
  hex_packed (b :: bs) = fmt_02X b +:+ hex_packed bs.
Proof.
  unfold hex_packed. cbn [fmap list_fmap join].
  destruct (fmt_02X <$> bs) eqn:E; [|done].
  unfold fmt_02X. by cbn.
Qed.

Lemma fromhex_hex_packed (bs : list Z) :
  is_bytes bs → fromhex (hex_packed bs) = Ret bs.
Proof.
  induction 1 as [|b bs Hb _ IH]; [done|].
  rewrite hex_packed_cons. unfold fmt_02X. unfold is_byte in Hb.
  change (fromhex (String (hex_digit (b / 16))
                    (String (hex_digit (b mod 16)) (hex_packed bs)))
          = Ret (b :: bs)).
  cbn [fromhex].
  destruct (hex_digit_val (b / 16)) as [-> ->];
    [split; [apply Z.div_pos; lia|apply Z.div_lt_upper_bound; lia]|].
  destruct (hex_digit_val (b mod 16)) as [-> _];
    [apply Z.mod_pos_bound; lia|].
  rewrite IH. cbn [res_bind]. do 2 f_equal.
  pose proof (Z.div_mod b 16). lia.
Qed.

Lemma page_of_length (data : list Z) (k : nat) :
  (4 * k + 4 ≤ length data)%nat → length (page_of data k) = 4%nat.
Proof.
  intros H. unfold page_of. rewrite length_take, length_drop. lia.
Qed.

Lemma page_of_bytes (data : list Z) (k : nat) :
  is_bytes data → is_bytes (page_of data k).
Proof. intros H. unfold page_of. by apply Forall_take, Forall_drop. Qed.

Lemma length4_inv (l : list Z) :
  length l = 4%nat → ∃ a b c d, l = [a; b; c; d].
Proof.
  destruct l as [|a [|b [|c [|d [|]]]]]; try done. by exists a, b, c, d.
Qed.

Lemma bin_pages_lookup (data : list Z) (k : nat) :
  (540 ≤ length data)%nat →
  k ∈ [0; 1; 2; 130; 131; 132; 133; 134]%nat →
  bin_pages data !! Z.of_nat k = Some (hex_packed (page_of data k)).
Proof.
  intros Hlen Hk. unfold bin_pages, tracked_pages. cbn [foldl].
  rewrite !bool_decide_eq_true_2 by lia.
  repeat (apply elem_of_cons in Hk as [->|Hk];
          [repeat (rewrite lookup_insert_ne by done);
           by rewrite lookup_insert_eq|]).
  by apply elem_of_nil in Hk.
Qed.

Lemma bin_pages_decodable (data : list Z) :
  is_bytes data → decodable (bin_pages data).
Proof.
  intros Hb. unfold bin_pages, tracked_pages. cbn [foldl].
  assert (∀ l, is_bytes l → is_ret (fromhex (hex_packed l))) as Hl.
  { intros l Hl. by rewrite fromhex_hex_packed. }
  unfold decodable.
  repeat case_bool_decide;
    repeat (apply map_Forall_insert_2;
            [apply Hl; unfold slice; by apply Forall_take, Forall_drop|]);
    apply map_Forall_empty.
Qed.

(** ** Windows of a buffer *)

Lemma ow_length (d d' : list Z) (a : nat) (v : list Z) :
  ow d d' a v → length d' = length d.
Proof.
  intros [-> H]. unfold overwrite.
  rewrite !length_app, length_take, length_drop. lia.
Qed.

Lemma ow_get_eq (d d' : list Z) (a : nat) (v : list Z) :
  ow d d' a v → take (length v) (drop a d') = v.
Proof.
  intros [-> H]. unfold overwrite.
  rewrite drop_app_length' by (rewrite length_take; lia).
  by rewrite take_app_length.
Qed.

Lemma ow_get_ne (d d' : list Z) (a : nat) (v : list Z) (a' n : nat) :
  ow d d' a v → (a' + n ≤ a ∨ a + length v ≤ a')%nat →
  take n (drop a' d') = take n (drop a' d).
Proof.
  intros [-> H] Hd. apply list_eq. intros i.
  destruct (decide (i < n)%nat) as [Hi|Hi].
  - rewrite !lookup_take_lt, !lookup_drop by done. unfold overwrite.
    destruct Hd as [Hd|Hd].
    + rewrite lookup_app_l by (rewrite length_take; lia).
      apply lookup_take_lt. lia.
    + rewrite lookup_app_r by (rewrite length_take; lia).
      rewrite lookup_app_r by (rewrite length_take; lia).
      rewrite lookup_drop. f_equal. rewrite length_take. lia.
  - rewrite !lookup_take_ge by lia. done.
Qed.

Lemma ow_insert (d : list Z) (i : nat) (x : Z) :
  (i < length d)%nat → ow d (<[i := x]> d) i [x].
Proof.
  intros H. split; [|simpl; lia]. unfold overwrite.
  rewrite insert_take_drop by done. simpl. do 3 f_equal. lia.
Qed.

Lemma ow_setslice (d v : list Z) (a b : nat) :
  b = (a + length v)%nat → (b ≤ length d)%nat →
  ow d (take a d ++ v ++ drop b d) a v.
Proof. intros -> H. by split. Qed.

Lemma take_split4 (l : list Z) (a : nat) :
  take 4 (drop a l)
  = take 1 (drop a l) ++ take 1 (drop (a + 1) l)
    ++ take 1 (drop (a + 2) l) ++ take 1 (drop (a + 3) l).
Proof.
  rewrite <- !drop_drop.
  generalize (drop a l). intros m.
  destruct m as [|x0 [|x1 [|x2 [|x3 m]]]]; done.
Qed.

Lemma take_split13 (l : list Z) (a : nat) :
  take 4 (drop a l) = take 1 (drop a l) ++ take 3 (drop (a + 1) l).
Proof.
  rewrite <- !drop_drop.
  generalize (drop a l). intros m.
  destruct m as [|x0 [|x1 [|x2 [|x3 m]]]]; done.
Qed.

Lemma bin_pages_lookups (data : list Z) :
  (540 ≤ length data)%nat →
  bin_pages data !! 0 = Some (hex_packed (page_of data 0))
  ∧ bin_pages data !! 1 = Some (hex_packed (page_of data 1))
  ∧ bin_pages data !! 2 = Some (hex_packed (page_of data 2))
  ∧ bin_pages data !! 130 = Some (hex_packed (page_of data 130))
  ∧ bin_pages data !! 131 = Some (hex_packed (page_of data 131))
  ∧ bin_pages data !! 132 = Some (hex_packed (page_of data 132))
  ∧ bin_pages data !! 133 = Some (hex_packed (page_of data 133))
  ∧ bin_pages data !! 134 = Some (hex_packed (page_of data 134)).
Proof.
  intros H. split_and!.
  - apply (bin_pages_lookup data 0 H). set_solver.
  - apply (bin_pages_lookup data 1 H). set_solver.
  - apply (bin_pages_lookup data 2 H). set_solver.
  - apply (bin_pages_lookup data 130 H). set_solver.
  - apply (bin_pages_lookup data 131 H). set_solver.
  - apply (bin_pages_lookup data 132 H). set_solver.
  - apply (bin_pages_lookup data 133 H). set_solver.
  - apply (bin_pages_lookup data 134 H). set_solver.
Qed.

Lemma fromhex_page (data : list Z) (k : nat) :
  is_bytes data → fromhex (hex_packed (page_of data k)) = Ret (page_of data k).
Proof. intros H. by apply fromhex_hex_packed, page_of_bytes. Qed.

(** The validator accepts every dump whose tracked fields hold their
    derived values. *)
Lemma check_bin_valid (data : list Z) :
  (540 ≤ length data)%nat → is_bytes data → image_valid data →
  ∃ u, check_uid_comprehensive (Some (bin_pages data)) None
       = Ret (true, FieldReport, u,
              Details true true true true true true true true true).
Proof.
  intros Hlen Hb (sn0 & sn1 & sn2 & sn3 & sn4 & sn5 & sn6 & x1 & x2 & x3
                  & P0 & P1 & Hsn3 & P2 & P130 & P131 & P132 & P133 & P134).
  destruct (bin_pages_lookups data Hlen)
    as (L0 & L1 & L2 & L130 & L131 & L132 & L133 & L134).
  assert (Hu : is_bytes [sn0; sn1; sn2; sn3; sn4; sn5; sn6]).
  { pose proof (page_of_bytes data 0 Hb) as B0.
    pose proof (page_of_bytes data 1 Hb) as B1.
    rewrite P0 in B0. rewrite P1 in B1.
    apply (Forall_app _ [sn0; sn1; sn2] [sn3; sn4; sn5; sn6]). split.
    - by apply (Forall_take _ 3%nat) in B0.
    - done. }
  eexists. unfold check_uid_comprehensive, validate_dlb_and_cfg.
  rewrite L0, L1, L2, L130, L131, L132, L133, L134.
  rewrite !fromhex_page by done.
  rewrite P0, P1, P2, P130, P131, P132, P133, P134.
  cbn [res_bind take app length unpack7 lookup list_lookup].
  rewrite (calculate_password_ge7 _ Hu) by (simpl; lia).
  rewrite (bool_decide_eq_false_2 (7 < 7)%nat) by lia.
  rewrite (bool_decide_eq_false_2 (sn3 = 136)) by done.
  unfold derived_password, correct_pack, correct_dlb, correct_cfg0,
    correct_cfg1.
  cbn [res_bind take length].
  repeat (repeat (rewrite bool_decide_eq_true_2 by (done || lia));
          repeat (rewrite bool_decide_eq_false_2 by lia);
          progress cbn [res_bind andb orb negb]).
  reflexivity.
Qed.

(** ** Binary repair with every fix enabled *)

Lemma plan_page_known (pages : gmap Z string) (n : Z) (label : string)
    (correct P : list Z) :
  pages !! n = Some (hex_packed P) → is_bytes P → length P = 4%nat →
  plan_page true pages n label correct
  = Ret (if bool_decide (P ≠ correct)
         then Some ("Fixed " +:+ label +:+ ": " +:+ hex_spaced P
                    +:+ " -> " +:+ hex_spaced correct)
         else None).
Proof.
  intros HL HB Hlen. unfold plan_page. rewrite HL.
  rewrite fromhex_hex_packed by done. cbn [res_bind].
  rewrite bool_decide_eq_true_2 by lia.
  rewrite take_ge by lia. by case_bool_decide.
Qed.

Lemma plan_bcc1_known (pages : gmap Z string) (correct_bcc1 c0 : Z)
    (P : list Z) :
  pages !! 2 = Some (hex_packed (c0 :: P)) → is_bytes (c0 :: P) →
  plan_bcc1 true pages correct_bcc1
  = Ret (if bool_decide (c0 ≠ correct_bcc1)
         then Some ("Fixed BCC1: " +:+ fmt_02X c0 +:+ " -> "
                    +:+ fmt_02X correct_bcc1)
         else None).
Proof.
  intros HL HB. unfold plan_bcc1. rewrite HL.
  rewrite fromhex_hex_packed by done. cbn [res_bind lookup list_lookup].
  by case_bool_decide.
Qed.

Lemma list_of_password_ok (uid : list Z) :
  is_bytes uid → (7 ≤ length uid)%nat →
  list_of_password uid = Ret (derived_password uid).
Proof.
  intros Hb Hl. unfold list_of_password.
  by rewrite calculate_password_ge7.
Qed.

Lemma if_none_inv {A : Type} (c : bool) (x : A) :
  (if c then Some x else None) = None → c = false.
Proof. by destruct c. Qed.

Lemma bin_plan_all (data : list Z) (e : env) :
  (540 ≤ length data)%nat → is_bytes data →
  is_bytes (tape e) → Exists (λ d, d ≠ 0x88) (tape e) →
  ∃ p e',
    bin_plan (bin_pages data) all_flags e = Some (Ret p, e')
    ∧ nth 3 (uid_of p) 0 ≠ 0x88
    ∧ (changes_made p = [] → image_valid data).
Proof.
  intros Hlen Hb Ht Hex.
  destruct (bin_pages_lookups data Hlen)
    as (L0 & L1 & L2 & L130 & L131 & L132 & L133 & L134).
  destruct (length4_inv (page_of data 0)) as (a0 & a1 & a2 & a3 & P0);
    [apply page_of_length; lia|].
  destruct (length4_inv (page_of data 1)) as (b0 & b1 & b2 & b3 & P1);
    [apply page_of_length; lia|].
  destruct (length4_inv (page_of data 2)) as (c0 & c1 & c2 & c3 & P2);
    [apply page_of_length; lia|].
  pose proof (page_of_bytes data 0 Hb) as B0. rewrite P0 in B0.
  pose proof (page_of_bytes data 1 Hb) as B1. rewrite P1 in B1.
  pose proof (page_of_bytes data 2 Hb) as B2.
  assert (Hfix : ∃ s3 e1,
    fix_uid_if_sn3_is_88 [a0; a1; a2; b0; b1; b2; b3] e
    = Some (Ret ([a0; a1; a2; s3; b1; b2; b3], bool_decide (b0 = 0x88)), e1)
    ∧ is_byte s3 ∧ s3 ≠ 0x88 ∧ (b0 ≠ 0x88 → s3 = b0)).
  { destruct (decide (b0 = 0x88)) as [->|Hne].
    - destruct (fix_uid_resampled [a0; a1; a2; 0x88; b1; b2; b3] e)
        as (new & t' & Hrun & Hnew & Hnne & _); try done.
      { apply (Forall_app _ [a0; a1; a2] [0x88; b1; b2; b3]). split; [|done].
        by apply (Forall_take _ 3%nat) in B0. }
      exists new. eexists. split_and!; [exact Hrun|done|done|done].
    - exists b0, e. rewrite bool_decide_eq_false_2 by done.
      split_and!; try done.
      + apply fix_uid_unchanged. cbn. congruence.
      + by inversion B1. }
  destruct Hfix as (s3 & e1 & Hfix & Hs3 & Hs3ne & Hs3eq).
  assert (Hub : is_bytes [a0; a1; a2; s3; b1; b2; b3]).
  { inversion B0 as [|? ? ? B0']. inversion B0' as [|? ? ? B0''].
    inversion B0'' as [|? ? ? _]. inversion B1 as [|? ? ? B1'].
    repeat (constructor; [done|]). done. }
  eexists. exists e1. split_and!.
  - unfold bin_plan, all_flags.
    cbn [fix_uid fix_bcc fix_password fix_pack fix_dlb fix_cfg].
    unfold getitem. rewrite L0, L1. unfold bind at 1 2 3 4. cbn [lift].
    rewrite !fromhex_page by done.
    rewrite P0, P1. cbn [take app].
    unfold bind at 1. rewrite Hfix.
    assert (Hsn3 :
      (if bool_decide (b0 = 0x88)
       then io b <- lift (index [a0; a1; a2; s3; b1; b2; b3] 3);
            ret (Some ("Fixed CT in SN3 from 0x88 to 0x" +:+ fmt_02X b))
       else ret None) e1
      = Some (Ret (if bool_decide (b0 = 0x88)
                   then Some ("Fixed CT in SN3 from 0x88 to 0x"
                              +:+ fmt_02X s3)
                   else None), e1)).
    { by destruct (bool_decide (b0 = 0x88)). }
    unfold bind at 1. rewrite Hsn3.
    unfold bind at 1 2. cbn [lift unpack7 index lookup list_lookup].
    unfold bind at 1.
    rewrite (plan_bcc1_known _ _ c0 [c1; c2; c3])
      by (rewrite <- ?P2; done).
    cbn [lift].
    unfold bind at 1.
    rewrite (list_of_password_ok _ Hub) by (simpl; lia).
    cbn [lift].
    unfold bind at 1.
    rewrite (plan_page_known _ 133 _ _ _ L133)
      by (by apply page_of_bytes || (apply page_of_length; lia)).
    cbn [lift]. unfold bind at 1.
    rewrite (plan_page_known _ 134 _ _ _ L134)
      by (by apply page_of_bytes || (apply page_of_length; lia)).
    cbn [lift]. unfold bind at 1.
    rewrite (plan_page_known _ 130 _ _ _ L130)
      by (by apply page_of_bytes || (apply page_of_length; lia)).
    cbn [lift]. unfold bind at 1.
    rewrite (plan_page_known _ 131 _ _ _ L131)
      by (by apply page_of_bytes || (apply page_of_length; lia)).
    cbn [lift]. unfold bind at 1.
    rewrite (plan_page_known _ 132 _ _ _ L132)
      by (by apply page_of_bytes || (apply page_of_length; lia)).
    cbn [lift]. unfold ret. reflexivity.
  - cbn [uid_of p_uid nth]. done.
  - cbn [changes_made]. intros Hch.
    apply changes_of_nil_cons in Hch as [H1 Hch].
    apply changes_of_nil_cons in Hch as [H2 Hch].
    apply changes_of_nil_cons in Hch as [H3 Hch].
    apply changes_of_nil_cons in Hch as [H4 Hch].
    apply changes_of_nil_cons in Hch as [H5 Hch].
    apply changes_of_nil_cons in Hch as [H6 Hch].
    apply changes_of_nil_cons in Hch as [H7 Hch].
    apply changes_of_nil_cons in Hch as [H8 _].
    apply if_none_inv, bool_decide_eq_false in H1.
    apply if_none_inv in H2. cbn [andb] in H2.
    apply bool_decide_eq_false, dec_stable in H2.
    apply if_none_inv, bool_decide_eq_false, dec_stable in H3.
    apply if_none_inv, bool_decide_eq_false, dec_stable in H4.
    apply if_none_inv, bool_decide_eq_false, dec_stable in H5.
    apply if_none_inv, bool_decide_eq_false, dec_stable in H6.
    apply if_none_inv, bool_decide_eq_false, dec_stable in H7.
    apply if_none_inv, bool_decide_eq_false, dec_stable in H8.
    rewrite (Hs3eq H1) in *.
    exists a0, a1, a2, b0, b1, b2, b3, c1, c2, c3.
    split_and!; try done; congruence.
Qed.

Lemma setitem_ok (d : list Z) (i : nat) (v : Z) :
  (i < length d)%nat → is_byte v → setitem d i v = Ret (<[i := v]> d).
Proof.
  intros Hi [H0 H1]. unfold setitem.
  rewrite bool_decide_eq_false_2 by lia.
  replace (0 <=? v) with true by (symmetry; by apply Z.leb_le).
  replace (v <? 256) with true by (symmetry; by apply Z.ltb_lt).
  done.
Qed.

Lemma setslice_ok (d v : list Z) (a b : nat) :
  is_bytes v → setslice d a b v = Ret (take a d ++ v ++ drop b d).
Proof. intros H. unfold setslice. by rewrite bytes_of_ok. Qed.

Lemma is_bytes_setslice (d v : list Z) (a b : nat) :
  is_bytes d → is_bytes v → is_bytes (take a d ++ v ++ drop b d).
Proof.
  intros Hd Hv. apply Forall_app. split; [by apply Forall_take|].
  apply Forall_app. split; [done|by apply Forall_drop].
Qed.

Lemma take3_inv (l : list Z) (a : nat) :
  (a + 3 ≤ length l)%nat → ∃ x y z, take 3 (drop a l) = [x; y; z].
Proof.
  intros H. pose proof (length_drop l a) as HL.
  destruct (drop a l) as [|x [|y [|z m]]]; simpl in HL; try lia.
  by exists x, y, z.
Qed.

Lemma bin_patch_all (data : list Z) (p : plan) :
  (540 ≤ length data)%nat → is_bytes data → plan_ok p →
  nth 3 (uid_of p) 0 ≠ 0x88 →
  ∃ nd, bin_patch (bin_pages data) all_flags p data = Ret nd
        ∧ length nd = length data ∧ is_bytes nd ∧ image_valid nd.
Proof.
  intros Hlen Hb (Hub & Hbcc0 & Hbcc1 & Hpw) Hsn3.
  destruct (bin_pages_lookups data Hlen)
    as (L0 & L1 & L2 & L130 & L131 & L132 & L133 & L134).
  unfold bin_patch, all_flags, uid_of in *.
  destruct (p_uid p) as [[[[[[sn0 sn1] sn2] sn3] sn4] sn5] sn6].
  cbn [nth] in Hbcc0, Hbcc1, Hsn3.
  assert (Bu : is_byte sn0 ∧ is_byte sn1 ∧ is_byte sn2 ∧ is_byte sn3
               ∧ is_byte sn4 ∧ is_byte sn5 ∧ is_byte sn6).
  { unfold is_bytes in Hub. rewrite !Forall_cons in Hub. tauto. }
  destruct Bu as (B0 & B1 & B2 & B3 & B4 & B5 & B6).
  assert (Bb0 : is_byte (p_bcc0 p)).
  { rewrite Hbcc0. repeat apply lxor_byte; try done; unfold is_byte; lia. }
  assert (Bb1 : is_byte (p_bcc1 p)).
  { rewrite Hbcc1. by repeat apply lxor_byte. }
  assert (Bpw : is_bytes (p_password p)).
  { rewrite Hpw. by apply derived_password_bytes. }
  assert (Lpw : length (p_password p) = 4%nat) by (by rewrite Hpw).
  cbn [fix_uid fix_bcc fix_password fix_pack fix_dlb fix_cfg andb].
  rewrite L2, L130, L131, L132, L133, L134.
  rewrite !bool_decide_eq_true_2 by eauto.
  cbn [when].
  set (d1 := <[0%nat := sn0]> data).
  set (d2 := <[1%nat := sn1]> d1).
  set (d3 := <[2%nat := sn2]> d2).
  set (d4 := <[3%nat := p_bcc0 p]> d3).
  set (d5 := <[4%nat := sn3]> d4).
  set (d6 := <[5%nat := sn4]> d5).
  set (d7 := <[6%nat := sn5]> d6).
  set (d8 := <[7%nat := sn6]> d7).
  set (d9 := <[8%nat := p_bcc1 p]> d8).
  set (d10 := take 520 d9 ++ correct_dlb ++ drop 524 d9).
  set (d11 := take 524 d10 ++ correct_cfg0 ++ drop 528 d10).
  set (d12 := take 528 d11 ++ correct_cfg1 ++ drop 532 d11).
  set (d13 := take 532 d12 ++ p_password p ++ drop 536 d12).
  set (d14 := take 536 d13 ++ correct_pack ++ drop 540 d13).
  assert (O1 : ow data d1 0 [sn0]) by (apply ow_insert; lia).
  pose proof (ow_length _ _ _ _ O1) as N1.
  assert (O2 : ow d1 d2 1 [sn1]) by (apply ow_insert; lia).
  pose proof (ow_length _ _ _ _ O2) as N2.
  assert (O3 : ow d2 d3 2 [sn2]) by (apply ow_insert; lia).
  pose proof (ow_length _ _ _ _ O3) as N3.
  assert (O4 : ow d3 d4 3 [p_bcc0 p]) by (apply ow_insert; lia).
  pose proof (ow_length _ _ _ _ O4) as N4.
  assert (O5 : ow d4 d5 4 [sn3]) by (apply ow_insert; lia).
  pose proof (ow_length _ _ _ _ O5) as N5.
  assert (O6 : ow d5 d6 5 [sn4]) by (apply ow_insert; lia).
  pose proof (ow_length _ _ _ _ O6) as N6.
  assert (O7 : ow d6 d7 6 [sn5]) by (apply ow_insert; lia).
  pose proof (ow_length _ _ _ _ O7) as N7.
  assert (O8 : ow d7 d8 7 [sn6]) by (apply ow_insert; lia).
  pose proof (ow_length _ _ _ _ O8) as N8.
  assert (O9 : ow d8 d9 8 [p_bcc1 p]) by (apply ow_insert; lia).
  pose proof (ow_length _ _ _ _ O9) as N9.
  assert (O10 : ow d9 d10 520 correct_dlb) by (apply ow_setslice; [done|lia]).
  pose proof (ow_length _ _ _ _ O10) as N10.
  assert (O11 : ow d10 d11 524 correct_cfg0) by (apply ow_setslice; [done|lia]).
  pose proof (ow_length _ _ _ _ O11) as N11.
  assert (O12 : ow d11 d12 528 correct_cfg1) by (apply ow_setslice; [done|lia]).
  pose proof (ow_length _ _ _ _ O12) as N12.
  assert (O13 : ow d12 d13 532 (p_password p))
    by (apply ow_setslice; [by rewrite Lpw|lia]).
  pose proof (ow_length _ _ _ _ O13) as N13.
  assert (O14 : ow d13 d14 536 correct_pack) by (apply ow_setslice; [done|lia]).
  pose proof (ow_length _ _ _ _ O14) as N14.
  exists d14. split_and!.
  - rewrite (setitem_ok data) by (done || lia). cbn [res_bind]. fold d1.
    rewrite (setitem_ok d1) by (done || lia). cbn [res_bind]. fold d2.
    rewrite (setitem_ok d2) by (done || lia). cbn [res_bind]. fold d3.
    rewrite (setitem_ok d3) by (done || lia). cbn [res_bind]. fold d4.
    rewrite (setitem_ok d4) by (done || lia). cbn [res_bind]. fold d5.
    rewrite (setitem_ok d5) by (done || lia). cbn [res_bind]. fold d6.
    rewrite (setitem_ok d6) by (done || lia). cbn [res_bind]. fold d7.
    rewrite (setitem_ok d7) by (done || lia). cbn [res_bind]. fold d8.
    rewrite (setitem_ok d8) by (done || lia). cbn [res_bind]. fold d9.
    rewrite (setslice_ok d9) by (by repeat constructor).
    cbn [res_bind]. fold d10.
    rewrite (setslice_ok d10) by (by repeat constructor).
    cbn [res_bind]. fold d11.
    rewrite (setslice_ok d11) by (by repeat constructor).
    cbn [res_bind]. fold d12.
    rewrite (setslice_ok d12) by done.
    cbn [res_bind]. fold d13.
    rewrite (setslice_ok d13) by (by repeat constructor).
    reflexivity.
  - lia.
  - unfold d14, d13, d12, d11, d10.
    repeat (apply is_bytes_setslice; [|done || by repeat constructor]).
    unfold d9, d8, d7, d6, d5, d4, d3, d2, d1.
    by repeat apply Forall_insert.
  - pose proof (ow_get_eq _ _ _ _ O1) as G1.
    pose proof (ow_get_eq _ _ _ _ O2) as G2.
    pose proof (ow_get_eq _ _ _ _ O3) as G3.
    pose proof (ow_get_eq _ _ _ _ O4) as G4.
    pose proof (ow_get_eq _ _ _ _ O5) as G5.
    pose proof (ow_get_eq _ _ _ _ O6) as G6.
    pose proof (ow_get_eq _ _ _ _ O7) as G7.
    pose proof (ow_get_eq _ _ _ _ O8) as G8.
    pose proof (ow_get_eq _ _ _ _ O9) as G9.
    pose proof (ow_get_eq _ _ _ _ O10) as G10.
    pose proof (ow_get_eq _ _ _ _ O11) as G11.
    pose proof (ow_get_eq _ _ _ _ O12) as G12.
    pose proof (ow_get_eq _ _ _ _ O13) as G13. rewrite Lpw in G13.
    pose proof (ow_get_eq _ _ _ _ O14) as G14.
    cbn [length correct_dlb correct_cfg0 correct_cfg1 correct_pack]
      in G1, G2, G3, G4, G5, G6, G7, G8, G9, G10, G11, G12, G14.
    destruct (take3_inv data 9) as (x1 & x2 & x3 & E9); [lia|].
    exists sn0, sn1, sn2, sn3, sn4, sn5, sn6, x1, x2, x3.
    unfold page_of.
    change (4 * 0)%nat with 0%nat. change (4 * 1)%nat with 4%nat.
    change (4 * 2)%nat with 8%nat. change (4 * 130)%nat with 520%nat.
    change (4 * 131)%nat with 524%nat. change (4 * 132)%nat with 528%nat.
    change (4 * 133)%nat with 532%nat. change (4 * 134)%nat with 536%nat.
    rewrite (take_split4 d14 0), (take_split4 d14 4), (take_split13 d14 8).
    cbn [Nat.add].
    repeat match goal with
      | O : ow ?d ?d' ?a ?v |- context [take ?n (drop ?a' ?d')] =>
          rewrite (ow_get_ne d d' a v a' n O) by (cbn [length]; lia)
      | G : take ?n (drop ?a ?d') = _ |- context [take ?n (drop ?a ?d')] =>
          rewrite G
      end.
    rewrite Hbcc0, Hbcc1, Hpw. by split_and!.
Qed.

Lemma backup_file_returns (filepath : string) (e : env) :
  ∃ bk e', backup_file filepath e = Some (Ret bk, e')
           ∧ disk e' = disk e ∧ locked e' = locked e.
Proof.
  unfold backup_file. repeat case_match; by eexists _, _.
Qed.

Lemma bin_pages_nonempty (data : list Z) :
  (540 ≤ length data)%nat → bin_pages data ≠ ∅.
Proof.
  intros H E. destruct (bin_pages_lookups data H) as (L0 & _).
  rewrite E in L0. by rewrite lookup_empty in L0.
Qed.

(** C10. With every fix enabled, a writable file and a random source
    that eventually yields a byte other than [0x88], the binary repair of
    a dump of at least 540 bytes succeeds and leaves a dump whose SN3 is
    not [0x88], whose BCC0, BCC1 and password are the values derived from
    its UID, and whose pages 130, 131, 132 and 134 hold their constants;
    the validator, run on the pages read back from the file, judges it
    valid in every field. *)
Theorem fix_bin_file_all_valid (filepath : string) (e : env) (data : list Z) :
  disk e !! filepath = Some (FBin data) →
  (540 ≤ length data)%nat → is_bytes data →
  filepath ∉ locked e →
  is_bytes (tape e) → Exists (λ d, d ≠ 0x88) (tape e) →
  ∃ msg iss e' data' u,
    fix_bin_file filepath all_flags e = Some (Ret (true, msg, iss), e')
    ∧ disk e' !! filepath = Some (FBin data')
    ∧ image_valid data'
    ∧ extract_pages_from_bin filepath e'
      = Some (Ret (Some (bin_pages data'), Some data'), e')
    ∧ check_uid_comprehensive (Some (bin_pages data')) None
      = Ret (true, FieldReport, u,
             Details true true true true true true true true true).
Proof.
  intros Hd Hlen Hb Hlock Ht Hex.
  destruct (bin_pages_lookups data Hlen) as (L0 & L1 & _).
  destruct (bin_plan_all data e Hlen Hb Ht Hex) as (p & e1 & Hplan & Hsn3 & Hnil).
  pose proof (bin_plan_inv _ _ _ _ _ Hplan) as ((D1 & _ & _ & K1 & _) & Hok & _).
  assert (Hfinal : ∀ e' data',
    disk e' !! filepath = Some (FBin data') →
    length data' = length data → is_bytes data' → image_valid data' →
    ∃ u, disk e' !! filepath = Some (FBin data')
      ∧ image_valid data'
      ∧ extract_pages_from_bin filepath e'
        = Some (Ret (Some (bin_pages data'), Some data'), e')
      ∧ check_uid_comprehensive (Some (bin_pages data')) None
        = Ret (true, FieldReport, u,
               Details true true true true true true true true true)).
  { intros e' data' Hd' Hl' Hb' Hv'.
    destruct (check_bin_valid data') as [u Hu]; [lia|done|done|].
    exists u. split_and!; try done.
    rewrite extract_bin_eq, Hd'. by rewrite bool_decide_eq_false_2 by lia. }
  unfold fix_bin_file. unfold bind at 1. rewrite extract_bin_eq, Hd.
  rewrite bool_decide_eq_false_2 by lia.
  rewrite (bool_decide_eq_false_2 (bin_pages data = ∅))
    by (by apply bin_pages_nonempty).
  rewrite L0, L1. rewrite !bool_decide_eq_true_2 by eauto. cbn [negb orb].
  unfold bind at 1. rewrite Hplan.
  case_bool_decide as Hch.
  - destruct (Hfinal e1 data) as (u & ?); try done; [by rewrite D1|by apply Hnil|].
    by exists NoChangesNeeded, NoIssues, e1, data, u.
  - destruct (backup_file_returns filepath e1) as (bk & e2 & Hbk & D2 & K2).
    destruct (bin_patch_all data p Hlen Hb Hok Hsn3)
      as (nd & Hpatch & Hl & Hbn & Hv).
    unfold bind at 1. rewrite Hbk. unfold bind at 1. cbn [lift].
    unfold bind at 1. rewrite Hpatch. cbn [lift].
    unfold catch, bind, write_file, ret.
    rewrite bool_decide_eq_false_2 by (rewrite K2, K1; done).
    set (e3 := Env (<[filepath := FBin nd]> (disk e2)) (backups e2)
                   (tracker e2) (locked e2) (backup_dir_ok e2) (tape e2)).
    destruct (Hfinal e3 nd) as (u & ?); [apply lookup_insert_eq|done..|].
    exists (FixedSuccessfully bk (changes_made p)), (Issues (p_issues p)),
      e3, nd, u.
    split; [reflexivity|done].
Qed.

Lemma fix_bin_file_all_valid_witness :
  ∃ msg iss e' data' u,
    fix_bin_file "a" all_flags (sample_env (FBin sample_bin) [0x88; 0x21])
    = Some (Ret (true, msg, iss), e')
    ∧ disk e' !! "a"%string = Some (FBin data')
    ∧ image_valid data'
    ∧ extract_pages_from_bin "a" e'
      = Some (Ret (Some (bin_pages data'), Some data'), e')
    ∧ check_uid_comprehensive (Some (bin_pages data')) None
      = Ret (true, FieldReport, u,
             Details true true true true true true true true true).
Proof.
  apply (fix_bin_file_all_valid "a"
           (sample_env (FBin sample_bin) [0x88; 0x21]) sample_bin).
  - vm_compute. reflexivity.
  - apply (bool_decide_unpack _). vm_compute. exact I.
  - apply (bool_decide_unpack _). vm_compute. exact I.
  - simpl. apply not_elem_of_empty.
  - apply (bool_decide_unpack _). vm_compute. exact I.
  - simpl. apply Exists_cons_tl, Exists_cons_hd. lia.
Defined.

(** ** Text repair *)

Lemma nfc_plan_inv (pages : gmap Z string) (uid_field : option string)
    (fl : flags) (e e' : env) (p : plan) :
  nfc_plan pages uid_field fl e = Some (Ret p, e') →
  same_files e e' ∧ plan_ok p ∧ (changes_made p = [] → e' = e).
Proof.
  unfold nfc_plan. intros H.
  io_lift H h0 Hh0. io_lift H page0 Hp0. io_lift H h1 Hh1. io_lift H page1 Hp1.
  io_step H uf e1 Hfix. destruct uf as [uid' fixed].
  io_step H c_sn3 e2 Hc.
  assert (e2 = e1 ∧ (fixed = true → is_Some c_sn3)) as [-> Hsn3].
  { destruct fixed.
    - io_lift Hc b Hb. apply ret_inv in Hc as [-> ->]. by split.
    - apply ret_inv in Hc as [-> ->]. by split. }
  io_lift H u Hu. destruct u as [[[[[[sn0 sn1] sn2] sn3] sn4] sn5] sn6].
  apply unpack7_inv in Hu.
  io_lift H c_bcc1 Hc1. io_lift H pw Hpw.
  io_lift H c_pw Hcpw. io_lift H c_pack Hcpack. io_lift H c_dlb Hcdlb.
  io_lift H c_cfg0 Hccfg0. io_lift H c_cfg1 Hccfg1.
  apply ret_inv in H as [-> ->].
  apply list_of_password_inv in Hpw as (Hpw & _ & _).
  assert (Hb : is_bytes (take 3 page0 ++ take 4 page1)).
  { apply Forall_app; split; apply Forall_take; by eapply fromhex_bytes. }
  assert (Hsf : same_files e e1 ∧ is_bytes uid' ∧ (fixed = false → e1 = e)).
  { destruct (fix_uid fl).
    - apply fix_uid_inv in Hfix as (? & ? & Hu' & Hf & _).
      split_and!; [done|by apply Hu'|]. intros Hff. by apply Hf.
    - apply ret_inv in Hfix as [[= -> ->] ->].
      split_and!; [apply same_files_refl|done|done]. }
  destruct Hsf as (Hsf & Hub & Hfe).
  split_and!; [done| |].
  - unfold plan_ok, uid_of. cbn [p_uid p_bcc0 p_bcc1 p_password].
    rewrite <- Hu. rewrite Hu at 2 3 4 5 6 7 8. by split_and!.
  - cbn [changes_made]. intros Hch.
    apply changes_of_nil_cons in Hch as [_ Hch].
    apply changes_of_nil_cons in Hch as [-> _].
    apply Hfe. destruct fixed; [|done].
    destruct (Hsn3 eq_refl) as [? [=]].
Qed.

Lemma pdisk_nfc_plan (pages : gmap Z string) (uid_field : option string)
    (fl : flags) :
  pdisk (nfc_plan pages uid_field fl).
Proof. unfold nfc_plan. pdisk_auto. Qed.

Lemma extract_nfc_eq (filepath : string) (e : env) :
  extract_pages_from_nfc filepath e
  = Some (Ret (match disk e !! filepath with
               | Some (FText content) =>
                   let lines := split_lines content in
                   let '(pages, uid_field, version) := parse_nfc lines in
                   (Some pages, Some content, Some lines, uid_field, version)
               | _ => (None, None, None, None, None)
               end), e).
Proof.
  unfold extract_pages_from_nfc, catch, bind, read_text, ret.
  destruct (disk e !! filepath) as [[content|data]|]; try done.
  by destruct (parse_nfc (split_lines content)) as [[??]?].
Qed.

Lemma pdisk_extract_nfc (filepath : string) :
  pdisk (extract_pages_from_nfc filepath).
Proof.
  intros e r e'. rewrite extract_nfc_eq. by intros [= <- <-].
Qed.

(** C6. When the planner of a repair returns with no change scheduled,
    the repair returns success with the message "No changes needed" and
    leaves the whole world as it was: no backup, no tracker entry, no
    write, no random draw.  Binary and text images alike. *)
Theorem no_changes_needed (filepath : string) (fl : flags) (e : env) :
  (∀ data p e1,
     disk e !! filepath = Some (FBin data) → (540 ≤ length data)%nat →
     bin_plan (bin_pages data) fl e = Some (Ret p, e1) →
     changes_made p = [] →
     fix_bin_file filepath fl e
     = Some (Ret (true, NoChangesNeeded, NoIssues), e))
  ∧ (∀ content pages uid_field version p e1,
       disk e !! filepath = Some (FText content) →
       parse_nfc (split_lines content) = (pages, uid_field, version) →
       is_Some (pages !! 0) → is_Some (pages !! 1) →
       nfc_plan pages uid_field fl e = Some (Ret p, e1) →
       changes_made p = [] →
       fix_nfc_file filepath fl e
       = Some (Ret (true, NoChangesNeeded, NoIssues), e)).
Proof.
  split.
  - intros data p e1 Hd Hlen Hplan Hch.
    destruct (bin_pages_lookups data Hlen) as (L0 & L1 & _).
    pose proof (bin_plan_inv _ _ _ _ _ Hplan) as (_ & _ & He).
    specialize (He Hch). subst e1.
    unfold fix_bin_file. unfold bind at 1. rewrite extract_bin_eq, Hd.
    rewrite bool_decide_eq_false_2 by lia.
    rewrite (bool_decide_eq_false_2 (bin_pages data = ∅))
      by (by apply bin_pages_nonempty).
    rewrite L0, L1. rewrite !bool_decide_eq_true_2 by eauto. cbn [negb orb].
    unfold bind at 1. rewrite Hplan.
    by rewrite bool_decide_eq_true_2.
  - intros content pages uid_field version p e1 Hd Hparse H0 H1 Hplan Hch.
    pose proof (nfc_plan_inv _ _ _ _ _ _ Hplan) as (_ & _ & He).
    specialize (He Hch). subst e1.
    unfold fix_nfc_file. unfold bind at 1. rewrite extract_nfc_eq, Hd.
    cbn zeta. rewrite Hparse.
    rewrite (bool_decide_eq_false_2 (pages = ∅)).
    2:{ intros ->. rewrite lookup_empty in H0. by destruct H0. }
    rewrite !bool_decide_eq_true_2 by done. cbn [negb orb].
    unfold bind at 1. rewrite Hplan.
    by rewrite bool_decide_eq_true_2.
Qed.

Lemma no_changes_needed_witness :
  fix_bin_file "a" all_flags (sample_env (FBin valid_bin) [])
  = Some (Ret (true, NoChangesNeeded, NoIssues),
          sample_env (FBin valid_bin) [])
  ∧ fix_nfc_file "a" all_flags (sample_env (FText valid_nfc) [])
    = Some (Ret (true, NoChangesNeeded, NoIssues),
            sample_env (FText valid_nfc) []).
Proof.
  split.
  - destruct (no_changes_needed "a" all_flags (sample_env (FBin valid_bin) []))
      as [H _].
    destruct (bin_plan (bin_pages valid_bin) all_flags
                (sample_env (FBin valid_bin) [])) as [[[p|] e1]|] eqn:E;
      try (vm_compute in E; discriminate E).
    apply (H valid_bin p e1).
    + vm_compute. reflexivity.
    + apply (bool_decide_unpack _). vm_compute. exact I.
    + exact E.
    + vm_compute in E. injection E as <- _. reflexivity.
  - destruct (no_changes_needed "a" all_flags (sample_env (FText valid_nfc) []))
      as [_ H].
    destruct (parse_nfc (split_lines valid_nfc)) as [[pages uid_field] version]
      eqn:Ep.
    destruct (nfc_plan pages uid_field all_flags
                (sample_env (FText valid_nfc) [])) as [[[p|] e1]|] eqn:E;
      try (vm_compute in Ep; injection Ep as <- <- <-;
           vm_compute in E; discriminate E).
    apply (H valid_nfc pages uid_field version p e1).
    + vm_compute. reflexivity.
    + exact Ep.
    + vm_compute in Ep. injection Ep as <- _ _. vm_compute. eauto.
    + vm_compute in Ep. injection Ep as <- _ _. vm_compute. eauto.
    + exact E.
    + vm_compute in Ep. injection Ep as <- <- _.
      vm_compute in E. injection E as <- _. reflexivity.
Defined.

(** ** Lines *)

Lemma append_cons (c : ascii) (a b : string) :
  String c a +:+ b = String c (a +:+ b).
Proof. reflexivity. Qed.

Lemma append_nil (b : string) : EmptyString +:+ b = b.
Proof. reflexivity. Qed.

Lemma no_nl_app (a b : string) : no_nl (a +:+ b) = no_nl a && no_nl b.
Proof.
  induction a as [|c a IH]; [done|]. rewrite append_cons. cbn [no_nl].
  rewrite IH. by rewrite andb_assoc.
Qed.

Lemma hex_digit_no_nl (x : Z) : hex_digit x ≠ newline.
Proof.
  unfold hex_digit. repeat case_match; by intros [=].
Qed.

Lemma no_nl_fmt_02X (b : Z) : no_nl (fmt_02X b) = true.
Proof.
  unfold fmt_02X. cbn [no_nl].
  rewrite !bool_decide_eq_false_2 by apply hex_digit_no_nl. done.
Qed.

Lemma split_lines_cons (s : string) : ∃ l ls, split_lines s = l :: ls.
Proof.
  induction s as [|c s (l & ls & IH)]; [by eexists _, _|].
  cbn [split_lines]. case_bool_decide; [by eexists _, _|].
  rewrite IH. by eexists _, _.
Qed.

Lemma split_lines_no_nl (s : string) :
  Forall (λ l, no_nl l = true) (split_lines s).
Proof.
  induction s as [|c s IH]; [by repeat constructor|].
  cbn [split_lines]. case_bool_decide as Hc; [by constructor|].
  destruct (split_lines s) as [|l ls]; inversion IH; subst.
  - repeat constructor. cbn. by rewrite bool_decide_eq_false_2.
  - constructor; [|done]. cbn [no_nl]. by rewrite bool_decide_eq_false_2.
Qed.

Lemma split_lines_app_nl (a b : string) :
  no_nl a = true → split_lines (a +:+ nl +:+ b) = a :: split_lines b.
Proof.
  induction a as [|c a IH]; intros Ha.
  - rewrite append_nil. unfold nl. rewrite append_cons, append_nil.
    cbn [split_lines]. by rewrite bool_decide_eq_true_2.
  - cbn [no_nl] in Ha. apply andb_true_iff in Ha as [Hc Ha].
    apply negb_true_iff, bool_decide_eq_false in Hc.
    rewrite append_cons.
    cbn [split_lines]. rewrite bool_decide_eq_false_2 by done.
    by rewrite IH.
Qed.

Lemma split_lines_single (a : string) :
  no_nl a = true → split_lines a = [a].
Proof.
  induction a as [|c a IH]; intros Ha; [done|].
  cbn [no_nl] in Ha. apply andb_true_iff in Ha as [Hc Ha].
  apply negb_true_iff, bool_decide_eq_false in Hc.
  cbn [split_lines]. rewrite bool_decide_eq_false_2 by done.
  by rewrite IH.
Qed.

Lemma split_lines_join (ls : list string) :
  ls ≠ [] → Forall (λ l, no_nl l = true) ls →
  split_lines (join nl ls) = ls.
Proof.
  induction ls as [|l ls IH]; [done|]. intros _ H.
  inversion H as [|? ? Hl Hls]; subst.
  destruct ls as [|l' ls'].
  - cbn [join]. by apply split_lines_single.
  - change (join nl (l :: l' :: ls')) with (l +:+ nl +:+ join nl (l' :: ls')).
    rewrite split_lines_app_nl by done. f_equal. by apply IH.
Qed.

(** ** Text encoder: what it leaves alone *)

Lemma fmt4_no_nl (l : list Z) (t : string) : fmt4 l = Ret t → no_nl t = true.
Proof.
  unfold fmt4, index, res_bind. intros H.
  repeat (case_match; simplify_eq).
  by rewrite !no_nl_app, !no_nl_fmt_02X.
Qed.

Lemma hex_spaced7_no_nl (a b c d e f g : Z) :
  no_nl (hex_spaced [a; b; c; d; e; f; g]) = true.
Proof.
  unfold hex_spaced. cbn [fmap list_fmap join].
  by rewrite !no_nl_app, !no_nl_fmt_02X.
Qed.

Lemma rewrite_line_no_nl (pages : gmap Z string) (fl : flags) (p : plan)
    (line line' : string) :
  rewrite_line pages fl p line = Ret line' →
  no_nl line = true → no_nl line' = true.
Proof.
  unfold rewrite_line.
  destruct (p_uid p) as [[[[[[sn0 sn1] sn2] sn3] sn4] sn5] sn6].
  intros H Hl.
  repeat match type of H with
    | (if ?c then _ else _) = _ => destruct c
    | match ?x with _ => _ end = _ => destruct x
    | res_bind _ _ = _ =>
        let t := fresh "t" in let Ht := fresh "Ht" in
        apply res_bind_inv in H as (t & Ht & H)
    end;
    injection H as <-; try done;
    rewrite no_nl_app; try (by rewrite hex_spaced7_no_nl);
    match goal with
    | Ht : fmt4 _ = Ret _ |- _ => by rewrite (fmt4_no_nl _ _ Ht)
    end.
Qed.

Lemma rewrite_line_frame (pages : gmap Z string) (fl : flags) (p : plan)
    (line line' : string) :
  rewrite_line pages fl p line = Ret line' →
  rewritable fl line = false → line' = line.
Proof.
  unfold rewrite_line, rewritable.
  destruct (p_uid p) as [[[[[[sn0 sn1] sn2] sn3] sn4] sn5] sn6].
  intros H Hr. apply orb_false_iff in Hr as [Hu Hp].
  rewrite Hu in H.
  destruct (search_page line) as [[n g]|]; [|by injection H].
  unfold page_flag in Hp.
  repeat (case_bool_decide; [subst n; rewrite Hp in H; cbn in H|]);
    cbn in H; try (by injection H).
  all: repeat (rewrite bool_decide_eq_false_2 in H by done; cbn in H).
  all: by injection H.
Qed.

Lemma map_res_inv {A B : Type} (f : A → res B) (l : list A) (l' : list B) :
  map_res f l = Ret l' → Forall2 (λ x y, f x = Ret y) l l'.
Proof.
  revert l'. induction l as [|x l IH]; intros l' H.
  - injection H as <-. constructor.
  - cbn [map_res] in H. apply res_bind_inv in H as (y & Hy & H).
    apply res_bind_inv in H as (ys & Hys & H). injection H as <-.
    constructor; [done|by apply IH].
Qed.

Lemma fix_nfc_file_inv (filepath : string) (fl : flags) (e e' : env)
    (r : res (bool * message * issues)) :
  fix_nfc_file filepath fl e = Some (r, e') →
  disk e' = disk e
  ∨ ∃ content pages uid_field version p new_lines backup,
      disk e !! filepath = Some (FText content)
      ∧ parse_nfc (split_lines content) = (pages, uid_field, version)
      ∧ plan_ok p ∧ changes_made p ≠ []
      ∧ map_res (rewrite_line pages fl p) (split_lines content)
        = Ret new_lines
      ∧ disk e' = <[filepath := FText (join nl new_lines)]> (disk e)
      ∧ r = Ret (true, FixedSuccessfully backup (changes_made p),
                 Issues (p_issues p)).
Proof.
  unfold fix_nfc_file. intros H.
  apply bind_inv_gen in H as [(a & e1 & H1 & H)|(x & H1 & _)];
    [|left; by eapply pdisk_extract_nfc].
  rewrite extract_nfc_eq in H1. injection H1 as <- <-.
  destruct (disk e !! filepath) as [[content|data]|] eqn:Ed;
    try (left; by injection H as <- <-).
  cbn zeta in H.
  destruct (parse_nfc (split_lines content)) as [[pages uid_field] version]
    eqn:Ep.
  case_bool_decide; [left; by injection H as <- <-|].
  case_match; [left; by injection H as <- <-|].
  apply bind_inv_gen in H as [(p & e1 & Hp & H)|(x & Hx & _)];
    [|left; by eapply pdisk_nfc_plan].
  pose proof (pdisk_nfc_plan _ _ _ _ _ _ Hp) as D1.
  apply nfc_plan_inv in Hp as (_ & Hok & _).
  case_bool_decide as Hch; [left; injection H as <- <-; done|].
  apply bind_inv_gen in H as [(bk & e2 & Hb & H)|(x & Hx & _)];
    [|left; rewrite <- D1; by eapply pdisk_backup_file].
  pose proof (pdisk_backup_file _ _ _ _ Hb) as D2.
  apply bind_inv_gen in H as [(od & e3 & Ho & H)|(x & [=] & _)].
  injection Ho as <- <-.
  apply bind_inv_gen in H as [(nd & e3 & Hn & H)|(x & [= _ <-] & _)];
    [|left; congruence].
  apply lift_inv in Hn as [Hn ->].
  unfold catch in H.
  destruct (bind _ _ e2) as [[[a|x] e4]|] eqn:Hw; [| |done].
  - injection H as <- <-.
    apply bind_inv in Hw as ([] & e5 & Hw & Hr).
    apply ret_inv in Hr as [-> ->].
    apply write_file_inv in Hw as [(? & _)|(_ & Hd & _)]; [done|].
    right. exists content, pages, uid_field, version, p, nd, bk.
    split_and!; try done. congruence.
  - left. injection H as <- <-.
    apply bind_inv_gen in Hw as [(a & e5 & Hw & Hr)|(y & Hw & _)].
    + by injection Hr.
    + apply write_file_inv in Hw as [(_ & -> & _)|(? & _)]; [|done]. congruence.
Qed.

(** C3, as amended. Whatever the outcome of the text repair, the file it
    leaves has as many lines as the original, and every line that is
    neither a UID declaration (with UID fixes enabled) nor the line of a
    tracked page whose fix is enabled stands unchanged at its place,
    comments and unrecognised lines included; no other file changes. *)
Theorem fix_nfc_file_frame (filepath : string) (fl : flags) (e e' : env)
    (r : res (bool * message * issues)) (content : string) :
  disk e !! filepath = Some (FText content) →
  fix_nfc_file filepath fl e = Some (r, e') →
  ∃ new,
    disk e' !! filepath = Some (FText new)
    ∧ length (split_lines new) = length (split_lines content)
    ∧ (∀ (k : nat) line,
         split_lines content !! k = Some line → rewritable fl line = false →
         split_lines new !! k = Some line)
    ∧ ∀ other, other ≠ filepath → disk e' !! other = disk e !! other.
Proof.
  intros Hd H.
  apply fix_nfc_file_inv in H
    as [->|(c0 & pages & uf & v & p & new_lines & bk & Hd0 & Hparse & _ & _
            & Hmap & -> & _)].
  - exists content. by split_and!.
  - rewrite Hd in Hd0. injection Hd0 as <-.
    apply map_res_inv in Hmap.
    assert (Hnl : Forall (λ l, no_nl l = true) new_lines).
    { pose proof (split_lines_no_nl content) as Hs.
      clear Hd Hparse. revert Hs.
      induction Hmap as [|x y l l' Hxy _ IH]; [done|].
      intros Hs. apply Forall_cons in Hs as [Hx Hs].
      constructor; [by eapply rewrite_line_no_nl|by apply IH]. }
    pose proof (Forall2_length _ _ _ Hmap) as Hlen.
    assert (Hne : new_lines ≠ []).
    { destruct (split_lines_cons content) as (l & ls & El).
      rewrite El in Hlen. by destruct new_lines. }
    exists (join nl new_lines). rewrite split_lines_join by done.
    split_and!; [apply lookup_insert_eq|done| |].
    + intros k line Hk Hr.
      destruct (Forall2_lookup_l _ _ _ _ _ Hmap Hk) as (line' & Hk' & Hrw).
      by rewrite (rewrite_line_frame _ _ _ _ _ Hrw Hr) in Hk'.
    + intros other Hne'. by apply lookup_insert_ne.
Qed.

Lemma fix_nfc_file_frame_witness :
  ∃ r e' new,
    fix_nfc_file "a" all_flags (sample_env (FText lowercase_nfc) [])
    = Some (r, e')
    ∧ disk e' !! "a"%string = Some (FText new)
    ∧ length (split_lines new) = length (split_lines lowercase_nfc)
    ∧ (∀ (k : nat) line,
         split_lines lowercase_nfc !! k = Some line →
         rewritable all_flags line = false →
         split_lines new !! k = Some line)
    ∧ ∀ other, other ≠ "a"%string →
        disk e' !! other
        = disk (sample_env (FText lowercase_nfc) []) !! other.
Proof.
  destruct (fix_nfc_file "a" all_flags (sample_env (FText lowercase_nfc) []))
    as [[r e']|] eqn:E.
  - exists r, e'.
    destruct (fix_nfc_file_frame "a" all_flags
                (sample_env (FText lowercase_nfc) []) e' r lowercase_nfc)
      as (new & H1 & H2 & H3 & H4).
    + vm_compute. reflexivity.
    + exact E.
    + exists new. by split_and!.
  - vm_compute in E. discriminate E.
Defined.

(** C3, as the specification words it, fails: with only PACK wrong, the
    repair also rewrites the line of page 130 (written in lower case),
    which no change was scheduled for. *)
Lemma text_frame_counterexample : ¬ text_frame_as_specified.
Proof.
  intros H.
  destruct (fix_nfc_file "a" all_flags (sample_env (FText lowercase_nfc) []))
    as [[[[[b msg] [|i|]]|] e']|] eqn:E;
    try (vm_compute in E; discriminate E).
  destruct b; [|vm_compute in E; discriminate E].
  destruct (disk e' !! "a"%string) as [[new|]|] eqn:Ed;
    try (vm_compute in E; injection E as _ _ <-; vm_compute in Ed;
         discriminate Ed).
  specialize (H "a"%string all_flags (sample_env (FText lowercase_nfc) [])
                lowercase_nfc msg i e' new eq_refl E Ed 5%nat
                "Page 130: 01 00 0f bf"%string eq_refl).
  vm_compute in E. injection E as _ <- <-.
  vm_compute in Ed. injection Ed as <-.
  specialize (H eq_refl). vm_compute in H. discriminate H.
Qed.

(** ** Parsed page texts hold no line feed *)

Lemma no_nl_take_while (f : ascii → bool) (s : string) :
  no_nl s = true → no_nl (take_while f s) = true.
Proof.
  induction s as [|c s IH]; [done|]. cbn [no_nl take_while].
  intros [Hc Hs]%andb_true_iff. destruct (f c); [|done].
  cbn [no_nl]. rewrite Hc. by apply IH.
Qed.

Lemma no_nl_drop_while (f : ascii → bool) (s : string) :
  no_nl s = true → no_nl (drop_while f s) = true.
Proof.
  induction s as [|c s IH]; [done|]. cbn [no_nl drop_while].
  intros H0. pose proof H0 as [Hc Hs]%andb_true_iff.
  destruct (f c); [by apply IH|done].
Qed.

Lemma no_nl_strip_prefix (p s r : string) :
  strip_prefix p s = Some r → no_nl s = true → no_nl r = true.
Proof.
  revert s. induction p as [|a p IH]; intros s; [by intros [= ->]|].
  destruct s as [|b s]; [done|]. cbn [strip_prefix no_nl].
  case_bool_decide; [|done]. intros Hp [_ Hs]%andb_true_iff. by eapply IH.
Qed.

Lemma no_nl_last_char (s : string) (c : ascii) :
  last_char s = Some c → no_nl s = true → c ≠ newline.
Proof.
  induction s as [|a s IH]; [done|]. cbn [last_char no_nl].
  intros H [Ha Hs]%andb_true_iff. destruct s as [|b s].
  - injection H as <-. by apply negb_true_iff, bool_decide_eq_false in Ha.
  - by apply IH.
Qed.

Lemma no_nl_match_hex_group (s g : string) :
  match_hex_group s = Some g → no_nl s = true → no_nl g = true.
Proof.
  unfold match_hex_group. intros H Hs.
  destruct (take_while is_hexws (drop_while is_space s)) as [|c t] eqn:E.
  - destruct (last_char (take_while is_space s)) as [c|] eqn:El; [|done].
    injection H as <-. cbn [no_nl]. rewrite bool_decide_eq_false_2; [done|].
    eapply no_nl_last_char; [done|]. by apply no_nl_take_while.
  - injection H as <-. rewrite <- E.
    by apply no_nl_take_while, no_nl_drop_while.
Qed.

Lemma no_nl_match_page_at (s ds g : string) :
  match_page_at s = Some (ds, g) → no_nl s = true → no_nl g = true.
Proof.
  unfold match_page_at. intros H Hs.
  destruct (strip_prefix "Page" s) as [rest|] eqn:E1; [|done].
  cbn [mbind option_bind] in H.
  pose proof (no_nl_strip_prefix _ _ _ E1 Hs) as Hrest.
  destruct (take_while is_space rest); [done|].
  destruct (take_while is_digit (drop_while is_space rest)); [done|].
  destruct (strip_prefix ":" _) as [r2|] eqn:E2; [|done].
  cbn [mbind option_bind] in H.
  destruct (match_hex_group r2) as [g'|] eqn:E3; [|done].
  cbn [mbind option_bind] in H. injection H as _ <-.
  eapply no_nl_match_hex_group; [done|].
  eapply no_nl_strip_prefix; [done|].
  by apply no_nl_drop_while, no_nl_drop_while.
Qed.

Lemma no_nl_tail (c : ascii) (s : string) :
  no_nl (String c s) = true → no_nl s = true.
Proof. cbn [no_nl]. by intros [_ ?]%andb_true_iff. Qed.

Lemma no_nl_search_page (line : string) (n : Z) (g : string) :
  search_page line = Some (n, g) → no_nl line = true → no_nl g = true.
Proof.
  unfold search_page.
  destruct (search match_page_at line) as [[ds g']|] eqn:E; [|done].
  cbn [mbind option_bind]. intros [= _ <-]. revert E.
  induction line as [|c line IH]; cbn [search]; intros E Hl.
  - destruct (match_page_at EmptyString) as [[??]|] eqn:Em; [|done].
    injection E as -> ->. by eapply no_nl_match_page_at.
  - destruct (match_page_at (String c line)) as [[??]|] eqn:Em.
    + injection E as -> ->. by eapply no_nl_match_page_at.
    + apply IH; [done|by eapply no_nl_tail].
Qed.

Lemma no_nl_remove_spaces (s : string) :
  no_nl s = true → no_nl (remove_spaces s) = true.
Proof.
  induction s as [|c s IH]; [done|]. cbn [no_nl remove_spaces].
  intros [Hc Hs]%andb_true_iff.
  destruct (bool_decide (c = " "%char)); [by apply IH|].
  cbn [no_nl]. rewrite Hc. by apply IH.
Qed.

Lemma upper_char_nl (c : ascii) : c ≠ newline → upper_char c ≠ newline.
Proof.
  destruct c as [[] [] [] [] [] [] [] []]; vm_compute; congruence.
Qed.

Lemma no_nl_upper (s : string) : no_nl s = true → no_nl (upper s) = true.
Proof.
  induction s as [|c s IH]; [done|]. cbn [no_nl upper].
  intros [Hc Hs]%andb_true_iff.
  apply negb_true_iff, bool_decide_eq_false in Hc.
  rewrite bool_decide_eq_false_2 by (by apply upper_char_nl). by apply IH.
Qed.

Lemma no_nl_join_chunks2 (s : string) :
  no_nl s = true → no_nl (join " " (chunks2 s)) = true.
Proof.
  assert (∀ s, (no_nl s = true → no_nl (join " " (chunks2 s)) = true)
               ∧ ∀ c, no_nl (String c s) = true →
                      no_nl (join " " (chunks2 (String c s))) = true) as H.
  { clear s. induction s as [|a s [IH1 IH2]].
    - split; [done|]. intros c. by cbn.
    - split; [apply IH2|]. intros c Hc.
      cbn [chunks2]. cbn [no_nl] in Hc.
      apply andb_true_iff in Hc as [Hc [Ha Hs]%andb_true_iff].
      destruct (chunks2 s) as [|x xs] eqn:Ex.
      + cbn [join no_nl]. by rewrite Hc, Ha.
        
      + change (join " " (String c (String a EmptyString) :: x :: xs))
          with (String c (String a EmptyString) +:+ " " +:+ join " " (x :: xs)).
        rewrite !no_nl_app. cbn [no_nl]. rewrite Hc, Ha.
        by rewrite IH1. }
  apply H.
Qed.

Lemma parse_v_line_no_nl (st : option Z * gmap Z string) (line : string) :
  no_nl line = true →
  map_Forall (λ _ h, no_nl h = true) st.2 →
  map_Forall (λ _ h, no_nl h = true) (parse_v_line st line).2.
Proof.
  destruct st as [v pages]. intros Hl Hp. unfold parse_v_line.
  cbn [snd]. destruct (search_page line) as [[n g]|] eqn:E; [|done].
  apply map_Forall_insert_2; [|done].
  apply no_nl_remove_spaces. by eapply no_nl_search_page.
Qed.

Lemma parse_v_no_nl (lines : list string) (st : option Z * gmap Z string) :
  Forall (λ l, no_nl l = true) lines →
  map_Forall (λ _ h, no_nl h = true) st.2 →
  map_Forall (λ _ h, no_nl h = true) (foldl parse_v_line st lines).2.
Proof.
  revert st. induction lines as [|l lines IH]; intros st Hl Hs; [done|].
  apply Forall_cons in Hl as [Hl Hls]. cbn [foldl].
  apply IH; [done|]. by apply parse_v_line_no_nl.
Qed.

(** ** Version upgrader *)

Lemma foldr_max_spec (l : list Z) :
  l ≠ [] →
  ∃ k, foldr (λ k acc, Some (match acc with
                             | Some a => Z.max k a
                             | None => k
                             end)) None l = Some k
       ∧ k ∈ l ∧ ∀ j, j ∈ l → j ≤ k.
Proof.
  induction l as [|x l IH]; [done|]. intros _. cbn [foldr].
  destruct l as [|y l'].
  - exists x. cbn. split_and!; [done|by left|].
    intros j Hj. apply list_elem_of_singleton in Hj. lia.
  - destruct IH as (k & -> & Hk & Hmax); [done|].
    exists (Z.max x k). split_and!; [done| |].
    + destruct (Z.max_spec x k) as [[_ ->]|[_ ->]]; [by right|by left].
    + intros j [->|Hj]%elem_of_cons; [lia|]. specialize (Hmax j Hj). lia.
Qed.

Lemma max_key_spec (pages : gmap Z string) :
  pages ≠ ∅ →
  ∃ k, max_key pages = Some k ∧ k ∈ dom pages ∧ ∀ j, j ∈ dom pages → j ≤ k.
Proof.
  intros Hne. unfold max_key.
  destruct (foldr_max_spec (map_to_list pages).*1) as (k & Hk & Hin & Hmax).
  { intros E. apply fmap_nil_inv in E. by apply map_to_list_empty_iff in E. }
  assert (Hdom : ∀ j, j ∈ (map_to_list pages).*1 ↔ j ∈ dom pages).
  { intros j. rewrite elem_of_dom. split.
    - intros ([j' h] & -> & Hj)%list_elem_of_fmap.
      apply elem_of_map_to_list in Hj. by eexists.
    - intros [h Hj]. apply list_elem_of_fmap. exists (j, h).
      split; [done|]. by apply elem_of_map_to_list. }
  exists k. split_and!; [done|by apply Hdom|].
  intros j Hj. by apply Hmax, Hdom.
Qed.

Lemma max_key_two (pages : gmap Z string) :
  dom pages = {[0; 1]} → max_key pages = Some 1.
Proof.
  intros Hd. destruct (max_key_spec pages) as (k & -> & Hk & Hmax).
  { intros ->. rewrite dom_empty_L in Hd. set_solver. }
  rewrite Hd in Hk, Hmax. f_equal.
  assert (1 ≤ k) by (apply Hmax; set_solver).
  assert (k = 0 ∨ k = 1) as [->| ->] by set_solver; lia.
Qed.

Lemma no_nl_join (sep : string) (ls : list string) :
  no_nl sep = true → Forall (λ l, no_nl l = true) ls →
  no_nl (join sep ls) = true.
Proof.
  intros Hsep. induction 1 as [|l ls Hl Hls IH]; [done|].
  destruct ls as [|l' ls']; [done|].
  change (join sep (l :: l' :: ls')) with (l +:+ sep +:+ join sep (l' :: ls')).
  rewrite !no_nl_app. by rewrite Hl, Hsep, IH.
Qed.

Lemma no_nl_hex_spaced (l : list Z) : no_nl (hex_spaced l) = true.
Proof.
  unfold hex_spaced. apply no_nl_join; [done|].
  apply Forall_fmap, Forall_forall. intros b _. apply no_nl_fmt_02X.
Qed.

Lemma append_assoc (a b c : string) : (a +:+ b) +:+ c = a +:+ (b +:+ c).
Proof.
  induction a as [|x a IH]; [done|]. by rewrite !append_cons, IH.
Qed.

Lemma join_app (sep : string) (xs ys : list string) :
  xs ≠ [] → ys ≠ [] →
  join sep (xs ++ ys) = join sep xs +:+ sep +:+ join sep ys.
Proof.
  intros Hx Hy. induction xs as [|x xs IH]; [done|].
  destruct xs as [|x' xs'].
  - destruct ys; done.
  - change (join sep ((x :: x' :: xs') ++ ys))
      with (x +:+ sep +:+ join sep ((x' :: xs') ++ ys)).
    rewrite IH by done.
    change (join sep (x :: x' :: xs')) with (x +:+ sep +:+ join sep (x' :: xs')).
    by rewrite !append_assoc.
Qed.

(** The document of [convert_to_v4_format] as a list of lines. *)
Lemma v4_document_lines (header page_lines : list string) :
  header ≠ [] → page_lines ≠ [] →
  (join nl header +:+ nl +:+ join nl page_lines +:+ nl)
    +:+ "Failed authentication attempts: 0" +:+ nl
  = join nl (header ++ page_lines
             ++ ["Failed authentication attempts: 0"%string; EmptyString]).
Proof.
  intros Hh Hp.
  rewrite (join_app nl header) by (done || by destruct page_lines).
  rewrite (join_app nl page_lines) by done.
  change (join nl ["Failed authentication attempts: 0"%string; EmptyString])
    with ("Failed authentication attempts: 0" +:+ nl +:+ EmptyString).
  rewrite !append_assoc. reflexivity.
Qed.

Lemma v4_header_no_nl (uid_hex : string) (n : Z) :
  no_nl uid_hex = true →
  no_nl (str_of_int n) = true →
  Forall (λ l, no_nl l = true) (v4_header uid_hex n).
Proof.
  intros Hu Hn. unfold v4_header.
  repeat (apply Forall_cons_2;
          [first [reflexivity | by rewrite no_nl_app, ?Hu, ?Hn]|]).
  constructor.
Qed.

Lemma v4_page_line_no_nl (pages : gmap Z string) (n : Z) :
  map_Forall (λ _ h, no_nl h = true) pages →
  no_nl (str_of_int n) = true →
  no_nl (v4_page_line pages n) = true.
Proof.
  intros Hp Hn. unfold v4_page_line.
  destruct (pages !! n) as [h|] eqn:E.
  - rewrite !no_nl_app, Hn. cbn [andb].
    change (no_nl ": ") with true. cbn [andb].
    apply no_nl_upper, no_nl_join_chunks2. by apply (Hp n h).
  - by rewrite !no_nl_app, Hn.
Qed.

Lemma convert_to_v4_two (pages : gmap Z string) :
  dom pages = {[0; 1]} → decodable pages →
  map_Forall (λ _ h, no_nl h = true) pages →
  ∃ uid_hex doc,
    convert_to_v4_format pages = Ret doc
    ∧ split_lines doc
      = v4_header uid_hex 2
        ++ [ v4_page_line pages 0; v4_page_line pages 1;
             "Failed authentication attempts: 0"%string; EmptyString ].
Proof.
  intros Hd Hdec Hnl.
  assert (is_Some (pages !! 0)) as [h0 E0]
    by (apply elem_of_dom; rewrite Hd; apply elem_of_union_l, elem_of_singleton; done).
  assert (is_Some (pages !! 1)) as [h1 E1]
    by (apply elem_of_dom; rewrite Hd; apply elem_of_union_r, elem_of_singleton; done).
  destruct (decodable_lookup _ _ _ Hdec E0) as [page0 F0].
  destruct (decodable_lookup _ _ _ Hdec E1) as [page1 F1].
  exists (hex_spaced (take 3 page0 ++ take 4 page1)). eexists.
  unfold convert_to_v4_format.
  rewrite E0, E1, F0, F1. cbn [res_bind].
  rewrite (max_key_two _ Hd).
  change (seqZ 0 (1 + 1)) with [0; 1]. change (1 + 1) with 2.
  cbn [fmap list_fmap].
  split; [reflexivity|].
  rewrite v4_document_lines by done.
  apply split_lines_join; [done|].
  apply Forall_app. split.
  - apply v4_header_no_nl; [apply no_nl_hex_spaced|done].
  - repeat (apply Forall_cons_2; [by (apply v4_page_line_no_nl || done)|]).
    constructor.
Qed.

(** ** A valid dump needs no repair *)

Lemma bin_plan_valid (data : list Z) (e : env) :
  (540 ≤ length data)%nat → is_bytes data → image_valid data →
  ∃ p, bin_plan (bin_pages data) all_flags e = Some (Ret p, e)
       ∧ changes_made p = [].
Proof.
  intros Hlen Hb (sn0 & sn1 & sn2 & sn3 & sn4 & sn5 & sn6 & x1 & x2 & x3
                  & P0 & P1 & Hsn3 & P2 & P130 & P131 & P132 & P133 & P134).
  destruct (bin_pages_lookups data Hlen)
    as (L0 & L1 & L2 & L130 & L131 & L132 & L133 & L134).
  pose proof (page_of_bytes data 0 Hb) as B0. rewrite P0 in B0.
  pose proof (page_of_bytes data 1 Hb) as B1. rewrite P1 in B1.
  pose proof (page_of_bytes data 2 Hb) as B2.
  assert (Hub : is_bytes [sn0; sn1; sn2; sn3; sn4; sn5; sn6]).
  { apply (Forall_app _ [sn0; sn1; sn2] [sn3; sn4; sn5; sn6]). split; [|done].
    by apply (Forall_take _ 3%nat) in B0. }
  eexists. split.
  - unfold bin_plan, all_flags.
    cbn [fix_uid fix_bcc fix_password fix_pack fix_dlb fix_cfg].
    unfold getitem. rewrite L0, L1. unfold bind at 1 2 3 4. cbn [lift].
    rewrite !fromhex_page by done.
    rewrite P0, P1. cbn [take app].
    unfold bind at 1. rewrite fix_uid_unchanged by (cbn; congruence).
    unfold bind at 1 2 3. cbn [ret lift unpack7 index lookup list_lookup].
    unfold bind at 1.
    rewrite (plan_bcc1_known _ _ (Z.lxor (Z.lxor (Z.lxor sn3 sn4) sn5) sn6)
               [x1; x2; x3]) by (rewrite <- ?P2; done).
    cbn [lift]. unfold bind at 1.
    rewrite (list_of_password_ok _ Hub) by (simpl; lia).
    cbn [lift]. unfold bind at 1.
    rewrite (plan_page_known _ 133 _ _ _ L133)
      by (by apply page_of_bytes || (apply page_of_length; lia)).
    cbn [lift]. unfold bind at 1.
    rewrite (plan_page_known _ 134 _ _ _ L134)
      by (by apply page_of_bytes || (apply page_of_length; lia)).
    cbn [lift]. unfold bind at 1.
    rewrite (plan_page_known _ 130 _ _ _ L130)
      by (by apply page_of_bytes || (apply page_of_length; lia)).
    cbn [lift]. unfold bind at 1.
    rewrite (plan_page_known _ 131 _ _ _ L131)
      by (by apply page_of_bytes || (apply page_of_length; lia)).
    cbn [lift]. unfold bind at 1.
    rewrite (plan_page_known _ 132 _ _ _ L132)
      by (by apply page_of_bytes || (apply page_of_length; lia)).
    cbn [lift]. unfold ret. reflexivity.
  - cbn [changes_made]. rewrite P130, P131, P132, P133, P134.
    rewrite !bool_decide_eq_false_2 by (intros H; by apply H).
    reflexivity.
Qed.

(** The binary repair with every fix enabled is idempotent: run again
    on the file it has repaired, it reports that no change is needed and
    leaves the world as it is. *)
Lemma fix_bin_file_idempotent (filepath : string) (e : env) (data : list Z) :
  disk e !! filepath = Some (FBin data) →
  (540 ≤ length data)%nat → is_bytes data →
  filepath ∉ locked e →
  is_bytes (tape e) → Exists (λ d, d ≠ 0x88) (tape e) →
  ∃ msg iss e',
    fix_bin_file filepath all_flags e = Some (Ret (true, msg, iss), e')
    ∧ fix_bin_file filepath all_flags e'
      = Some (Ret (true, NoChangesNeeded, NoIssues), e').
Proof.
  intros Hd Hlen Hb Hlock Ht Hex.
  destruct (bin_plan_all data e Hlen Hb Ht Hex) as (p & e1 & Hplan & Hsn3 & Hnil).
  pose proof (bin_plan_inv _ _ _ _ _ Hplan) as ((D1 & _ & _ & K1 & _) & Hok & _).
  destruct (bin_pages_lookups data Hlen) as (L0 & L1 & _).
  assert (Hagain : ∀ e' data',
    disk e' !! filepath = Some (FBin data') →
    length data' = length data → is_bytes data' → image_valid data' →
    fix_bin_file filepath all_flags e'
    = Some (Ret (true, NoChangesNeeded, NoIssues), e')).
  { intros e' data' Hd' Hl' Hb' Hv'.
    destruct (bin_plan_valid data' e') as (p' & Hp' & Hc'); [lia|done|done|].
    destruct (bin_pages_lookups data') as (L0' & L1' & _); [lia|].
    unfold fix_bin_file. unfold bind at 1. rewrite extract_bin_eq, Hd'.
    rewrite bool_decide_eq_false_2 by lia.
    rewrite (bool_decide_eq_false_2 (bin_pages data' = ∅))
      by (apply bin_pages_nonempty; lia).
    rewrite L0', L1'. rewrite !bool_decide_eq_true_2 by eauto. cbn [negb orb].
    unfold bind at 1. rewrite Hp'. by rewrite bool_decide_eq_true_2. }
  unfold fix_bin_file at 1. unfold bind at 1. rewrite extract_bin_eq, Hd.
  rewrite bool_decide_eq_false_2 by lia.
  rewrite (bool_decide_eq_false_2 (bin_pages data = ∅))
    by (by apply bin_pages_nonempty).
  rewrite L0, L1. rewrite !bool_decide_eq_true_2 by eauto. cbn [negb orb].
  unfold bind at 1. rewrite Hplan.
  case_bool_decide as Hch.
  - exists NoChangesNeeded, NoIssues, e1. split; [done|].
    apply (Hagain e1 data); try done; [by rewrite D1|by apply Hnil].
  - destruct (backup_file_returns filepath e1) as (bk & e2 & Hbk & D2 & K2).
    destruct (bin_patch_all data p Hlen Hb Hok Hsn3)
      as (nd & Hpatch & Hl & Hbn & Hv).
    unfold bind at 1. rewrite Hbk. unfold bind at 1. cbn [lift].
    unfold bind at 1. rewrite Hpatch. cbn [lift].
    unfold catch, bind, write_file, ret.
    rewrite bool_decide_eq_false_2 by (rewrite K2, K1; done).
    set (e3 := Env (<[filepath := FBin nd]> (disk e2)) (backups e2)
                   (tracker e2) (locked e2) (backup_dir_ok e2) (tape e2)).
    exists (FixedSuccessfully bk (changes_made p)), (Issues (p_issues p)), e3.
    split; [reflexivity|].
    apply (Hagain e3 nd); try done. apply lookup_insert_eq.
Qed.

(** ** Directory scan *)

(** C4 fails on the code.  A text image whose page 0 holds an odd number
    of hexadecimal digits makes [check_uid_comprehensive] raise
    [ValueError] from [bytes.fromhex]; the scan calls it outside any
    [try], so a dry run over that image and a valid dump ends with the
    exception and builds no record, not even for the valid dump.  In
    fixing mode a text image with a six-byte UID passes the validator
    (it is reported invalid) and then makes [fix_nfc_file] raise
    [ValueError] at the unpacking of the UID, with the same end.  The
    valid dump alone is scanned without error. *)
Theorem scan_aborts_on_malformed_text :
  check_uid_comprehensive (Some (parse_nfc (split_lines bad_nfc)).1.1) None
  = Raise ValueError
  ∧ scan_and_fix_directory batch all_flags false true (batch_env bad_nfc)
    = Some (Raise ValueError, batch_env bad_nfc)
  ∧ (∃ e', scan_and_fix_directory batch all_flags false false
             (batch_env short_uid_nfc) = Some (Raise ValueError, e'))
  ∧ ∃ info, scan_and_fix_directory [BinFile "good.bin"] all_flags false true
              (batch_env bad_nfc) = Some (Ret [info], batch_env bad_nfc)
            ∧ is_valid info = true.
Proof.
  split_and!.
  - vm_compute. reflexivity.
  - vm_compute. reflexivity.
  - eexists. vm_compute. reflexivity.
  - eexists. split; vm_compute; reflexivity.
Qed.

(** * Further properties of the program *)

(** ** The binary decoder *)

Lemma bin_pages_dom (data : list Z) :
  (540 ≤ length data)%nat → dom (bin_pages data) = list_to_set tracked_pages.
Proof.
  intros Hlen. unfold bin_pages, tracked_pages. cbn [foldl].
  rewrite !bool_decide_eq_true_2 by lia.
  rewrite !dom_insert_L, dom_empty_L. cbn [list_to_set foldr].
  set_solver.
Qed.

Lemma slice_page_of (data : list Z) (n : Z) :
  0 ≤ n →
  slice data (Z.to_nat (n * 4)) (Z.to_nat (n * 4 + 4))
  = page_of data (Z.to_nat n).
Proof.
  intros Hn. unfold slice, page_of.
  replace (Z.to_nat (n * 4 + 4) - Z.to_nat (n * 4))%nat with 4%nat by lia.
  by replace (Z.to_nat (n * 4)) with (4 * Z.to_nat n)%nat by lia.
Qed.

(** X1. A dump that is missing, unreadable or shorter than 540 bytes is
    rejected by the binary decoder with [(None, None)], and the binary
    repair then answers "Could not read file"; neither raises and neither
    changes anything in the world. *)
Theorem short_dump_is_rejected (filepath : string) (fl : flags) (e : env) :
  (∀ data, disk e !! filepath = Some (FBin data) → (length data < 540)%nat) →
  extract_pages_from_bin filepath e = Some (Ret (None, None), e)
  ∧ fix_bin_file filepath fl e
    = Some (Ret (false, CouldNotReadFile, NoIssues), e).
Proof.
  intros Hshort.
  assert (Hx : extract_pages_from_bin filepath e = Some (Ret (None, None), e)).
  { rewrite extract_bin_eq.
    destruct (disk e !! filepath) as [[s|data]|] eqn:E; try done.
    by rewrite bool_decide_eq_true_2 by by apply Hshort. }
  split; [done|].
  unfold fix_bin_file, bind. by rewrite Hx.
Qed.

Lemma short_dump_is_rejected_witness :
  extract_pages_from_bin "a" (sample_env (FBin [0x04; 0xAB; 0x73]) [])
  = Some (Ret (None, None), sample_env (FBin [0x04; 0xAB; 0x73]) [])
  ∧ fix_bin_file "a" all_flags (sample_env (FBin [0x04; 0xAB; 0x73]) [])
    = Some (Ret (false, CouldNotReadFile, NoIssues),
            sample_env (FBin [0x04; 0xAB; 0x73]) []).
Proof.
  apply (short_dump_is_rejected "a" all_flags
           (sample_env (FBin [0x04; 0xAB; 0x73]) [])).
  intros data. vm_compute. intros [= <-]. lia.
Defined.

(** X2. For a dump of at least 540 bytes the binary decoder returns the
    dump itself and a dictionary whose keys are exactly the eight tracked
    pages; the text stored for page [n] has eight characters and decodes
    back, with [bytes.fromhex], to the four bytes [data[4n:4n+4]]. *)
Theorem extract_pages_from_bin_round_trip (filepath : string) (e : env)
    (data : list Z) :
  disk e !! filepath = Some (FBin data) →
  (540 ≤ length data)%nat → is_bytes data →
  ∃ pages,
    extract_pages_from_bin filepath e
    = Some (Ret (Some pages, Some data), e)
    ∧ dom pages = list_to_set tracked_pages
    ∧ ∀ n, n ∈ tracked_pages →
        ∃ h, pages !! n = Some h
             ∧ String.length h = 8%nat
             ∧ fromhex h
               = Ret (slice data (Z.to_nat (n * 4)) (Z.to_nat (n * 4 + 4))).
Proof.
  intros Hd Hlen Hb. exists (bin_pages data). split_and!.
  - rewrite extract_bin_eq, Hd. by rewrite bool_decide_eq_false_2 by lia.
  - by apply bin_pages_dom.
  - intros n Hn.
    assert (Hn0 : 0 ≤ n ∧ Z.to_nat n ∈ [0; 1; 2; 130; 131; 132; 133; 134]%nat).
    { unfold tracked_pages in Hn.
      repeat (apply elem_of_cons in Hn as [->|Hn]; [split; [lia|set_solver]|]).
      by apply elem_of_nil in Hn. }
    destruct Hn0 as [Hn0 Hk].
    exists (hex_packed (page_of data (Z.to_nat n))). split_and!.
    + rewrite <- (Z2Nat.id n) at 1 by done. by apply bin_pages_lookup.
    + assert (Hl : length (page_of data (Z.to_nat n)) = 4%nat).
      { apply page_of_length.
        repeat (apply elem_of_cons in Hk as [->|Hk]; [lia|]).
        by apply elem_of_nil in Hk. }
      apply length4_inv in Hl as (a & b & c & d & ->). reflexivity.
    + rewrite slice_page_of by done. by apply fromhex_page.
Qed.

Lemma extract_pages_from_bin_round_trip_witness :
  ∃ pages,
    extract_pages_from_bin "a" (sample_env (FBin valid_bin) [])
    = Some (Ret (Some pages, Some valid_bin), sample_env (FBin valid_bin) [])
    ∧ dom pages = list_to_set tracked_pages
    ∧ ∀ n, n ∈ tracked_pages →
        ∃ h, pages !! n = Some h
             ∧ String.length h = 8%nat
             ∧ fromhex h
               = Ret (slice valid_bin (Z.to_nat (n * 4))
                        (Z.to_nat (n * 4 + 4))).
Proof.
  apply (extract_pages_from_bin_round_trip "a"
           (sample_env (FBin valid_bin) []) valid_bin).
  - vm_compute. reflexivity.
  - apply (bool_decide_unpack _). vm_compute. exact I.
  - apply (bool_decide_unpack _). vm_compute. exact I.
Defined.

(** ** Backups *)

(** X3. [backup_file] never raises and never touches the scanned files.
    It copies a file at most once per run: the path is in the tracker
    afterwards, a copy is made exactly when the path was not tracked, the
    file exists and the backup folder is writable, the copy holds the
    content the file had at that moment, no other backup is touched, and
    a second call for the same path returns [None] and changes nothing. *)
Theorem backup_file_once (filepath : string) (e : env) :
  ∃ bk e1,
    backup_file filepath e = Some (Ret bk, e1)
    ∧ disk e1 = disk e
    ∧ filepath ∈ tracker e1
    ∧ (∀ other, other ≠ filepath → backups e1 !! other = backups e !! other)
    ∧ (filepath ∈ tracker e → bk = None ∧ e1 = e)
    ∧ (is_Some bk ↔
       (filepath ∉ tracker e) ∧ is_Some (disk e !! filepath)
       ∧ backup_dir_ok e = true)
    ∧ (is_Some bk → backups e1 !! filepath = disk e !! filepath)
    ∧ backup_file filepath e1 = Some (Ret None, e1).
Proof.
  unfold backup_file. case_bool_decide as Ht.
  - exists None, e. rewrite bool_decide_eq_true_2 by done.
    split_and!; try done.
    split; [by intros [? [=]]|by intros [? _]].
  - assert (Hin : filepath ∈ {[filepath]} ∪ tracker e)
      by (apply elem_of_union_l; by apply elem_of_singleton).
    destruct (disk e !! filepath) as [d|] eqn:Hd;
      [destruct (backup_dir_ok e) eqn:Hok|]; eexists _, _;
      (split; [reflexivity|]); cbn [disk tracker backups];
      rewrite bool_decide_eq_true_2 by done.
    all: split_and!; try done;
      try (intros other Ho; by rewrite lookup_insert_ne);
      try (by rewrite lookup_insert_eq);
      try (by intros [? [=]]);
      try (split; [by intros [? [=]]|intros (_ & Hs & Hb); try done;
                   by destruct Hs as [? [=]]]).
Qed.

(** ** The dry run *)

Lemma scan_nfc_dry (filepath : string) (fl : flags) (convert_to_v4 : bool)
    (e : env) :
  ∃ r, scan_nfc filepath fl convert_to_v4 true e = Some (r, e)
       ∧ ∀ info, r = Ret info →
           path info = filepath ∧ file_type info = nfc
           ∧ was_fixed info = false ∧ was_converted info = false.
Proof.
  unfold scan_nfc. unfold bind at 1. rewrite extract_nfc_eq.
  set (x := match disk e !! filepath with
            | Some (FText content) => _
            | _ => _
            end).
  destruct x as [[[[pages c] l] uid_field] version].
  unfold bind, lift.
  destruct (check_uid_comprehensive pages uid_field) as [[[[v st] u] d]|x].
  - eexists. split; [reflexivity|]. by intros info [= <-].
  - eexists. split; [reflexivity|]. by intros info [=].
Qed.

Lemma scan_bin_dry (filepath : string) (fl : flags) (e : env) :
  ∃ r, scan_bin filepath fl true e = Some (r, e)
       ∧ ∀ info, r = Ret info →
           path info = filepath ∧ file_type info = bin
           ∧ was_fixed info = false ∧ was_converted info = false.
Proof.
  unfold scan_bin. unfold bind at 1. rewrite extract_bin_eq.
  set (x := match disk e !! filepath with
            | Some (FBin data) => _
            | _ => _
            end).
  destruct x as [pages data].
  unfold bind, lift.
  destruct (check_uid_comprehensive pages None) as [[[[v st] u] d]|x].
  - eexists. split; [reflexivity|]. by intros info [= <-].
  - eexists. split; [reflexivity|]. by intros info [=].
Qed.

Lemma scan_loop_dry (files : list fentry) (fl : flags) (convert_to_v4 : bool)
    (e : env) :
  ∃ r, scan_loop files fl convert_to_v4 true e = Some (r, e)
       ∧ ∀ infos, r = Ret infos →
           path <$> infos = entry_path <$> files
           ∧ file_type <$> infos = entry_type <$> files
           ∧ Forall (λ info, was_fixed info = false
                             ∧ was_converted info = false) infos.
Proof.
  induction files as [|f rest IH]; cbn [scan_loop].
  - eexists. split; [reflexivity|]. intros infos [= <-]. by split_and!.
  - assert (∃ r, match f with
                 | NfcFile filepath => scan_nfc filepath fl convert_to_v4 true
                 | BinFile filepath => scan_bin filepath fl true
                 end e = Some (r, e)
                 ∧ ∀ info, r = Ret info →
                     path info = entry_path f ∧ file_type info = entry_type f
                     ∧ was_fixed info = false ∧ was_converted info = false)
      as (r1 & H1 & Hi).
    { destruct f; [apply scan_nfc_dry|apply scan_bin_dry]. }
    unfold bind at 1. rewrite H1. destruct r1 as [info|x].
    + destruct IH as (r2 & H2 & Hr). unfold bind. rewrite H2.
      destruct r2 as [infos|x].
      * eexists. split; [reflexivity|]. intros ? [= <-].
        destruct (Hi info eq_refl) as (? & ? & ? & ?).
        destruct (Hr infos eq_refl) as (? & ? & ?).
        cbn [fmap list_fmap]. split_and!; [by f_equal|by f_equal|].
        by apply Forall_cons.
      * eexists. split; [reflexivity|]. by intros ? [=].
    + eexists. split; [reflexivity|]. by intros ? [=].
Qed.


(** X5. Without [--fix] the program is a dry run: whatever the other
    options, [main] leaves the files, the backups and the tracker as
    they were. *)
Theorem main_without_fix_is_read_only (files : list fentry) (a : args)
    (e : env) :
  a_fix a = false →
  ∃ r, main files a e = Some (r, e).
Proof.
  intros Ha. unfold main, scan_and_fix_directory. rewrite Ha. cbn [negb].
  destruct (scan_loop_dry files
              (Flags (negb (a_no_uid a)) (negb (a_no_bcc a))
                 (negb (a_no_password a)) (negb (a_no_pack a))
                 (negb (a_no_dlb a)) (negb (a_no_cfg a)))
              (a_convert_v4 a) e) as (r & Hr & _).
  by exists r.
Qed.

Lemma main_without_fix_is_read_only_witness :
  ∃ r, main batch (Args false true false false false false false false)
         (batch_env short_uid_nfc)
       = Some (r, batch_env short_uid_nfc).
Proof.
  apply (main_without_fix_is_read_only batch
           (Args false true false false false false false false)
           (batch_env short_uid_nfc)).
  reflexivity.
Defined.

(** ** The validator *)

Ltac bind_as x E :=
  match goal with
  | |- res_bind ?m _ = Ret _ → _ =>
      destruct m as [x|] eqn:E; cbn [res_bind]; [|discriminate]
  end.

Lemma take4_starts (l v : list Z) :
  length v = 4%nat → (4 ≤ length l)%nat → take 4 l = v → ∃ rest, l = v ++ rest.
Proof.
  intros Hv Hl Ht. exists (drop 4 l). by rewrite <- Ht, take_drop.
Qed.

Lemma validate_true_inv (pages : gmap Z string) (d c0 c1 : bool) :
  validate_dlb_and_cfg (Some pages) = Ret (true, d, c0, c1) →
  page_starts pages 130 correct_dlb ∧ page_starts pages 131 correct_cfg0
  ∧ page_starts pages 132 correct_cfg1.
Proof.
  unfold validate_dlb_and_cfg.
  destruct (pages !! 130) as [h130|] eqn:L130; [|by intros [=]].
  destruct (pages !! 131) as [h131|] eqn:L131; [|by intros [=]].
  destruct (pages !! 132) as [h132|] eqn:L132; [|by intros [=]].
  bind_as p130 F130. bind_as p131 F131. bind_as p132 F132.
  destruct (bool_decide (length p130 < 4)%nat) eqn:B130; [by intros [=]|].
  destruct (bool_decide (length p131 < 4)%nat) eqn:B131; [by intros [=]|].
  destruct (bool_decide (length p132 < 4)%nat) eqn:B132; [by intros [=]|].
  apply bool_decide_eq_false in B130, B131, B132.
  cbn [orb]. intros [= Hall _ _ _].
  apply andb_true_iff in Hall as [[H1 H2]%andb_true_iff H3].
  apply bool_decide_eq_true in H1, H2, H3.
  apply take4_starts in H1 as [r130 ->]; [|done|lia].
  apply take4_starts in H2 as [r131 ->]; [|done|lia].
  apply take4_starts in H3 as [r132 ->]; [|done|lia].
  split_and!; eexists _, _; by split.
Qed.

Lemma check_valid_inv (pages : gmap Z string) (uid_field : option string)
    st u d :
  check_uid_comprehensive (Some pages) uid_field = Ret (true, st, u, d) →
  pages_valid pages.
Proof.
  unfold check_uid_comprehensive.
  destruct (pages !! 0) as [h0|] eqn:L0; [|by intros [=]].
  destruct (pages !! 1) as [h1|] eqn:L1; [|by intros [=]].
  bind_as page0 F0. bind_as page1 F1.
  case_bool_decide as Hlen; [by intros [=]|].
  bind_as uid Hu. destruct uid as [[[[[[sn0 sn1] sn2] sn3] sn4] sn5] sn6].
  apply unpack7_inv in Hu.
  bind_as bcc1_valid Hb1. bind_as pp Hpp. destruct pp as [pw_valid pack_valid].
  bind_as vv Hv. destruct vv as [[[a dv] c0] c1].
  intros [= Hall _ _ _].
  repeat match type of Hall with
         | _ && _ = true => apply andb_true_iff in Hall as [Hall ?]
         end.
  subst bcc1_valid pw_valid pack_valid a.
  apply negb_true_iff, bool_decide_eq_false in Hall.
  destruct page0 as [|x0 [|x1 [|x2 [|x3 r0]]]]; try done.
  cbn [take app lookup list_lookup] in *.
  injection Hu as -> -> -> Hu.
  destruct page1 as [|y0 [|y1 [|y2 [|y3 r1]]]]; try done.
  cbn [take app] in *. rewrite take_0 in Hu, Hpp.
  injection Hu as -> -> -> ->.
  match goal with H : bool_decide (x3 = _) = true |- _ =>
    apply bool_decide_eq_true in H as -> end.
  assert (Hub : is_bytes [sn0; sn1; sn2; sn3; sn4; sn5; sn6]).
  { apply fromhex_bytes in F0, F1.
    apply (Forall_app _ [sn0; sn1; sn2] [sn3; sn4; sn5; sn6]). split.
    - by apply (Forall_take _ 3%nat) in F0.
    - by apply (Forall_take _ 4%nat) in F1. }
  exists sn0, sn1, sn2, sn3, sn4, sn5, sn6.
  apply validate_true_inv in Hv as (V130 & V131 & V132).
  assert (P2 : page_starts pages 2
                 [Z.lxor (Z.lxor (Z.lxor sn3 sn4) sn5) sn6]).
  { destruct (pages !! 2) as [h2|] eqn:L2; [|done].
    destruct (fromhex h2) as [page2|] eqn:F2; [|done].
    cbn [res_bind] in Hb1. destruct page2 as [|b r2]; [done|].
    cbn in Hb1. injection Hb1 as Hb1. apply bool_decide_eq_true in Hb1 as ->.
    by exists h2, r2. }
  assert (P34 : page_starts pages 133
                  (derived_password [sn0; sn1; sn2; sn3; sn4; sn5; sn6])
                ∧ page_starts pages 134 correct_pack).
  { rewrite (calculate_password_ge7 _ Hub) in Hpp by (simpl; lia).
    cbn [res_bind] in Hpp.
    destruct (pages !! 133) as [h133|] eqn:L133; [|done].
    destruct (pages !! 134) as [h134|] eqn:L134; [|done].
    destruct (fromhex h133) as [p133|] eqn:F133; [|done].
    destruct (fromhex h134) as [p134|] eqn:F134; [|done].
    cbn [res_bind] in Hpp.
    destruct (bool_decide (4 ≤ length p133)%nat) eqn:B133; [|done].
    destruct (bool_decide (4 ≤ length p134)%nat) eqn:B134; [|done].
    apply bool_decide_eq_true in B133, B134.
    cbn [andb] in Hpp. injection Hpp as Hpw Hpack.
    apply bool_decide_eq_true in Hpw, Hpack. injection Hpw as Hpw.
    apply take4_starts in Hpw as [r133 ->]; [|done|done].
    apply take4_starts in Hpack as [r134 ->]; [|done|done].
    split; eexists _, _; by split. }
  destruct P34 as [P133 P134].
  split_and!; try done.
  - by exists h0, r0.
  - by exists h1, r1.
Qed.

Lemma check_valid_intro (pages : gmap Z string) (uid_field : option string) :
  pages_valid pages →
  ∃ u d, check_uid_comprehensive (Some pages) uid_field
         = Ret (true, FieldReport, u, d).
Proof.
  intros (sn0 & sn1 & sn2 & sn3 & sn4 & sn5 & sn6
          & (h0 & r0 & L0 & F0) & (h1 & r1 & L1 & F1) & Hsn3
          & (h2 & r2 & L2 & F2) & (h130 & r130 & L130 & F130)
          & (h131 & r131 & L131 & F131) & (h132 & r132 & L132 & F132)
          & (h133 & r133 & L133 & F133) & (h134 & r134 & L134 & F134)).
  assert (Hub : is_bytes [sn0; sn1; sn2; sn3; sn4; sn5; sn6]).
  { apply fromhex_bytes in F0, F1.
    apply (Forall_app _ [sn0; sn1; sn2] [sn3; sn4; sn5; sn6]). split.
    - by apply (Forall_take _ 3%nat) in F0.
    - by apply (Forall_take _ 4%nat) in F1. }
  eexists _, _. unfold check_uid_comprehensive, validate_dlb_and_cfg.
  rewrite L0, L1, L2, L130, L131, L132, L133, L134.
  rewrite F0, F1, F2, F130, F131, F132, F133, F134.
  unfold derived_password, correct_pack, correct_dlb, correct_cfg0,
    correct_cfg1.
  cbn [res_bind take app length unpack7 lookup list_lookup].
  rewrite ?take_0. cbn [res_bind take app length unpack7 lookup list_lookup].
  rewrite (calculate_password_ge7 _ Hub) by (simpl; lia).
  rewrite (bool_decide_eq_false_2 (7 < 7)%nat) by lia.
  rewrite (bool_decide_eq_false_2 (sn3 = 136)) by done.
  unfold derived_password.
  cbn [res_bind take length nth]. rewrite ?take_0.
  repeat (repeat (rewrite bool_decide_eq_true_2 by (done || lia));
          repeat (rewrite bool_decide_eq_false_2 by lia);
          progress cbn [res_bind andb orb negb]).
  reflexivity.
Qed.

(** X6. The validator is sound and complete for the field rules: it
    returns the verdict "valid" exactly when pages 0, 1, 2 and 130 to 134
    are all stored and decodable, SN3 is not 0x88, and BCC0, BCC1, DLB,
    CFG0, CFG1, the password and PACK each start their page with the
    value derived from the UID.  The UID line of a text image plays no
    part in the verdict. *)
Theorem validator_sound_and_complete (pages : gmap Z string)
    (uid_field : option string) :
  (∃ st u d,
     check_uid_comprehensive (Some pages) uid_field = Ret (true, st, u, d))
  ↔ pages_valid pages.
Proof.
  split.
  - intros (st & u & d & H). by eapply check_valid_inv.
  - intros H. destruct (check_valid_intro pages uid_field H) as (u & d & E).
    by exists FieldReport, u, d.
Qed.

Lemma pages_valid_image (data : list Z) :
  (540 ≤ length data)%nat → is_bytes data →
  pages_valid (bin_pages data) ↔ image_valid data.
Proof.
  intros Hlen Hb.
  destruct (bin_pages_lookups data Hlen)
    as (L0 & L1 & L2 & L130 & L131 & L132 & L133 & L134).
  assert (Hst : ∀ (k : nat) v,
            bin_pages data !! Z.of_nat k = Some (hex_packed (page_of data k)) →
            page_starts (bin_pages data) (Z.of_nat k) v →
            ∃ rest, page_of data k = v ++ rest).
  { intros k v Hk (h & rest & Hl & Hf). rewrite Hk in Hl. injection Hl as <-.
    rewrite fromhex_page in Hf by done. injection Hf as ->. by exists rest. }
  assert (Hin : ∀ (k : nat) v rest,
            bin_pages data !! Z.of_nat k = Some (hex_packed (page_of data k)) →
            page_of data k = v ++ rest →
            page_starts (bin_pages data) (Z.of_nat k) v).
  { intros k v rest Hk Hp. exists (hex_packed (page_of data k)), rest.
    split; [done|]. rewrite fromhex_page by done. by rewrite Hp. }
  assert (H4 : ∀ k : nat, (4 * k + 4 ≤ 540)%nat → length (page_of data k) = 4%nat).
  { intros k Hk. apply page_of_length. lia. }
  split.
  - intros (sn0 & sn1 & sn2 & sn3 & sn4 & sn5 & sn6
            & P0 & P1 & Hsn3 & P2 & P130 & P131 & P132 & P133 & P134).
    apply (Hst 0%nat) in P0 as [r0 P0]; [|done].
    apply (Hst 1%nat) in P1 as [r1 P1]; [|done].
    apply (Hst 2%nat) in P2 as [r2 P2]; [|done].
    apply (Hst 130%nat) in P130 as [r130 P130]; [|done].
    apply (Hst 131%nat) in P131 as [r131 P131]; [|done].
    apply (Hst 132%nat) in P132 as [r132 P132]; [|done].
    apply (Hst 133%nat) in P133 as [r133 P133]; [|done].
    apply (Hst 134%nat) in P134 as [r134 P134]; [|done].
    pose proof (H4 0%nat) as H0. pose proof (H4 1%nat) as H1.
    pose proof (H4 2%nat) as H2. pose proof (H4 130%nat) as H130.
    pose proof (H4 131%nat) as H131. pose proof (H4 132%nat) as H132.
    pose proof (H4 133%nat) as H133. pose proof (H4 134%nat) as H134.
    rewrite P0 in H0. rewrite P1 in H1. rewrite P2 in H2.
    rewrite P130 in H130. rewrite P131 in H131. rewrite P132 in H132.
    rewrite P133 in H133. rewrite P134 in H134.
    rewrite length_app in H0, H1, H2, H130, H131, H132, H133, H134.
    cbn [length derived_password correct_dlb correct_cfg0 correct_cfg1
           correct_pack] in H0, H1, H2, H130, H131, H132, H133, H134.
    destruct r0; [|simpl in H0; lia]. destruct r1; [|simpl in H1; lia].
    destruct r130; [|simpl in H130; lia]. destruct r131; [|simpl in H131; lia].
    destruct r132; [|simpl in H132; lia]. destruct r133; [|simpl in H133; lia].
    destruct r134; [|simpl in H134; lia].
    destruct r2 as [|x1 [|x2 [|x3 [|]]]];
      try (simpl in H2; specialize (H2 ltac:(lia)); lia).
    rewrite app_nil_r in P0, P1, P130, P131, P132, P133, P134.
    exists sn0, sn1, sn2, sn3, sn4, sn5, sn6, x1, x2, x3. by split_and!.
  - intros (sn0 & sn1 & sn2 & sn3 & sn4 & sn5 & sn6 & x1 & x2 & x3
            & P0 & P1 & Hsn3 & P2 & P130 & P131 & P132 & P133 & P134).
    exists sn0, sn1, sn2, sn3, sn4, sn5, sn6. split_and!; try done.
    + apply (Hin 0%nat _ []); [done|]. by rewrite app_nil_r.
    + apply (Hin 1%nat _ []); [done|]. by rewrite app_nil_r.
    + by apply (Hin 2%nat _ [x1; x2; x3]).
    + apply (Hin 130%nat _ []); [done|]. by rewrite app_nil_r.
    + apply (Hin 131%nat _ []); [done|]. by rewrite app_nil_r.
    + apply (Hin 132%nat _ []); [done|]. by rewrite app_nil_r.
    + apply (Hin 133%nat _ []); [done|]. by rewrite app_nil_r.
    + apply (Hin 134%nat _ []); [done|]. by rewrite app_nil_r.
Qed.

Lemma check_dump (data : list Z) :
  (540 ≤ length data)%nat → is_bytes data →
  ∃ v st u d,
    check_uid_comprehensive (Some (bin_pages data)) None = Ret (v, st, u, d)
    ∧ (v = true ↔ image_valid data).
Proof.
  intros Hlen Hb.
  destruct (check_uid_comprehensive_returns (bin_pages data) None)
    as ([[[v st] u] d] & E); [by apply bin_pages_decodable|].
  exists v, st, u, d. split; [done|].
  rewrite <- (pages_valid_image data Hlen Hb). split.
  - intros ->. by eapply check_valid_inv.
  - intros Hv. destruct (check_valid_intro _ None Hv) as (u' & d' & E').
    rewrite E in E'. by injection E'.
Qed.

(** X7. On a dump of at least 540 bytes the validator never raises, and
    its verdict is "valid" exactly when the bytes of the dump satisfy the
    field rules: BCC0 at offset 3, BCC1 at offset 8, SN3 different from
    0x88, and DLB, CFG0, CFG1, the derived password and PACK at offsets
    520 to 539. *)
Theorem dump_verdict (data : list Z) :
  (540 ≤ length data)%nat → is_bytes data →
  ∃ v st u d,
    check_uid_comprehensive (Some (bin_pages data)) None = Ret (v, st, u, d)
    ∧ (v = true ↔ image_valid data).
Proof. apply check_dump. Qed.

Lemma dump_verdict_witness :
  ∃ v st u d,
    check_uid_comprehensive (Some (bin_pages sample_bin)) None
    = Ret (v, st, u, d)
    ∧ (v = true ↔ image_valid sample_bin).
Proof.
  apply (dump_verdict sample_bin).
  - apply (bool_decide_unpack _). vm_compute. exact I.
  - apply (bool_decide_unpack _). vm_compute. exact I.
Defined.

Lemma fromhex_raise_aux (s : string) :
  (∀ x, fromhex s = Raise x → x = ValueError)
  ∧ (∀ c x, fromhex (String c s) = Raise x → x = ValueError).
Proof.
  induction s as [|a s [IH1 IH2]].
  - split; [done|].
    intros c x. simpl. repeat case_match; try done; by intros [= <-].
  - split; [apply IH2|].
    intros c x. cbn [fromhex].
    destruct (Py_ISSPACE c); [apply IH2|].
    destruct (hexval c) as [top|]; [|by intros [= <-]].
    destruct (hexval a) as [bot|]; [|by intros [= <-]].
    destruct (fromhex s) as [l|y] eqn:Hs; [done|].
    cbn [res_bind]. intros [= <-]. by apply IH1.
Qed.

Lemma fromhex_raise (s : string) (x : exn) :
  fromhex s = Raise x → x = ValueError.
Proof. apply fromhex_raise_aux. Qed.

(** Decodes page [h] in a hypothesis [H] that says the computation
    raises; the case where the decoding itself raises closes the goal
    with page [n]. *)
Ltac decode_or_blame H h n L bs F :=
  let y := fresh "y" in
  destruct (fromhex h) as [bs|y] eqn:F; cbn [res_bind] in H;
  [|injection H as <-; apply fromhex_raise in F as ?; subst y;
    split; [reflexivity|];
    exists n, h; split; [unfold tracked_pages; set_solver|by split]].

Lemma validate_raise_inv (pg : gmap Z string) (x : exn) :
  validate_dlb_and_cfg (Some pg) = Raise x →
  x = ValueError
  ∧ ∃ n h, n ∈ tracked_pages ∧ pg !! n = Some h
           ∧ fromhex h = Raise ValueError.
Proof.
  unfold validate_dlb_and_cfg. intros H.
  destruct (pg !! 130) as [h130|] eqn:L130; [|done].
  destruct (pg !! 131) as [h131|] eqn:L131; [|done].
  destruct (pg !! 132) as [h132|] eqn:L132; [|done].
  decode_or_blame H h130 130 L130 p130 F130.
  decode_or_blame H h131 131 L131 p131 F131.
  decode_or_blame H h132 132 L132 p132 F132.
  by case_match.
Qed.

(** X8. The validator can only fail with [ValueError], and only because
    the text of one of the eight tracked pages is rejected by
    [bytes.fromhex]; the other pages of the dictionary are never
    decoded, and a missing dictionary never makes it fail. *)
Theorem validator_raises_only_on_bad_hex (pages : option (gmap Z string))
    (uid_field : option string) (x : exn) :
  check_uid_comprehensive pages uid_field = Raise x →
  x = ValueError
  ∧ ∃ pg n h, pages = Some pg ∧ n ∈ tracked_pages ∧ pg !! n = Some h
              ∧ fromhex h = Raise ValueError.
Proof.
  destruct pages as [pg|]; [|done]. intros H.
  cut (x = ValueError
       ∧ ∃ n h, n ∈ tracked_pages ∧ pg !! n = Some h
                ∧ fromhex h = Raise ValueError).
  { intros (? & n & h & ?). split; [done|]. by exists pg, n, h. }
  unfold check_uid_comprehensive in H.
  destruct (pg !! 0) as [h0|] eqn:L0; [|done].
  destruct (pg !! 1) as [h1|] eqn:L1; [|done].
  decode_or_blame H h0 0 L0 page0 F0.
  decode_or_blame H h1 1 L1 page1 F1.
  case_bool_decide as Hlen; [done|].
  assert (Hb : is_bytes (take 3 page0 ++ take 4 page1)).
  { apply Forall_app; split; apply Forall_take; by eapply fromhex_bytes. }
  assert (Hl7 : length (take 3 page0 ++ take 4 page1) = 7%nat).
  { rewrite length_app, !length_take in *. lia. }
  destruct (take 3 page0 ++ take 4 page1)
    as [|a [|b [|c [|d [|e [|f [|g [|]]]]]]]] eqn:Eu; try done.
  cbn [unpack7 res_bind] in H.
  rewrite (calculate_password_ge7 _ Hb) in H by (simpl; lia).
  destruct (pg !! 2) as [h2|] eqn:L2.
  - decode_or_blame H h2 2 L2 page2 F2.
    destruct (page2 !! 0%nat); cbn [res_bind] in H.
    all: destruct (pg !! 133) as [h133|] eqn:L133;
      [destruct (pg !! 134) as [h134|] eqn:L134|]; cbn [res_bind] in H.
    all: try (decode_or_blame H h133 133 L133 page133 F133;
              decode_or_blame H h134 134 L134 page134 F134).
    all: destruct (validate_dlb_and_cfg (Some pg)) as [[[[??]?]?]|y] eqn:V;
      [by repeat case_match|].
    all: apply validate_raise_inv in V as [-> ?];
      repeat case_match; cbn [res_bind] in H; by injection H as <-.
  - cbn [res_bind] in H.
    destruct (pg !! 133) as [h133|] eqn:L133;
      [destruct (pg !! 134) as [h134|] eqn:L134|]; cbn [res_bind] in H.
    all: try (decode_or_blame H h133 133 L133 page133 F133;
              decode_or_blame H h134 134 L134 page134 F134).
    all: destruct (validate_dlb_and_cfg (Some pg)) as [[[[??]?]?]|y] eqn:V;
      [by repeat case_match|].
    all: apply validate_raise_inv in V as [-> ?];
      repeat case_match; cbn [res_bind] in H; by injection H as <-.
Qed.

Lemma validator_raises_only_on_bad_hex_witness :
  ValueError = ValueError
  ∧ ∃ pg n h, Some (parse_nfc (split_lines bad_nfc)).1.1 = Some pg
              ∧ n ∈ tracked_pages ∧ pg !! n = Some h
              ∧ fromhex h = Raise ValueError.
Proof.
  apply (validator_raises_only_on_bad_hex
           (Some (parse_nfc (split_lines bad_nfc)).1.1) None ValueError).
  vm_compute. reflexivity.
Defined.

(** X9. The verdicts on DLB, CFG0 and CFG1 stand or fall together: when
    one of pages 130, 131 and 132 is absent or holds fewer than four
    bytes, [validate_dlb_and_cfg] reports all three fields as invalid,
    whatever the other two pages hold. *)
Theorem dlb_cfg_all_or_nothing (pages : gmap Z string) (n : Z)
    (a d c0 c1 : bool) :
  n ∈ [130; 131; 132] → page_short pages n →
  validate_dlb_and_cfg (Some pages) = Ret (a, d, c0, c1) →
  a = false ∧ d = false ∧ c0 = false ∧ c1 = false.
Proof.
  intros Hn Hs. unfold validate_dlb_and_cfg.
  destruct (pages !! 130) as [h130|] eqn:L130; [|by intros [= <- <- <- <-]].
  destruct (pages !! 131) as [h131|] eqn:L131; [|by intros [= <- <- <- <-]].
  destruct (pages !! 132) as [h132|] eqn:L132; [|by intros [= <- <- <- <-]].
  bind_as p130 F130. bind_as p131 F131. bind_as p132 F132.
  assert (Hor : bool_decide (length p130 < 4)%nat
                || bool_decide (length p131 < 4)%nat
                || bool_decide (length p132 < 4)%nat = true).
  { destruct Hs as [Hs|(h & bs & Hl & Hf & Hlen)].
    - repeat (apply elem_of_cons in Hn as [->|Hn]; [congruence|]).
      by apply elem_of_nil in Hn.
    - repeat (apply elem_of_cons in Hn as [->|Hn];
              [simplify_eq;
               first [ replace p130 with bs by congruence
                     | replace p131 with bs by congruence
                     | replace p132 with bs by congruence ];
               rewrite (bool_decide_eq_true_2 _ Hlen);
               by rewrite ?orb_true_r|]).
      by apply elem_of_nil in Hn. }
  rewrite Hor. by intros [= <- <- <- <-].
Qed.

Lemma dlb_cfg_all_or_nothing_witness :
  false = false ∧ false = false ∧ false = false ∧ false = false.
Proof.
  apply (dlb_cfg_all_or_nothing
           (<[130 := "01000FBF"%string]>
              (<[131 := "00000004"%string]> (<[132 := "5F00"%string]> ∅)))
           132 false false false false).
  - set_solver.
  - right. exists "5F00"%string, [0x5F; 0x00]. split_and!.
    + vm_compute. reflexivity.
    + vm_compute. reflexivity.
    + simpl. lia.
  - vm_compute. reflexivity.
Defined.

(** ** The binary repair, flag by flag *)

Lemma keeps_refl (P : nat → Prop) (d : list Z) : keeps P d d.
Proof. by split. Qed.

Lemma keeps_trans (P : nat → Prop) (d1 d2 d3 : list Z) :
  keeps P d1 d2 → keeps P d2 d3 → keeps P d1 d3.
Proof.
  intros [L1 H1] [L2 H2]. split; [congruence|].
  intros i Hi. rewrite H2, H1; auto.
Qed.

Lemma keeps_setitem (P : nat → Prop) (d d' : list Z) (j : nat) (v : Z) :
  (∀ i, P i → i ≠ j) → setitem d j v = Ret d' → keeps P d d'.
Proof.
  intros Hj H. apply setitem_inv in H as (-> & _ & _). split.
  - apply length_insert.
  - intros i Hi. apply list_lookup_insert_ne. specialize (Hj i Hi). lia.
Qed.

Lemma keeps_setslice (P : nat → Prop) (d d' v : list Z) (a : nat) :
  (∀ i, P i → (i < a ∨ a + 4 ≤ i)%nat) → (a + 4 ≤ length d)%nat →
  length v = 4%nat →
  setslice d a (a + 4) v = Ret d' → keeps P d d'.
Proof.
  intros Hp Hd Hv H. apply setslice_inv in H as [-> _]. split.
  - apply length_setslice; lia.
  - intros i Hi. apply lookup_setslice_ne; [lia|lia|]. by apply Hp.
Qed.

Lemma keeps_when (P : nat → Prop) (c : bool) (f : list Z → res (list Z))
    (d d' : list Z) :
  (c = true → f d = Ret d' → keeps P d d') →
  when c f d = Ret d' → keeps P d d'.
Proof.
  intros Hf H. apply when_inv in H as [[Hc H]|[_ ->]]; [auto|apply keeps_refl].
Qed.

Lemma touched_false (fl : flags) (i : nat) :
  touched fl i = false →
  (fix_uid fl = true → (3 ≤ i)%nat ∧ (i < 4 ∨ 8 ≤ i)%nat)
  ∧ (fix_bcc fl = true → i ≠ 3%nat ∧ i ≠ 8%nat)
  ∧ (fix_dlb fl = true → (i < 520 ∨ 524 ≤ i)%nat)
  ∧ (fix_cfg fl = true → (i < 524 ∨ 532 ≤ i)%nat)
  ∧ (fix_password fl = true → (i < 532 ∨ 536 ≤ i)%nat)
  ∧ (fix_pack fl = true → (i < 536 ∨ 540 ≤ i)%nat).
Proof.
  unfold touched. intros H.
  repeat match type of H with
         | _ || _ = false => apply orb_false_iff in H as [H ?]
         end.
  split_and!; intros Hf; rewrite Hf in *; cbn [andb] in *;
    repeat match goal with
           | H : _ || _ = false |- _ => apply orb_false_iff in H as [??]
           | H : bool_decide _ = false |- _ => apply bool_decide_eq_false in H
           end; lia.
Qed.

Lemma bin_patch_keeps (pages : gmap Z string) (fl : flags) (p : plan)
    (data nd : list Z) :
  (540 ≤ length data)%nat → length (p_password p) = 4%nat →
  bin_patch pages fl p data = Ret nd →
  keeps (λ i, touched fl i = false) data nd.
Proof.
  intros Hlen Hpw. unfold bin_patch.
  destruct (p_uid p) as [[[[[[sn0 sn1] sn2] sn3] sn4] sn5] sn6].
  intros H.
  set (P := λ i : nat, touched fl i = false).
  assert (HP : ∀ i, P i → _) by (intros i Hi; exact (touched_false fl i Hi)).
  apply res_bind_inv in H as (d1 & H1 & H).
  assert (F1 : keeps P data d1).
  { revert H1. apply keeps_when. intros Hc H1.
    apply res_bind_inv in H1 as (x1 & Hx1 & H1).
    apply res_bind_inv in H1 as (x2 & Hx2 & H1).
    eapply keeps_trans; [eapply keeps_setitem; [|exact Hx1]|].
    { intros i Hi. destruct (HP i Hi) as (Hu & _). specialize (Hu Hc). lia. }
    eapply keeps_trans; [eapply keeps_setitem; [|exact Hx2]|].
    { intros i Hi. destruct (HP i Hi) as (Hu & _). specialize (Hu Hc). lia. }
    eapply keeps_setitem; [|exact H1].
    intros i Hi. destruct (HP i Hi) as (Hu & _). specialize (Hu Hc). lia. }
  apply res_bind_inv in H as (d2 & H2 & H).
  assert (F2 : keeps P data d2).
  { apply (keeps_trans _ _ _ _ F1). revert H2. apply keeps_when. intros Hc H2.
    eapply keeps_setitem; [|exact H2].
    intros i Hi. destruct (HP i Hi) as (_ & Hu & _). specialize (Hu Hc). lia. }
  clear F1 H1. apply res_bind_inv in H as (d3 & H3 & H).
  assert (F3 : keeps P data d3).
  { apply (keeps_trans _ _ _ _ F2). revert H3. apply keeps_when. intros Hc H3.
    apply res_bind_inv in H3 as (x1 & Hx1 & H3).
    apply res_bind_inv in H3 as (x2 & Hx2 & H3).
    apply res_bind_inv in H3 as (x3 & Hx3 & H3).
    eapply keeps_trans; [eapply keeps_setitem; [|exact Hx1]|].
    { intros i Hi. destruct (HP i Hi) as (Hu & _). specialize (Hu Hc). lia. }
    eapply keeps_trans; [eapply keeps_setitem; [|exact Hx2]|].
    { intros i Hi. destruct (HP i Hi) as (Hu & _). specialize (Hu Hc). lia. }
    eapply keeps_trans; [eapply keeps_setitem; [|exact Hx3]|].
    { intros i Hi. destruct (HP i Hi) as (Hu & _). specialize (Hu Hc). lia. }
    eapply keeps_setitem; [|exact H3].
    intros i Hi. destruct (HP i Hi) as (Hu & _). specialize (Hu Hc). lia. }
  clear F2 H2. apply res_bind_inv in H as (d4 & H4 & H).
  assert (F4 : keeps P data d4).
  { apply (keeps_trans _ _ _ _ F3). revert H4. apply keeps_when. intros Hc H4.
    apply andb_true_iff in Hc as [Hc _].
    eapply keeps_setitem; [|exact H4].
    intros i Hi. destruct (HP i Hi) as (_ & Hu & _). specialize (Hu Hc). lia. }
  clear F3 H3. apply res_bind_inv in H as (d5 & H5 & H).
  assert (F5 : keeps P data d5).
  { apply (keeps_trans _ _ _ _ F4). revert H5. apply keeps_when. intros Hc H5.
    apply andb_true_iff in Hc as [Hc _].
    eapply (keeps_setslice _ _ _ correct_dlb 520); [| |done|exact H5].
    - intros i Hi. destruct (HP i Hi) as (_ & _ & Hu & _).
      specialize (Hu Hc). lia.
    - destruct F4 as [-> _]. lia. }
  clear F4 H4. apply res_bind_inv in H as (d6 & H6 & H).
  assert (F6 : keeps P data d6).
  { apply (keeps_trans _ _ _ _ F5). revert H6. apply keeps_when. intros Hc H6.
    apply andb_true_iff in Hc as [Hc _].
    eapply (keeps_setslice _ _ _ correct_cfg0 524); [| |done|exact H6].
    - intros i Hi. destruct (HP i Hi) as (_ & _ & _ & Hu & _).
      specialize (Hu Hc). lia.
    - destruct F5 as [-> _]. lia. }
  clear F5 H5. apply res_bind_inv in H as (d7 & H7 & H).
  assert (F7 : keeps P data d7).
  { apply (keeps_trans _ _ _ _ F6). revert H7. apply keeps_when. intros Hc H7.
    apply andb_true_iff in Hc as [Hc _].
    eapply (keeps_setslice _ _ _ correct_cfg1 528); [| |done|exact H7].
    - intros i Hi. destruct (HP i Hi) as (_ & _ & _ & Hu & _).
      specialize (Hu Hc). lia.
    - destruct F6 as [-> _]. lia. }
  clear F6 H6. apply res_bind_inv in H as (d8 & H8 & H).
  assert (F8 : keeps P data d8).
  { apply (keeps_trans _ _ _ _ F7). revert H8. apply keeps_when. intros Hc H8.
    apply andb_true_iff in Hc as [Hc _].
    eapply (keeps_setslice _ _ _ (p_password p) 532); [| |done|exact H8].
    - intros i Hi. destruct (HP i Hi) as (_ & _ & _ & _ & Hu & _).
      specialize (Hu Hc). lia.
    - destruct F7 as [-> _]. lia. }
  clear F7 H7. apply (keeps_trans _ _ _ _ F8). revert H. apply keeps_when.
  intros Hc H. apply andb_true_iff in Hc as [Hc _].
  eapply (keeps_setslice _ _ _ correct_pack 536); [| |done|exact H].
  - intros i Hi. destruct (HP i Hi) as (_ & _ & _ & _ & _ & Hu).
    specialize (Hu Hc). lia.
  - destruct F8 as [-> _]. lia.
Qed.

(** X10. The binary repair respects the fix flags.  Whatever its
    outcome, the file keeps its length and every byte that the enabled
    fixes do not own: with the UID fix off, bytes 0 to 2 and 4 to 7 stay;
    with the BCC fix off, bytes 3 and 8; with the DLB, CFG, password or
    PACK fix off, bytes 520 to 523, 524 to 531, 532 to 535 or 536 to 539;
    and every other byte stays under any flags. *)
Theorem fix_bin_file_respects_flags (filepath : string) (fl : flags)
    (e e' : env) (r : res (bool * message * issues)) (data : list Z) :
  disk e !! filepath = Some (FBin data) →
  (540 ≤ length data)%nat →
  fix_bin_file filepath fl e = Some (r, e') →
  ∃ data',
    disk e' !! filepath = Some (FBin data')
    ∧ length data' = length data
    ∧ ∀ i : nat, touched fl i = false → data' !! i = data !! i.
Proof.
  intros Hd Hlen H.
  apply fix_bin_file_inv in H
    as [->|(data0 & p & nd & bk & Hd0 & _ & Hok & _ & Hpatch & -> & _)].
  - exists data. by split_and!.
  - rewrite Hd in Hd0. injection Hd0 as <-.
    destruct (bin_patch_keeps _ _ _ _ _ Hlen
                (plan_ok_password_length _ Hok) Hpatch) as [HL HF].
    exists nd. split_and!; [apply lookup_insert_eq|done|done].
Qed.

Lemma fix_bin_file_respects_flags_witness :
  ∃ r e' data',
    fix_bin_file "a" (Flags false true false true true true)
      (sample_env (FBin sample_bin) [])
    = Some (r, e')
    ∧ disk e' !! "a"%string = Some (FBin data')
    ∧ length data' = length sample_bin
    ∧ ∀ i : nat, touched (Flags false true false true true true) i = false →
        data' !! i = sample_bin !! i.
Proof.
  destruct (fix_bin_file "a" (Flags false true false true true true)
              (sample_env (FBin sample_bin) []))
    as [[r e']|] eqn:E.
  - exists r, e'.
    destruct (fix_bin_file_respects_flags "a"
                (Flags false true false true true true)
                (sample_env (FBin sample_bin) []) e' r sample_bin)
      as (data' & H1 & H2 & H3).
    + vm_compute. reflexivity.
    + apply (bool_decide_unpack _). vm_compute. exact I.
    + exact E.
    + exists data'. by split_and!.
  - vm_compute in E. discriminate E.
Defined.

(** ** The binary repair never raises *)

Lemma bind_ret_step {A B : Type} (m : M A) (k : A → M B) (e e1 : env) (a : A) :
  m e = Some (Ret a, e1) → bind m k e = k a e1.
Proof. unfold bind. by intros ->. Qed.

Lemma plan_page_returns (enabled : bool) (pages : gmap Z string) (n : Z)
    (label : string) (correct : list Z) :
  (∀ h, pages !! n = Some h → is_ret (fromhex h)) →
  ∃ r, plan_page enabled pages n label correct = Ret r.
Proof.
  intros Hd. unfold plan_page. destruct enabled; [|by eexists].
  destruct (pages !! n) as [h|]; [|by eexists].
  specialize (Hd h eq_refl). destruct (fromhex h) as [bs|]; [|done].
  cbn [res_bind]. repeat case_match; by eexists.
Qed.

Lemma plan_bcc1_returns (enabled : bool) (pages : gmap Z string) (c : Z) :
  (∀ h, pages !! 2 = Some h → is_ret (fromhex h)) →
  ∃ r, plan_bcc1 enabled pages c = Ret r.
Proof.
  intros Hd. unfold plan_bcc1. destruct enabled; [|by eexists].
  destruct (pages !! 2) as [h|]; [|by eexists].
  specialize (Hd h eq_refl). destruct (fromhex h) as [bs|]; [|done].
  cbn [res_bind]. repeat case_match; by eexists.
Qed.

(** The UID step shared by the two planners. *)
Lemma fix_uid_step (fl : flags) (uid : list Z) (e : env) :
  length uid = 7%nat → is_bytes uid →
  (fix_uid fl = true → uid !! 3%nat = Some 0x88 → tape_ok e) →
  ∃ uid' fixed e1,
    (if fix_uid fl then fix_uid_if_sn3_is_88 uid else ret (uid, false)) e
    = Some (Ret (uid', fixed), e1)
    ∧ length uid' = 7%nat ∧ is_bytes uid'.
Proof.
  intros Hl Hb Ht. destruct (fix_uid fl); [|by exists uid, false, e].
  destruct (decide (uid !! 3%nat = Some 0x88)) as [H88|H88].
  - destruct (Ht eq_refl H88) as [Htb Hex].
    destruct (fix_uid_resampled uid e Hb H88 Htb Hex)
      as (new & t' & Hrun & Hnew & _ & _).
    eexists _, _, _. split; [exact Hrun|]. split.
    + by rewrite length_insert.
    + apply Forall_insert; done.
  - exists uid, false, e. split; [by apply fix_uid_unchanged|done].
Qed.

Lemma sn3_note_step (fixed : bool) (uid : list Z) (e : env) :
  length uid = 7%nat →
  ∃ c, (if fixed
        then io b <- lift (index uid 3);
             ret (Some ("Fixed CT in SN3 from 0x88 to 0x" +:+ fmt_02X b))
        else ret None) e = Some (Ret c, e).
Proof.
  intros Hl. destruct fixed; [|by eexists].
  destruct uid as [|a [|b [|c [|d [|e5 [|f [|g [|]]]]]]]]; try done.
  by eexists.
Qed.

Lemma bin_plan_returns (pages : gmap Z string) (fl : flags) (e : env)
    (h0 h1 : string) (page0 page1 : list Z) :
  pages !! 0 = Some h0 → fromhex h0 = Ret page0 →
  pages !! 1 = Some h1 → fromhex h1 = Ret page1 →
  (4 ≤ length page0)%nat → (4 ≤ length page1)%nat →
  (∀ n h, pages !! n = Some h → n ∈ [2; 130; 131; 132; 133; 134] →
          is_ret (fromhex h)) →
  (fix_uid fl = true → page1 !! 0%nat = Some 0x88 → tape_ok e) →
  ∃ p e', bin_plan pages fl e = Some (Ret p, e').
Proof.
  intros L0 F0 L1 F1 H0 H1 Hd Ht.
  assert (Hb : is_bytes (take 3 page0 ++ take 4 page1)).
  { apply Forall_app; split; apply Forall_take; by eapply fromhex_bytes. }
  assert (Hl7 : length (take 3 page0 ++ take 4 page1) = 7%nat).
  { rewrite length_app, !length_take. lia. }
  assert (H3 : (take 3 page0 ++ take 4 page1) !! 3%nat = page1 !! 0%nat).
  { rewrite lookup_app_r by (rewrite length_take; lia).
    rewrite length_take, lookup_take_lt by lia.
    by replace (3 - 3 `min` length page0)%nat with 0%nat by lia. }
  destruct (fix_uid_step fl _ e Hl7 Hb) as (uid' & fixed & e1 & Hfix & Hl' & Hb').
  { intros Hf H88. apply Ht; [done|]. by rewrite <- H3. }
  destruct (sn3_note_step fixed uid' e1 Hl') as [c_sn3 Hc].
  destruct uid' as [|sn0 [|sn1 [|sn2 [|sn3 [|sn4 [|sn5 [|sn6 [|]]]]]]]];
    try done.
  destruct (index page0 3) as [current_bcc0|] eqn:Hi; cycle 1.
  { unfold index in Hi. destruct (page0 !! 3%nat) eqn:E; [done|].
    apply lookup_ge_None in E. lia. }
  destruct (plan_bcc1_returns (fix_bcc fl) pages
              (Z.lxor (Z.lxor (Z.lxor sn3 sn4) sn5) sn6)) as [c_bcc1 Hb1].
  { intros h Hh. apply (Hd 2 h Hh). set_solver. }
  pose proof (list_of_password_ok _ Hb' ltac:(simpl; lia)) as Hpw.
  destruct (plan_page_returns (fix_password fl) pages 133 "Password"
              (derived_password [sn0; sn1; sn2; sn3; sn4; sn5; sn6]))
    as [c_pw Hcpw].
  { intros h Hh. apply (Hd 133 h Hh). set_solver. }
  destruct (plan_page_returns (fix_pack fl) pages 134 "PACK" correct_pack)
    as [c_pack Hcpack].
  { intros h Hh. apply (Hd 134 h Hh). set_solver. }
  destruct (plan_page_returns (fix_dlb fl) pages 130 "DLB" correct_dlb)
    as [c_dlb Hcdlb].
  { intros h Hh. apply (Hd 130 h Hh). set_solver. }
  destruct (plan_page_returns (fix_cfg fl) pages 131 "CFG0" correct_cfg0)
    as [c_cfg0 Hccfg0].
  { intros h Hh. apply (Hd 131 h Hh). set_solver. }
  destruct (plan_page_returns (fix_cfg fl) pages 132 "CFG1" correct_cfg1)
    as [c_cfg1 Hccfg1].
  { intros h Hh. apply (Hd 132 h Hh). set_solver. }
  eexists _, _. unfold bin_plan, getitem. rewrite L0, L1.
  unfold bind at 1 2 3 4. cbn [lift]. rewrite F0, F1.
  rewrite (bind_ret_step _ _ _ _ _ Hfix).
  rewrite (bind_ret_step _ _ _ _ _ Hc).
  unfold bind at 1. cbn [lift unpack7].
  unfold bind at 1. cbn [lift]. rewrite Hi.
  unfold bind at 1. cbn [lift]. rewrite Hb1.
  unfold bind at 1. cbn [lift]. rewrite Hpw.
  unfold bind at 1. cbn [lift]. rewrite Hcpw.
  unfold bind at 1. cbn [lift]. rewrite Hcpack.
  unfold bind at 1. cbn [lift]. rewrite Hcdlb.
  unfold bind at 1. cbn [lift]. rewrite Hccfg0.
  unfold bind at 1. cbn [lift]. rewrite Hccfg1.
  reflexivity.
Qed.

Lemma res_bind_returns {A B : Type} (m : res A) (k : A → res B)
    (Q : A → Prop) (R : B → Prop) :
  (∃ y, m = Ret y ∧ Q y) → (∀ y, Q y → ∃ z, k y = Ret z ∧ R z) →
  ∃ z, res_bind m k = Ret z ∧ R z.
Proof. intros (y & -> & Hy) Hk. by apply Hk. Qed.

Lemma when_returns {A : Type} (c : bool) (f : A → res A) (x : A)
    (Q : A → Prop) :
  Q x → (∃ y, f x = Ret y ∧ Q y) → ∃ y, when c f x = Ret y ∧ Q y.
Proof. intros Hx Hf. destruct c; [done|by exists x]. Qed.

Lemma setitem_returns (d : list Z) (j : nat) (v : Z) (n : nat) :
  (j < n)%nat → is_byte v → length d = n →
  ∃ y, setitem d j v = Ret y ∧ length y = n.
Proof.
  intros Hj Hv Hl. exists (<[j := v]> d). split.
  - apply setitem_ok; [lia|done].
  - by rewrite length_insert.
Qed.

Lemma setslice_returns (d v : list Z) (a n : nat) :
  (a + 4 ≤ n)%nat → length v = 4%nat → is_bytes v → length d = n →
  ∃ y, setslice d a (a + 4) v = Ret y ∧ length y = n.
Proof.
  intros Ha Hv Hb Hl. eexists. split; [by apply setslice_ok|].
  rewrite length_setslice; [done|lia|lia].
Qed.

Lemma bin_patch_returns (pages : gmap Z string) (fl : flags) (p : plan)
    (data : list Z) :
  (540 ≤ length data)%nat → plan_ok p →
  ∃ nd, bin_patch pages fl p data = Ret nd ∧ length nd = length data.
Proof.
  intros Hlen (Hub & Hb0 & Hb1 & Hpw). unfold bin_patch.
  unfold uid_of in *.
  destruct (p_uid p) as [[[[[[sn0 sn1] sn2] sn3] sn4] sn5] sn6].
  cbn [nth] in *.
  assert (B : is_byte sn0 ∧ is_byte sn1 ∧ is_byte sn2 ∧ is_byte sn3
              ∧ is_byte sn4 ∧ is_byte sn5 ∧ is_byte sn6).
  { repeat match goal with
           | H : is_bytes (_ :: _) |- _ => inversion H; subst; clear H
           | H : Forall _ (_ :: _) |- _ => inversion H; subst; clear H
           end. by split_and!. }
  destruct B as (B0 & B1 & B2 & B3 & B4 & B5 & B6).
  assert (Bb0 : is_byte (p_bcc0 p)).
  { rewrite Hb0. repeat apply lxor_byte; try done; unfold is_byte; lia. }
  assert (Bb1 : is_byte (p_bcc1 p)).
  { rewrite Hb1. by repeat apply lxor_byte. }
  assert (Bpw : is_bytes (p_password p)).
  { rewrite Hpw. apply derived_password_bytes.
    by repeat (constructor; [done|]). }
  assert (Lpw : length (p_password p) = 4%nat) by by rewrite Hpw.
  set (n := length data).
  set (Q := λ d : list Z, length d = n).
  assert (HS : ∀ d j v, (j < 540)%nat → is_byte v → Q d →
                 ∃ y, setitem d j v = Ret y ∧ Q y).
  { intros d j v Hj Hv Hd. apply setitem_returns; [lia|done|done]. }
  assert (HL : ∀ d a v, (a + 4 ≤ 540)%nat → length v = 4%nat → is_bytes v →
                 Q d → ∃ y, setslice d a (a + 4) v = Ret y ∧ Q y).
  { intros d a v Ha Hv Hb Hd. apply setslice_returns; try done. lia. }
  assert (Hc : ∀ v, v ∈ [correct_dlb; correct_cfg0; correct_cfg1; correct_pack]
                 → is_bytes v).
  { intros v Hv. repeat (apply elem_of_cons in Hv as [->|Hv];
      [apply (bool_decide_unpack _); vm_compute; exact I|]).
    by apply elem_of_nil in Hv. }
  apply (res_bind_returns _ _ Q).
  { apply when_returns; [done|].
    apply (res_bind_returns _ _ Q); [by apply HS; [lia|..]|intros d1 Q1].
    apply (res_bind_returns _ _ Q); [by apply HS; [lia|..]|intros d2 Q2].
    by apply HS; [lia|..]. }
  intros x1 Q1. apply (res_bind_returns _ _ Q).
  { apply when_returns; [done|]. by apply HS; [lia|..]. }
  intros x2 Q2. apply (res_bind_returns _ _ Q).
  { apply when_returns; [done|].
    apply (res_bind_returns _ _ Q); [by apply HS; [lia|..]|intros d1 Q1'].
    apply (res_bind_returns _ _ Q); [by apply HS; [lia|..]|intros d2 Q2'].
    apply (res_bind_returns _ _ Q); [by apply HS; [lia|..]|intros d3 Q3'].
    by apply HS; [lia|..]. }
  intros x3 Q3. apply (res_bind_returns _ _ Q).
  { apply when_returns; [done|]. by apply HS; [lia|..]. }
  intros x4 Q4. apply (res_bind_returns _ _ Q).
  { apply when_returns; [done|].
    apply (HL _ 520%nat); [lia|done| |done]. apply Hc. set_solver. }
  intros x5 Q5. apply (res_bind_returns _ _ Q).
  { apply when_returns; [done|].
    apply (HL _ 524%nat); [lia|done| |done]. apply Hc. set_solver. }
  intros x6 Q6. apply (res_bind_returns _ _ Q).
  { apply when_returns; [done|].
    apply (HL _ 528%nat); [lia|done| |done]. apply Hc. set_solver. }
  intros x7 Q7. apply (res_bind_returns _ _ Q).
  { apply when_returns; [done|]. by apply (HL _ 532%nat); [lia|..]. }
  intros x8 Q8. apply when_returns; [done|].
  apply (HL _ 536%nat); [lia|done| |done]. apply Hc. set_solver.
Qed.

(** X11. On a dump made of bytes the binary repair never raises,
    whatever the fix flags, provided the random source can supply a new
    SN3 when the UID fix needs one.  It reports failure only for a dump
    shorter than 540 bytes or a file that cannot be written, and then
    the file is left as it was. *)
Theorem fix_bin_file_never_raises (filepath : string) (fl : flags) (e : env)
    (data : list Z) :
  disk e !! filepath = Some (FBin data) → is_bytes data →
  (fix_uid fl = true → data !! 4%nat = Some 0x88 → tape_ok e) →
  ∃ ok msg iss e',
    fix_bin_file filepath fl e = Some (Ret (ok, msg, iss), e')
    ∧ (ok = false →
       ((length data < 540)%nat ∨ filepath ∈ locked e)
       ∧ disk e' = disk e).
Proof.
  intros Hd Hb Ht.
  destruct (decide (length data < 540)%nat) as [Hs|Hlen].
  { exists false, CouldNotReadFile, NoIssues, e. split; [|intros _; by split; [left|]].
    unfold fix_bin_file. unfold bind at 1. rewrite extract_bin_eq, Hd.
    by rewrite bool_decide_eq_true_2 by done. }
  apply Nat.nlt_ge in Hlen.
  destruct (bin_pages_lookups data Hlen) as (L0 & L1 & _).
  destruct (bin_plan_returns (bin_pages data) fl e _ _ (page_of data 0)
              (page_of data 1) L0 (fromhex_page _ _ Hb) L1 (fromhex_page _ _ Hb))
    as (p & e1 & Hplan).
  { rewrite page_of_length; lia. }
  { rewrite page_of_length; lia. }
  { intros n h Hh _. by apply (bin_pages_decodable data Hb n h). }
  { intros Hf H88. apply Ht; [done|].
    unfold page_of in H88. rewrite lookup_take_lt, lookup_drop in H88 by lia.
    exact H88. }
  pose proof (bin_plan_inv _ _ _ _ _ Hplan) as ((D1 & _ & _ & K1 & _) & Hok & _).
  unfold fix_bin_file. unfold bind at 1. rewrite extract_bin_eq, Hd.
  rewrite bool_decide_eq_false_2 by lia.
  rewrite (bool_decide_eq_false_2 (bin_pages data = ∅))
    by (by apply bin_pages_nonempty).
  rewrite L0, L1. rewrite !bool_decide_eq_true_2 by eauto. cbn [negb orb].
  rewrite (bind_ret_step _ _ _ _ _ Hplan).
  case_bool_decide as Hch.
  { by exists true, NoChangesNeeded, NoIssues, e1. }
  destruct (backup_file_returns filepath e1) as (bk & e2 & Hbk & D2 & K2).
  destruct (bin_patch_returns (bin_pages data) fl p data Hlen Hok)
    as (nd & Hpatch & _).
  rewrite (bind_ret_step _ _ _ _ _ Hbk).
  unfold bind at 1. cbn [lift]. unfold bind at 1. rewrite Hpatch. cbn [lift].
  unfold catch, bind, write_file, ret.
  case_bool_decide as Hlock.
  - exists false, ErrorWritingFile, NoIssues, e2. split; [done|].
    intros _. split; [right; by rewrite <- K1, <- K2|congruence].
  - eexists true, _, _, _. by split.
Qed.

Lemma fix_bin_file_never_raises_witness :
  ∃ ok msg iss e',
    fix_bin_file "a" (Flags true false true false true false)
      (sample_env (FBin sample_bin) [0x88; 0x21])
    = Some (Ret (ok, msg, iss), e')
    ∧ (ok = false →
       ((length sample_bin < 540)%nat
        ∨ "a"%string ∈ locked (sample_env (FBin sample_bin) [0x88; 0x21]))
       ∧ disk e' = disk (sample_env (FBin sample_bin) [0x88; 0x21])).
Proof.
  apply (fix_bin_file_never_raises "a" (Flags true false true false true false)
           (sample_env (FBin sample_bin) [0x88; 0x21]) sample_bin).
  - vm_compute. reflexivity.
  - apply (bool_decide_unpack _). vm_compute. exact I.
  - intros _ _. split.
    + apply (bool_decide_unpack _). vm_compute. exact I.
    + simpl. apply Exists_cons_tl, Exists_cons_hd. lia.
Defined.

(** ** Backups come first *)

Lemma tape_only_ret {A : Type} (a : A) : tape_only (ret a).
Proof. intros e r e' [= <- <-]. apply same_files_refl. Qed.

Lemma tape_only_lift {A : Type} (x : res A) : tape_only (lift x).
Proof. intros e r e' [= <- <-]. apply same_files_refl. Qed.

Lemma tape_only_bind {A B : Type} (m : M A) (k : A → M B) :
  tape_only m → (∀ a, tape_only (k a)) → tape_only (bind m k).
Proof.
  intros Hm Hk e r e' H.
  apply bind_inv_gen in H as [(a & e1 & H1 & H2)|(x & H1 & _)].
  - eapply same_files_trans; [by eapply Hm|by eapply Hk].
  - by eapply Hm.
Qed.

Lemma tape_only_catch {A : Type} (m h : M A) :
  tape_only m → tape_only h → tape_only (catch m h).
Proof.
  intros Hm Hh e r e'. unfold catch.
  destruct (m e) as [[[a|x] e1]|] eqn:E; try done.
  - intros [= <- <-]. by eapply Hm.
  - intros H. eapply same_files_trans; [by eapply Hm|by eapply Hh].
Qed.

Lemma tape_only_resample : tape_only resample_sn3.
Proof.
  intros e r e'. unfold resample_sn3.
  destruct (draw_not_88 (tape e)) as [[d t]|]; [|done].
  intros [= <- <-]. by repeat split.
Qed.

Lemma tape_only_read_text (filepath : string) : tape_only (read_text filepath).
Proof.
  intros e r e'. unfold read_text.
  repeat case_match; intros [= <- <-]; apply same_files_refl.
Qed.

Lemma tape_only_read_bytes (filepath : string) :
  tape_only (read_bytes filepath).
Proof.
  intros e r e'. unfold read_bytes.
  repeat case_match; intros [= <- <-]; apply same_files_refl.
Qed.

Lemma tape_only_fix_uid (uid : list Z) : tape_only (fix_uid_if_sn3_is_88 uid).
Proof.
  unfold fix_uid_if_sn3_is_88. case_match; [|apply tape_only_ret].
  apply tape_only_bind; [apply tape_only_resample|]. intros new.
  apply tape_only_bind; [apply tape_only_lift|]. intros. apply tape_only_ret.
Qed.

(** Closes [tape_only] goals for code built from the steps above. *)
Ltac tape_only_auto :=
  repeat first
    [ apply tape_only_ret | apply tape_only_lift | apply tape_only_resample
    | apply tape_only_fix_uid
    | apply tape_only_read_text | apply tape_only_read_bytes
    | apply tape_only_bind | apply tape_only_catch
    | progress intros
    | match goal with
      | |- tape_only (match ?x with _ => _ end) => destruct x
      end ].

Lemma tape_only_bin_plan (pages : gmap Z string) (fl : flags) :
  tape_only (bin_plan pages fl).
Proof. unfold bin_plan. tape_only_auto. Qed.

Lemma tape_only_nfc_plan (pages : gmap Z string) (uid_field : option string)
    (fl : flags) :
  tape_only (nfc_plan pages uid_field fl).
Proof. unfold nfc_plan. tape_only_auto. Qed.

Lemma backup_file_inv (filepath : string) (e1 e2 : env)
    (r : res (option string)) :
  backup_file filepath e1 = Some (r, e2) →
  disk e2 = disk e1 ∧ filepath ∈ tracker e2
  ∧ (filepath ∈ tracker e1 → backups e2 = backups e1)
  ∧ (∀ other, other ≠ filepath → backups e2 !! other = backups e1 !! other)
  ∧ (∀ d, filepath ∉ tracker e1 → disk e1 !! filepath = Some d →
          backup_dir_ok e1 = true → backups e2 !! filepath = Some d).
Proof.
  unfold backup_file. case_bool_decide as Ht.
  - intros [= <- <-]. by split_and!.
  - assert (Hin : filepath ∈ {[filepath]} ∪ tracker e1)
      by (apply elem_of_union_l; by apply elem_of_singleton).
    destruct (disk e1 !! filepath) as [d|] eqn:Hd;
      [destruct (backup_dir_ok e1) eqn:Hok|]; intros [= <- <-];
      cbn [disk tracker backups]; split_and!; try done.
    + intros other Ho. by rewrite lookup_insert_ne.
    + intros d' _ [= <-] _. by rewrite lookup_insert_eq.
Qed.

Lemma backed_up_run_discipline (filepath : string) (e e' : env) :
  backed_up_run filepath e e' → backup_discipline filepath e e'.
Proof.
  intros [(D & B & T & _)|(e1 & bk & e2 & (D1 & B1 & T1 & _ & O1) & Hbk & Hw)].
  - unfold backup_discipline. rewrite D, B, T. by split_and!.
  - apply backup_file_inv in Hbk as (D2 & Hin & Hold & Hother & Hnew).
    assert (He2 : backup_discipline filepath e e2).
    { unfold backup_discipline. rewrite D2, D1. split_and!; try done.
      - intros d Hn Hd Hok _. apply Hnew; congruence.
      - intros Ht. rewrite Hold by congruence. done.
      - intros other Ho. split; [done|]. rewrite Hother by done. congruence. }
    destruct Hw as [->|(c & Hw)]; [done|].
    apply write_file_inv in Hw
      as [([=] & _)|(_ & Dw & Bw & Tw & _)].
    destruct He2 as (_ & H2 & H3 & H4).
    unfold backup_discipline. rewrite Bw, Dw, Tw. split_and!; try done.
    intros other Ho. rewrite lookup_insert_ne by done. by apply H4.
Qed.

Lemma write_tail {B : Type} (filepath : string) (c : fdata) (r1 r2 : B)
    (e2 e' : env) (r : res B) :
  catch (io _ <- write_file filepath c; ret r1) (ret r2) e2 = Some (r, e') →
  e' = e2 ∨ write_file filepath c e2 = Some (Ret (), e').
Proof.
  unfold catch.
  destruct (bind _ _ e2) as [[[a|x] e4]|] eqn:Hw; [| |done].
  - intros [= <- <-].
    apply bind_inv in Hw as ([] & e5 & Hw & Hr).
    apply ret_inv in Hr as [-> ->]. by right.
  - intros [= <- <-]. left.
    apply bind_inv_gen in Hw as [(a & e5 & Hw & Hr)|(y & Hw & _)].
    + by injection Hr.
    + by apply write_file_inv in Hw as [(_ & -> & _)|(? & _)].
Qed.

Lemma fix_bin_file_run (filepath : string) (fl : flags) (e e' : env)
    (r : res (bool * message * issues)) :
  fix_bin_file filepath fl e = Some (r, e') → backed_up_run filepath e e'.
Proof.
  unfold fix_bin_file. intros H.
  apply bind_inv_gen in H as [(a & e1 & H1 & H)|(x & H1 & _)];
    [|rewrite extract_bin_eq in H1; injection H1 as _ <-; left;
      apply same_files_refl].
  rewrite extract_bin_eq in H1. injection H1 as <- <-.
  assert (Hret : ∀ x, ret x e = Some (r, e') → backed_up_run filepath e e').
  { intros x [= <- <-]. left. apply same_files_refl. }
  destruct (disk e !! filepath) as [[s|data]|] eqn:Ed;
    try (by eapply Hret).
  case_bool_decide as Hlen; [by eapply Hret|].
  case_bool_decide; [by eapply Hret|].
  case_match; [by eapply Hret|].
  apply bind_inv_gen in H as [(p & e1 & Hp & H)|(x & Hx & _)];
    [|left; by eapply tape_only_bin_plan].
  apply tape_only_bin_plan in Hp as S1.
  case_bool_decide as Hch; [left; by injection H as <- <-|].
  right. exists e1.
  apply bind_inv_gen in H as [(bk & e2 & Hb & H)|(x & Hx & _)];
    [|exists None, e'; split_and!; try done;
      [by destruct (backup_file_returns filepath e1) as (? & ? & ? & _);
       congruence|by left]].
  exists bk, e2. split_and!; try done.
  apply bind_inv_gen in H as [(od & e3 & Ho & H)|(x & [=] & _)].
  injection Ho as <- <-.
  apply bind_inv_gen in H as [(nd & e3 & Hn & H)|(x & [= _ <-] & _)];
    [|by left].
  apply lift_inv in Hn as [Hn ->].
  apply write_tail in H as [->|Hw]; [by left|right; by eexists].
Qed.

Lemma fix_nfc_file_run (filepath : string) (fl : flags) (e e' : env)
    (r : res (bool * message * issues)) :
  fix_nfc_file filepath fl e = Some (r, e') → backed_up_run filepath e e'.
Proof.
  unfold fix_nfc_file. intros H.
  apply bind_inv_gen in H as [(a & e1 & H1 & H)|(x & H1 & _)];
    [|rewrite extract_nfc_eq in H1; injection H1 as _ <-; left;
      apply same_files_refl].
  rewrite extract_nfc_eq in H1. injection H1 as <- <-.
  assert (Hret : ∀ x, ret x e = Some (r, e') → backed_up_run filepath e e').
  { intros x [= <- <-]. left. apply same_files_refl. }
  destruct (disk e !! filepath) as [[content|data]|] eqn:Ed;
    try (by eapply Hret).
  cbn zeta in H.
  destruct (parse_nfc (split_lines content)) as [[pages uid_field] version]
    eqn:Ep.
  case_bool_decide; [by eapply Hret|].
  case_match; [by eapply Hret|].
  apply bind_inv_gen in H as [(p & e1 & Hp & H)|(x & Hx & _)];
    [|left; by eapply tape_only_nfc_plan].
  apply tape_only_nfc_plan in Hp as S1.
  case_bool_decide as Hch; [left; by injection H as <- <-|].
  right. exists e1.
  apply bind_inv_gen in H as [(bk & e2 & Hb & H)|(x & Hx & _)];
    [|exists None, e'; split_and!; try done;
      [by destruct (backup_file_returns filepath e1) as (? & ? & ? & _);
       congruence|by left]].
  exists bk, e2. split_and!; try done.
  apply bind_inv_gen in H as [(od & e3 & Ho & H)|(x & [=] & _)].
  injection Ho as <- <-.
  apply bind_inv_gen in H as [(nd & e3 & Hn & H)|(x & [= _ <-] & _)];
    [|by left].
  apply lift_inv in Hn as [Hn ->].
  apply write_tail in H as [->|Hw]; [by left|right; by eexists].
Qed.

Lemma convert_nfc_to_v4_run (filepath : string) (e e' : env)
    (r : res (bool * message * issues)) :
  convert_nfc_to_v4 filepath e = Some (r, e') → backed_up_run filepath e e'.
Proof.
  unfold convert_nfc_to_v4, catch.
  set (body := bind (read_text filepath) _).
  destruct (body e) as [[[a|x] e4]|] eqn:Hm; [| |done].
  all: intros Hr;
    assert (e4 = e') as -> by (by injection Hr); clear Hr r.
  all: unfold body in Hm; clear body.
  all: apply bind_inv_gen in Hm as [(content & e1 & H1 & H)|(y & H1 & _)];
    [|left; by eapply tape_only_read_text].
  all: apply tape_only_read_text in H1 as S1.
  all: destruct (foldl parse_v_line (None, ∅) (split_lines content))
         as [version pages].
  all: case_bool_decide; [left; by injection H as _ <-|].
  all: destruct version as [v|]; [|left; by injection H as _ <-].
  all: destruct (bool_decide (v = 2) || bool_decide (v = 3));
    [|left; by injection H as _ <-].
  all: right; exists e1.
  all: apply bind_inv_gen in H as [(bk & e2 & Hb & H)|(y & Hy & _)];
    [|exists None, e'; split_and!; try done;
      [by destruct (backup_file_returns filepath e1) as (? & ? & ? & _);
       congruence|by left]].
  all: exists bk, e2; split_and!; try done.
  all: apply bind_inv_gen in H as [(nc & e3 & Hn & H)|(y & [= _ <-] & _)];
    [|by left].
  all: apply lift_inv in Hn as [Hn ->].
  all: apply bind_inv_gen in H as [([] & e5 & Hw & H)|(y & Hw & _)].
  all: try (apply write_file_inv in Hw as [(_ & -> & _)|([=] & _)]; by left).
  all: right; exists (FText nc).
  all: by injection H as _ <-.
Qed.

(** X12. None of the three functions that rewrite an image writes before
    it has called [backup_file]: across a run of the binary repair, the
    text repair or the version upgrade, the file changes only if its
    path is tracked afterwards; if the path was not tracked before and
    the backup folder is writable, the backup holds the content the file
    had before the call; if the path was already tracked, the backups
    stay as they were; and no other file or backup changes. *)
Theorem writers_back_up_first (filepath : string) (fl : flags) (e e' : env) :
  (∀ r, fix_bin_file filepath fl e = Some (r, e') →
        backup_discipline filepath e e')
  ∧ (∀ r, fix_nfc_file filepath fl e = Some (r, e') →
          backup_discipline filepath e e')
  ∧ (∀ r, convert_nfc_to_v4 filepath e = Some (r, e') →
          backup_discipline filepath e e').
Proof.
  split_and!; intros r H; apply backed_up_run_discipline.
  - by eapply fix_bin_file_run.
  - by eapply fix_nfc_file_run.
  - by eapply convert_nfc_to_v4_run.
Qed.

Lemma writers_back_up_first_witness :
  ∃ r e',
    fix_bin_file "a" all_flags (sample_env (FBin sample_bin) [0x88; 0x21])
    = Some (r, e')
    ∧ backup_discipline "a" (sample_env (FBin sample_bin) [0x88; 0x21]) e'.
Proof.
  destruct (fix_bin_file "a" all_flags
              (sample_env (FBin sample_bin) [0x88; 0x21]))
    as [[r e']|] eqn:E.
  - exists r, e'. split; [reflexivity|].
    destruct (writers_back_up_first "a" all_flags
                (sample_env (FBin sample_bin) [0x88; 0x21]) e')
      as (H & _ & _).
    exact (H r E).
  - vm_compute in E. discriminate E.
Defined.

(** ** The binary repair with every fix enabled, step by step *)

Lemma changes_any (l : list (option string)) :
  changes_of l ≠ [] → existsb (λ c, bool_decide (is_Some c)) l = true.
Proof.
  induction l as [|[c|] l IH]; [done|by intros _|].
  unfold changes_of in *. cbn. exact IH.
Qed.

Lemma bin_plan_any (pages : gmap Z string) (fl : flags) (e e' : env)
    (p : plan) :
  bin_plan pages fl e = Some (Ret p, e') →
  changes_made p ≠ [] → any_values (Issues (p_issues p)) = true.
Proof.
  unfold bin_plan. intros H.
  io_lift H h0 Hh0. io_lift H page0 Hp0. io_lift H h1 Hh1. io_lift H page1 Hp1.
  io_step H uf e1 Hfix. destruct uf as [uid' fixed].
  io_step H c_sn3 e2 Hc.
  io_lift H u Hu. destruct u as [[[[[[sn0 sn1] sn2] sn3] sn4] sn5] sn6].
  io_lift H current_bcc0 Hcb. io_lift H c_bcc1 Hc1. io_lift H pw Hpw.
  io_lift H c_pw Hcpw. io_lift H c_pack Hcpack. io_lift H c_dlb Hcdlb.
  io_lift H c_cfg0 Hccfg0. io_lift H c_cfg1 Hccfg1.
  apply ret_inv in H as [-> ->].
  cbn [changes_made p_issues any_values i_uid_field i_sn3 i_bcc0 i_bcc1
         i_password i_pack i_dlb i_cfg0 i_cfg1].
  intros Hch. apply changes_any in Hch. cbn [existsb] in Hch.
  rewrite orb_false_r in Hch. cbn [orb]. rewrite <- !orb_assoc. exact Hch.
Qed.

(** The run of the binary repair with every fix enabled on a dump of at
    least 540 bytes: the plan, the backup, the patched dump and the
    result. *)
Lemma fix_bin_file_all_steps (filepath : string) (e : env) (data : list Z) :
  disk e !! filepath = Some (FBin data) →
  (540 ≤ length data)%nat → is_bytes data →
  filepath ∉ locked e → tape_ok e →
  ∃ p e1,
    bin_plan (bin_pages data) all_flags e = Some (Ret p, e1)
    ∧ same_files e e1
    ∧ (changes_made p = [] →
       image_valid data
       ∧ fix_bin_file filepath all_flags e
         = Some (Ret (true, NoChangesNeeded, NoIssues), e))
    ∧ (changes_made p ≠ [] →
       ∃ bk e2 nd,
         backup_file filepath e1 = Some (Ret bk, e2)
         ∧ length nd = length data ∧ is_bytes nd ∧ image_valid nd
         ∧ any_values (Issues (p_issues p)) = true
         ∧ fix_bin_file filepath all_flags e
           = Some (Ret (true, FixedSuccessfully bk (changes_made p),
                        Issues (p_issues p)),
                   Env (<[filepath := FBin nd]> (disk e2)) (backups e2)
                       (tracker e2) (locked e2) (backup_dir_ok e2)
                       (tape e2))).
Proof.
  intros Hd Hlen Hb Hlock [Ht Hex].
  destruct (bin_pages_lookups data Hlen) as (L0 & L1 & _).
  destruct (bin_plan_all data e Hlen Hb Ht Hex)
    as (p & e1 & Hplan & Hsn3 & Hnil).
  pose proof (bin_plan_inv _ _ _ _ _ Hplan) as (S1 & Hok & He).
  pose proof S1 as (D1 & _ & _ & K1 & _).
  exists p, e1. split_and!; try done.
  - intros Hch. split; [by apply Hnil|].
    rewrite (He Hch) in Hplan.
    unfold fix_bin_file. unfold bind at 1. rewrite extract_bin_eq, Hd.
    rewrite bool_decide_eq_false_2 by lia.
    rewrite (bool_decide_eq_false_2 (bin_pages data = ∅))
      by (by apply bin_pages_nonempty).
    rewrite L0, L1. rewrite !bool_decide_eq_true_2 by eauto. cbn [negb orb].
    rewrite (bind_ret_step _ _ _ _ _ Hplan).
    by rewrite bool_decide_eq_true_2 by done.
  - intros Hch.
    destruct (backup_file_returns filepath e1) as (bk & e2 & Hbk & D2 & K2).
    destruct (bin_patch_all data p Hlen Hb Hok Hsn3)
      as (nd & Hpatch & Hl & Hbn & Hv).
    exists bk, e2, nd. split_and!; try done.
    { by eapply bin_plan_any. }
    unfold fix_bin_file. unfold bind at 1. rewrite extract_bin_eq, Hd.
    rewrite bool_decide_eq_false_2 by lia.
    rewrite (bool_decide_eq_false_2 (bin_pages data = ∅))
      by (by apply bin_pages_nonempty).
    rewrite L0, L1. rewrite !bool_decide_eq_true_2 by eauto. cbn [negb orb].
    rewrite (bind_ret_step _ _ _ _ _ Hplan).
    rewrite bool_decide_eq_false_2 by done.
    rewrite (bind_ret_step _ _ _ _ _ Hbk).
    unfold bind at 1. cbn [lift].
    unfold bind at 1. rewrite Hpatch. cbn [lift].
    unfold catch, bind, write_file, ret.
    by rewrite bool_decide_eq_false_2 by (rewrite K2, K1; done).
Qed.

(** X13. A backup that cannot be made does not stop the repair.  With
    every fix enabled, an untracked dump that breaks a field rule is
    rewritten into a valid one even when the backup folder cannot be
    written: the call reports success with no backup path, the original
    bytes are gone from the file, and the backups are what they were. *)
Theorem failed_backup_does_not_stop_repair (filepath : string) (e : env)
    (data : list Z) :
  disk e !! filepath = Some (FBin data) →
  (540 ≤ length data)%nat → is_bytes data →
  filepath ∉ locked e → tape_ok e →
  ¬ image_valid data →
  filepath ∉ tracker e → backup_dir_ok e = false →
  ∃ changes iss e' data',
    fix_bin_file filepath all_flags e
    = Some (Ret (true, FixedSuccessfully None changes, iss), e')
    ∧ disk e' !! filepath = Some (FBin data')
    ∧ image_valid data' ∧ data' ≠ data
    ∧ backups e' = backups e.
Proof.
  intros Hd Hlen Hb Hlock Ht Hinv Htr Hdir.
  destruct (fix_bin_file_all_steps filepath e data Hd Hlen Hb Hlock Ht)
    as (p & e1 & Hplan & (D1 & B1 & T1 & _ & O1) & Hnil & Hch).
  destruct (decide (changes_made p = [])) as [Hc|Hc];
    [by destruct (Hnil Hc)|].
  destruct (Hch Hc) as (bk & e2 & nd & Hbk & Hl & Hbn & Hv & _ & Hrun).
  unfold backup_file in Hbk.
  rewrite bool_decide_eq_false_2 in Hbk by (by rewrite T1).
  rewrite D1, Hd, O1, Hdir in Hbk. injection Hbk as <- <-.
  eexists _, _, _, nd. split; [exact Hrun|].
  cbn [disk backups]. split_and!; try done.
  - apply lookup_insert_eq.
  - by intros ->.
Qed.

Lemma failed_backup_does_not_stop_repair_witness :
  ∃ changes iss e' data',
    fix_bin_file "a" all_flags
      (Env {[ "a"%string := FBin sample_bin ]} ∅ ∅ ∅ false [0x21])
    = Some (Ret (true, FixedSuccessfully None changes, iss), e')
    ∧ disk e' !! "a"%string = Some (FBin data')
    ∧ image_valid data' ∧ data' ≠ sample_bin
    ∧ backups e'
      = backups (Env {[ "a"%string := FBin sample_bin ]} ∅ ∅ ∅ false [0x21]).
Proof.
  apply (failed_backup_does_not_stop_repair "a"
           (Env {[ "a"%string := FBin sample_bin ]} ∅ ∅ ∅ false [0x21])
           sample_bin).
  - vm_compute. reflexivity.
  - apply (bool_decide_unpack _). vm_compute. exact I.
  - apply (bool_decide_unpack _). vm_compute. exact I.
  - simpl. apply not_elem_of_empty.
  - split.
    + apply (bool_decide_unpack _). vm_compute. exact I.
    + simpl. apply Exists_cons_hd. lia.
  - intros (sn0 & sn1 & sn2 & sn3 & sn4 & sn5 & sn6 & x1 & x2 & x3
            & P0 & P1 & Hsn3 & _).
    vm_compute in P1. injection P1 as <- _ _ _. by apply Hsn3.
  - simpl. apply not_elem_of_empty.
  - reflexivity.
Defined.

(** ** The scan of binary dumps in fix mode *)








(** ** Fresh UIDs *)

Lemma randint_inv (e e' : env) (r : res Z) :
  randint e = Some (r, e') →
  ∃ d, tape e = d :: tape e' ∧ r = Ret d ∧ same_files e e'.
Proof.
  unfold randint. destruct (tape e) as [|d t] eqn:Et; [done|].
  intros [= <- <-]. exists d. by repeat split.
Qed.

Lemma resample_inv (e e' : env) (r : res Z) :
  resample_sn3 e = Some (r, e') →
  ∃ d, draw_not_88 (tape e) = Some (d, tape e') ∧ r = Ret d
       ∧ same_files e e'.
Proof.
  unfold resample_sn3. destruct (draw_not_88 (tape e)) as [[d t]|]; [|done].
  intros [= <- <-]. exists d. by repeat split.
Qed.

Lemma generate_new_uid_eq :
  generate_new_uid
  = (io b0 <- randint; io b1 <- randint; io b2 <- randint;
     io b3 <- resample_sn3;
     io b4 <- randint; io b5 <- randint; io b6 <- randint;
     ret [b0; b1; b2; b3; b4; b5; b6]).
Proof. reflexivity. Qed.

Lemma draw_skips (skipped rest : list Z) (d : Z) :
  Forall (λ s, s = 0x88) skipped → d ≠ 0x88 →
  draw_not_88 (skipped ++ d :: rest) = Some (d, rest).
Proof.
  intros Hs Hd. induction Hs as [|x l -> _ IH]; cbn [app draw_not_88].
  - by rewrite bool_decide_eq_false_2.
  - by rewrite bool_decide_eq_true_2.
Qed.

(** X15. [generate_new_uid] builds its UID from the random source in
    order: the first three results, then the first result after those
    that differs from 0x88, then the next three.  Whenever it returns,
    the UID has seven entries, its SN3 is not 0x88 (so that
    [fix_uid_if_sn3_is_88] leaves it alone), it consists of bytes when
    the source yields bytes, and nothing but the source has changed;
    it never raises. *)
Theorem generate_new_uid_spec (e : env) :
  (∀ r e', generate_new_uid e = Some (r, e') →
     ∃ uid, r = Ret uid ∧ length uid = 7%nat ∧ uid !! 3%nat ≠ Some 0x88
            ∧ same_files e e'
            ∧ (is_bytes (tape e) → is_bytes uid)
            ∧ fix_uid_if_sn3_is_88 uid e' = Some (Ret (uid, false), e'))
  ∧ (∀ a b c skipped d x y z rest,
       tape e = a :: b :: c :: skipped ++ d :: x :: y :: z :: rest →
       Forall (λ s, s = 0x88) skipped → d ≠ 0x88 →
       generate_new_uid e
       = Some (Ret [a; b; c; d; x; y; z],
               Env (disk e) (backups e) (tracker e) (locked e)
                   (backup_dir_ok e) rest)).
Proof.
  rewrite generate_new_uid_eq. split.
  - intros r e' H.
    apply bind_inv_gen in H as [(b0 & e0 & H0 & H)|(x & H0 & _)];
      [|by apply randint_inv in H0 as (? & _ & [=] & _)].
    apply randint_inv in H0 as (? & T0 & [= <-] & S0).
    apply bind_inv_gen in H as [(b1 & e1 & H1 & H)|(x & H1 & _)];
      [|by apply randint_inv in H1 as (? & _ & [=] & _)].
    apply randint_inv in H1 as (? & T1 & [= <-] & S1).
    apply bind_inv_gen in H as [(b2 & e2 & H2 & H)|(x & H2 & _)];
      [|by apply randint_inv in H2 as (? & _ & [=] & _)].
    apply randint_inv in H2 as (? & T2 & [= <-] & S2).
    apply bind_inv_gen in H as [(b3 & e3 & H3 & H)|(x & H3 & _)];
      [|by apply resample_inv in H3 as (? & _ & [=] & _)].
    apply resample_inv in H3 as (? & T3 & [= <-] & S3).
    apply bind_inv_gen in H as [(b4 & e4 & H4 & H)|(x & H4 & _)];
      [|by apply randint_inv in H4 as (? & _ & [=] & _)].
    apply randint_inv in H4 as (? & T4 & [= <-] & S4).
    apply bind_inv_gen in H as [(b5 & e5 & H5 & H)|(x & H5 & _)];
      [|by apply randint_inv in H5 as (? & _ & [=] & _)].
    apply randint_inv in H5 as (? & T5 & [= <-] & S5).
    apply bind_inv_gen in H as [(b6 & e6 & H6 & H)|(x & H6 & _)];
      [|by apply randint_inv in H6 as (? & _ & [=] & _)].
    apply randint_inv in H6 as (? & T6 & [= <-] & S6).
    injection H as <- <-.
    pose proof (draw_not_88_inv _ _ _ T3) as (Hne & _ & _).
    exists [b0; b1; b2; b3; b4; b5; b6]. split_and!; try done.
    + cbn. congruence.
    + repeat (eapply same_files_trans; [eassumption|]). apply same_files_refl.
    + intros Hb. rewrite T0 in Hb.
      apply Forall_cons in Hb as [B0 Hb]. rewrite T1 in Hb.
      apply Forall_cons in Hb as [B1 Hb]. rewrite T2 in Hb.
      apply Forall_cons in Hb as [B2 Hb].
      pose proof (draw_not_88_inv _ _ _ T3) as (_ & Hin & Hsuf).
      assert (B3 : is_byte b3).
      { unfold is_bytes in Hb. rewrite Forall_forall in Hb. by apply Hb. }
      assert (Hb' : is_bytes (tape e3)).
      { destruct Hsuf as [k Hk]. rewrite Hk in Hb.
        by apply Forall_app in Hb as [_ ?]. }
      rewrite T4 in Hb'. apply Forall_cons in Hb' as [B4 Hb'].
      rewrite T5 in Hb'. apply Forall_cons in Hb' as [B5 Hb'].
      rewrite T6 in Hb'. apply Forall_cons in Hb' as [B6 _].
      by repeat (constructor; [done|]).
    + apply fix_uid_unchanged. cbn. congruence.
  - intros a b c skipped d x y z rest Ht Hs Hd.
    unfold bind, randint, resample_sn3. rewrite Ht. cbn [tape].
    rewrite (draw_skips skipped _ d Hs Hd). cbn [tape]. reflexivity.
Qed.

Lemma generate_new_uid_witness :
  generate_new_uid (sample_env (FBin []) [1; 2; 3; 0x88; 0x88; 4; 5; 6; 7; 8])
  = Some (Ret [1; 2; 3; 4; 5; 6; 7],
          Env (disk (sample_env (FBin []) [1; 2; 3; 0x88; 0x88; 4; 5; 6; 7; 8]))
              ∅ ∅ ∅ true [8]).
Proof.
  destruct (generate_new_uid_spec
              (sample_env (FBin []) [1; 2; 3; 0x88; 0x88; 4; 5; 6; 7; 8]))
    as [_ H].
  apply (H 1 2 3 [0x88; 0x88] 4 5 6 7 [8]).
  - reflexivity.
  - by repeat constructor.
  - lia.
Defined.

(** ** The outcomes of the version upgrade *)

Lemma read_text_eq (filepath : string) (e : env) :
  read_text filepath e
  = Some (match disk e !! filepath with
          | Some (FText s) => Ret s
          | _ => Raise OSError
          end, e).
Proof. unfold read_text. by repeat case_match. Qed.

(** X16. [convert_nfc_to_v4] never raises.  A file that cannot be read
    gives "Error converting file"; a file whose last version line says 4
    gives "Already V4"; a file with no version line or a version other
    than 2, 3 and 4 gives "Unsupported version"; in these three cases
    nothing at all changes.  Success is reported exactly for "Already V4"
    and for a conversion, the [version_conversion] mark exactly for a
    conversion of a version 2 or 3 file, and without that mark the files
    are those from before the call. *)
Theorem convert_nfc_to_v4_outcomes (filepath : string) (e : env) :
  ∃ ok msg iss e',
    convert_nfc_to_v4 filepath e = Some (Ret (ok, msg, iss), e')
    ∧ (ok = true ↔ msg = AlreadyV4 ∨ ∃ v bk, msg = ConvertedToV4 v bk)
    ∧ (iss = VersionConversion ↔
       ∃ v bk, msg = ConvertedToV4 v bk ∧ (v = 2 ∨ v = 3))
    ∧ (iss ≠ VersionConversion → disk e' = disk e ∧ iss = NoIssues)
    ∧ (msg = AlreadyV4 ∨ (∃ v, msg = UnsupportedVersion v) → e' = e)
    ∧ (∀ content version pages,
         disk e !! filepath = Some (FText content) →
         foldl parse_v_line (None, ∅) (split_lines content)
         = (version, pages) →
         (version = Some 4 → msg = AlreadyV4)
         ∧ (version ≠ Some 2 → version ≠ Some 3 → version ≠ Some 4 →
            msg = UnsupportedVersion version))
    ∧ ((∀ content, disk e !! filepath ≠ Some (FText content)) →
       msg = ErrorConvertingFile ∧ e' = e).
Proof.
  unfold convert_nfc_to_v4, catch. unfold bind at 1. rewrite read_text_eq.
  destruct (disk e !! filepath) as [[content|data]|] eqn:Ed.
  2,3: exists false, ErrorConvertingFile, NoIssues, e;
    split_and!; try done;
    try (split; [done|by intros [?|(? & ? & ?)]]);
    try (split; [done|by intros (? & ? & ? & ?)]);
    try (by intros [?|[? ?]]).
  destruct (foldl parse_v_line (None, ∅) (split_lines content))
    as [version pages] eqn:Ep.
  assert (Hcases : ∀ content' version' pages',
            Some (FText content) = Some (FText content') →
            foldl parse_v_line (None, ∅) (split_lines content')
            = (version', pages') →
            version' = version).
  { intros c v' p' [= <-] Hv. rewrite Ep in Hv. by injection Hv. }
  case_bool_decide as H4.
  { exists true, AlreadyV4, NoIssues, e. split_and!; try done.
    - split; [by left|done].
    - split; [done|by intros (? & ? & ? & ?)].
    - intros c v' p' Hc Hv. rewrite (Hcases _ _ _ Hc Hv). split; [done|].
      by intros _ _ ?.
    - intros Hn. by destruct (Hn content). }
  destruct version as [v|]; cycle 1.
  { exists false, (UnsupportedVersion None), NoIssues, e.
    split_and!; try done.
    - split; [done|by intros [?|(? & ? & ?)]].
    - split; [done|by intros (? & ? & ? & ?)].
    - intros c v' p' Hc Hv. by rewrite (Hcases _ _ _ Hc Hv).
    - intros Hn. by destruct (Hn content). }
  destruct (bool_decide (v = 2) || bool_decide (v = 3)) eqn:H23; cycle 1.
  { exists false, (UnsupportedVersion (Some v)), NoIssues, e.
    split_and!; try done.
    - split; [done|by intros [?|(? & ? & ?)]].
    - split; [done|by intros (? & ? & ? & ?)].
    - intros c v' p' Hc Hv. by rewrite (Hcases _ _ _ Hc Hv).
    - intros Hn. by destruct (Hn content). }
  assert (Hv : v = 2 ∨ v = 3).
  { apply orb_true_iff in H23 as [?%bool_decide_eq_true|?%bool_decide_eq_true];
      [by left|by right]. }
  assert (Hno : ∀ c v' p',
            Some (FText content) = Some (FText c) →
            foldl parse_v_line (None, ∅) (split_lines c) = (v', p') →
            (v' = Some 4 → ErrorConvertingFile = AlreadyV4)
            ∧ (v' ≠ Some 2 → v' ≠ Some 3 → v' ≠ Some 4 →
               ErrorConvertingFile = UnsupportedVersion v')).
  { intros c v' p' Hc Hp. rewrite (Hcases _ _ _ Hc Hp).
    split; [congruence|]. intros N2 N3 _. destruct Hv; congruence. }
  assert (Hno' : ∀ bk c v' p',
            Some (FText content) = Some (FText c) →
            foldl parse_v_line (None, ∅) (split_lines c) = (v', p') →
            (v' = Some 4 → ConvertedToV4 v bk = AlreadyV4)
            ∧ (v' ≠ Some 2 → v' ≠ Some 3 → v' ≠ Some 4 →
               ConvertedToV4 v bk = UnsupportedVersion v')).
  { intros bk c v' p' Hc Hp. rewrite (Hcases _ _ _ Hc Hp).
    split; [congruence|]. intros N2 N3 _. destruct Hv; congruence. }
  destruct (backup_file_returns filepath e) as (bk & e2 & Hbk & D2 & K2).
  rewrite (bind_ret_step _ _ _ _ _ Hbk).
  unfold bind at 1. cbn [lift].
  assert (Hfail : ∀ e2, disk e2 = disk e →
    ∃ ok msg iss e',
      Some (Ret (false, ErrorConvertingFile, NoIssues), e2)
      = Some (Ret (ok, msg, iss), e')
      ∧ (ok = true ↔ msg = AlreadyV4 ∨ ∃ v bk, msg = ConvertedToV4 v bk)
      ∧ (iss = VersionConversion ↔
         ∃ v bk, msg = ConvertedToV4 v bk ∧ (v = 2 ∨ v = 3))
      ∧ (iss ≠ VersionConversion → disk e' = disk e ∧ iss = NoIssues)
      ∧ (msg = AlreadyV4 ∨ (∃ v, msg = UnsupportedVersion v) → e' = e)
      ∧ (∀ content0 version pages,
           Some (FText content) = Some (FText content0) →
           foldl parse_v_line (None, ∅) (split_lines content0)
           = (version, pages) →
           (version = Some 4 → msg = AlreadyV4)
           ∧ (version ≠ Some 2 → version ≠ Some 3 → version ≠ Some 4 →
              msg = UnsupportedVersion version))
      ∧ ((∀ content0, Some (FText content) ≠ Some (FText content0)) →
         msg = ErrorConvertingFile ∧ e' = e)).
  { intros e3 D3. exists false, ErrorConvertingFile, NoIssues, e3.
    split_and!; try done.
    - split; [done|by intros [?|(? & ? & ?)]].
    - split; [done|by intros (? & ? & ? & ?)].
    - by intros [?|[? ?]].
    - intros Hn. by destruct (Hn content). }
  destruct (convert_to_v4_format pages) as [doc|x] eqn:Hdoc;
    [|by apply Hfail].
  unfold bind, write_file, ret.
  destruct (bool_decide (filepath ∈ locked e2)); [by apply Hfail|].
  eexists true, (ConvertedToV4 v bk), VersionConversion, _.
  split; [reflexivity|]. split_and!; try done.
  - split; [|done]. intros _. right. by exists v, bk.
  - split; [|done]. intros _. by exists v, bk.
  - by intros [?|[? ?]].
  - apply Hno'.
  - intros Hn. by destruct (Hn content).
Qed.

(** ** The text repair and a short page 2 *)

Lemma parse_pages_src (lines : list string)
    (st : gmap Z string * option string * option Z) (n : Z) (h : string) :
  (foldl parse_nfc_line st lines).1.1 !! n = Some h →
  st.1.1 !! n = Some h
  ∨ ∃ line g, line ∈ lines ∧ search_page line = Some (n, g).
Proof.
  revert st. induction lines as [|line lines IH]; intros st H; [by left|].
  cbn [foldl] in H. apply IH in H as [H|(l & g & Hl & Hs)].
  - destruct st as [[pages uf] v]. unfold parse_nfc_line in H. cbn in H.
    destruct (search_page line) as [[m g]|] eqn:Hs; [|by left].
    destruct (decide (m = n)) as [->|Hne].
    + right. exists line, g. split; [apply list_elem_of_here|done].
    + left. by rewrite lookup_insert_ne in H.
  - right. exists l, g. split; [by apply list_elem_of_further|done].
Qed.

Lemma map_res_raise {A B : Type} (f : A → res B) (l : list A) (x : exn) :
  Exists (λ a, f a = Raise x) l →
  Forall (λ a, is_ret (f a) ∨ f a = Raise x) l →
  map_res f l = Raise x.
Proof.
  induction l as [|a l IH]; intros Hex Hall; [by inversion Hex|].
  apply Forall_cons in Hall as [Ha Hall]. cbn [map_res].
  destruct Ha as [Ha| ->]; [|done].
  destruct (f a) as [y|] eqn:Efa; [|done]. cbn [res_bind].
  apply Exists_cons in Hex as [Hex|Hex]; [congruence|].
  by rewrite (IH Hex Hall).
Qed.

Lemma rewrite_line_short2 (pages : gmap Z string) (fl : flags) (pl : plan)
    (line h2 : string) (page2 : list Z) :
  plan_ok pl → fix_bcc fl = true →
  pages !! 2 = Some h2 → fromhex h2 = Ret page2 → (length page2 < 4)%nat →
  (is_Some (search_uid line) → search_page line = None) →
  ((∃ g, search_page line = Some (2, g))
   ∧ rewrite_line pages fl pl line = Raise IndexError)
  ∨ ((∀ g, search_page line ≠ Some (2, g))
     ∧ is_ret (rewrite_line pages fl pl line)).
Proof.
  intros (_ & _ & _ & Hpw) Hbcc L2 F2 Hlen Huid.
  unfold rewrite_line. unfold uid_of in Hpw.
  destruct (p_uid pl) as [[[[[[sn0 sn1] sn2] sn3] sn4] sn5] sn6].
  rewrite Hpw. unfold derived_password, correct_dlb, correct_cfg0,
    correct_cfg1, correct_pack. cbn [nth].
  destruct (bool_decide (is_Some (search_uid line)) && fix_uid fl) eqn:Hu.
  { right. apply andb_true_iff in Hu as [Hs _].
    apply bool_decide_eq_true in Hs. rewrite (Huid Hs). by split. }
  destruct (search_page line) as [[n g]|] eqn:Hsp; [|right; by split].
  destruct (decide (n = 2)) as [->|Hn2].
  - left. split; [by eexists|].
    rewrite Hbcc. cbn. unfold getitem. rewrite L2. cbn [res_bind].
    rewrite F2. cbn [res_bind].
    destruct page2 as [|a [|b [|c [|d ?]]]]; cbn; try done.
    simpl in Hlen. lia.
  - right. split; [by intros g' [= ? _]|].
    rewrite (bool_decide_eq_false_2 (n = 2)) by done. cbn [andb].
    repeat match goal with
           | |- is_ret (if ?c then _ else _) => destruct c
           end; done.
Qed.

(** X17. The text repair fails half way on a short page 2.  When the
    BCC fix is enabled, at least one change is scheduled, and page 2 of
    the image decodes to fewer than four bytes, [fix_nfc_file] raises
    [IndexError] while rewriting the line of page 2 (no line of the
    image being both a UID line and a page line): the exception is not
    caught, the file is left as it was, and the backup has already been
    requested. *)
Theorem fix_nfc_file_short_page2 (filepath : string) (fl : flags) (e e1 : env)
    (content : string) (pages : gmap Z string) (uid_field : option string)
    (version : option Z) (pl : plan) (h2 : string) (page2 : list Z) :
  disk e !! filepath = Some (FText content) →
  parse_nfc (split_lines content) = (pages, uid_field, version) →
  is_Some (pages !! 0) → is_Some (pages !! 1) →
  nfc_plan pages uid_field fl e = Some (Ret pl, e1) →
  changes_made pl ≠ [] →
  fix_bcc fl = true →
  pages !! 2 = Some h2 → fromhex h2 = Ret page2 → (length page2 < 4)%nat →
  Forall (λ line, is_Some (search_uid line) → search_page line = None)
    (split_lines content) →
  ∃ e2,
    fix_nfc_file filepath fl e = Some (Raise IndexError, e2)
    ∧ disk e2 = disk e ∧ filepath ∈ tracker e2.
Proof.
  intros Hd Hp H0 H1 Hplan Hch Hbcc L2 F2 Hlen Hboth.
  pose proof (nfc_plan_inv _ _ _ _ _ _ Hplan) as ((D1 & _) & Hok & _).
  destruct (backup_file_returns filepath e1) as (bk & e2 & Hbk & D2 & K2).
  pose proof (backup_file_inv _ _ _ _ Hbk) as (_ & Hin & _).
  assert (Hmap : map_res (rewrite_line pages fl pl) (split_lines content)
                 = Raise IndexError).
  { assert (Hsrc : ∃ line g, line ∈ split_lines content
                             ∧ search_page line = Some (2, g)).
    { destruct (parse_pages_src (split_lines content) (∅, None, None) 2 h2)
        as [Hinit|Hsrc];
        [|cbn in Hinit; by rewrite lookup_empty in Hinit|done].
      unfold parse_nfc in Hp. by rewrite Hp. }
    destruct Hsrc as (line & g & Hl & Hs).
    apply map_res_raise.
    - apply Exists_exists. exists line. split; [done|].
      rewrite Forall_forall in Hboth.
      destruct (rewrite_line_short2 pages fl pl line h2 page2 Hok Hbcc L2 F2
                  Hlen (Hboth line Hl)) as [[_ Hr]|[Hn _]]; [done|].
      by destruct (Hn g).
    - rewrite Forall_forall in Hboth. apply Forall_forall. intros l Hin'.
      destruct (rewrite_line_short2 pages fl pl l h2 page2 Hok Hbcc L2 F2
                  Hlen (Hboth l Hin')) as [[_ Hr]|[_ Hr]]; [by right|by left]. }
  exists e2. split; [|split; [congruence|done]].
  unfold fix_nfc_file. unfold bind at 1. rewrite extract_nfc_eq, Hd.
  cbn zeta. rewrite Hp.
  assert (Hne : pages ≠ ∅).
  { intros ->. destruct H0 as [? H0]. by rewrite lookup_empty in H0. }
  rewrite (bool_decide_eq_false_2 (pages = ∅)) by done.
  rewrite !bool_decide_eq_true_2 by done. cbn [negb orb].
  rewrite (bind_ret_step _ _ _ _ _ Hplan).
  rewrite bool_decide_eq_false_2 by done.
  rewrite (bind_ret_step _ _ _ _ _ Hbk).
  unfold bind at 1. cbn [lift]. unfold bind at 1. rewrite Hmap. reflexivity.
Qed.

Lemma fix_nfc_file_short_page2_witness :
  ∃ e2,
    fix_nfc_file "a" all_flags (sample_env (FText short_page2_nfc) [])
    = Some (Raise IndexError, e2)
    ∧ disk e2 = disk (sample_env (FText short_page2_nfc) [])
    ∧ "a"%string ∈ tracker e2.
Proof.
  eapply (fix_nfc_file_short_page2 "a" all_flags
            (sample_env (FText short_page2_nfc) []) _ short_page2_nfc).
  - vm_compute. reflexivity.
  - vm_compute. reflexivity.
  - eexists. vm_compute. reflexivity.
  - eexists. vm_compute. reflexivity.
  - vm_compute. reflexivity.
  - vm_compute. discriminate.
  - reflexivity.
  - vm_compute. reflexivity.
  - vm_compute. reflexivity.
  - simpl. lia.
  - apply (bool_decide_unpack _). vm_compute. exact I.
Defined.

(** ** Lines in canonical form *)

Lemma take_while_all (f : ascii → bool) (a : string) :
  all_chars f a = true → take_while f a = a.
Proof.
  induction a as [|c a IH]; [done|]. cbn [all_chars take_while].
  intros [-> Ha]%andb_true_iff. by rewrite IH.
Qed.

Lemma take_while_app (f : ascii → bool) (a b : string) (c : ascii) :
  all_chars f a = true → f c = false →
  take_while f (a +:+ String c b) = a.
Proof.
  intros Ha Hc. induction a as [|x a IH].
  - rewrite append_nil. cbn [take_while]. by rewrite Hc.
  - cbn [all_chars] in Ha. apply andb_true_iff in Ha as [Hx Ha].
    rewrite append_cons. cbn [take_while]. by rewrite Hx, IH.
Qed.

Lemma drop_while_app (f : ascii → bool) (a b : string) (c : ascii) :
  all_chars f a = true → f c = false →
  drop_while f (a +:+ String c b) = String c b.
Proof.
  intros Ha Hc. induction a as [|x a IH].
  - rewrite append_nil. cbn [drop_while]. by rewrite Hc.
  - cbn [all_chars] in Ha. apply andb_true_iff in Ha as [Hx Ha].
    rewrite append_cons. cbn [drop_while]. by rewrite Hx, IH.
Qed.

Lemma search_here {A : Type} (at_start : string → option A) (s : string)
    (r : A) :
  at_start s = Some r → search at_start s = Some r.
Proof. intros H. destruct s; cbn [search]; by rewrite H. Qed.

Lemma digit_not_space (c : ascii) : is_digit c = true → is_space c = false.
Proof.
  unfold is_digit, is_space. generalize (code c). intros n H.
  apply andb_true_iff in H as [H1%Z.leb_le H2%Z.leb_le].
  repeat (apply orb_false_iff; split);
    try (apply andb_false_iff; (left; apply Z.leb_gt; lia)
                               || (right; apply Z.leb_gt; lia));
    apply Z.eqb_neq; lia.
Qed.

Lemma match_hex_group_body (c : ascii) (b : string) :
  is_space c = false → all_chars is_hexws (String c b) = true →
  match_hex_group (String " " (String c b)) = Some (String c b).
Proof.
  intros Hc Hb. unfold match_hex_group.
  change (drop_while is_space (String " " (String c b)))
    with (drop_while is_space (String c b)).
  cbn [drop_while]. rewrite Hc. by rewrite (take_while_all _ _ Hb).
Qed.

(** A line ["Page <digits>: <body>"] whose body is hexadecimal text that
    starts with a digit is read by the page pattern as it stands. *)
Lemma search_page_canon (d0 : ascii) (ds : string) (c : ascii) (b : string) :
  all_chars is_digit (String d0 ds) = true →
  is_space c = false → all_chars is_hexws (String c b) = true →
  search_page ("Page " +:+ String d0 ds +:+ ": " +:+ String c b)
  = Some (int_of_digits (String d0 ds), String c b).
Proof.
  intros Hd Hc Hb.
  assert (Hd0 : is_space d0 = false).
  { apply digit_not_space. cbn [all_chars] in Hd.
    by apply andb_true_iff in Hd as [? _]. }
  unfold search_page.
  rewrite (search_here _ _ (String d0 ds, String c b)); [done|].
  unfold match_page_at.
  change ("Page " +:+ String d0 ds +:+ ": " +:+ String c b)
    with (String "P" (String "a" (String "g" (String "e" (String " "
            (String d0 ds +:+ String ":" (String " " (String c b)))))))).
  cbn [strip_prefix]. rewrite !bool_decide_eq_true_2 by done.
  cbn [option_bind mbind option_ret mret].
  rewrite append_cons. cbn [take_while drop_while]. rewrite Hd0.
  change (is_space " ") with true. cbn iota.
  rewrite <- append_cons.
  rewrite (take_while_app is_digit _ _ ":" Hd eq_refl).
  rewrite (drop_while_app is_digit _ _ ":" Hd eq_refl).
  cbn [strip_prefix]. rewrite bool_decide_eq_true_2 by done.
  cbn [option_bind mbind]. by rewrite (match_hex_group_body c b Hc Hb).
Qed.

Lemma all_chars_app (f : ascii → bool) (a b : string) :
  all_chars f (a +:+ b) = all_chars f a && all_chars f b.
Proof.
  induction a as [|c a IH]; [done|].
  rewrite append_cons. cbn [all_chars]. by rewrite IH, andb_assoc.
Qed.

Lemma hex_digit_class (x : Z) :
  is_space (hex_digit x) = false ∧ is_hexws (hex_digit x) = true
  ∧ hex_digit x ≠ " "%char ∧ hex_digit x ≠ "P"%char.
Proof. unfold hex_digit. repeat case_match; by split_and!. Qed.

Lemma all_chars_fmt_02X (f : ascii → bool) (b : Z) :
  (∀ x, f (hex_digit x) = true) → all_chars f (fmt_02X b) = true.
Proof. intros Hf. unfold fmt_02X. cbn [all_chars]. by rewrite !Hf. Qed.

Lemma search_page_without_P (s : string) :
  all_chars (λ c, negb (bool_decide (c = "P"%char))) s = true →
  search_page s = None.
Proof.
  intros H. unfold search_page.
  assert (search match_page_at s = None) as ->; [|done].
  induction s as [|c s IH]; [done|].
  cbn [all_chars] in H. apply andb_true_iff in H as [Hc Hs].
  apply negb_true_iff, bool_decide_eq_false in Hc.
  cbn [search]. rewrite (IH Hs).
  unfold match_page_at. cbn [strip_prefix].
  rewrite bool_decide_eq_false_2 by congruence. done.
Qed.

Lemma search_page_uid_line (a b c d e f g : Z) :
  search_page ("UID: " +:+ hex_spaced [a; b; c; d; e; f; g]) = None.
Proof.
  apply search_page_without_P.
  unfold hex_spaced. cbn [fmap list_fmap join].
  rewrite !all_chars_app.
  rewrite !all_chars_fmt_02X; [done|..]; intros x;
    destruct (hex_digit_class x) as (_ & _ & _ & Hp);
    by rewrite bool_decide_eq_false_2.
Qed.

(** The text [f"{a:02X} {b:02X} {c:02X} {d:02X}"]: what the page pattern
    and [replace(' ', '')] make of it. *)
Lemma fmt4_text (a b c d : Z) :
  ∃ c0 t,
    fmt4 [a; b; c; d] = Ret (String c0 t)
    ∧ is_space c0 = false
    ∧ all_chars is_hexws (String c0 t) = true
    ∧ remove_spaces (String c0 t) = hex_packed [a; b; c; d].
Proof.
  exists (hex_digit (a / 16)),
    (String (hex_digit (a mod 16))
       (String " " (String (hex_digit (b / 16)) (String (hex_digit (b mod 16))
       (String " " (String (hex_digit (c / 16)) (String (hex_digit (c mod 16))
       (String " " (String (hex_digit (d / 16))
       (String (hex_digit (d mod 16)) EmptyString)))))))))).
  split; [reflexivity|].
  pose proof hex_digit_class as Hc.
  split_and!.
  - apply Hc.
  - cbn [all_chars].
    repeat match goal with
           | |- context [is_hexws (hex_digit ?x)] =>
               rewrite (proj1 (proj2 (Hc x)))
           end. done.
  - cbn [remove_spaces].
    repeat match goal with
           | |- context [bool_decide (hex_digit ?x = " "%char)] =>
               rewrite (bool_decide_eq_false_2 (hex_digit x = " "%char))
                 by apply Hc
           end.
    rewrite !bool_decide_eq_true_2 by done. reflexivity.
Qed.

Lemma search_page_fmt4 (d0 : ascii) (ds : string) (l : list Z) (t : string) :
  all_chars is_digit (String d0 ds) = true →
  fmt4 l = Ret t →
  search_page ("Page " +:+ String d0 ds +:+ ": " +:+ t)
  = Some (int_of_digits (String d0 ds), t)
  ∧ remove_spaces t = hex_packed (take 4 l).
Proof.
  intros Hd Ht.
  destruct l as [|a [|b [|c [|d r]]]]; try done.
  assert (fmt4 (a :: b :: c :: d :: r) = fmt4 [a; b; c; d]) as E by done.
  rewrite E in Ht.
  destruct (fmt4_text a b c d) as (c0 & t0 & Hf & Hs & Hh & Hr).
  rewrite Hf in Ht. injection Ht as <-. split.
  - by apply search_page_canon.
  - rewrite Hr. cbn [take]. by rewrite take_0.
Qed.

(** ** The text planner with every fix enabled *)

Lemma plan_page_none (pages : gmap Z string) (n : Z) (label h : string)
    (correct bs : list Z) :
  pages !! n = Some h → fromhex h = Ret bs → (4 ≤ length bs)%nat →
  plan_page true pages n label correct = Ret None → take 4 bs = correct.
Proof.
  intros L F Hlen. unfold plan_page. rewrite L, F. cbn [res_bind].
  rewrite bool_decide_eq_true_2 by done.
  by case_bool_decide.
Qed.

Lemma plan_bcc1_none (pages : gmap Z string) (h : string) (x0 c : Z)
    (r : list Z) :
  pages !! 2 = Some h → fromhex h = Ret (x0 :: r) →
  plan_bcc1 true pages c = Ret None → x0 = c.
Proof.
  intros L F. unfold plan_bcc1. rewrite L, F. cbn.
  by case_bool_decide.
Qed.

Lemma getitem_inv (pages : gmap Z string) (n : Z) (h : string) :
  getitem pages n = Ret h → pages !! n = Some h.
Proof. unfold getitem. by destruct (pages !! n); intros [= ->]. Qed.

Lemma complete_page (pages : gmap Z string) (n : Z) (h : string)
    (bs : list Z) :
  pages_complete pages → n ∈ tracked_pages →
  pages !! n = Some h → fromhex h = Ret bs →
  ∃ a b c d r, bs = a :: b :: c :: d :: r.
Proof.
  intros Hc Hn L F. destruct (Hc n Hn) as (h' & bs' & L' & F' & Hlen).
  rewrite L in L'. injection L' as <-. rewrite F in F'. injection F' as <-.
  destruct bs as [|a [|b [|c [|d r]]]]; try (simpl in Hlen; lia).
  by exists a, b, c, d, r.
Qed.

Lemma complete_lookup (pages : gmap Z string) (n : Z) :
  pages_complete pages → n ∈ tracked_pages →
  ∃ h a b c d r, pages !! n = Some h ∧ fromhex h = Ret (a :: b :: c :: d :: r).
Proof.
  intros Hc Hn. destruct (Hc n Hn) as (h & bs & L & F & Hlen).
  destruct (complete_page pages n h bs Hc Hn L F) as (a & b & c & d & r & ->).
  by exists h, a, b, c, d, r.
Qed.

(** Closes goals [n ∈ tracked_pages] for a literal [n]. *)
Ltac in_tracked :=
  unfold tracked_pages;
  repeat first [apply list_elem_of_here | apply list_elem_of_further].

Lemma nfc_plan_all_inv (pages : gmap Z string) (uid_field : option string)
    (e e1 : env) (pl : plan) :
  nfc_plan pages uid_field all_flags e = Some (Ret pl, e1) →
  pages_complete pages →
  nth 3 (uid_of pl) 0 ≠ 0x88
  ∧ (changes_made pl = [] → pages_valid pages)
  ∧ (changes_made pl ≠ [] → any_values (Issues (p_issues pl)) = true).
Proof.
  intros H Hcomp. unfold nfc_plan in H.
  cbn [fix_uid fix_bcc fix_password fix_pack fix_dlb fix_cfg all_flags] in H.
  io_lift H h0 Hh0. io_lift H page0 Hp0. io_lift H h1 Hh1. io_lift H page1 Hp1.
  apply getitem_inv in Hh0, Hh1.
  destruct (complete_page pages 0 h0 page0 Hcomp) as (x0 & x1 & x2 & x3 & r0 & ->);
    [in_tracked|done|done|].
  destruct (complete_page pages 1 h1 page1 Hcomp) as (y0 & y1 & y2 & y3 & r1 & ->);
    [in_tracked|done|done|].
  cbn [take app] in H. rewrite take_0 in H.
  io_step H uf e2 Hfix. destruct uf as [uid' fixed].
  io_step H c_sn3 e3 Hc.
  io_lift H u Hu. destruct u as [[[[[[sn0 sn1] sn2] sn3] sn4] sn5] sn6].
  apply unpack7_inv in Hu. subst uid'.
  io_lift H c_bcc1 Hc1. io_lift H pw Hpw.
  io_lift H c_pw Hcpw. io_lift H c_pack Hcpack. io_lift H c_dlb Hcdlb.
  io_lift H c_cfg0 Hccfg0. io_lift H c_cfg1 Hccfg1.
  apply ret_inv in H as [-> ->].
  apply list_of_password_inv in Hpw as (Hpw & _ & _).
  apply fix_uid_inv in Hfix as (_ & _ & _ & Hff & Hft).
  assert (Hs3 : sn3 ≠ 0x88 ∧ (fixed = true → is_Some c_sn3)).
  { destruct fixed.
    - destruct (Hft eq_refl) as (_ & new & Hnew & _ & Hne).
      cbn in Hnew. injection Hnew as _ _ _ -> _ _ _. split; [done|].
      intros _. io_lift Hc b Hb. apply ret_inv in Hc as [-> _]. by eexists.
    - destruct (Hff eq_refl) as ([= -> -> -> -> -> -> ->] & _ & Hne).
      split; [|done]. cbn in Hne. congruence. }
  destruct Hs3 as [Hs3 Hfixed].
  cbn [uid_of p_uid nth changes_made p_issues]. split_and!; [done| |].
  - intros Hch.
    apply changes_of_nil_cons in Hch as [_ Hch].
    apply changes_of_nil_cons in Hch as [-> Hch].
    apply changes_of_nil_cons in Hch as [Hb0 Hch].
    apply changes_of_nil_cons in Hch as [-> Hch].
    apply changes_of_nil_cons in Hch as [-> Hch].
    apply changes_of_nil_cons in Hch as [-> Hch].
    apply changes_of_nil_cons in Hch as [-> Hch].
    apply changes_of_nil_cons in Hch as [-> Hch].
    apply changes_of_nil_cons in Hch as [-> _].
    assert (fixed = false) as ->.
    { destruct fixed; [|done]. by destruct (Hfixed eq_refl) as [? [=]]. }
    destruct (Hff eq_refl) as ([= -> -> -> -> -> -> ->] & _ & _).
    apply if_none_inv in Hb0. cbn [andb lookup list_lookup] in Hb0.
    apply bool_decide_eq_false, dec_stable in Hb0.
    destruct (complete_lookup pages 2 Hcomp)
      as (h2 & z0 & z1 & z2 & z3 & r2 & L2 & F2); [in_tracked|].
    apply (plan_bcc1_none _ _ _ _ _ L2 F2) in Hc1.
    destruct (complete_lookup pages 133 Hcomp)
      as (h133 & p0 & p1 & p2 & p3 & r133 & L133 & F133); [in_tracked|].
    apply (plan_page_none _ _ _ _ _ _ L133 F133) in Hcpw; [|simpl; lia].
    destruct (complete_lookup pages 134 Hcomp)
      as (h134 & q0 & q1 & q2 & q3 & r134 & L134 & F134); [in_tracked|].
    apply (plan_page_none _ _ _ _ _ _ L134 F134) in Hcpack; [|simpl; lia].
    destruct (complete_lookup pages 130 Hcomp)
      as (h130 & d0 & d1 & d2 & d3 & r130 & L130 & F130); [in_tracked|].
    apply (plan_page_none _ _ _ _ _ _ L130 F130) in Hcdlb; [|simpl; lia].
    destruct (complete_lookup pages 131 Hcomp)
      as (h131 & f0 & f1 & f2 & f3 & r131 & L131 & F131); [in_tracked|].
    apply (plan_page_none _ _ _ _ _ _ L131 F131) in Hccfg0; [|simpl; lia].
    destruct (complete_lookup pages 132 Hcomp)
      as (h132 & g0 & g1 & g2 & g3 & r132 & L132 & F132); [in_tracked|].
    apply (plan_page_none _ _ _ _ _ _ L132 F132) in Hccfg1; [|simpl; lia].
    cbn [take] in Hcpw, Hcpack, Hcdlb, Hccfg0, Hccfg1.
    rewrite take_0 in Hcpw, Hcpack, Hcdlb, Hccfg0, Hccfg1.
    exists x0, x1, x2, y0, y1, y2, y3. split_and!; try done.
    + exists h0, r0. by rewrite Hb0 in Hp0.
    + by exists h1, r1.
    + exists h2, (z1 :: z2 :: z3 :: r2). by rewrite Hc1 in F2.
    + exists h130, r130. rewrite <- Hcdlb. by split.
    + exists h131, r131. rewrite <- Hccfg0. by split.
    + exists h132, r132. rewrite <- Hccfg1. by split.
    + exists h133, r133. rewrite <- Hpw, <- Hcpw. by split.
    + exists h134, r134. rewrite <- Hcpack. by split.
  - intros Hch. apply changes_any in Hch. cbn [existsb] in Hch.
    rewrite orb_false_r in Hch.
    cbn [any_values i_uid_field i_sn3 i_bcc0 i_bcc1 i_password i_pack i_dlb
           i_cfg0 i_cfg1].
    rewrite <- !orb_assoc. exact Hch.
Qed.

(** ** The text repair with every fix enabled *)

Lemma nfc_plan_returns (pages : gmap Z string) (uid_field : option string)
    (fl : flags) (e : env) (h0 h1 : string) (page0 page1 : list Z) :
  pages !! 0 = Some h0 → fromhex h0 = Ret page0 →
  pages !! 1 = Some h1 → fromhex h1 = Ret page1 →
  (3 ≤ length page0)%nat → (4 ≤ length page1)%nat →
  (∀ n h, pages !! n = Some h → n ∈ [2; 130; 131; 132; 133; 134] →
          is_ret (fromhex h)) →
  (fix_uid fl = true → page1 !! 0%nat = Some 0x88 → tape_ok e) →
  ∃ p e', nfc_plan pages uid_field fl e = Some (Ret p, e').
Proof.
  intros L0 F0 L1 F1 H0 H1 Hd Ht.
  assert (Hb : is_bytes (take 3 page0 ++ take 4 page1)).
  { apply Forall_app; split; apply Forall_take; by eapply fromhex_bytes. }
  assert (Hl7 : length (take 3 page0 ++ take 4 page1) = 7%nat).
  { rewrite length_app, !length_take. lia. }
  assert (H3 : (take 3 page0 ++ take 4 page1) !! 3%nat = page1 !! 0%nat).
  { rewrite lookup_app_r by (rewrite length_take; lia).
    rewrite length_take, lookup_take_lt by lia.
    by replace (3 - 3 `min` length page0)%nat with 0%nat by lia. }
  destruct (fix_uid_step fl _ e Hl7 Hb) as (uid' & fixed & e1 & Hfix & Hl' & Hb').
  { intros Hf H88. apply Ht; [done|]. by rewrite <- H3. }
  destruct (sn3_note_step fixed uid' e1 Hl') as [c_sn3 Hc].
  destruct uid' as [|sn0 [|sn1 [|sn2 [|sn3 [|sn4 [|sn5 [|sn6 [|]]]]]]]];
    try done.
  destruct (plan_bcc1_returns (fix_bcc fl) pages
              (Z.lxor (Z.lxor (Z.lxor sn3 sn4) sn5) sn6)) as [c_bcc1 Hb1].
  { intros h Hh. apply (Hd 2 h Hh). in_tracked. }
  pose proof (list_of_password_ok _ Hb' ltac:(simpl; lia)) as Hpw.
  destruct (plan_page_returns (fix_password fl) pages 133 "Password"
              (derived_password [sn0; sn1; sn2; sn3; sn4; sn5; sn6]))
    as [c_pw Hcpw].
  { intros h Hh. apply (Hd 133 h Hh). in_tracked. }
  destruct (plan_page_returns (fix_pack fl) pages 134 "PACK" correct_pack)
    as [c_pack Hcpack].
  { intros h Hh. apply (Hd 134 h Hh). in_tracked. }
  destruct (plan_page_returns (fix_dlb fl) pages 130 "DLB" correct_dlb)
    as [c_dlb Hcdlb].
  { intros h Hh. apply (Hd 130 h Hh). in_tracked. }
  destruct (plan_page_returns (fix_cfg fl) pages 131 "CFG0" correct_cfg0)
    as [c_cfg0 Hccfg0].
  { intros h Hh. apply (Hd 131 h Hh). in_tracked. }
  destruct (plan_page_returns (fix_cfg fl) pages 132 "CFG1" correct_cfg1)
    as [c_cfg1 Hccfg1].
  { intros h Hh. apply (Hd 132 h Hh). in_tracked. }
  eexists _, _. unfold nfc_plan, getitem. rewrite L0, L1.
  unfold bind at 1 2 3 4. cbn [lift]. rewrite F0, F1.
  rewrite (bind_ret_step _ _ _ _ _ Hfix).
  rewrite (bind_ret_step _ _ _ _ _ Hc).
  unfold bind at 1. cbn [lift unpack7].
  unfold bind at 1. cbn [lift]. rewrite Hb1.
  unfold bind at 1. cbn [lift]. rewrite Hpw.
  unfold bind at 1. cbn [lift]. rewrite Hcpw.
  unfold bind at 1. cbn [lift]. rewrite Hcpack.
  unfold bind at 1. cbn [lift]. rewrite Hcdlb.
  unfold bind at 1. cbn [lift]. rewrite Hccfg0.
  unfold bind at 1. cbn [lift]. rewrite Hccfg1.
  reflexivity.
Qed.

Lemma tracked_cases (n : Z) :
  n ∈ tracked_pages ↔
  n = 0 ∨ n = 1 ∨ n = 2 ∨ n = 130 ∨ n = 131 ∨ n = 132 ∨ n = 133 ∨ n = 134.
Proof.
  unfold tracked_pages. rewrite !elem_of_cons, elem_of_nil. tauto.
Qed.

Lemma rewrite_line_all (pages : gmap Z string) (pl : plan) (line : string) :
  plan_ok pl → pages_complete pages →
  (is_Some (search_uid line) → search_page line = None) →
  ∃ line', rewrite_line pages all_flags pl line = Ret line'
           ∧ line_repaired pages pl line line'.
Proof.
  intros (_ & _ & _ & Hpw) Hcomp Huid.
  destruct (complete_lookup pages 2 Hcomp)
    as (h2 & z0 & z1 & z2 & z3 & r2 & L2 & F2); [in_tracked|].
  unfold rewrite_line, line_repaired, planned_page. unfold uid_of in Hpw.
  destruct (p_uid pl) as [[[[[[sn0 sn1] sn2] sn3] sn4] sn5] sn6].
  rewrite Hpw. unfold derived_password. cbn [nth].
  cbn [fix_uid fix_bcc fix_password fix_pack fix_dlb fix_cfg all_flags].
  rewrite !andb_true_r. cbn [orb].
  destruct (bool_decide (is_Some (search_uid line))) eqn:Hu.
  { apply bool_decide_eq_true in Hu. rewrite (Huid Hu).
    eexists. split; [reflexivity|]. apply search_page_uid_line. }
  destruct (search_page line) as [[n g]|] eqn:Hsp;
    [|exists line; by split].
  assert (Hcanon : ∀ (d0 : ascii) (ds : string) (l : list Z),
            all_chars is_digit (String d0 ds) = true →
            int_of_digits (String d0 ds) = n →
            (4 ≤ length l)%nat →
            ∃ t, fmt4 l = Ret t
                 ∧ ∃ g', search_page ("Page " +:+ String d0 ds +:+ ": " +:+ t)
                         = Some (n, g')
                         ∧ remove_spaces g' = hex_packed (take 4 l)).
  { intros d0 ds l Hd Hn Hl.
    destruct l as [|a [|b [|c [|d r]]]]; try (simpl in Hl; lia).
    destruct (fmt4_text a b c d) as (c0 & t0 & Hf & _).
    exists (String c0 t0). split; [exact Hf|].
    destruct (search_page_fmt4 d0 ds (a :: b :: c :: d :: r) _ Hd Hf)
      as [Hs Hr].
    exists (String c0 t0). by rewrite Hs, Hn. }
  destruct (decide (n ∈ tracked_pages)) as [Hin|Hnin].
  - rewrite (bool_decide_eq_true_2 _ Hin).
    apply tracked_cases in Hin.
    destruct Hin as [->|[->|[->|[->|[->|[->|[->| ->]]]]]]].
    + destruct (Hcanon "0"%char EmptyString
                  [sn0; sn1; sn2; p_bcc0 pl]) as (t & -> & Hg);
        [done|done|simpl; lia|]. eexists. split; [reflexivity|]. exact Hg.
    + destruct (Hcanon "1"%char EmptyString [sn3; sn4; sn5; sn6])
        as (t & -> & Hg); [done|done|simpl; lia|].
      eexists. split; [reflexivity|]. exact Hg.
    + unfold getitem. rewrite L2. cbn [res_bind]. rewrite F2.
      cbn [res_bind index lookup list_lookup].
      destruct (Hcanon "2"%char EmptyString [p_bcc1 pl; z1; z2; z3])
        as (t & -> & Hg); [done|done|simpl; lia|].
      eexists. split; [reflexivity|]. exact Hg.
    + destruct (Hcanon "1"%char "30"%string correct_dlb)
        as (t & -> & Hg); [done|done|simpl; lia|].
      eexists. split; [reflexivity|]. exact Hg.
    + destruct (Hcanon "1"%char "31"%string correct_cfg0)
        as (t & -> & Hg); [done|done|simpl; lia|].
      eexists. split; [reflexivity|]. exact Hg.
    + destruct (Hcanon "1"%char "32"%string correct_cfg1)
        as (t & -> & Hg); [done|done|simpl; lia|].
      eexists. split; [reflexivity|]. exact Hg.
    + destruct (Hcanon "1"%char "33"%string
                  [Z.lxor (Z.lxor sn1 sn3) 170; Z.lxor (Z.lxor sn2 sn4) 85;
                   Z.lxor (Z.lxor sn3 sn5) 170; Z.lxor (Z.lxor sn4 sn6) 85])
        as (t & -> & Hg); [done|done|simpl; lia|].
      eexists. split; [reflexivity|]. exact Hg.
    + destruct (Hcanon "1"%char "34"%string correct_pack)
        as (t & -> & Hg); [done|done|simpl; lia|].
      eexists. split; [reflexivity|]. exact Hg.
  - rewrite (bool_decide_eq_false_2 _ Hnin).
    rewrite tracked_cases in Hnin.
    rewrite !bool_decide_eq_false_2 by (intros ->; apply Hnin; tauto).
    by exists line.
Qed.

Lemma parse_nfc_line_pages (st : gmap Z string * option string * option Z)
    (line : string) :
  (parse_nfc_line st line).1.1
  = match search_page line with
    | Some (n, g) => <[n := remove_spaces g]> st.1.1
    | None => st.1.1
    end.
Proof.
  destruct st as [[pg uf] v]. unfold parse_nfc_line. cbn.
  by destruct (search_page line) as [[n g]|].
Qed.

Lemma parse_repaired (pages : gmap Z string) (pl : plan)
    (lines lines' : list string)
    (st st' : gmap Z string * option string * option Z) :
  Forall2 (line_repaired pages pl) lines lines' →
  pages_repaired pages pl st.1.1 st'.1.1 →
  pages_repaired pages pl (foldl parse_nfc_line st lines).1.1
    (foldl parse_nfc_line st' lines').1.1.
Proof.
  intros HF. revert st st'.
  induction HF as [|l l' ls ls' Hl _ IH]; intros st st' Hst; [done|].
  cbn [foldl]. apply IH. rewrite !parse_nfc_line_pages.
  unfold line_repaired in Hl.
  destruct (search_page l) as [[n g]|] eqn:Hs.
  - destruct (decide (n ∈ tracked_pages)) as [Hin|Hnin].
    + rewrite (bool_decide_eq_true_2 _ Hin) in Hl.
      destruct Hl as (g' & -> & Hg'). rewrite Hg'.
      intros m Hm Hsome. destruct (decide (m = n)) as [->|Hne].
      * by rewrite lookup_insert_eq.
      * rewrite lookup_insert_ne by done.
        rewrite lookup_insert_ne in Hsome by done. by apply Hst.
    + rewrite (bool_decide_eq_false_2 _ Hnin) in Hl. subst l'. rewrite Hs.
      intros m Hm Hsome.
      assert (m ≠ n) by (by intros ->).
      rewrite lookup_insert_ne by done.
      rewrite lookup_insert_ne in Hsome by done. by apply Hst.
  - by rewrite Hl.
Qed.

Lemma map_res_all {A B : Type} (f : A → res B) (R : A → B → Prop)
    (l : list A) :
  Forall (λ x, ∃ y, f x = Ret y ∧ R x y) l →
  ∃ l', map_res f l = Ret l' ∧ Forall2 R l l'.
Proof.
  induction 1 as [|x l (y & Hy & Hr) _ (l' & Hl & HF)].
  - by exists [].
  - exists (y :: l'). cbn [map_res]. rewrite Hy, Hl. by split; [|constructor].
Qed.

Lemma planned_pages_valid (pages pages' : gmap Z string) (pl : plan) :
  plan_ok pl → pages_complete pages → nth 3 (uid_of pl) 0 ≠ 0x88 →
  (∀ n, n ∈ tracked_pages →
        pages' !! n = Some (hex_packed (planned_page pages pl n))) →
  pages_valid pages'.
Proof.
  intros (Hub & Hb0 & Hb1 & Hpw) Hcomp Hsn3 Hp.
  destruct (complete_lookup pages 2 Hcomp)
    as (h2 & z0 & z1 & z2 & z3 & r2 & L2 & F2); [in_tracked|].
  pose proof (fromhex_bytes _ _ F2) as Bz.
  unfold uid_of in *.
  assert (Hpl : ∀ n, planned_page pages pl n
                     = let '(sn0, sn1, sn2, sn3, sn4, sn5, sn6) := p_uid pl in
                       if bool_decide (n = 0) then [sn0; sn1; sn2; p_bcc0 pl]
                       else if bool_decide (n = 1) then [sn3; sn4; sn5; sn6]
                       else if bool_decide (n = 2)
                            then [p_bcc1 pl; z1; z2; z3]
                       else if bool_decide (n = 130) then correct_dlb
                       else if bool_decide (n = 131) then correct_cfg0
                       else if bool_decide (n = 132) then correct_cfg1
                       else if bool_decide (n = 133) then p_password pl
                       else if bool_decide (n = 134) then correct_pack
                       else []).
  { intros n. unfold planned_page. by rewrite L2, F2. }
  destruct (p_uid pl) as [[[[[[sn0 sn1] sn2] sn3] sn4] sn5] sn6].
  cbn [nth] in *.
  assert (B : is_byte sn0 ∧ is_byte sn1 ∧ is_byte sn2 ∧ is_byte sn3
              ∧ is_byte sn4 ∧ is_byte sn5 ∧ is_byte sn6
              ∧ is_byte z1 ∧ is_byte z2 ∧ is_byte z3).
  { repeat match goal with
           | H : is_bytes (_ :: _) |- _ => inversion H; subst; clear H
           | H : Forall _ (_ :: _) |- _ => inversion H; subst; clear H
           end. by split_and!. }
  destruct B as (B0 & B1 & B2 & B3 & B4 & B5 & B6 & Bz1 & Bz2 & Bz3).
  assert (Bb0 : is_byte (p_bcc0 pl)).
  { rewrite Hb0. repeat apply lxor_byte; try done; unfold is_byte; lia. }
  assert (Bb1 : is_byte (p_bcc1 pl)).
  { rewrite Hb1. by repeat apply lxor_byte. }
  assert (Bpw : is_bytes (p_password pl)).
  { rewrite Hpw. apply derived_password_bytes.
    by repeat (constructor; [done|]). }
  assert (Hstart : ∀ n v rest,
            n ∈ tracked_pages → planned_page pages pl n = v ++ rest →
            is_bytes (v ++ rest) → page_starts pages' n v).
  { intros n v rest Hn Hv Hb. exists (hex_packed (v ++ rest)), rest. split.
    - rewrite <- Hv. by apply Hp.
    - by apply fromhex_hex_packed. }
  assert (Hc : ∀ v, v ∈ [correct_dlb; correct_cfg0; correct_cfg1; correct_pack]
                 → is_bytes v).
  { intros v Hv. repeat (apply elem_of_cons in Hv as [->|Hv];
      [apply (bool_decide_unpack _); vm_compute; exact I|]).
    by apply elem_of_nil in Hv. }
  exists sn0, sn1, sn2, sn3, sn4, sn5, sn6. split_and!; try done.
  - apply (Hstart 0 _ []); [in_tracked|by rewrite Hpl, Hb0|].
    rewrite <- Hb0. by repeat (constructor; [done|]).
  - apply (Hstart 1 _ []); [in_tracked|by rewrite Hpl|].
    by repeat (constructor; [done|]).
  - apply (Hstart 2 _ [z1; z2; z3]); [in_tracked|by rewrite Hpl, Hb1|].
    rewrite <- Hb1. by repeat (constructor; [done|]).
  - apply (Hstart 130 _ []); [in_tracked|by rewrite Hpl, app_nil_r|].
    rewrite app_nil_r. apply Hc. in_tracked.
  - apply (Hstart 131 _ []); [in_tracked|by rewrite Hpl, app_nil_r|].
    rewrite app_nil_r. apply Hc. in_tracked.
  - apply (Hstart 132 _ []); [in_tracked|by rewrite Hpl, app_nil_r|].
    rewrite app_nil_r. apply Hc. in_tracked.
  - apply (Hstart 133 _ []); [in_tracked|by rewrite Hpl, app_nil_r, Hpw|].
    rewrite app_nil_r, <- Hpw. done.
  - apply (Hstart 134 _ []); [in_tracked|by rewrite Hpl, app_nil_r|].
    rewrite app_nil_r. apply Hc. in_tracked.
Qed.

(** X18. With every fix enabled, a writable file and a random source that
    can supply a new SN3, the text repair of an image that stores all
    eight tracked pages with at least four bytes each (no line being both
    a UID line and a page line) returns success without exception, and
    the image it leaves is valid: read back with
    [extract_pages_from_nfc], its pages satisfy every field rule and the
    validator says so. *)
Theorem fix_nfc_file_all_valid (filepath : string) (e : env)
    (content : string) (pages : gmap Z string) (uid_field : option string)
    (version : option Z) :
  disk e !! filepath = Some (FText content) →
  parse_nfc (split_lines content) = (pages, uid_field, version) →
  pages_complete pages → uid_lines_apart (split_lines content) →
  filepath ∉ locked e → tape_ok e →
  ∃ msg iss e' pages' content' lines' uid_field' version' u d,
    fix_nfc_file filepath all_flags e = Some (Ret (true, msg, iss), e')
    ∧ extract_pages_from_nfc filepath e'
      = Some (Ret (Some pages', content', lines', uid_field', version'), e')
    ∧ pages_valid pages'
    ∧ check_uid_comprehensive (Some pages') uid_field'
      = Ret (true, FieldReport, u, d).
Proof.
  intros Hd Hp Hcomp Hapart Hlock Ht.
  destruct (complete_lookup pages 0 Hcomp)
    as (h0 & a0 & a1 & a2 & a3 & r0 & L0 & F0); [in_tracked|].
  destruct (complete_lookup pages 1 Hcomp)
    as (h1 & b0 & b1 & b2 & b3 & r1 & L1 & F1); [in_tracked|].
  destruct (nfc_plan_returns pages uid_field all_flags e _ _ _ _ L0 F0 L1 F1)
    as (pl & e1 & Hplan); [simpl; lia|simpl; lia| |by intros _ _|].
  { intros n h Hh Hn.
    assert (Hn' : n ∈ tracked_pages).
    { unfold tracked_pages. by do 2 apply list_elem_of_further. }
    destruct (Hcomp n Hn') as (h' & bs & L & F & _).
    rewrite Hh in L. injection L as <-. by rewrite F. }
  pose proof (nfc_plan_inv _ _ _ _ _ _ Hplan)
    as ((D1 & _ & _ & K1 & _) & Hok & He).
  destruct (nfc_plan_all_inv _ _ _ _ _ Hplan Hcomp) as (Hsn3 & Hnil & _).
  assert (Hne : pages ≠ ∅).
  { intros ->. by rewrite lookup_empty in L0. }
  assert (Hstart : fix_nfc_file filepath all_flags e
    = (if bool_decide (changes_made pl = [])
       then ret (true, NoChangesNeeded, NoIssues)
       else
         io backup_path <- backup_file filepath;
         io lines <- lift (Ret (split_lines content));
         io new_lines <-
           lift (map_res (rewrite_line pages all_flags pl) lines);
         catch
           (io _ <- write_file filepath (FText (join nl new_lines));
            ret (true, FixedSuccessfully backup_path (changes_made pl),
                 Issues (p_issues pl)))
           (ret (false, ErrorWritingFile, NoIssues))) e1).
  { unfold fix_nfc_file. unfold bind at 1. rewrite extract_nfc_eq, Hd.
    cbn zeta. rewrite Hp.
    rewrite (bool_decide_eq_false_2 (pages = ∅)) by done.
    rewrite !bool_decide_eq_true_2 by eauto. cbn [negb orb].
    by rewrite (bind_ret_step _ _ _ _ _ Hplan). }
  rewrite Hstart. clear Hstart.
  assert (Hfinal : ∀ pages' uf',
            pages_valid pages' →
            ∃ u d, check_uid_comprehensive (Some pages') uf'
                   = Ret (true, FieldReport, u, d)).
  { intros pages' uf' Hv. by apply check_valid_intro. }
  case_bool_decide as Hch.
  - rewrite (He Hch).
    destruct (Hfinal pages uid_field (Hnil Hch)) as (u & d & Hu).
    eexists NoChangesNeeded, NoIssues, e, pages, _, _, uid_field, version, u, d.
    split; [reflexivity|]. split_and!; [|by apply Hnil|done].
    rewrite extract_nfc_eq, Hd. cbn zeta. by rewrite Hp.
  - destruct (backup_file_returns filepath e1) as (bk & e2 & Hbk & D2 & K2).
    rewrite (bind_ret_step _ _ _ _ _ Hbk).
    unfold bind at 1. cbn [lift].
    destruct (map_res_all (rewrite_line pages all_flags pl)
                (line_repaired pages pl) (split_lines content))
      as (new_lines & Hmap & HF).
    { unfold uid_lines_apart in Hapart. eapply Forall_impl; [exact Hapart|].
      intros line Hline. by apply rewrite_line_all. }
    unfold bind at 1. rewrite Hmap. cbn [lift].
    unfold catch, bind, write_file, ret.
    rewrite bool_decide_eq_false_2 by (rewrite K2, K1; done).
    set (e3 := Env (<[filepath := FText (join nl new_lines)]> (disk e2))
                   (backups e2) (tracker e2) (locked e2) (backup_dir_ok e2)
                   (tape e2)).
    assert (Hsplit : split_lines (join nl new_lines) = new_lines).
    { apply split_lines_join.
      - destruct (split_lines_cons content) as (l & ls & El).
        rewrite El in HF. inversion HF. done.
      - pose proof (split_lines_no_nl content) as Hnl.
        apply map_res_inv in Hmap.
        clear -Hmap Hnl. induction Hmap as [|x y l l' Hxy _ IH]; [done|].
        apply Forall_cons in Hnl as [Hx Hl].
        constructor; [by eapply rewrite_line_no_nl|by apply IH]. }
    destruct (parse_nfc new_lines) as [[pages' uf'] v'] eqn:Hp'.
    assert (Hv : pages_valid pages').
    { apply (planned_pages_valid pages pages' pl Hok Hcomp Hsn3).
      intros n Hn.
      pose proof (parse_repaired pages pl _ _ (∅, None, None) (∅, None, None)
                    HF) as Hrep.
      unfold parse_nfc in Hp, Hp'. rewrite Hp, Hp' in Hrep. cbn in Hrep.
      apply Hrep; [by intros m _ [? Hm]; rewrite lookup_empty in Hm|done|].
      destruct (Hcomp n Hn) as (h & bs & L & _). by exists h. }
    destruct (Hfinal pages' uf' Hv) as (u & d & Hu).
    eexists _, _, e3, pages', _, _, uf', v', u, d.
    split; [reflexivity|]. split_and!; [|done|done].
    rewrite extract_nfc_eq.
    replace (disk e3 !! filepath) with (Some (FText (join nl new_lines)))
      by (symmetry; apply lookup_insert_eq).
    cbn zeta. by rewrite Hsplit, Hp'.
Qed.

Lemma fix_nfc_file_all_valid_witness :
  ∃ msg iss e' pages' content' lines' uid_field' version' u d,
    fix_nfc_file "a" all_flags (sample_env (FText lowercase_nfc) [0x21])
    = Some (Ret (true, msg, iss), e')
    ∧ extract_pages_from_nfc "a" e'
      = Some (Ret (Some pages', content', lines', uid_field', version'), e')
    ∧ pages_valid pages'
    ∧ check_uid_comprehensive (Some pages') uid_field'
      = Ret (true, FieldReport, u, d).
Proof.
  eapply (fix_nfc_file_all_valid "a" (sample_env (FText lowercase_nfc) [0x21])
            lowercase_nfc).
  - vm_compute. reflexivity.
  - vm_compute. reflexivity.
  - intros n Hn. apply tracked_cases in Hn.
    destruct Hn as [->|[->|[->|[->|[->|[->|[->| ->]]]]]]];
      eexists _, _; (split_and!; [vm_compute; reflexivity
                                 |vm_compute; reflexivity|simpl; lia]).
  - apply (bool_decide_unpack _). vm_compute. exact I.
  - simpl. apply not_elem_of_empty.
  - split.
    + apply (bool_decide_unpack _). vm_compute. exact I.
    + simpl. apply Exists_cons_hd. lia.
Defined.

(** ** Numbers in decimal *)

Lemma all_chars_take_while (f : ascii → bool) (s : string) :
  all_chars f (take_while f s) = true.
Proof.
  induction s as [|c s IH]; [done|]. cbn [take_while].
  destruct (f c) eqn:E; [|done]. cbn [all_chars]. by rewrite E, IH.
Qed.

Lemma all_chars_impl (f g : ascii → bool) (s : string) :
  (∀ c, f c = true → g c = true) →
  all_chars f s = true → all_chars g s = true.
Proof.
  intros Hfg. induction s as [|c s IH]; [done|]. cbn [all_chars].
  intros [Hc Hs]%andb_true_iff. by rewrite (Hfg c Hc), IH.
Qed.

Lemma all_chars_no_nl (f : ascii → bool) (s : string) :
  f newline = false → all_chars f s = true → no_nl s = true.
Proof.
  intros Hf. induction s as [|c s IH]; [done|]. cbn [all_chars no_nl].
  intros [Hc Hs]%andb_true_iff. rewrite IH by done.
  rewrite bool_decide_eq_false_2; [done|]. intros ->. congruence.
Qed.

Lemma digits_of_uint (d : Decimal.uint) :
  all_chars is_digit (NilEmpty.string_of_uint d) = true.
Proof. induction d; cbn [NilEmpty.string_of_uint all_chars]; by rewrite ?IHd. Qed.

Lemma str_of_int_digits (n : Z) :
  0 ≤ n →
  ∃ d0 ds, str_of_int n = String d0 ds
           ∧ all_chars is_digit (String d0 ds) = true.
Proof.
  intros Hn. unfold str_of_int. destruct n as [|p|p]; [by eexists _, _| |lia].
  cbn [Z.to_int NilZero.string_of_int].
  pose proof (DecimalPos.Unsigned.to_uint_nonnil p) as Hnil.
  pose proof (digits_of_uint (Pos.to_uint p)) as Hd.
  unfold NilZero.string_of_uint.
  destruct (Pos.to_uint p) eqn:E; try done; eexists _, _; by split.
Qed.

Lemma no_nl_str_of_int (n : Z) : 0 ≤ n → no_nl (str_of_int n) = true.
Proof.
  intros Hn. destruct (str_of_int_digits n Hn) as (d0 & ds & -> & Hd).
  by apply (all_chars_no_nl is_digit).
Qed.

Lemma int_of_digits_nonneg (ds : string) :
  all_chars is_digit ds = true → 0 ≤ int_of_digits ds.
Proof.
  unfold int_of_digits.
  assert (∀ acc, 0 ≤ acc → all_chars is_digit ds = true →
            0 ≤ foldl (λ acc c, acc * 10 + (code c - 48)) acc
                  (list_ascii_of_string ds)) as H; [|by apply H].
  induction ds as [|c ds IH]; intros acc Hacc Hd; [done|].
  cbn [all_chars] in Hd. apply andb_true_iff in Hd as [Hc Hd].
  cbn [list_ascii_of_string foldl]. apply IH; [|done].
  unfold is_digit in Hc. apply andb_true_iff in Hc as [H1%Z.leb_le _]. lia.
Qed.

Lemma match_page_at_digits (s ds g : string) :
  match_page_at s = Some (ds, g) → all_chars is_digit ds = true.
Proof.
  unfold match_page_at. intros H.
  apply bind_Some in H as (rest & _ & H).
  destruct (take_while is_space rest); [done|].
  destruct (take_while is_digit (drop_while is_space rest)) as [|d0 ds0] eqn:E;
    [done|].
  apply bind_Some in H as (r2 & _ & H).
  apply bind_Some in H as (g0 & _ & H). injection H as <- _.
  rewrite <- E. apply all_chars_take_while.
Qed.

Lemma search_page_nonneg (line : string) (n : Z) (g : string) :
  search_page line = Some (n, g) → 0 ≤ n.
Proof.
  unfold search_page.
  destruct (search match_page_at line) as [[ds g']|] eqn:E; [|done].
  cbn. intros [= <- _]. apply int_of_digits_nonneg.
  clear -E. induction line as [|c line IH]; cbn [search] in E.
  - destruct (match_page_at EmptyString) as [[??]|] eqn:E'; [|done].
    injection E as -> ->. by eapply match_page_at_digits.
  - destruct (match_page_at (String c line)) as [[??]|] eqn:E'.
    + injection E as -> ->. by eapply match_page_at_digits.
    + by apply IH.
Qed.

Lemma parse_v_keys (lines : list string) (st : option Z * gmap Z string) :
  map_Forall (λ k _, 0 ≤ k) st.2 →
  map_Forall (λ k _, 0 ≤ k) (foldl parse_v_line st lines).2.
Proof.
  revert st. induction lines as [|line lines IH]; intros st Hst; [done|].
  cbn [foldl]. apply IH. destruct st as [v pg]. unfold parse_v_line. cbn.
  destruct (search_page line) as [[n g]|] eqn:E; [|done].
  apply map_Forall_insert_2; [|done]. by eapply search_page_nonneg.
Qed.

(** ** The page table of the upgrade *)

Lemma convert_to_v4_lines (pages : gmap Z string) (m : Z) :
  max_key pages = Some m → 0 ≤ m → decodable pages →
  map_Forall (λ _ h, no_nl h = true) pages →
  ∃ uid_hex doc,
    convert_to_v4_format pages = Ret doc
    ∧ no_nl uid_hex = true
    ∧ split_lines doc
      = v4_header uid_hex (m + 1)
        ++ (v4_page_line pages <$> seqZ 0 (m + 1))
        ++ [ "Failed authentication attempts: 0"%string; EmptyString ].
Proof.
  intros Hm Hm0 Hdec Hnl.
  assert (Huid : ∃ uid_hex,
            match pages !! 0, pages !! 1 with
            | Some h0, Some h1 =>
                do page0_bytes <- fromhex h0;
                do page1_bytes <- fromhex h1;
                Ret (hex_spaced (take 3 page0_bytes ++ take 4 page1_bytes))
            | _, _ => Ret "04 AB 73 54 B8 B6 0F"%string
            end = Ret uid_hex ∧ no_nl uid_hex = true).
  { destruct (pages !! 0) as [h0|] eqn:E0; [|by eexists].
    destruct (pages !! 1) as [h1|] eqn:E1; [|by eexists].
    destruct (decodable_lookup _ _ _ Hdec E0) as [page0 ->].
    destruct (decodable_lookup _ _ _ Hdec E1) as [page1 ->].
    eexists. split; [reflexivity|]. apply no_nl_hex_spaced. }
  destruct Huid as (uid_hex & Hu & Hunl).
  exists uid_hex. eexists. unfold convert_to_v4_format.
  rewrite Hu, Hm. cbn [res_bind]. split; [reflexivity|]. split; [done|].
  assert (Hne : v4_page_line pages <$> seqZ 0 (m + 1) ≠ []).
  { intros E. apply (f_equal length) in E.
    rewrite length_fmap, length_seqZ in E. simpl in E. lia. }
  rewrite v4_document_lines by done.
  apply split_lines_join; [done|].
  apply Forall_app. split; [|apply Forall_app; split].
  - apply v4_header_no_nl; [done|]. apply no_nl_str_of_int. lia.
  - apply Forall_fmap, Forall_forall. intros n Hn.
    apply elem_of_seqZ in Hn. cbn.
    apply v4_page_line_no_nl; [done|]. apply no_nl_str_of_int. lia.
  - by repeat constructor.
Qed.

(** X19. The version upgrade writes a page table that runs from page 0 to
    the highest page number read from the file.  For a version 2 or 3
    text image with at least one page line, hexadecimal page texts and a
    writable file, [convert_nfc_to_v4] succeeds and replaces the file by
    the fixed head with [Pages total] set to the highest page number
    plus one, then one line per page number from 0 to the highest (the
    pairs of the stored text in upper case for a page that was read,
    [00 00 00 00] for one that was not), the line [Failed authentication
    attempts: 0] and a final line feed. *)
Theorem convert_writes_page_table (filepath : string) (e : env)
    (content : string) (v m : Z) (pages : gmap Z string) :
  disk e !! filepath = Some (FText content) →
  foldl parse_v_line (None, ∅) (split_lines content) = (Some v, pages) →
  v = 2 ∨ v = 3 → max_key pages = Some m → decodable pages →
  filepath ∉ locked e →
  ∃ bk e' new uid_hex,
    convert_nfc_to_v4 filepath e
    = Some (Ret (true, ConvertedToV4 v bk, VersionConversion), e')
    ∧ disk e' !! filepath = Some (FText new)
    ∧ split_lines new
      = v4_header uid_hex (m + 1)
        ++ (v4_page_line pages <$> seqZ 0 (m + 1))
        ++ [ "Failed authentication attempts: 0"%string; EmptyString ]
    ∧ m ∈ dom pages ∧ ∀ n, n ∈ dom pages → 0 ≤ n ≤ m.
Proof.
  intros Hd Hparse Hv Hm Hdec Hlock.
  assert (Hnl : map_Forall (λ _ h, no_nl h = true) pages).
  { pose proof (parse_v_no_nl (split_lines content) (None, ∅)
                  (split_lines_no_nl content) (map_Forall_empty _)) as H.
    by rewrite Hparse in H. }
  assert (Hkeys : map_Forall (λ k _, 0 ≤ k) pages).
  { pose proof (parse_v_keys (split_lines content) (None, ∅)
                  (map_Forall_empty _)) as H.
    by rewrite Hparse in H. }
  assert (Hne : pages ≠ ∅).
  { intros ->. by vm_compute in Hm. }
  destruct (max_key_spec pages Hne) as (k & Hk & Hin & Hmax).
  assert (k = m) as -> by congruence.
  assert (Hdom : ∀ n, n ∈ dom pages → 0 ≤ n ≤ m).
  { intros n Hn. split; [|by apply Hmax].
    apply elem_of_dom in Hn as [h Hn]. by apply (Hkeys n h). }
  destruct (convert_to_v4_lines pages m Hm) as (uid_hex & doc & Hdoc & _ & Hl);
    [by destruct (Hdom m Hin)|done|done|].
  destruct (backup_file_returns filepath e) as (bk & e1 & Hbk & D1 & K1).
  set (e2 := Env (<[filepath := FText doc]> (disk e1)) (backups e1)
                 (tracker e1) (locked e1) (backup_dir_ok e1) (tape e1)).
  exists bk, e2, doc, uid_hex. split_and!; try done.
  - unfold convert_nfc_to_v4, catch. unfold bind at 1.
    rewrite read_text_eq, Hd. cbn zeta. rewrite Hparse.
    rewrite (bool_decide_eq_false_2 (Some v = Some 4))
      by (intros [= ->]; lia).
    assert (bool_decide (v = 2) || bool_decide (v = 3) = true) as ->.
    { destruct Hv as [-> | ->]; by vm_compute. }
    rewrite (bind_ret_step _ _ _ _ _ Hbk). unfold bind at 1. cbn [lift].
    rewrite Hdoc. unfold bind, write_file, ret.
    by rewrite bool_decide_eq_false_2 by (by rewrite K1).
  - apply lookup_insert_eq.
Qed.

Lemma convert_writes_page_table_witness :
  ∃ bk e' new uid_hex,
    convert_nfc_to_v4 "a" (sample_env (FText gap_nfc) [])
    = Some (Ret (true, ConvertedToV4 3 bk, VersionConversion), e')
    ∧ disk e' !! "a"%string = Some (FText new)
    ∧ split_lines new
      = v4_header uid_hex (4 + 1)
        ++ (v4_page_line (foldl parse_v_line (None, ∅) (split_lines gap_nfc)).2
              <$> seqZ 0 (4 + 1))
        ++ [ "Failed authentication attempts: 0"%string; EmptyString ]
    ∧ 4 ∈ dom (foldl parse_v_line (None, ∅) (split_lines gap_nfc)).2
    ∧ ∀ n, n ∈ dom (foldl parse_v_line (None, ∅) (split_lines gap_nfc)).2 →
           0 ≤ n ≤ 4.
Proof.
  apply (convert_writes_page_table "a" (sample_env (FText gap_nfc) [])
           gap_nfc 3 4).
  - vm_compute. reflexivity.
  - vm_compute. reflexivity.
  - by right.
  - vm_compute. reflexivity.
  - apply (bool_decide_unpack _). vm_compute. exact I.
  - simpl. apply not_elem_of_empty.
Defined.

(** ** Reading the upgraded document back *)

Lemma foldl_digits_acc (d : Decimal.uint) (acc : positive) :
  foldl (λ acc c, acc * 10 + (code c - 48)) (Z.pos acc)
    (list_ascii_of_string (NilEmpty.string_of_uint d))
  = Z.pos (Pos.of_uint_acc d acc).
Proof.
  revert acc. induction d; intros acc;
    cbn [NilEmpty.string_of_uint list_ascii_of_string foldl Pos.of_uint_acc];
    [done|..];
    match goal with
    | |- foldl _ ?a _ = Z.pos (Pos.of_uint_acc _ ?b) =>
        replace a with (Z.pos b) by (vm_compute code; lia)
    end; apply IHd.
Qed.

Lemma foldl_digits (d : Decimal.uint) :
  foldl (λ acc c, acc * 10 + (code c - 48)) 0
    (list_ascii_of_string (NilEmpty.string_of_uint d))
  = Z.of_N (Pos.of_uint d).
Proof.
  induction d;
    cbn [NilEmpty.string_of_uint list_ascii_of_string foldl Pos.of_uint];
    [done|exact IHd|..];
    match goal with
    | |- foldl _ ?a _ = Z.of_N (N.pos (Pos.of_uint_acc _ ?b)) =>
        change a with (Z.pos b)
    end; apply foldl_digits_acc.
Qed.

Lemma int_of_str_of_int (n : Z) : 0 ≤ n → int_of_digits (str_of_int n) = n.
Proof.
  intros Hn. unfold str_of_int, int_of_digits.
  destruct n as [|p|p]; [done| |lia].
  cbn [Z.to_int NilZero.string_of_int]. unfold NilZero.string_of_uint.
  pose proof (DecimalPos.Unsigned.to_uint_nonnil p) as Hnil.
  pose proof (DecimalPos.Unsigned.of_to p) as Hof.
  pose proof (foldl_digits (Pos.to_uint p)) as Hf.
  rewrite Hof in Hf.
  destruct (Pos.to_uint p); done.
Qed.

Lemma string_ind2 (P : string → Prop) :
  P EmptyString → (∀ a, P (String a EmptyString)) →
  (∀ a b s, P s → P (String a (String b s))) → ∀ s, P s.
Proof.
  intros H0 H1 H2.
  assert (H : ∀ s, P s ∧ ∀ a, P (String a s)); [|intros s; apply H].
  induction s as [|a s [IH1 IH2]]; split; auto.
Qed.

Lemma upper_char_class (c : ascii) :
  is_space (upper_char c) = is_space c
  ∧ bool_decide (upper_char c = " "%char) = bool_decide (c = " "%char)
  ∧ (is_hexws c = true →
     is_hexws (upper_char c) = true ∧ upper_char c ≠ "V"%char).
Proof.
  destruct c as [[] [] [] [] [] [] [] []]; vm_compute;
    (split; [reflexivity|split; [reflexivity|]]); intros H;
    first [discriminate H | split; [reflexivity|discriminate]].
Qed.

Lemma space_is_hexws (c : ascii) : is_space c = true → is_hexws c = true.
Proof. intros H. unfold is_hexws. by destruct (hexval c). Qed.

Lemma drop_while_head (f : ascii → bool) (s : string) (c : ascii)
    (b : string) :
  drop_while f s = String c b → f c = false.
Proof.
  induction s as [|x s IH]; [done|]. cbn [drop_while].
  destruct (f x) eqn:E; [done|]. by intros [= <- _].
Qed.

Lemma last_char_all (f : ascii → bool) (s : string) (c : ascii) :
  last_char s = Some c → all_chars f s = true → f c = true.
Proof.
  induction s as [|x s IH]; [done|]. cbn [last_char all_chars].
  intros H [Hx Hs]%andb_true_iff. destruct s; [by simplify_eq|auto].
Qed.


Lemma remove_spaces_keep (s : string) :
  all_chars (λ x, negb (bool_decide (x = " "%char))) s = true →
  remove_spaces s = s.
Proof.
  induction s as [|x s IH]; [done|]. cbn [all_chars remove_spaces].
  intros [Hx Hs]%andb_true_iff. apply negb_true_iff in Hx.
  by rewrite Hx, IH.
Qed.

Lemma remove_spaces_clean (s : string) :
  all_chars (λ x, negb (bool_decide (x = " "%char))) (remove_spaces s) = true.
Proof.
  induction s as [|x s IH]; [done|]. cbn [remove_spaces].
  destruct (bool_decide (x = " "%char)) eqn:E; [done|].
  cbn [all_chars]. by rewrite E, IH.
Qed.

Lemma all_chars_remove_spaces (f : ascii → bool) (s : string) :
  all_chars f s = true → all_chars f (remove_spaces s) = true.
Proof.
  induction s as [|x s IH]; [done|]. cbn [all_chars remove_spaces].
  intros [Hx Hs]%andb_true_iff.
  destruct (bool_decide (x = " "%char)); [auto|].
  cbn [all_chars]. by rewrite Hx, IH.
Qed.

Lemma remove_spaces_upper (s : string) :
  remove_spaces (upper s) = upper (remove_spaces s).
Proof.
  induction s as [|x s IH]; [done|]. cbn [upper remove_spaces].
  destruct (upper_char_class x) as (_ & -> & _).
  destruct (bool_decide (x = " "%char)); [done|]. cbn [upper]. by rewrite IH.
Qed.

Lemma remove_spaces_chunks (s : string) :
  remove_spaces (join " " (chunks2 s)) = remove_spaces s.
Proof.
  induction s as [|a|a b s IH] using string_ind2; [done..|].
  cbn [chunks2]. destruct (chunks2 s) as [|q r] eqn:E.
  - cbn [join] in *. cbn [remove_spaces]. by rewrite <- IH.
  - change (join " " (String a (String b EmptyString) :: q :: r))
      with (String a (String b (String " " (join " " (q :: r))))).
    cbn [remove_spaces]. rewrite IH.
    by rewrite (bool_decide_eq_true_2 (" "%char = " "%char)).
Qed.

Lemma all_chars_chunks (f : ascii → bool) (s : string) :
  f " "%char = true → all_chars f s = true →
  all_chars f (join " " (chunks2 s)) = true.
Proof.
  intros Hsp. induction s as [|a|a b s IH] using string_ind2; [done..|].
  cbn [all_chars]. intros [Ha [Hb Hs]%andb_true_iff]%andb_true_iff.
  cbn [chunks2]. destruct (chunks2 s) as [|q r] eqn:E.
  - cbn [join all_chars]. by rewrite Ha, Hb.
  - change (join " " (String a (String b EmptyString) :: q :: r))
      with (String a (String b (String " " (join " " (q :: r))))).
    cbn [all_chars]. by rewrite Ha, Hb, Hsp, IH.
Qed.

Lemma chunks_head (c : ascii) (b : string) :
  ∃ t, join " " (chunks2 (String c b)) = String c t.
Proof.
  destruct b as [|b0 b]; [by eexists|]. cbn [chunks2].
  destruct (chunks2 b) as [|q r]; [by eexists|].
  by exists (String b0 (String " " (join " " (q :: r)))).
Qed.

Lemma all_chars_upper (f g : ascii → bool) (s : string) :
  (∀ c, f c = true → g (upper_char c) = true) →
  all_chars f s = true → all_chars g (upper s) = true.
Proof.
  intros Hfg. induction s as [|x s IH]; [done|]. cbn [all_chars upper].
  intros [Hx Hs]%andb_true_iff. by rewrite (Hfg x Hx), IH.
Qed.

Lemma page_text_hexws (h : string) :
  page_text h → all_chars is_hexws h = true.
Proof.
  intros [->|[(c & -> & Hc & _)|(c & b & _ & _ & H & _)]]; [done| |done].
  cbn [all_chars]. by rewrite (space_is_hexws c Hc).
Qed.

Lemma match_hex_group_text (s g : string) :
  match_hex_group s = Some g → page_text (remove_spaces g).
Proof.
  unfold match_hex_group.
  destruct (take_while is_hexws (drop_while is_space s)) as [|c b] eqn:E.
  - destruct (last_char (take_while is_space s)) as [x|] eqn:L; [|done].
    intros [= <-]. cbn [remove_spaces].
    destruct (bool_decide (x = " "%char)) eqn:Ex; [by left|].
    right; left. exists x. split; [done|]. split.
    + eapply last_char_all; [exact L|apply all_chars_take_while].
    + by apply bool_decide_eq_false in Ex.
  - intros [= <-]. right; right.
    assert (Hc : is_space c = false).
    { destruct (drop_while is_space s) as [|x r] eqn:D; [done|].
      pose proof (drop_while_head _ _ _ _ D) as Hx.
      cbn [take_while] in E. destruct (is_hexws x); [|done].
      by injection E as <- _. }
    assert (Hsp : bool_decide (c = " "%char) = false).
    { apply bool_decide_eq_false. by intros ->. }
    cbn [remove_spaces]. rewrite Hsp.
    exists c, (remove_spaces b). split_and!; [done|done|..].
    + pose proof (all_chars_remove_spaces is_hexws (String c b)) as H.
      cbn [remove_spaces] in H. rewrite Hsp in H. apply H.
      rewrite <- E. apply all_chars_take_while.
    + pose proof (remove_spaces_clean (String c b)) as H.
      cbn [remove_spaces] in H. by rewrite Hsp in H.
Qed.

Lemma search_page_text (line : string) (n : Z) (g : string) :
  search_page line = Some (n, g) → page_text (remove_spaces g).
Proof.
  unfold search_page. intros H.
  apply bind_Some in H as ([ds g'] & H & [= _ ->]).
  induction line as [|c line IH]; cbn [search] in H.
  - destruct (match_page_at EmptyString) eqn:E; [|done]. by vm_compute in E.
  - destruct (match_page_at (String c line)) as [r|] eqn:E; [|auto].
    injection H as ->. unfold match_page_at in E.
    apply bind_Some in E as (rest & _ & E).
    destruct (take_while is_space rest); [done|].
    destruct (take_while is_digit (drop_while is_space rest)); [done|].
    apply bind_Some in E as (r2 & _ & E).
    apply bind_Some in E as (g0 & E & [= _ <-]).
    by eapply match_hex_group_text.
Qed.

Lemma parse_v_text (lines : list string) (st : option Z * gmap Z string) :
  map_Forall (λ _ h, page_text h) st.2 →
  map_Forall (λ _ h, page_text h) (foldl parse_v_line st lines).2.
Proof.
  revert st. induction lines as [|line lines IH]; intros st Hst; [done|].
  cbn [foldl]. apply IH. destruct st as [v pg]. unfold parse_v_line. cbn.
  destruct (search_page line) as [[n g]|] eqn:E; [|done].
  apply map_Forall_insert_2; [|done]. by eapply search_page_text.
Qed.

(** * The size of the page table and the repair of SN3 *)

(** ** The size of the page table *)

(** C2, as amended. A V2 text image whose parsed pages are exactly pages
    0 and 1, with hexadecimal page texts, in a writable file, is replaced
    by a V4 document made of the fixed head with [Version: 4] and
    [Pages total: 2], the two page lines, the line [Failed authentication
    attempts: 0] and a final line feed.  For an image with no parsed page
    the upgrader builds a table of 135 lines, all [00 00 00 00].  In
    general, a V2 or V3 text image with hexadecimal page texts in a
    writable file is replaced by a document whose table has one line for
    each page number from 0 to the highest parsed one, whose head
    announces that many pages, and in which a page that was not parsed is
    rendered as [00 00 00 00]; so the table has 135 lines exactly when no
    page was parsed or the highest parsed page number is 134. *)
Theorem convert_two_pages (filepath : string) (e : env) (content : string)
    (pages : gmap Z string) :
  (disk e !! filepath = Some (FText content) →
   foldl parse_v_line (None, ∅) (split_lines content) = (Some 2, pages) →
   dom pages = {[0; 1]} → decodable pages → filepath ∉ locked e →
   ∃ backup e' new uid_hex,
     convert_nfc_to_v4 filepath e
     = Some (Ret (true, ConvertedToV4 2 backup, VersionConversion), e')
     ∧ disk e' !! filepath = Some (FText new)
     ∧ split_lines new
       = v4_header uid_hex 2
         ++ [ v4_page_line pages 0; v4_page_line pages 1;
              "Failed authentication attempts: 0"%string; EmptyString ]
     ∧ "Version: 4"%string ∈ split_lines new
     ∧ "Pages total: 2"%string ∈ split_lines new)
  ∧ (∃ doc,
      convert_to_v4_format ∅ = Ret doc
      ∧ split_lines doc
        = v4_header "04 AB 73 54 B8 B6 0F" 135
          ++ (zero_page_line <$> seqZ 0 135)
          ++ [ "Failed authentication attempts: 0"%string; EmptyString ])
  ∧ ∀ path w text v parsed,
      disk w !! path = Some (FText text) →
      foldl parse_v_line (None, ∅) (split_lines text) = (Some v, parsed) →
      v = 2 ∨ v = 3 → decodable parsed → path ∉ locked w →
      ∃ backup w' uid_hex doc count,
        convert_nfc_to_v4 path w
        = Some (Ret (true, ConvertedToV4 v backup, VersionConversion), w')
        ∧ disk w' !! path = Some (FText doc)
        ∧ split_lines doc
          = v4_header uid_hex count
            ++ (v4_page_line parsed <$> seqZ 0 count)
            ++ [ "Failed authentication attempts: 0"%string; EmptyString ]
        ∧ length (v4_page_line parsed <$> seqZ 0 count) = Z.to_nat count
        ∧ ("Pages total: " +:+ str_of_int count)%string ∈ split_lines doc
        ∧ (parsed = ∅ ∧ count = 135
           ∨ count - 1 ∈ dom parsed ∧ ∀ n, n ∈ dom parsed → 0 ≤ n < count)
        ∧ (∀ n, n ∉ dom parsed → v4_page_line parsed n = zero_page_line n)
        ∧ (count = 135
           ↔ parsed = ∅ ∨ 134 ∈ dom parsed ∧ ∀ n, n ∈ dom parsed → n ≤ 134).
Proof.
  split_and!.
  - intros Hd Hparse Hdom Hdec Hlock.
    assert (Hnl : map_Forall (λ _ h, no_nl h = true) pages).
    { pose proof (parse_v_no_nl (split_lines content) (None, ∅)
                    (split_lines_no_nl content) (map_Forall_empty _)) as H.
      by rewrite Hparse in H. }
    destruct (convert_to_v4_two pages Hdom Hdec Hnl)
      as (uid_hex & doc & Hdoc & Hlines).
    destruct (backup_file_returns filepath e) as (bk & e1 & Hbk & D1 & K1).
    set (e2 := Env (<[filepath := FText doc]> (disk e1)) (backups e1)
                   (tracker e1) (locked e1) (backup_dir_ok e1) (tape e1)).
    exists bk, e2, doc, uid_hex. split_and!.
    + unfold convert_nfc_to_v4, catch. unfold bind at 1.
      unfold read_text. rewrite Hd. cbn zeta. rewrite Hparse.
      rewrite (bool_decide_eq_false_2 (Some 2 = Some 4)) by done.
      cbn [orb]. rewrite (bool_decide_eq_true_2 (2 = 2)) by done. cbn [orb].
      unfold bind at 1. rewrite Hbk. unfold bind at 1. cbn [lift].
      rewrite Hdoc. unfold bind, write_file, ret.
      by rewrite bool_decide_eq_false_2 by (by rewrite K1).
    + apply lookup_insert_eq.
    + done.
    + rewrite Hlines. apply elem_of_app. left. unfold v4_header.
      apply list_elem_of_In. cbn. tauto.
    + rewrite Hlines. apply elem_of_app. left. unfold v4_header.
      apply list_elem_of_In. cbn. tauto.
  - eexists. split; [reflexivity|]. vm_compute. reflexivity.
  - intros path w text v parsed Hd Hparse Hv Hdec Hlock.
    assert (Hzero : ∀ n, n ∉ dom parsed →
                         v4_page_line parsed n = zero_page_line n).
    { intros n Hn. apply not_elem_of_dom in Hn.
      unfold v4_page_line, zero_page_line. by rewrite Hn. }
    assert (Hrun : ∀ doc,
              convert_to_v4_format parsed = Ret doc →
              ∃ backup w',
                convert_nfc_to_v4 path w
                = Some (Ret (true, ConvertedToV4 v backup, VersionConversion),
                        w')
                ∧ disk w' !! path = Some (FText doc)).
    { intros doc Hdoc.
      destruct (backup_file_returns path w) as (bk & w1 & Hbk & D1 & K1).
      exists bk, (Env (<[path := FText doc]> (disk w1)) (backups w1)
                      (tracker w1) (locked w1) (backup_dir_ok w1) (tape w1)).
      split; [|apply lookup_insert_eq].
      unfold convert_nfc_to_v4, catch. unfold bind at 1.
      rewrite read_text_eq, Hd. cbn zeta. rewrite Hparse.
      rewrite (bool_decide_eq_false_2 (Some v = Some 4))
        by (intros [= ->]; lia).
      assert (bool_decide (v = 2) || bool_decide (v = 3) = true) as ->.
      { destruct Hv as [-> | ->]; by vm_compute. }
      rewrite (bind_ret_step _ _ _ _ _ Hbk). unfold bind at 1. cbn [lift].
      rewrite Hdoc. unfold bind, write_file, ret.
      by rewrite bool_decide_eq_false_2 by (by rewrite K1). }
    destruct (decide (parsed = ∅)) as [->|Hne].
    + destruct (Hrun _ eq_refl) as (bk & w' & Hconv & Hd').
      exists bk, w', "04 AB 73 54 B8 B6 0F"%string. eexists. exists 135.
      split; [exact Hconv|]. split; [exact Hd'|].
      split_and!; [by vm_compute|done| |by left|done|].
      * apply list_elem_of_In. vm_compute. tauto.
      * split; [by left|done].
    + assert (Hnl : map_Forall (λ _ h, no_nl h = true) parsed).
      { pose proof (parse_v_no_nl (split_lines text) (None, ∅)
                      (split_lines_no_nl text) (map_Forall_empty _)) as H.
        by rewrite Hparse in H. }
      assert (Hkeys : map_Forall (λ k _, 0 ≤ k) parsed).
      { pose proof (parse_v_keys (split_lines text) (None, ∅)
                      (map_Forall_empty _)) as H.
        by rewrite Hparse in H. }
      destruct (max_key_spec parsed Hne) as (m & Hm & Hin & Hmax).
      assert (Hdom : ∀ n, n ∈ dom parsed → 0 ≤ n < m + 1).
      { intros n Hn. specialize (Hmax n Hn).
        apply elem_of_dom in Hn as [h Hn]. pose proof (Hkeys n h Hn) as Hk.
        simpl in Hk. lia. }
      destruct (convert_to_v4_lines parsed m Hm) as (uid_hex & doc & Hdoc & _ & Hl);
        [by destruct (Hdom m Hin)|done|done|].
      destruct (Hrun doc Hdoc) as (bk & w' & Hconv & Hd').
      exists bk, w', uid_hex, doc, (m + 1).
      split_and!; [done|done|done| | | |done|].
      * by rewrite length_fmap, length_seqZ.
      * rewrite Hl. apply elem_of_app. left. unfold v4_header.
        apply list_elem_of_In. cbn. tauto.
      * right. split; [|done]. by replace (m + 1 - 1) with m by lia.
      * split.
        -- intros E. assert (m = 134) as -> by lia. right. split; [done|].
           intros n Hn. specialize (Hdom n Hn). lia.
        -- intros [->|[H134 Hle]]; [done|].
           specialize (Hmax 134 H134). specialize (Hle m Hin). lia.
Qed.

Lemma convert_two_pages_witness :
  (∃ backup e' new uid_hex,
     convert_nfc_to_v4 "a" (sample_env (FText v2_nfc) [])
     = Some (Ret (true, ConvertedToV4 2 backup, VersionConversion), e')
     ∧ disk e' !! "a"%string = Some (FText new)
     ∧ split_lines new
       = v4_header uid_hex 2
         ++ [ v4_page_line (<[1 := "54B8B60F"%string]>
                              (<[0 := "04AB7354"%string]> ∅)) 0;
              v4_page_line (<[1 := "54B8B60F"%string]>
                              (<[0 := "04AB7354"%string]> ∅)) 1;
              "Failed authentication attempts: 0"%string; EmptyString ]
     ∧ "Version: 4"%string ∈ split_lines new
     ∧ "Pages total: 2"%string ∈ split_lines new)
  ∧ ∃ backup w' uid_hex doc count,
      convert_nfc_to_v4 "a" (sample_env (FText page134_nfc) [])
      = Some (Ret (true, ConvertedToV4 2 backup, VersionConversion), w')
      ∧ disk w' !! "a"%string = Some (FText doc)
      ∧ split_lines doc
        = v4_header uid_hex count
          ++ (v4_page_line {[ 134 := "00000000"%string ]} <$> seqZ 0 count)
          ++ [ "Failed authentication attempts: 0"%string; EmptyString ]
      ∧ count = 135
      ∧ convert_to_v4_format ∅ = Ret doc.
Proof.
  destruct (convert_two_pages "a" (sample_env (FText v2_nfc) []) v2_nfc
              (<[1 := "54B8B60F"%string]> (<[0 := "04AB7354"%string]> ∅)))
    as (HA & _ & HC).
  split.
  - apply HA.
    + vm_compute. reflexivity.
    + vm_compute. reflexivity.
    + vm_compute. reflexivity.
    + apply (bool_decide_unpack _). vm_compute. exact I.
    + simpl. apply not_elem_of_empty.
  - destruct (HC "a"%string (sample_env (FText page134_nfc) []) page134_nfc 2
                {[ 134 := "00000000"%string ]})
      as (bk & w' & uid_hex & doc & count & Hconv & Hd & Hl & _ & _ & _ & _
          & Hiff).
    + vm_compute. reflexivity.
    + vm_compute. reflexivity.
    + by left.
    + apply (bool_decide_unpack _). vm_compute. exact I.
    + simpl. apply not_elem_of_empty.
    + exists bk, w', uid_hex, doc, count. split_and!; [done|done|done| |].
      * apply Hiff. right. split.
        -- apply (bool_decide_unpack _). vm_compute. exact I.
        -- intros n Hn. apply elem_of_dom in Hn as [h Hn].
           apply lookup_singleton_Some in Hn as [<- _]. lia.
      * vm_compute in Hconv. injection Hconv as _ <-.
        vm_compute in Hd. injection Hd as <-.
        vm_compute. reflexivity.
Defined.

(** C2, as the specification words it, fails: the upgrade of a V2 image
    with pages 0 and 1 only has a [Pages total: 2] line and no
    [Pages total: 135] line. *)
Lemma upgrade_counterexample : ¬ upgrade_as_specified.
Proof.
  intros H.
  destruct (H "a"%string (sample_env (FText v2_nfc) []) v2_nfc
              (<[1 := "54B8B60F"%string]> (<[0 := "04AB7354"%string]> ∅)))
    as (r & e' & new & Hrun & Hd & _ & H135 & _).
  - vm_compute. reflexivity.
  - vm_compute. reflexivity.
  - vm_compute. reflexivity.
  - vm_compute in Hrun. injection Hrun as _ <-.
    vm_compute in Hd. injection Hd as <-.
    apply (bool_decide_pack _) in H135. vm_compute in H135. exact H135.
Qed.

(** ** The repair of SN3 on an image *)
















Lemma all_chars_join (f : ascii → bool) (sep : string) (l : list string) :
  all_chars f sep = true → Forall (λ p, all_chars f p = true) l →
  all_chars f (join sep l) = true.
Proof.
  intros Hsep. induction 1 as [|p l Hp Hl IH]; [done|].
  destruct l as [|q r]; [done|].
  change (join sep (p :: q :: r)) with (p +:+ sep +:+ join sep (q :: r)).
  by rewrite !all_chars_app, Hp, Hsep, IH.
Qed.

Lemma all_chars_hex_spaced (f : ascii → bool) (bs : list Z) :
  f " "%char = true → (∀ x, f (hex_digit x) = true) →
  all_chars f (hex_spaced bs) = true.
Proof.
  intros Hsp Hf. apply all_chars_join.
  - cbn [all_chars]. by rewrite Hsp.
  - apply Forall_fmap, Forall_forall. intros b _.
    by apply all_chars_fmt_02X.
Qed.












(** * The upgraded document read back *)

Lemma search_page_line (d0 : ascii) (ds r2 g : string) :
  all_chars is_digit (String d0 ds) = true →
  match_hex_group r2 = Some g →
  search_page ("Page " +:+ String d0 ds +:+ String ":" r2)
  = Some (int_of_digits (String d0 ds), g).
Proof.
  intros Hd Hg.
  assert (Hd0 : is_space d0 = false).
  { apply digit_not_space. cbn [all_chars] in Hd.
    by apply andb_true_iff in Hd as [? _]. }
  unfold search_page.
  rewrite (search_here _ _ (String d0 ds, g)); [done|].
  unfold match_page_at.
  change ("Page " +:+ String d0 ds +:+ String ":" r2)
    with (String "P" (String "a" (String "g" (String "e" (String " "
            (String d0 ds +:+ String ":" r2)))))).
  cbn [strip_prefix]. rewrite !bool_decide_eq_true_2 by done.
  cbn [option_bind mbind option_ret mret].
  rewrite append_cons. cbn [take_while drop_while]. rewrite Hd0.
  change (is_space " ") with true. cbn iota.
  rewrite <- append_cons.
  rewrite (take_while_app is_digit _ _ ":" Hd eq_refl).
  rewrite (drop_while_app is_digit _ _ ":" Hd eq_refl).
  cbn [strip_prefix]. rewrite bool_decide_eq_true_2 by done.
  cbn [option_bind mbind]. by rewrite Hg.
Qed.

Lemma v4_page_line_read (pages : gmap Z string) (n : Z) :
  0 ≤ n → map_Forall (λ _ h, page_text h) pages →
  ∃ g, search_page (v4_page_line pages n) = Some (n, g)
       ∧ remove_spaces g = upgraded_text pages n.
Proof.
  intros Hn Hpt.
  destruct (str_of_int_digits n Hn) as (d0 & ds & Hs & Hd).
  pose proof (int_of_str_of_int n Hn) as Hi. rewrite Hs in Hi.
  unfold v4_page_line, upgraded_text.
  destruct (pages !! n) as [h|] eqn:L; rewrite Hs.
  - set (body := upper (join " " (chunks2 h))).
    change ("Page " +:+ String d0 ds +:+ ": " +:+ body)
      with ("Page " +:+ String d0 ds +:+ String ":" (String " " body)).
    assert (Hg : ∃ g, match_hex_group (String " " body) = Some g
                      ∧ remove_spaces g = upper h).
    { destruct (Hpt n h L) as [->|[(c & -> & Hc & Hsp)|(c & b & -> & Hc & Hh & Hk)]].
      - by exists " "%string.
      - exists (String (upper_char c) EmptyString).
        destruct (upper_char_class c) as (Hu & Hb & _).
        unfold body. cbn [chunks2 join upper]. split.
        + unfold match_hex_group. cbn [take_while drop_while].
          change (is_space " ") with true. cbn iota.
          rewrite Hu, Hc. done.
        + cbn [remove_spaces]. rewrite Hb.
          by rewrite bool_decide_eq_false_2.
      - exists body. split.
        + assert (Hall : all_chars is_hexws body = true).
          { unfold body. apply (all_chars_upper is_hexws);
              [|by apply all_chars_chunks].
            intros x Hx. by destruct (upper_char_class x) as (_ & _ & [? _]). }
          destruct (chunks_head c b) as [t Ht]. unfold body in *.
          rewrite Ht in *. cbn [upper] in *.
          apply match_hex_group_body; [|done].
          destruct (upper_char_class c) as (-> & _). done.
        + unfold body.
          by rewrite remove_spaces_upper, remove_spaces_chunks,
            remove_spaces_keep. }
    destruct Hg as (g & Hg & Hr). exists g. split; [|done].
    by rewrite (search_page_line _ _ _ _ Hd Hg), Hi.
  - exists "00 00 00 00"%string. split; [|done].
    change ("Page " +:+ String d0 ds +:+ ": 00 00 00 00")
      with ("Page " +:+ String d0 ds +:+ ": " +:+ String "0" "0 00 00 00").
    by rewrite search_page_canon, Hi.
Qed.

Lemma search_version_without_V (s : string) :
  all_chars (λ c, negb (bool_decide (c = "V"%char))) s = true →
  search_version s = None.
Proof.
  intros H. unfold search_version.
  assert (search match_version_at s = None) as ->; [|done].
  induction s as [|c s IH]; [done|].
  cbn [all_chars] in H. apply andb_true_iff in H as [Hc Hs].
  apply negb_true_iff, bool_decide_eq_false in Hc.
  cbn [search]. rewrite (IH Hs).
  unfold match_version_at. cbn [strip_prefix].
  rewrite bool_decide_eq_false_2 by congruence. done.
Qed.

Lemma digit_plain (x y : ascii) :
  is_digit y = false → ∀ c, is_digit c = true →
  negb (bool_decide (c = y)) = true.
Proof.
  intros Hy c Hc. apply negb_true_iff, bool_decide_eq_false.
  intros ->. congruence.
Qed.

Lemma search_version_page_line (pages : gmap Z string) (n : Z) :
  0 ≤ n → map_Forall (λ _ h, page_text h) pages →
  search_version (v4_page_line pages n) = None.
Proof.
  intros Hn Hpt. apply search_version_without_V.
  destruct (str_of_int_digits n Hn) as (d0 & ds & Hs & Hd).
  assert (Hds : all_chars (λ c, negb (bool_decide (c = "V"%char)))
                  (str_of_int n) = true).
  { rewrite Hs. eapply all_chars_impl; [|exact Hd].
    by apply (digit_plain "V" "V"). }
  unfold v4_page_line. destruct (pages !! n) as [h|] eqn:L;
    rewrite !all_chars_app, Hds; [|done].
  cbn [all_chars negb andb]. rewrite !andb_true_r.
  apply (all_chars_upper is_hexws);
    [|apply all_chars_chunks; [done|exact (page_text_hexws h (Hpt n h L))]].
  intros x Hx. destruct (upper_char_class x) as (_ & _ & [_ Hv]); [done|].
  by rewrite bool_decide_eq_false_2.
Qed.

Lemma parse_v_line_skip (st : option Z * gmap Z string) (line : string) :
  search_version line = None → search_page line = None →
  parse_v_line st line = st.
Proof. intros Hv Hp. destruct st. unfold parse_v_line. by rewrite Hv, Hp. Qed.

Lemma parse_v_skip (lines : list string) (st : option Z * gmap Z string) :
  Forall (λ l, search_version l = None ∧ search_page l = None) lines →
  foldl parse_v_line st lines = st.
Proof.
  induction 1 as [|l lines [Hv Hp] _ IH]; [done|].
  cbn [foldl]. by rewrite parse_v_line_skip.
Qed.

Lemma search_page_skip (c : ascii) (s : string) :
  match_page_at (String c s) = None →
  search_page (String c s) = search_page s.
Proof. intros H. unfold search_page. cbn [search]. by rewrite H. Qed.

Lemma count_line_skip (label : string) (n : Z) :
  0 ≤ n →
  all_chars (λ c, negb (bool_decide (c = "V"%char))) label = true →
  all_chars (λ c, negb (bool_decide (c = "P"%char))) label = true →
  let line := String "P" (String "a" (String "g" (String "e" (String "s"
                (label +:+ str_of_int n))))) in
  search_version line = None ∧ search_page line = None.
Proof.
  intros Hn HV HP line.
  destruct (str_of_int_digits n Hn) as (d0 & ds & Hs & Hd).
  split.
  - apply search_version_without_V. unfold line. cbn [all_chars].
    rewrite all_chars_app, HV, Hs.
    rewrite (all_chars_impl _ _ _ (digit_plain "V" "V" eq_refl) Hd). done.
  - unfold line. rewrite search_page_skip by done.
    apply search_page_without_P. cbn [all_chars].
    rewrite all_chars_app, HP, Hs.
    rewrite (all_chars_impl _ _ _ (digit_plain "P" "P" eq_refl) Hd). done.
Qed.

Lemma parse_v_header (st : option Z * gmap Z string) (bs : list Z) (n : Z) :
  0 ≤ n →
  foldl parse_v_line st (v4_header (hex_spaced bs) n) = (Some 4, st.2).
Proof.
  intros Hn. unfold v4_header.
  change (foldl parse_v_line st (?l0 :: ?l1 :: ?tail))
    with (foldl parse_v_line (parse_v_line (parse_v_line st l0) l1) tail).
  rewrite parse_v_skip.
  - rewrite (parse_v_line_skip st "Filetype: Flipper NFC device")
      by (vm_compute; reflexivity).
    destruct st as [v pg]. unfold parse_v_line.
    by replace (search_version "Version: 4") with (Some 4)
      by (vm_compute; reflexivity).
  - repeat (apply Forall_cons; split;
      [first [ split; vm_compute; reflexivity
             | apply (count_line_skip " total: " n Hn); reflexivity
             | apply (count_line_skip " read: " n Hn); reflexivity
             | idtac ]|]); [|by apply Forall_nil].
    split.
    + apply search_version_without_V. rewrite all_chars_app.
      rewrite all_chars_hex_spaced; [done|done|].
      intros x. unfold hex_digit.
      destruct x as [|p|p]; [done| |done].
      do 5 (try destruct p as [p|p|]); done.
    + apply search_page_without_P. rewrite all_chars_app.
      rewrite all_chars_hex_spaced; [done|done|].
      intros x. destruct (hex_digit_class x) as (_ & _ & _ & Hp).
      by rewrite bool_decide_eq_false_2.
Qed.

Lemma parse_v_page_lines (pages : gmap Z string) (ns : list Z)
    (v : option Z) (pg0 : gmap Z string) :
  Forall (λ n, 0 ≤ n) ns → map_Forall (λ _ h, page_text h) pages →
  ∃ pg',
    foldl parse_v_line (v, pg0) (v4_page_line pages <$> ns) = (v, pg')
    ∧ ∀ k, pg' !! k = if bool_decide (k ∈ ns)
                      then Some (upgraded_text pages k) else pg0 !! k.
Proof.
  intros Hns Hpt. revert pg0.
  induction Hns as [|n ns Hn _ IH]; intros pg0.
  - exists pg0. split; [done|]. intros k.
    by rewrite bool_decide_eq_false_2 by apply not_elem_of_nil.
  - cbn [fmap list_fmap foldl].
    assert (Hstep : parse_v_line (v, pg0) (v4_page_line pages n)
                    = (v, <[n := upgraded_text pages n]> pg0)).
    { unfold parse_v_line.
      rewrite (search_version_page_line pages n Hn Hpt).
      destruct (v4_page_line_read pages n Hn Hpt) as (g & -> & ->). done. }
    rewrite Hstep.
    destruct (IH (<[n := upgraded_text pages n]> pg0)) as (pg' & Hf & Hl).
    exists pg'. split; [exact Hf|]. intros k. rewrite Hl.
    destruct (decide (k ∈ ns)) as [Hk|Hk].
    + rewrite !bool_decide_eq_true_2; [done|by right|done].
    + rewrite (bool_decide_eq_false_2 _ Hk).
      destruct (decide (k = n)) as [->|Hkn].
      * rewrite lookup_insert_eq. by rewrite bool_decide_eq_true_2 by by left.
      * rewrite lookup_insert_ne by done.
        rewrite bool_decide_eq_false_2; [done|].
        by intros [->|?]%elem_of_cons.
Qed.

(** The pages and the version that the two readers find in a document
    of [convert_to_v4_format]. *)
Lemma parse_v_upgraded (pages : gmap Z string) (m : Z) (bs : list Z) :
  0 ≤ m → map_Forall (λ _ h, page_text h) pages →
  ∃ pg',
    foldl parse_v_line (None, ∅)
      (v4_header (hex_spaced bs) (m + 1)
       ++ (v4_page_line pages <$> seqZ 0 (m + 1))
       ++ [ "Failed authentication attempts: 0"%string; EmptyString ])
    = (Some 4, pg')
    ∧ ∀ k, pg' !! k = if bool_decide (0 ≤ k ≤ m)
                      then Some (upgraded_text pages k) else None.
Proof.
  intros Hm Hpt. rewrite !foldl_app.
  rewrite parse_v_header by lia. cbn [snd].
  destruct (parse_v_page_lines pages (seqZ 0 (m + 1)) (Some 4) ∅)
    as (pg' & -> & Hl); [|done|].
  { apply Forall_forall. intros n Hn. apply elem_of_seqZ in Hn. lia. }
  exists pg'. split.
  - apply parse_v_skip. repeat constructor.
  - intros k. rewrite Hl, lookup_empty.
    destruct (decide (0 ≤ k ≤ m)) as [Hk|Hk].
    + rewrite !bool_decide_eq_true_2; [done|done|].
      apply elem_of_seqZ. lia.
    + rewrite !bool_decide_eq_false_2; [done|done|].
      intros Hin. apply elem_of_seqZ in Hin. lia.
Qed.

Lemma parse_nfc_v (lines : list string)
    (st : gmap Z string * option string * option Z) :
  foldl parse_v_line (st.2, st.1.1) lines
  = ((foldl parse_nfc_line st lines).2, (foldl parse_nfc_line st lines).1.1).
Proof.
  revert st. induction lines as [|line lines IH]; intros st; [done|].
  cbn [foldl]. rewrite <- IH. f_equal.
  destruct st as [[pg uf] v]. unfold parse_v_line, parse_nfc_line. cbn.
  by destruct (search_page line) as [[n g]|].
Qed.

Lemma convert_to_v4_document (pages : gmap Z string) (m : Z) :
  max_key pages = Some m → 0 ≤ m → decodable pages →
  map_Forall (λ _ h, no_nl h = true) pages →
  ∃ bs doc,
    convert_to_v4_format pages = Ret doc
    ∧ split_lines doc
      = v4_header (hex_spaced bs) (m + 1)
        ++ (v4_page_line pages <$> seqZ 0 (m + 1))
        ++ [ "Failed authentication attempts: 0"%string; EmptyString ].
Proof.
  intros Hm Hm0 Hdec Hnl.
  assert (Huid : ∃ bs,
            match pages !! 0, pages !! 1 with
            | Some h0, Some h1 =>
                do page0_bytes <- fromhex h0;
                do page1_bytes <- fromhex h1;
                Ret (hex_spaced (take 3 page0_bytes ++ take 4 page1_bytes))
            | _, _ => Ret "04 AB 73 54 B8 B6 0F"%string
            end = Ret (hex_spaced bs)).
  { destruct (pages !! 0) as [h0|] eqn:E0;
      [|by exists [0x04; 0xAB; 0x73; 0x54; 0xB8; 0xB6; 0x0F]].
    destruct (pages !! 1) as [h1|] eqn:E1;
      [|by exists [0x04; 0xAB; 0x73; 0x54; 0xB8; 0xB6; 0x0F]].
    destruct (decodable_lookup _ _ _ Hdec E0) as [page0 ->].
    destruct (decodable_lookup _ _ _ Hdec E1) as [page1 ->].
    by eexists. }
  destruct Huid as (bs & Hu).
  exists bs. eexists. unfold convert_to_v4_format.
  rewrite Hu, Hm. cbn [res_bind]. split; [reflexivity|].
  assert (Hne : v4_page_line pages <$> seqZ 0 (m + 1) ≠ []).
  { intros E. apply (f_equal length) in E.
    rewrite length_fmap, length_seqZ in E. simpl in E. lia. }
  rewrite v4_document_lines by done.
  apply split_lines_join; [done|].
  apply Forall_app. split; [|apply Forall_app; split].
  - apply v4_header_no_nl; [apply no_nl_hex_spaced|]. apply no_nl_str_of_int.
    lia.
  - apply Forall_fmap, Forall_forall. intros n Hn.
    apply elem_of_seqZ in Hn. cbn.
    apply v4_page_line_no_nl; [done|]. apply no_nl_str_of_int. lia.
  - by repeat constructor.
Qed.

(** X20. A V2 or V3 text image with hexadecimal page texts in a writable
    file, once upgraded, reads back as a version 4 image whose pages are
    exactly the page numbers from 0 to the highest parsed one, each with
    the text it had in upper case, or eight zeros where the image had no
    such page; a second upgrade answers that the file is already V4 and
    changes nothing. *)
Theorem upgrade_reads_back (filepath : string) (e : env)
    (content : string) (v m : Z) (pages : gmap Z string) :
  disk e !! filepath = Some (FText content) →
  foldl parse_v_line (None, ∅) (split_lines content) = (Some v, pages) →
  v = 2 ∨ v = 3 → max_key pages = Some m → decodable pages →
  filepath ∉ locked e →
  ∃ bk e' pages' content' lines' uid_field',
    convert_nfc_to_v4 filepath e
    = Some (Ret (true, ConvertedToV4 v bk, VersionConversion), e')
    ∧ extract_pages_from_nfc filepath e'
      = Some (Ret (Some pages', Some content', Some lines', uid_field',
                   Some 4), e')
    ∧ (∀ n, pages' !! n = if bool_decide (0 ≤ n ≤ m)
                          then Some (upgraded_text pages n) else None)
    ∧ convert_nfc_to_v4 filepath e'
      = Some (Ret (true, AlreadyV4, NoIssues), e').
Proof.
  intros Hd Hparse Hv Hm Hdec Hlock.
  assert (Hnl : map_Forall (λ _ h, no_nl h = true) pages).
  { pose proof (parse_v_no_nl (split_lines content) (None, ∅)
                  (split_lines_no_nl content) (map_Forall_empty _)) as H.
    by rewrite Hparse in H. }
  assert (Hkeys : map_Forall (λ k _, 0 ≤ k) pages).
  { pose proof (parse_v_keys (split_lines content) (None, ∅)
                  (map_Forall_empty _)) as H.
    by rewrite Hparse in H. }
  assert (Hpt : map_Forall (λ _ h, page_text h) pages).
  { pose proof (parse_v_text (split_lines content) (None, ∅)
                  (map_Forall_empty _)) as H.
    by rewrite Hparse in H. }
  assert (Hne : pages ≠ ∅).
  { intros ->. by vm_compute in Hm. }
  destruct (max_key_spec pages Hne) as (k & Hk & Hin & _).
  assert (k = m) as -> by congruence.
  assert (Hm0 : 0 ≤ m).
  { apply elem_of_dom in Hin as [h Hin]. by apply (Hkeys m h). }
  destruct (convert_to_v4_document pages m Hm Hm0 Hdec Hnl)
    as (bs & doc & Hdoc & Hl).
  destruct (parse_v_upgraded pages m bs Hm0 Hpt) as (pg' & Hpv & Hlook).
  rewrite <- Hl in Hpv.
  destruct (backup_file_returns filepath e) as (bk & e1 & Hbk & D1 & K1).
  set (e2 := Env (<[filepath := FText doc]> (disk e1)) (backups e1)
                 (tracker e1) (locked e1) (backup_dir_ok e1) (tape e1)).
  assert (Hd2 : disk e2 !! filepath = Some (FText doc))
    by apply lookup_insert_eq.
  destruct (parse_nfc (split_lines doc)) as [[pages' uf'] v'] eqn:Hpn.
  pose proof (parse_nfc_v (split_lines doc) (∅, None, None)) as Hnv.
  cbn [fst snd] in Hnv. rewrite Hpv in Hnv. unfold parse_nfc in Hpn.
  rewrite Hpn in Hnv. cbn [fst snd] in Hnv. injection Hnv as <- <-.
  exists bk, e2, pg', doc, (split_lines doc), uf'. split_and!.
  - unfold convert_nfc_to_v4, catch. unfold bind at 1.
    rewrite read_text_eq, Hd. cbn zeta. rewrite Hparse.
    rewrite (bool_decide_eq_false_2 (Some v = Some 4))
      by (intros [= ->]; lia).
    assert (bool_decide (v = 2) || bool_decide (v = 3) = true) as ->.
    { destruct Hv as [-> | ->]; by vm_compute. }
    rewrite (bind_ret_step _ _ _ _ _ Hbk). unfold bind at 1. cbn [lift].
    rewrite Hdoc. unfold bind, write_file, ret.
    by rewrite bool_decide_eq_false_2 by (by rewrite K1).
  - rewrite extract_nfc_eq, Hd2. cbn zeta. unfold parse_nfc. by rewrite Hpn.
  - exact Hlook.
  - unfold convert_nfc_to_v4, catch. unfold bind at 1.
    rewrite read_text_eq, Hd2. cbn zeta. rewrite Hpv.
    by rewrite bool_decide_eq_true_2.
Qed.

Lemma upgrade_reads_back_witness :
  ∃ bk e' pages' content' lines' uid_field',
    convert_nfc_to_v4 "a" (sample_env (FText gap_nfc) [])
    = Some (Ret (true, ConvertedToV4 3 bk, VersionConversion), e')
    ∧ extract_pages_from_nfc "a" e'
      = Some (Ret (Some pages', Some content', Some lines', uid_field',
                   Some 4), e')
    ∧ (∀ n, pages' !! n
            = if bool_decide (0 ≤ n ≤ 4)
              then Some (upgraded_text
                           (foldl parse_v_line (None, ∅)
                              (split_lines gap_nfc)).2 n)
              else None)
    ∧ convert_nfc_to_v4 "a" e'
      = Some (Ret (true, AlreadyV4, NoIssues), e').
Proof.
  apply (upgrade_reads_back "a" (sample_env (FText gap_nfc) []) gap_nfc 3 4).
  - vm_compute. reflexivity.
  - vm_compute. reflexivity.
  - by right.
  - vm_compute. reflexivity.
  - apply (bool_decide_unpack _). vm_compute. exact I.
  - simpl. apply not_elem_of_empty.
Defined.
